(** * eventdns: asynchronous DNS resolver (src/or/eventdns.c)

    A shallow embedding of the resolver core of [eventdns.c]: the wire
    name decoder, the request rings (inflight and waiting), the
    nameserver ring with its health tracking, transaction-id
    allocation, the retransmit / reissue engine, the search-suffix
    engine, the resolv.conf entry point, and the pure core of the
    server side (question parser, records, response encoder).

    Conventions.
    - C integers are [Z]; where the source relies on a fixed width
      ([u8], [u16], [u32]) the wrap-around is written out.
    - A pointer is a [nat] (the address handed out by the allocator);
      [NULL] is [None].
    - The circular doubly-linked rings of the source are lists read
      from the head pointer along [next]; [Module Ptr] keeps the
      [next]/[prev] cells themselves for the ring primitives, and
      the rings of the examples are run on both.
    - Everything the program does to the outside world (datagrams
      handed to [send], callbacks invoked) is appended to a trace.
    - [abort()], a failed [assert] and a NULL dereference are [Crash]. *)

From Stdlib Require Import ZArith Lia List Bool String Ascii.
From stdpp Require Import base list gmap.
Import ListNotations.
Open Scope Z_scope.

(** ** Wire constants *)

(** Modelled from the spec: [eventdns.h], which defines
    [EVDNS_TYPE_A] and the like, is not part of the sources; the spec
    gives the record types A (1), PTR (12), AAAA (28) and the class
    IN. *)
Definition TYPE_A : Z := 1.
Definition TYPE_PTR : Z := 12.
Definition TYPE_AAAA : Z := 28.
Definition CLASS_INET : Z := 1.

(** [#define MAX_ADDRS 4] *)
Definition MAX_ADDRS : Z := 4.

(** [HOST_NAME_MAX] as [<limits.h>], which the file includes, has it
    on Linux; the file's own [#define HOST_NAME_MAX 255] stands under
    [#ifndef] and only applies where the header leaves it out. *)
Definition HOST_NAME_MAX : Z := 64.

(** The conversions of C: to [u32] and to [int] (32 bits, two's
    complement). *)
Definition u32 (x : Z) : Z := x mod 2 ^ 32.
Definition int32 (x : Z) : Z := (x + 2 ^ 31) mod 2 ^ 32 - 2 ^ 31.

(** Modelled from the spec: the flags of [eventdns.h].  The spec
    names them ([NO_SEARCH] for a resolve; SEARCH, NAMESERVERS, MISC
    and their union ALL for [evdns_resolv_conf_parse]) without their
    values; they are taken as separate bits, and nothing below
    depends on which. *)
Definition DNS_QUERY_NO_SEARCH : Z := 1.
Definition DNS_OPTION_SEARCH : Z := 1.
Definition DNS_OPTION_NAMESERVERS : Z := 2.
Definition DNS_OPTION_MISC : Z := 4.
Definition DNS_OPTIONS_ALL : Z := 7.

(** The [DNS_ERR_*] result codes handed to callbacks. *)
Inductive dns_err : Type :=
| DNS_ERR_NONE
| DNS_ERR_FORMAT
| DNS_ERR_SERVERFAILED
| DNS_ERR_NOTEXIST
| DNS_ERR_NOTIMPL
| DNS_ERR_REFUSED
| DNS_ERR_TRUNCATED
| DNS_ERR_UNKNOWN
| DNS_ERR_TIMEOUT
| DNS_ERR_SHUTDOWN.

Definition dns_err_eqb (a b : dns_err) : bool :=
  match a, b with
  | DNS_ERR_NONE, DNS_ERR_NONE
  | DNS_ERR_FORMAT, DNS_ERR_FORMAT
  | DNS_ERR_SERVERFAILED, DNS_ERR_SERVERFAILED
  | DNS_ERR_NOTEXIST, DNS_ERR_NOTEXIST
  | DNS_ERR_NOTIMPL, DNS_ERR_NOTIMPL
  | DNS_ERR_REFUSED, DNS_ERR_REFUSED
  | DNS_ERR_TRUNCATED, DNS_ERR_TRUNCATED
  | DNS_ERR_UNKNOWN, DNS_ERR_UNKNOWN
  | DNS_ERR_TIMEOUT, DNS_ERR_TIMEOUT
  | DNS_ERR_SHUTDOWN, DNS_ERR_SHUTDOWN => true
  | _, _ => false
  end.

(** Modelled from the spec: the [type] argument of a callback, from
    [eventdns.h]; the two values only tell an address answer from a
    name answer. *)
Definition DNS_IPv4_A : Z := 1.
Definition DNS_PTR : Z := 2.

(** ** Bytes and strings *)

Definition byte_of_ascii (c : ascii) : Z := Z.of_N (N_of_ascii c).
Definition ascii_of_byte (b : Z) : ascii := ascii_of_N (Z.to_N (b mod 256)).

Fixpoint bytes_of_string (s : string) : list Z :=
  match s with
  | EmptyString => []
  | String c s' => byte_of_ascii c :: bytes_of_string s'
  end.

Fixpoint string_of_bytes (l : list Z) : string :=
  match l with
  | [] => EmptyString
  | b :: l' => String (ascii_of_byte b) (string_of_bytes l')
  end.

Definition strlen (s : string) : Z := Z.of_nat (String.length s).

(** [packet[j]]; outside the data the buffer reads as zero. *)
Definition u8_at (packet : list Z) (j : Z) : Z :=
  nth (Z.to_nat j) packet 0.

(** [memcpy(_, packet + j, n)]: the [n] bytes starting at [j]. *)
Definition bytes_at (packet : list Z) (j n : Z) : list Z :=
  List.map (fun k => u8_at packet (j + Z.of_nat k)) (seq 0 (Z.to_nat n)).

(** [ntohs] of the two bytes at [j]. *)
Definition u16_at (packet : list Z) (j : Z) : Z :=
  Z.lor (Z.shiftl (u8_at packet j) 8) (u8_at packet (j + 1)).

(** [ntohl] of the four bytes at [j]. *)
Definition u32_at (packet : list Z) (j : Z) : Z :=
  Z.lor (Z.shiftl (u16_at packet j) 16) (u16_at packet (j + 2)).

(** ** Name decoding: [name_parse] *)

Module NameParse.

(** The locals of [name_parse] that live across loop iterations:
    the read cursor [j], the bytes written to [name_out] so far
    ([cp - name_out] is their number) and [name_end]. *)
Record cursor : Type := mkCursor {
  c_j : Z;
  c_out : list Z;
  c_name_end : Z
}.

Definition c_cp (c : cursor) : Z := Z.of_nat (List.length (c_out c)).

Inductive step : Type :=
| Continue (c : cursor)   (* next iteration of [for(;;)] *)
| Break (c : cursor)      (* [if (!label_len) break;] *)
| Fail.                   (* [return -1] *)

(** One iteration of the [for(;;)] loop. *)
Definition body (packet : list Z) (length : Z) (name_out_len : Z)
    (c : cursor) : step :=
  let j := c_j c in
  if j >=? length then Fail else
  (* GET8(label_len) *)
  if j >=? length then Fail else
  let label_len := u8_at packet j in
  let j := j + 1 in
  if label_len =? 0 then Break (mkCursor j (c_out c) (c_name_end c)) else
  if negb (Z.land label_len 0xc0 =? 0) then
    (* GET8(ptr_low) *)
    if j >=? length then Fail else
    let ptr_low := u8_at packet j in
    let j := j + 1 in
    let name_end := if c_name_end c <? 0 then j else c_name_end c in
    let j := Z.shiftl (Z.land label_len 0x3f) 8 + ptr_low in
    if (j <? 0) || (j >=? length) then Fail
    else Continue (mkCursor j (c_out c) name_end)
  else
    if label_len >? 63 then Fail else
    let cp := c_cp c in
    if negb (cp =? 0) && (cp + 1 >=? name_out_len) then Fail else
    let out := if negb (cp =? 0) then c_out c ++ [byte_of_ascii "."] else c_out c in
    let cp := Z.of_nat (List.length out) in
    if cp + label_len >=? name_out_len then Fail else
    Continue (mkCursor (j + label_len) (out ++ bytes_at packet j label_len)
                       (c_name_end c)).

Inductive result : Type :=
| Parsed (idx : Z) (name : list Z)   (* returns 0, [*idx] and [name_out] set *)
| Error                              (* returns -1 *)
| Running.                           (* the loop is still running *)

(** The code after the loop. *)
Definition finish (name_out_len : Z) (c : cursor) : result :=
  if c_cp c >=? name_out_len then Error
  else Parsed (if c_name_end c <? 0 then c_j c else c_name_end c) (c_out c).

(** The loop, run for at most [fuel] iterations. *)
Fixpoint loop (fuel : nat) (packet : list Z) (length name_out_len : Z)
    (c : cursor) : result :=
  match fuel with
  | O => Running
  | S fuel' =>
      match body packet length name_out_len c with
      | Fail => Error
      | Break c' => finish name_out_len c'
      | Continue c' => loop fuel' packet length name_out_len c'
      end
  end.

Definition name_parse (fuel : nat) (packet : list Z) (length : Z) (idx : Z)
    (name_out_len : Z) : result :=
  loop fuel packet length name_out_len (mkCursor idx [] (-1)).

End NameParse.

Definition name_parse := NameParse.name_parse.

(** ** Data model *)

(** A request's callback: a user function (by address), or the
    resolver's own [nameserver_probe_callback], installed by
    [nameserver_send_probe] with the probed nameserver as argument. *)
Inductive callback : Type :=
| user_fn (f : nat)
| probe_fn.

(** The [data] argument of a callback. *)
Inductive cb_data : Type :=
| data_null
| data_addresses (addrs : list Z)
| data_name (name : list Z).

(** What [send] on a nameserver socket answers. *)
Inductive send_result : Type :=
| SendFull      (* all [request_len] bytes were taken *)
| SendShort     (* fewer bytes than asked *)
| SendEagain    (* -1 with EAGAIN *)
| SendError.    (* -1 with another errno *)

(** What the socket layer answers during [evdns_nameserver_add]. *)
Inductive socket_result : Type :=
| SocketOk (fd : Z)
| SocketFails      (* [socket] returns a negative descriptor *)
| ConnectFails     (* [connect] fails *)
| EventAddFails.   (* [event_add] fails *)

(** Observable actions, in the order the program performs them. *)
Inductive event : Type :=
| EvSend (ns : nat) (req : nat) (packet : list Z) (r : send_result)
| EvCallback (cb : callback) (result : dns_err) (type count ttl : Z)
             (data : cb_data) (arg : nat).

(** [struct request].  The ring links [next] / [prev] are the order of
    the ring lists of the state; [set_f v x] is [x.f = v]. *)
Record request : Type := mkRequest {
  r_request : list Z;                  (* the dns packet data *)
  r_request_len : Z;
  r_reissue_count : Z;
  r_tx_count : Z;                      (* the number of times that this packet has been sent *)
  r_request_type : Z;                  (* TYPE_PTR or TYPE_A *)
  r_user_pointer : nat;                (* the pointer given to us for this request *)
  r_user_callback : callback;
  r_ns : option nat;                   (* the server which we last sent it *)
  r_search_index : Z;
  r_search_state : option nat;
  r_search_origname : option string;   (* needs to be free()ed *)
  r_search_flags : Z;
  r_timeout_event : bool;              (* whether the timer is pending *)
  r_trans_id : Z;                      (* the transaction id *)
  r_transmit_me : bool                 (* needs to be transmitted *)
}.

Definition set_r_request (v : list Z) (x : request) : request :=
  mkRequest v (r_request_len x) (r_reissue_count x) (r_tx_count x)
    (r_request_type x) (r_user_pointer x) (r_user_callback x) (r_ns x)
    (r_search_index x) (r_search_state x) (r_search_origname x)
    (r_search_flags x) (r_timeout_event x) (r_trans_id x) (r_transmit_me x).
Definition set_r_reissue_count (v : Z) (x : request) : request :=
  mkRequest (r_request x) (r_request_len x) v (r_tx_count x)
    (r_request_type x) (r_user_pointer x) (r_user_callback x) (r_ns x)
    (r_search_index x) (r_search_state x) (r_search_origname x)
    (r_search_flags x) (r_timeout_event x) (r_trans_id x) (r_transmit_me x).
Definition set_r_tx_count (v : Z) (x : request) : request :=
  mkRequest (r_request x) (r_request_len x) (r_reissue_count x) v
    (r_request_type x) (r_user_pointer x) (r_user_callback x) (r_ns x)
    (r_search_index x) (r_search_state x) (r_search_origname x)
    (r_search_flags x) (r_timeout_event x) (r_trans_id x) (r_transmit_me x).
Definition set_r_ns (v : option nat) (x : request) : request :=
  mkRequest (r_request x) (r_request_len x) (r_reissue_count x) (r_tx_count x)
    (r_request_type x) (r_user_pointer x) (r_user_callback x) v
    (r_search_index x) (r_search_state x) (r_search_origname x)
    (r_search_flags x) (r_timeout_event x) (r_trans_id x) (r_transmit_me x).
Definition set_r_search_index (v : Z) (x : request) : request :=
  mkRequest (r_request x) (r_request_len x) (r_reissue_count x) (r_tx_count x)
    (r_request_type x) (r_user_pointer x) (r_user_callback x) (r_ns x) v
    (r_search_state x) (r_search_origname x) (r_search_flags x)
    (r_timeout_event x) (r_trans_id x) (r_transmit_me x).
Definition set_r_search_state (v : option nat) (x : request) : request :=
  mkRequest (r_request x) (r_request_len x) (r_reissue_count x) (r_tx_count x)
    (r_request_type x) (r_user_pointer x) (r_user_callback x) (r_ns x)
    (r_search_index x) v (r_search_origname x) (r_search_flags x)
    (r_timeout_event x) (r_trans_id x) (r_transmit_me x).
Definition set_r_search_origname (v : option string) (x : request) : request :=
  mkRequest (r_request x) (r_request_len x) (r_reissue_count x) (r_tx_count x)
    (r_request_type x) (r_user_pointer x) (r_user_callback x) (r_ns x)
    (r_search_index x) (r_search_state x) v (r_search_flags x)
    (r_timeout_event x) (r_trans_id x) (r_transmit_me x).
Definition set_r_search_flags (v : Z) (x : request) : request :=
  mkRequest (r_request x) (r_request_len x) (r_reissue_count x) (r_tx_count x)
    (r_request_type x) (r_user_pointer x) (r_user_callback x) (r_ns x)
    (r_search_index x) (r_search_state x) (r_search_origname x) v
    (r_timeout_event x) (r_trans_id x) (r_transmit_me x).
Definition set_r_timeout_event (v : bool) (x : request) : request :=
  mkRequest (r_request x) (r_request_len x) (r_reissue_count x) (r_tx_count x)
    (r_request_type x) (r_user_pointer x) (r_user_callback x) (r_ns x)
    (r_search_index x) (r_search_state x) (r_search_origname x)
    (r_search_flags x) v (r_trans_id x) (r_transmit_me x).
Definition set_r_trans_id (v : Z) (x : request) : request :=
  mkRequest (r_request x) (r_request_len x) (r_reissue_count x) (r_tx_count x)
    (r_request_type x) (r_user_pointer x) (r_user_callback x) (r_ns x)
    (r_search_index x) (r_search_state x) (r_search_origname x)
    (r_search_flags x) (r_timeout_event x) v (r_transmit_me x).
Definition set_r_transmit_me (v : bool) (x : request) : request :=
  mkRequest (r_request x) (r_request_len x) (r_reissue_count x) (r_tx_count x)
    (r_request_type x) (r_user_pointer x) (r_user_callback x) (r_ns x)
    (r_search_index x) (r_search_state x) (r_search_origname x)
    (r_search_flags x) (r_timeout_event x) (r_trans_id x) v.

(** [struct nameserver] *)
Record nameserver : Type := mkNameserver {
  ns_socket : Z;                  (* a connected UDP socket *)
  ns_address : Z;
  ns_failed_times : Z;            (* number of times which we have given this server a chance *)
  ns_timedout : Z;                (* number of times in a row a request has timed out *)
  ns_timeout_event : option Z;    (* the probe timer and its delay, if pending *)
  ns_state : bool;                (* zero if we think that this server is down *)
  ns_choaked : bool;              (* true if we have an EAGAIN from this server's socket *)
  ns_write_waiting : bool         (* true if we are waiting for EV_WRITE events *)
}.

Definition set_ns_failed_times (v : Z) (x : nameserver) : nameserver :=
  mkNameserver (ns_socket x) (ns_address x) v (ns_timedout x)
    (ns_timeout_event x) (ns_state x) (ns_choaked x) (ns_write_waiting x).
Definition set_ns_timedout (v : Z) (x : nameserver) : nameserver :=
  mkNameserver (ns_socket x) (ns_address x) (ns_failed_times x) v
    (ns_timeout_event x) (ns_state x) (ns_choaked x) (ns_write_waiting x).
Definition set_ns_timeout_event (v : option Z) (x : nameserver) : nameserver :=
  mkNameserver (ns_socket x) (ns_address x) (ns_failed_times x)
    (ns_timedout x) v (ns_state x) (ns_choaked x) (ns_write_waiting x).
Definition set_ns_state (v : bool) (x : nameserver) : nameserver :=
  mkNameserver (ns_socket x) (ns_address x) (ns_failed_times x)
    (ns_timedout x) (ns_timeout_event x) v (ns_choaked x)
    (ns_write_waiting x).
Definition set_ns_choaked (v : bool) (x : nameserver) : nameserver :=
  mkNameserver (ns_socket x) (ns_address x) (ns_failed_times x)
    (ns_timedout x) (ns_timeout_event x) (ns_state x) v (ns_write_waiting x).
Definition set_ns_write_waiting (v : bool) (x : nameserver) : nameserver :=
  mkNameserver (ns_socket x) (ns_address x) (ns_failed_times x)
    (ns_timedout x) (ns_timeout_event x) (ns_state x) (ns_choaked x) v.

(** [struct search_state]; the chain of [struct search_domain] from
    [head] is the list of its postfix strings. *)
Record search_state : Type := mkSearchState {
  ss_refcount : Z;
  ss_ndots : Z;
  ss_num_domains : Z;
  ss_head : list string
}.

Definition set_ss_refcount (v : Z) (x : search_state) : search_state :=
  mkSearchState v (ss_ndots x) (ss_num_domains x) (ss_head x).
Definition set_ss_ndots (v : Z) (x : search_state) : search_state :=
  mkSearchState (ss_refcount x) v (ss_num_domains x) (ss_head x).
Definition set_ss_num_domains (v : Z) (x : search_state) : search_state :=
  mkSearchState (ss_refcount x) (ss_ndots x) v (ss_head x).
Definition set_ss_head (v : list string) (x : search_state) : search_state :=
  mkSearchState (ss_refcount x) (ss_ndots x) (ss_num_domains x) v.

(** The resolver's globals, the heap behind them, and what the
    environment will answer. *)
Record state : Type := mkState {
  requests : gmap nat request;
  nameservers : gmap nat nameserver;
  search_states : gmap nat search_state;
  req_head : list nat;
  req_waiting_head : list nat;
  server_head : list nat;
  global_good_nameservers : Z;
  global_requests_inflight : Z;
  global_requests_waiting : Z;
  global_max_requests_inflight : Z;
  global_timeout : Z;
  global_max_reissues : Z;
  global_max_retransmits : Z;
  global_max_nameserver_timeout : Z;
  global_search_state : option nat;
  next_ptr : nat;                      (* the next address [malloc] hands out *)
  env_entropy : list Z;                (* what the id source will deliver *)
  env_send : list send_result;         (* what [send] will answer *)
  env_socket : list socket_result;     (* what the socket layer will answer *)
  env_hostname : option string;        (* [gethostname], if it succeeds *)
  trace : list event
}.

Definition set_requests (v : gmap nat request) (x : state) : state :=
  mkState v (nameservers x) (search_states x) (req_head x)
    (req_waiting_head x) (server_head x) (global_good_nameservers x)
    (global_requests_inflight x) (global_requests_waiting x)
    (global_max_requests_inflight x) (global_timeout x)
    (global_max_reissues x) (global_max_retransmits x)
    (global_max_nameserver_timeout x) (global_search_state x) (next_ptr x)
    (env_entropy x) (env_send x) (env_socket x) (env_hostname x) (trace x).
Definition set_nameservers (v : gmap nat nameserver) (x : state) : state :=
  mkState (requests x) v (search_states x) (req_head x) (req_waiting_head x)
    (server_head x) (global_good_nameservers x) (global_requests_inflight x)
    (global_requests_waiting x) (global_max_requests_inflight x)
    (global_timeout x) (global_max_reissues x) (global_max_retransmits x)
    (global_max_nameserver_timeout x) (global_search_state x) (next_ptr x)
    (env_entropy x) (env_send x) (env_socket x) (env_hostname x) (trace x).
Definition set_search_states (v : gmap nat search_state) (x : state) : state :=
  mkState (requests x) (nameservers x) v (req_head x) (req_waiting_head x)
    (server_head x) (global_good_nameservers x) (global_requests_inflight x)
    (global_requests_waiting x) (global_max_requests_inflight x)
    (global_timeout x) (global_max_reissues x) (global_max_retransmits x)
    (global_max_nameserver_timeout x) (global_search_state x) (next_ptr x)
    (env_entropy x) (env_send x) (env_socket x) (env_hostname x) (trace x).
Definition set_req_head (v : list nat) (x : state) : state :=
  mkState (requests x) (nameservers x) (search_states x) v
    (req_waiting_head x) (server_head x) (global_good_nameservers x)
    (global_requests_inflight x) (global_requests_waiting x)
    (global_max_requests_inflight x) (global_timeout x)
    (global_max_reissues x) (global_max_retransmits x)
    (global_max_nameserver_timeout x) (global_search_state x) (next_ptr x)
    (env_entropy x) (env_send x) (env_socket x) (env_hostname x) (trace x).
Definition set_req_waiting_head (v : list nat) (x : state) : state :=
  mkState (requests x) (nameservers x) (search_states x) (req_head x) v
    (server_head x) (global_good_nameservers x) (global_requests_inflight x)
    (global_requests_waiting x) (global_max_requests_inflight x)
    (global_timeout x) (global_max_reissues x) (global_max_retransmits x)
    (global_max_nameserver_timeout x) (global_search_state x) (next_ptr x)
    (env_entropy x) (env_send x) (env_socket x) (env_hostname x) (trace x).
Definition set_server_head (v : list nat) (x : state) : state :=
  mkState (requests x) (nameservers x) (search_states x) (req_head x)
    (req_waiting_head x) v (global_good_nameservers x)
    (global_requests_inflight x) (global_requests_waiting x)
    (global_max_requests_inflight x) (global_timeout x)
    (global_max_reissues x) (global_max_retransmits x)
    (global_max_nameserver_timeout x) (global_search_state x) (next_ptr x)
    (env_entropy x) (env_send x) (env_socket x) (env_hostname x) (trace x).
Definition set_global_good_nameservers (v : Z) (x : state) : state :=
  mkState (requests x) (nameservers x) (search_states x) (req_head x)
    (req_waiting_head x) (server_head x) v (global_requests_inflight x)
    (global_requests_waiting x) (global_max_requests_inflight x)
    (global_timeout x) (global_max_reissues x) (global_max_retransmits x)
    (global_max_nameserver_timeout x) (global_search_state x) (next_ptr x)
    (env_entropy x) (env_send x) (env_socket x) (env_hostname x) (trace x).
Definition set_global_requests_inflight (v : Z) (x : state) : state :=
  mkState (requests x) (nameservers x) (search_states x) (req_head x)
    (req_waiting_head x) (server_head x) (global_good_nameservers x) v
    (global_requests_waiting x) (global_max_requests_inflight x)
    (global_timeout x) (global_max_reissues x) (global_max_retransmits x)
    (global_max_nameserver_timeout x) (global_search_state x) (next_ptr x)
    (env_entropy x) (env_send x) (env_socket x) (env_hostname x) (trace x).
Definition set_global_requests_waiting (v : Z) (x : state) : state :=
  mkState (requests x) (nameservers x) (search_states x) (req_head x)
    (req_waiting_head x) (server_head x) (global_good_nameservers x)
    (global_requests_inflight x) v (global_max_requests_inflight x)
    (global_timeout x) (global_max_reissues x) (global_max_retransmits x)
    (global_max_nameserver_timeout x) (global_search_state x) (next_ptr x)
    (env_entropy x) (env_send x) (env_socket x) (env_hostname x) (trace x).
Definition set_global_timeout (v : Z) (x : state) : state :=
  mkState (requests x) (nameservers x) (search_states x) (req_head x)
    (req_waiting_head x) (server_head x) (global_good_nameservers x)
    (global_requests_inflight x) (global_requests_waiting x)
    (global_max_requests_inflight x) v (global_max_reissues x)
    (global_max_retransmits x) (global_max_nameserver_timeout x)
    (global_search_state x) (next_ptr x) (env_entropy x) (env_send x)
    (env_socket x) (env_hostname x) (trace x).
Definition set_global_max_retransmits (v : Z) (x : state) : state :=
  mkState (requests x) (nameservers x) (search_states x) (req_head x)
    (req_waiting_head x) (server_head x) (global_good_nameservers x)
    (global_requests_inflight x) (global_requests_waiting x)
    (global_max_requests_inflight x) (global_timeout x)
    (global_max_reissues x) v (global_max_nameserver_timeout x)
    (global_search_state x) (next_ptr x) (env_entropy x) (env_send x)
    (env_socket x) (env_hostname x) (trace x).
Definition set_global_search_state (v : option nat) (x : state) : state :=
  mkState (requests x) (nameservers x) (search_states x) (req_head x)
    (req_waiting_head x) (server_head x) (global_good_nameservers x)
    (global_requests_inflight x) (global_requests_waiting x)
    (global_max_requests_inflight x) (global_timeout x)
    (global_max_reissues x) (global_max_retransmits x)
    (global_max_nameserver_timeout x) v (next_ptr x) (env_entropy x)
    (env_send x) (env_socket x) (env_hostname x) (trace x).
Definition set_next_ptr (v : nat) (x : state) : state :=
  mkState (requests x) (nameservers x) (search_states x) (req_head x)
    (req_waiting_head x) (server_head x) (global_good_nameservers x)
    (global_requests_inflight x) (global_requests_waiting x)
    (global_max_requests_inflight x) (global_timeout x)
    (global_max_reissues x) (global_max_retransmits x)
    (global_max_nameserver_timeout x) (global_search_state x) v
    (env_entropy x) (env_send x) (env_socket x) (env_hostname x) (trace x).
Definition set_env_entropy (v : list Z) (x : state) : state :=
  mkState (requests x) (nameservers x) (search_states x) (req_head x)
    (req_waiting_head x) (server_head x) (global_good_nameservers x)
    (global_requests_inflight x) (global_requests_waiting x)
    (global_max_requests_inflight x) (global_timeout x)
    (global_max_reissues x) (global_max_retransmits x)
    (global_max_nameserver_timeout x) (global_search_state x) (next_ptr x) v
    (env_send x) (env_socket x) (env_hostname x) (trace x).
Definition set_env_send (v : list send_result) (x : state) : state :=
  mkState (requests x) (nameservers x) (search_states x) (req_head x)
    (req_waiting_head x) (server_head x) (global_good_nameservers x)
    (global_requests_inflight x) (global_requests_waiting x)
    (global_max_requests_inflight x) (global_timeout x)
    (global_max_reissues x) (global_max_retransmits x)
    (global_max_nameserver_timeout x) (global_search_state x) (next_ptr x)
    (env_entropy x) v (env_socket x) (env_hostname x) (trace x).
Definition set_env_socket (v : list socket_result) (x : state) : state :=
  mkState (requests x) (nameservers x) (search_states x) (req_head x)
    (req_waiting_head x) (server_head x) (global_good_nameservers x)
    (global_requests_inflight x) (global_requests_waiting x)
    (global_max_requests_inflight x) (global_timeout x)
    (global_max_reissues x) (global_max_retransmits x)
    (global_max_nameserver_timeout x) (global_search_state x) (next_ptr x)
    (env_entropy x) (env_send x) v (env_hostname x) (trace x).
Definition set_trace (v : list event) (x : state) : state :=
  mkState (requests x) (nameservers x) (search_states x) (req_head x)
    (req_waiting_head x) (server_head x) (global_good_nameservers x)
    (global_requests_inflight x) (global_requests_waiting x)
    (global_max_requests_inflight x) (global_timeout x)
    (global_max_reissues x) (global_max_retransmits x)
    (global_max_nameserver_timeout x) (global_search_state x) (next_ptr x)
    (env_entropy x) (env_send x) (env_socket x) (env_hostname x) v.

(** The resolver before any configuration call. *)
Definition initial_state : state :=
  mkState ∅ ∅ ∅ [] [] [] 0 0 0 64 5 1 3 3 None 1%nat [] [] [] None [].

(** ** The state-and-crash monad *)

Inductive res (A : Type) : Type :=
| Ok (a : A) (s : state)
| Crash       (* [abort()], failed [assert], NULL or dangling dereference *)
| Spin.       (* a bounded loop of the model ran out of iterations *)
Arguments Ok {A} a s.
Arguments Crash {A}.
Arguments Spin {A}.

Definition M (A : Type) : Type := state -> res A.

Definition ret {A : Type} (a : A) : M A := fun s => Ok a s.

Definition bind {A B : Type} (m : M A) (k : A -> M B) : M B :=
  fun s => match m s with
           | Ok a s' => k a s'
           | Crash => Crash
           | Spin => Spin
           end.

Declare Scope evdns_scope.
Delimit Scope evdns_scope with evdns.
Notation "x <- m ;; k" := (bind m (fun x => k))
  (at level 100, m at next level, right associativity) : evdns_scope.
Notation "m ;; k" := (bind m (fun _ => k))
  (at level 100, right associativity) : evdns_scope.
Open Scope evdns_scope.

Definition get : M state := fun s => Ok s s.
Definition gets {A : Type} (f : state -> A) : M A := fun s => Ok (f s) s.
Definition modify (f : state -> state) : M unit := fun s => Ok tt (f s).
Definition crash {A : Type} : M A := fun _ => Crash.
Definition spin {A : Type} : M A := fun _ => Spin.

(** [assert(b)] *)
Definition assert (b : bool) : M unit := if b then ret tt else crash.

(** [when c m]: [if (c) m;] *)
Definition when (c : bool) (m : M unit) : M unit := if c then m else ret tt.

(** The final state of a run, if it returned. *)
Definition final {A : Type} (r : res A) : option state :=
  match r with Ok _ s => Some s | _ => None end.

Definition value {A : Type} (r : res A) : option A :=
  match r with Ok a _ => Some a | _ => None end.

(** *** The heap *)

(** [malloc]: a fresh address. *)
Definition malloc : M nat :=
  fun s => Ok (next_ptr s) (set_next_ptr (S (next_ptr s)) s).

(** [*req] *)
Definition deref_req (req : nat) : M request :=
  fun s => match requests s !! req with
           | Some r => Ok r s
           | None => Crash
           end.

(** [req->field = ...] *)
Definition update_req (req : nat) (f : request -> request) : M unit :=
  r <- deref_req req ;;
  modify (fun s => set_requests (<[req := f r]> (requests s)) s).

Definition deref_ns (ns : nat) : M nameserver :=
  fun s => match nameservers s !! ns with
           | Some n => Ok n s
           | None => Crash
           end.

Definition update_ns (ns : nat) (f : nameserver -> nameserver) : M unit :=
  n <- deref_ns ns ;;
  modify (fun s => set_nameservers (<[ns := f n]> (nameservers s)) s).

(** [req->ns->...]: the request's nameserver, which must not be NULL. *)
Definition req_ns (req : nat) : M nat :=
  r <- deref_req req ;;
  match r_ns r with
  | Some ns => ret ns
  | None => crash
  end.

Definition deref_search (p : nat) : M search_state :=
  fun s => match search_states s !! p with
           | Some st => Ok st s
           | None => Crash
           end.

Definition update_search (p : nat) (f : search_state -> search_state) : M unit :=
  st <- deref_search p ;;
  modify (fun s => set_search_states (<[p := f st]> (search_states s)) s).

Definition emit (e : event) : M unit :=
  modify (fun s => set_trace (trace s ++ [e]) s).

(** [for each x in l: f x], in order. *)
Fixpoint for_each {A : Type} (l : list A) (f : A -> M unit) : M unit :=
  match l with
  | [] => ret tt
  | x :: l' => f x ;; for_each l' f
  end.

(** *** Rings *)

(** [head = head->next] on a ring read from its head. *)
Definition ring_next {A : Type} (l : list A) : list A :=
  match l with
  | [] => []
  | x :: l' => l' ++ [x]
  end.

(** [head = head->prev] *)
Definition ring_prev {A : Type} (l : list A) : list A :=
  match rev l with
  | [] => []
  | x :: l' => x :: rev l'
  end.

(** The two request rings. *)
Inductive ring_id : Type := Inflight | Waiting.

Definition ring (h : ring_id) (s : state) : list nat :=
  match h with
  | Inflight => req_head s
  | Waiting => req_waiting_head s
  end.

Definition set_ring (h : ring_id) (l : list nat) (s : state) : state :=
  match h with
  | Inflight => set_req_head l s
  | Waiting => set_req_waiting_head l s
  end.

(** ** Nameserver ring *)

(** [global_nameserver_timeouts]: probe delays in seconds. *)
Definition global_nameserver_timeouts : list Z := [10; 60; 300; 900; 3600].
Definition global_nameserver_timeouts_length : Z :=
  Z.of_nat (List.length global_nameserver_timeouts).

(** [server_head = server_head->next] *)
Definition server_head_advance : M unit :=
  modify (fun s => set_server_head (ring_next (server_head s)) s).

(** The [for(;;)] loop of [nameserver_pick]. *)
Fixpoint nameserver_pick_loop (fuel : nat) (started_at : nat) : M (option nat) :=
  match fuel with
  | O => spin
  | S fuel' =>
      s <- get ;;
      match server_head s with
      | [] => crash
      | h :: _ =>
          n <- deref_ns h ;;
          if ns_state n then
            (* we think this server is currently good *)
            server_head_advance ;;
            ret (Some h)
          else
            server_head_advance ;;
            s' <- get ;;
            match server_head s' with
            | [] => crash
            | h' :: _ =>
                if Nat.eqb h' started_at then
                  assert (global_good_nameservers s' =? 0) ;;
                  server_head_advance ;;
                  ret (Some h')
                else nameserver_pick_loop fuel' started_at
            end
      end
  end.

Definition nameserver_pick : M (option nat) :=
  s <- get ;;
  match server_head s with
  | [] => ret None
  | started_at :: _ =>
      if global_good_nameservers s =? 0 then
        server_head_advance ;;
        s' <- get ;;
        ret (head (server_head s'))
      else
        nameserver_pick_loop (List.length (server_head s)) started_at
  end.

(** [nameserver_failed(ns, msg)] *)
Definition nameserver_failed (ns : nat) : M unit :=
  n <- deref_ns ns ;;
  if negb (ns_state n) then ret tt else
  modify (fun s => set_global_good_nameservers (global_good_nameservers s - 1) s) ;;
  s <- get ;;
  assert (global_good_nameservers s >=? 0) ;;
  update_ns ns (fun n => set_ns_failed_times 1 (set_ns_state false n)) ;;
  (* evtimer_add(&ns->timeout_event, &global_nameserver_timeouts[0]) *)
  update_ns ns (set_ns_timeout_event (Some (nth 0 global_nameserver_timeouts 0))) ;;
  s <- get ;;
  if global_good_nameservers s =? 0 then ret tt else
  for_each (req_head s) (fun req =>
    r <- deref_req req ;;
    when ((r_tx_count r =? 0) && bool_decide (r_ns r = Some ns))
      (p <- nameserver_pick ;;
       update_req req (set_r_ns p))).

(** [nameserver_up(ns)] *)
Definition nameserver_up (ns : nat) : M unit :=
  n <- deref_ns ns ;;
  if ns_state n then ret tt else
  (* evtimer_del(&ns->timeout_event) *)
  update_ns ns (fun n =>
    set_ns_timedout 0 (set_ns_failed_times 0 (set_ns_state true
      (set_ns_timeout_event None n)))) ;;
  modify (fun s => set_global_good_nameservers (global_good_nameservers s + 1) s).

(** [nameserver_probe_failed(ns)] *)
Definition nameserver_probe_failed (ns : nat) : M unit :=
  update_ns ns (set_ns_timeout_event None) ;;
  n <- deref_ns ns ;;
  if ns_state n then ret tt else
  let timeout :=
    nth (Z.to_nat (Z.min (ns_failed_times n)
                         (global_nameserver_timeouts_length - 1)))
        global_nameserver_timeouts 0 in
  update_ns ns (fun n => set_ns_failed_times (ns_failed_times n + 1) n) ;;
  update_ns ns (set_ns_timeout_event (Some timeout)).

(** [nameserver_probe_callback(result, ..., arg)] *)
Definition nameserver_probe_callback (result : dns_err) (arg : nat) : M unit :=
  if dns_err_eqb result DNS_ERR_NONE || dns_err_eqb result DNS_ERR_NOTEXIST
  then nameserver_up arg
  else nameserver_probe_failed arg.

(** [nameserver_write_waiting(ns, waiting)] *)
Definition nameserver_write_waiting (ns : nat) (waiting : bool) : M unit :=
  n <- deref_ns ns ;;
  if Bool.eqb (ns_write_waiting n) waiting then ret tt else
  update_ns ns (set_ns_write_waiting waiting).

(** ** Transmission *)

(** [send(server->socket, req->request, req->request_len, 0)]: the
    next answer of the socket layer (a full write once the script is
    used up); the datagram is recorded. *)
Definition send (server req : nat) : M send_result :=
  _ <- deref_ns server ;;
  r <- deref_req req ;;
  s <- get ;;
  let res := match env_send s with [] => SendFull | x :: _ => x end in
  modify (fun s => set_env_send (tail (env_send s)) s) ;;
  emit (EvSend server req (r_request r) res) ;;
  ret res.

(** [evdns_request_transmit_to(req, server)]: 0 ok, 1 temporary
    failure, 2 other failure. *)
Definition evdns_request_transmit_to (req server : nat) : M Z :=
  res <- send server req ;;
  match res with
  | SendEagain => ret 1
  | SendError =>
      ns <- req_ns req ;;
      nameserver_failed ns ;;
      ret 2
  | SendShort => ret 1
  | SendFull => ret 0
  end.

(** [evdns_request_transmit(req)]: 0 ok, 1 failed. *)
Definition evdns_request_transmit (req : nat) : M Z :=
  update_req req (set_r_transmit_me true) ;;
  r <- deref_req req ;;
  if r_trans_id r =? 0xffff then crash else
  ns <- req_ns req ;;
  n <- deref_ns ns ;;
  if ns_choaked n then ret 1 else
  rc <- evdns_request_transmit_to req ns ;;
  if rc =? 1 then
    ns <- req_ns req ;;
    update_ns ns (set_ns_choaked true) ;;
    ns <- req_ns req ;;
    nameserver_write_waiting ns true ;;
    ret 1
  else
    let retcode := if rc =? 2 then 1 else 0 in
    (* evtimer_set / evtimer_add(&req->timeout_event, &global_timeout) *)
    update_req req (set_r_timeout_event true) ;;
    update_req req (fun r => set_r_tx_count (r_tx_count r + 1) r) ;;
    update_req req (set_r_transmit_me false) ;;
    ret retcode.

(** The [do ... while] walk of [evdns_transmit] over the inflight ring. *)
Fixpoint evdns_transmit_walk (l : list nat) (did_try_to_transmit : bool) : M bool :=
  match l with
  | [] => ret did_try_to_transmit
  | req :: l' =>
      r <- deref_req req ;;
      if r_transmit_me r then
        _ <- evdns_request_transmit req ;;
        evdns_transmit_walk l' true
      else evdns_transmit_walk l' did_try_to_transmit
  end.

Definition evdns_transmit : M bool :=
  s <- get ;;
  evdns_transmit_walk (req_head s) false.

(** ** Transaction ids *)

(** The inner [do ... while] of [transaction_id_pick]: the value of
    [req] when the loop is left.  [break] leaves it at the matching
    request; running off the ring brings it back to [started_at]. *)
Fixpoint transaction_id_scan (l : list nat) (started_at : nat) (trans_id : Z) : M nat :=
  match l with
  | [] => ret started_at
  | req :: l' =>
      r <- deref_req req ;;
      if r_trans_id r =? trans_id then ret req
      else transaction_id_scan l' started_at trans_id
  end.

(** The outer [for(;;)], one iteration per value drawn from the id
    source; the source failing is [abort()]. *)
Fixpoint transaction_id_pick_loop (entropy : list Z) : M Z :=
  match entropy with
  | [] => crash
  | x :: entropy' =>
      modify (set_env_entropy entropy') ;;
      let trans_id := Z.land x 0xffff in
      if trans_id =? 0xffff then transaction_id_pick_loop entropy' else
      s <- get ;;
      match req_head s with
      | [] => ret trans_id                (* req == started_at == NULL *)
      | started_at :: _ =>
          req <- transaction_id_scan (req_head s) started_at trans_id ;;
          if Nat.eqb req started_at then ret trans_id
          else transaction_id_pick_loop entropy'
      end
  end.

Definition transaction_id_pick : M Z :=
  s <- get ;;
  transaction_id_pick_loop (env_entropy s).

(** [request_trans_id_set(req, trans_id)] *)
Definition request_trans_id_set (req : nat) (trans_id : Z) : M unit :=
  update_req req (fun r =>
    set_r_request ([Z.shiftr trans_id 8; Z.land trans_id 0xff]
                     ++ skipn 2 (r_request r))
      (set_r_trans_id trans_id r)).

(** [request_find_from_trans_id(trans_id)] *)
Fixpoint request_find_walk (l : list nat) (trans_id : Z) : M (option nat) :=
  match l with
  | [] => ret None
  | req :: l' =>
      r <- deref_req req ;;
      if r_trans_id r =? trans_id then ret (Some req)
      else request_find_walk l' trans_id
  end.

Definition request_find_from_trans_id (trans_id : Z) : M (option nat) :=
  s <- get ;;
  request_find_walk (req_head s) trans_id.

(** ** Query construction *)

Definition dot : ascii := "."%char.

(** [string_num_dots(s)] *)
Fixpoint string_num_dots (s : string) : Z :=
  match s with
  | EmptyString => 0
  | String c s' =>
      if Ascii.eqb c dot then 1 + string_num_dots s' else string_num_dots s'
  end.

(** The pieces of [name] between '.' characters, as [strchr] cuts
    them in [dnsname_to_labels]; [cur] is the piece being read. *)
Fixpoint split_labels (name : string) (cur : string) : list string :=
  match name with
  | EmptyString => [cur]
  | String c name' =>
      if Ascii.eqb c dot then cur :: split_labels name' EmptyString
      else split_labels name' (cur ++ String c EmptyString)%string
  end.

Definition buf_pos (buf : list Z) : Z := Z.of_nat (List.length buf).

(** The label loop of [dnsname_to_labels]; [buf] holds the bytes
    written so far, so [j] is its length. *)
Fixpoint dnsname_to_labels_loop (ls : list string) (buf : list Z) (buf_len : Z)
    : Z + list Z :=
  match ls with
  | [] => inr buf
  | l :: ls' =>
      let label_len := strlen l in
      let j := buf_pos buf in
      if label_len >? 63 then inl (-1)
      else if j + label_len + 1 >? buf_len then inl (-2)
      else dnsname_to_labels_loop ls' (buf ++ [label_len] ++ bytes_of_string l) buf_len
  end.

(** [dnsname_to_labels(buf, buf_len, j, name, name_len, NULL)]: the
    resolver never passes a label table.  [inl e] is the negative
    return value [e]; [inr buf'] is the buffer, whose length is the
    returned offset. *)
Definition dnsname_to_labels (buf : list Z) (buf_len : Z) (name : string)
    (name_len : Z) : Z + list Z :=
  if name_len >? 255 then inl (-2) else
  match dnsname_to_labels_loop (split_labels name EmptyString) buf buf_len with
  | inl e => inl e
  | inr buf' =>
      if (buf_pos buf' =? 0) || negb (List.last buf' 0 =? 0)
      then inr (buf' ++ [0])
      else inr buf'
  end.

(** [evdns_request_len(name_len)] *)
Definition evdns_request_len (name_len : Z) : Z := 96 + name_len + 2 + 4.

(** [APPEND16(x)] *)
Definition APPEND16 (x : Z) (buf : list Z) (buf_len : Z) : Z + list Z :=
  if buf_pos buf + 2 >? buf_len then inl (-2)
  else inr (buf ++ [Z.land (Z.shiftr x 8) 0xff; Z.land x 0xff]).

Definition and_then {E A B : Type} (x : E + A) (f : A -> E + B) : E + B :=
  match x with
  | inl e => inl e
  | inr a => f a
  end.

(** [evdns_request_data_build(name, name_len, trans_id, type, class,
    buf, buf_len)] *)
Definition evdns_request_data_build (name : string) (name_len : Z)
    (trans_id type class : Z) (buf_len : Z) : Z + list Z :=
  and_then (APPEND16 trans_id [] buf_len) (fun buf =>
  and_then (APPEND16 0x0100 buf buf_len) (fun buf =>
  and_then (APPEND16 1 buf buf_len) (fun buf =>
  and_then (APPEND16 0 buf buf_len) (fun buf =>
  and_then (APPEND16 0 buf buf_len) (fun buf =>
  and_then (APPEND16 0 buf buf_len) (fun buf =>
  and_then (dnsname_to_labels buf buf_len name name_len) (fun buf =>
  and_then (APPEND16 type buf buf_len) (fun buf =>
  APPEND16 class buf buf_len)))))))).

(** ** Requests *)

(** [evdns_request_insert(req, head)]: insert at the tail of a ring. *)
Definition evdns_request_insert (req : nat) (head : ring_id) : M unit :=
  modify (fun s => set_ring head (ring head s ++ [req]) s).

(** [request_new(type, name, flags, callback, user_ptr)]; [None] is
    the NULL return. *)
Definition request_new (type : Z) (name : string) (flags : Z)
    (callback : callback) (user_ptr : nat) : M (option nat) :=
  s <- get ;;
  let issuing_now := global_requests_inflight s <? global_max_requests_inflight s in
  let name_len := strlen name in
  let request_max_len := evdns_request_len name_len in
  trans_id <- (if issuing_now then transaction_id_pick else ret 0xffff) ;;
  req <- malloc ;;
  match evdns_request_data_build name name_len trans_id type CLASS_INET
          request_max_len with
  | inl _ => ret None
  | inr packet =>
      ns <- (if issuing_now then nameserver_pick else ret None) ;;
      modify (fun s => set_requests
        (<[req := mkRequest packet (buf_pos packet) 0 0 type user_ptr callback
                   ns 0 None None 0 false trans_id false]> (requests s)) s) ;;
      ret (Some req)
  end.

(** [request_submit(req)] *)
Definition request_submit (req : nat) : M unit :=
  r <- deref_req req ;;
  match r_ns r with
  | Some _ =>
      evdns_request_insert req Inflight ;;
      modify (fun s => set_global_requests_inflight (global_requests_inflight s + 1) s) ;;
      _ <- evdns_request_transmit req ;;
      ret tt
  | None =>
      evdns_request_insert req Waiting ;;
      modify (fun s => set_global_requests_waiting (global_requests_waiting s + 1) s)
  end.

(** The [while] loop of [evdns_requests_pump_waiting_queue]. *)
Fixpoint pump_loop (fuel : nat) : M unit :=
  match fuel with
  | O => spin
  | S fuel' =>
      s <- get ;;
      if (global_requests_inflight s <? global_max_requests_inflight s)
         && negb (global_requests_waiting s =? 0)
      then
        match req_waiting_head s with
        | [] => crash                      (* assert(req_waiting_head) *)
        | req :: rest =>
            modify (set_req_waiting_head rest) ;;
            modify (fun s => set_global_requests_waiting (global_requests_waiting s - 1) s) ;;
            modify (fun s => set_global_requests_inflight (global_requests_inflight s + 1) s) ;;
            ns <- nameserver_pick ;;
            update_req req (set_r_ns ns) ;;
            trans_id <- transaction_id_pick ;;
            request_trans_id_set req trans_id ;;
            evdns_request_insert req Inflight ;;
            _ <- evdns_request_transmit req ;;
            _ <- evdns_transmit ;;
            pump_loop fuel'
        end
      else ret tt
  end.

(** Every iteration takes one request off the waiting ring, so one
    more than its length is enough. *)
Definition evdns_requests_pump_waiting_queue : M unit :=
  s <- get ;;
  pump_loop (S (List.length (req_waiting_head s))).

(** ** Search state *)

(** [search_state_decref(state)] *)
Definition search_state_decref (state : option nat) : M unit :=
  match state with
  | None => ret tt
  | Some p =>
      update_search p (fun st => set_ss_refcount (ss_refcount st - 1) st) ;;
      st <- deref_search p ;;
      when (ss_refcount st =? 0)
        (modify (fun s => set_search_states (delete p (search_states s)) s))
  end.

(** [search_state_new()] *)
Definition search_state_new : M nat :=
  p <- malloc ;;
  modify (fun s => set_search_states
    (<[p := mkSearchState 1 1 0 []]> (search_states s)) s) ;;
  ret p.

(** [search_postfix_clear()] *)
Definition search_postfix_clear : M unit :=
  s <- get ;;
  search_state_decref (global_search_state s) ;;
  p <- search_state_new ;;
  modify (set_global_search_state (Some p)).

Definition evdns_search_clear : M unit := search_postfix_clear.

(** [while (domain[0] == '.') domain++;] *)
Fixpoint skip_dots (domain : string) : string :=
  match domain with
  | String c d' => if Ascii.eqb c dot then skip_dots d' else domain
  | EmptyString => domain
  end.

(** The global search state, created on first use. *)
Definition global_search_state_force : M nat :=
  s <- get ;;
  match global_search_state s with
  | Some p => ret p
  | None =>
      p <- search_state_new ;;
      modify (set_global_search_state (Some p)) ;;
      ret p
  end.

(** [search_postfix_add(domain)] *)
Definition search_postfix_add (domain : string) : M unit :=
  let domain := skip_dots domain in
  p <- global_search_state_force ;;
  update_search p (fun st => set_ss_num_domains (ss_num_domains st + 1) st) ;;
  update_search p (fun st => set_ss_head (domain :: ss_head st) st).

(** [search_reverse()] *)
Definition search_reverse : M unit :=
  s <- get ;;
  match global_search_state s with
  | None => crash
  | Some p => update_search p (fun st => set_ss_head (rev (ss_head st)) st)
  end.

Definition evdns_search_add (domain : string) : M unit :=
  search_postfix_add domain.

(** [evdns_search_ndots_set(ndots)] *)
Definition evdns_search_ndots_set (ndots : Z) : M unit :=
  p <- global_search_state_force ;;
  update_search p (set_ss_ndots ndots).

(** [strchr(s, '.')]: the suffix of [s] starting at its first dot. *)
Fixpoint strchr_dot (s : string) : option string :=
  match s with
  | EmptyString => None
  | String c s' => if Ascii.eqb c dot then Some s else strchr_dot s'
  end.

(** [search_set_from_hostname()] *)
Definition search_set_from_hostname : M unit :=
  search_postfix_clear ;;
  s <- get ;;
  match env_hostname s with
  | None => ret tt                           (* gethostname failed *)
  | Some hostname =>
      match strchr_dot hostname with
      | None => ret tt
      | Some domainname => search_postfix_add domainname
      end
  end.

(** The last character of a string, if any. *)
Fixpoint last_char (s : string) : option ascii :=
  match s with
  | EmptyString => None
  | String c EmptyString => Some c
  | String _ s' => last_char s'
  end.

(** [search_make_new(state, n, base_name)].  Reading
    [base_name[base_len - 1]] of an empty name is outside the string;
    running off the domain chain is [abort()]. *)
Definition search_make_new (state : search_state) (n : Z) (base_name : string)
    : M string :=
  match last_char base_name with
  | None => crash
  | Some c =>
      let need_to_append_dot := negb (Ascii.eqb c dot) in
      if n <? 0 then crash else
      match nth_error (ss_head state) (Z.to_nat n) with
      | Some postfix =>
          ret (base_name ++ (if need_to_append_dot then "." else EmptyString) ++ postfix)%string
      | None => crash
      end
  end.

(** [search_request_finished(req)] *)
Definition search_request_finished (req : nat) : M unit :=
  r <- deref_req req ;;
  when (bool_decide (r_search_state r <> None))
    (search_state_decref (r_search_state r) ;;
     update_req req (set_r_search_state None)) ;;
  update_req req (set_r_search_origname None).

(** Unlink [req] from a ring, as [request_finished] does. *)
Definition ring_remove (req : nat) (l : list nat) : list nat :=
  List.filter (fun x => negb (Nat.eqb x req)) l.

(** [request_finished(req, head)] with a non-NULL [head]; the request
    has to be on that ring. *)
Definition request_finished (req : nat) (head : ring_id) : M unit :=
  _ <- deref_req req ;;
  s <- get ;;
  if negb (existsb (Nat.eqb req) (ring head s)) then crash else
  modify (fun s => set_ring head (ring_remove req (ring head s)) s) ;;
  update_req req (set_r_timeout_event false) ;;
  search_request_finished req ;;
  modify (fun s => set_global_requests_inflight (global_requests_inflight s - 1) s) ;;
  (* free(req) *)
  modify (fun s => set_requests (delete req (requests s)) s) ;;
  evdns_requests_pump_waiting_queue.

(** ** Search engine *)

(** [req->search_origname], which the search code passes to [strchr]
    and [strlen] and so must not be NULL. *)
Definition req_search_origname (req : nat) : M string :=
  r <- deref_req req ;;
  match r_search_origname r with
  | Some name => ret name
  | None => crash
  end.

(** [search_request_new(type, name, flags, user_callback, user_arg)] *)
Definition search_request_new (type : Z) (name : string) (flags : Z)
    (user_callback : callback) (user_arg : nat) : M Z :=
  assert (type =? TYPE_A) ;;
  s <- get ;;
  let plain :=
    req <- request_new type name flags user_callback user_arg ;;
    match req with
    | None => ret 1
    | Some req => request_submit req ;; ret 0
    end in
  if negb (Z.land flags DNS_QUERY_NO_SEARCH =? 0) then plain else
  match global_search_state s with
  | None => plain
  | Some gp =>
      gs <- deref_search gp ;;
      if ss_num_domains gs =? 0 then plain else
      (* we have some domains to search *)
      created <-
        (if string_num_dots name >=? ss_ndots gs then
           req <- request_new type name flags user_callback user_arg ;;
           match req with
           | None => ret None
           | Some req => update_req req (set_r_search_index (-1)) ;; ret (Some req)
           end
         else
           new_name <- search_make_new gs 0 name ;;
           req <- request_new type new_name flags user_callback user_arg ;;
           match req with
           | None => ret None
           | Some req => update_req req (set_r_search_index 0) ;; ret (Some req)
           end) ;;
      match created with
      | None => ret 1
      | Some req =>
          update_req req (set_r_search_origname (Some name)) ;;
          update_req req (set_r_search_state (Some gp)) ;;
          update_req req (set_r_search_flags flags) ;;
          update_search gp (fun st => set_ss_refcount (ss_refcount st + 1) st) ;;
          request_submit req ;;
          ret 0
      end
  end.

(** [search_try_next(req)]: 0 another request has been submitted,
    1 no more requests needed. *)
Definition search_try_next (req : nat) : M Z :=
  r <- deref_req req ;;
  match r_search_state r with
  | None => ret 1
  | Some sp =>
      update_req req (fun r => set_r_search_index (r_search_index r + 1) r) ;;
      r <- deref_req req ;;
      st <- deref_search sp ;;
      if r_search_index r >=? ss_num_domains st then
        (* no more postfixes to try, however we may need to try this
           name without a postfix *)
        origname <- req_search_origname req ;;
        if string_num_dots origname <? ss_ndots st then
          newreq <- request_new (r_request_type r) origname (r_search_flags r)
                      (r_user_callback r) (r_user_pointer r) ;;
          match newreq with
          | Some newreq => request_submit newreq ;; ret 0
          | None => ret 1
          end
        else ret 1
      else
        origname <- req_search_origname req ;;
        new_name <- search_make_new st (r_search_index r) origname ;;
        newreq <- request_new (r_request_type r) new_name (r_search_flags r)
                    (r_user_callback r) (r_user_pointer r) ;;
        match newreq with
        | None => ret 1
        | Some newreq =>
            update_req newreq (set_r_search_origname (r_search_origname r)) ;;
            update_req req (set_r_search_origname None) ;;
            update_req newreq (set_r_search_state (r_search_state r)) ;;
            update_req newreq (set_r_search_flags (r_search_flags r)) ;;
            update_req newreq (set_r_search_index (r_search_index r)) ;;
            update_search sp (fun st => set_ss_refcount (ss_refcount st + 1) st) ;;
            request_submit newreq ;;
            ret 0
        end
  end.

(** ** Replies *)

(** [struct reply]; the two arms of its union are kept apart. *)
Record reply : Type := mkReply {
  rp_type : Z;
  rp_have_answer : bool;
  rp_addrcount : Z;
  rp_addresses : list Z;
  rp_name : list Z
}.

(** Calling [req->user_callback]: the call is recorded; when the
    callback is the resolver's own probe callback its body runs.  The
    callback's parameters are of type [int]. *)
Definition invoke_callback (cb : callback) (result : dns_err)
    (type count ttl : Z) (data : cb_data) (arg : nat) : M unit :=
  emit (EvCallback cb result type count ttl data arg) ;;
  match cb with
  | probe_fn => nameserver_probe_callback result arg
  | user_fn _ => ret tt
  end.

(** [reply_callback(req, ttl, err, reply)]; [ttl] is a [u32] and is
    handed to the callback's [int ttl]. *)
Definition reply_callback (req : nat) (ttl : Z) (err : dns_err)
    (reply : option reply) : M unit :=
  r <- deref_req req ;;
  if r_request_type r =? TYPE_A then
    match reply with
    | Some rp =>
        invoke_callback (r_user_callback r) DNS_ERR_NONE DNS_IPv4_A
          (rp_addrcount rp) (int32 ttl) (data_addresses (rp_addresses rp))
          (r_user_pointer r)
    | None =>
        invoke_callback (r_user_callback r) err 0 0 0 data_null (r_user_pointer r)
    end
  else if r_request_type r =? TYPE_PTR then
    match reply with
    | Some rp =>
        invoke_callback (r_user_callback r) DNS_ERR_NONE DNS_PTR 1 (int32 ttl)
          (data_name (rp_name rp)) (r_user_pointer r)
    | None =>
        invoke_callback (r_user_callback r) err 0 0 0 data_null (r_user_pointer r)
    end
  else crash.                                          (* assert(0) *)

(** [request_reissue(req)]: 0 ok, 1 failed / reissue is pointless. *)
Definition request_reissue (req : nat) : M Z :=
  r <- deref_req req ;;
  let last_ns := r_ns r in
  ns <- nameserver_pick ;;
  update_req req (set_r_ns ns) ;;
  if bool_decide (ns = last_ns) then ret 1 else
  update_req req (fun r => set_r_reissue_count (r_reissue_count r + 1) r) ;;
  update_req req (set_r_tx_count 0) ;;
  update_req req (set_r_transmit_me true) ;;
  ret 0.

(** The [error_codes] table of [reply_handle]. *)
Definition error_codes : list dns_err :=
  [DNS_ERR_FORMAT; DNS_ERR_SERVERFAILED; DNS_ERR_NOTEXIST; DNS_ERR_NOTIMPL;
   DNS_ERR_REFUSED].

(** The error a reply's flags stand for. *)
Definition reply_error (flags : Z) : dns_err :=
  if negb (Z.land flags 0x0200 =? 0) then DNS_ERR_TRUNCATED else
  let error_code := (Z.land flags 0x000f - 1) mod 65536 in   (* u16 *)
  if error_code >? 4 then DNS_ERR_UNKNOWN
  else nth (Z.to_nat error_code) error_codes DNS_ERR_UNKNOWN.

Definition marks_bad_nameserver (error : dns_err) : bool :=
  match error with
  | DNS_ERR_SERVERFAILED | DNS_ERR_NOTIMPL | DNS_ERR_REFUSED => true
  | _ => false
  end.

(** The tail of the error branch of [reply_handle]: advance the
    search if there is one, otherwise pass the failure up. *)
Definition reply_handle_fail (req : nat) (error : dns_err) : M unit :=
  r <- deref_req req ;;
  next <-
    (if bool_decide (r_search_state r <> None)
        && negb (r_request_type r =? TYPE_PTR)
     then search_try_next req else ret 1) ;;
  if next =? 0 then
    (* a new request was issued so this request is finished *)
    request_finished req Inflight
  else
    reply_callback req 0 error None ;;
    request_finished req Inflight.

(** [reply_handle(req, flags, ttl, reply)] *)
Definition reply_handle (req : nat) (flags ttl : Z) (reply : option reply)
    : M unit :=
  let have_answer := match reply with Some rp => rp_have_answer rp | None => false end in
  if negb (Z.land flags 0x020f =? 0) || negb have_answer then
    (* there was an error *)
    let error := reply_error flags in
    if marks_bad_nameserver error then
      (* we regard these errors as marking a bad nameserver *)
      r <- deref_req req ;;
      s <- get ;;
      if r_reissue_count r <? global_max_reissues s then
        ns <- req_ns req ;;
        nameserver_failed ns ;;
        rc <- request_reissue req ;;
        if rc =? 0 then ret tt else reply_handle_fail req error
      else reply_handle_fail req error
    else
      (* we got a good reply from the nameserver *)
      ns <- req_ns req ;;
      nameserver_up ns ;;
      reply_handle_fail req error
  else
    (* all ok, tell the user *)
    reply_callback req ttl DNS_ERR_NONE reply ;;
    ns <- req_ns req ;;
    nameserver_up ns ;;
    request_finished req Inflight.

(** ** Reply parsing *)

(** [GET16(x)] and [GET32(x)]: the value and the advanced cursor, or
    [None] for the [return -1]. *)
Definition GET16 (packet : list Z) (length j : Z) : option (Z * Z) :=
  if j + 2 >? length then None else Some (u16_at packet j, j + 2).

Definition GET32 (packet : list Z) (length j : Z) : option (Z * Z) :=
  if j + 4 >? length then None else Some (u32_at packet j, j + 4).

(** The fixed 12-byte header. *)
Record header : Type := mkHeader {
  h_trans_id : Z;
  h_flags : Z;
  h_questions : Z;
  h_answers : Z;
  h_authority : Z;
  h_additional : Z
}.

Definition parse_header (packet : list Z) (length : Z) : option (header * Z) :=
  match GET16 packet length 0 with None => None | Some (trans_id, j) =>
  match GET16 packet length j with None => None | Some (flags, j) =>
  match GET16 packet length j with None => None | Some (questions, j) =>
  match GET16 packet length j with None => None | Some (answers, j) =>
  match GET16 packet length j with None => None | Some (authority, j) =>
  match GET16 packet length j with None => None | Some (additional, j) =>
    Some (mkHeader trans_id flags questions answers authority additional, j)
  end end end end end end.

(** Outcome of the parsing loops of [reply_parse]. *)
Inductive parse (A : Type) : Type :=
| PDone (a : A)
| PError        (* [return -1] *)
| PRunning.     (* a name decode is still running *)
Arguments PDone {A} a.
Arguments PError {A}.
Arguments PRunning {A}.

(** The question loop: [SKIP_NAME; j += 4; if (j >= length) return -1;]
    for each of the [n] questions. *)
Fixpoint skip_questions (fuel : nat) (n : nat) (packet : list Z) (length j : Z)
    : parse Z :=
  match n with
  | O => PDone j
  | S n' =>
      match name_parse fuel packet length j 256 with
      | NameParse.Error => PError
      | NameParse.Running => PRunning
      | NameParse.Parsed j _ =>
          let j := j + 4 in
          if j >=? length then PError
          else skip_questions fuel n' packet length j
      end
  end.

(** The locals of the answer loop. *)
Record answers : Type := mkAnswers {
  a_j : Z;
  a_reply : reply;
  a_ttl_r : Z
}.

(** The four fixed fields after an answer's name. *)
Definition answer_fields (packet : list Z) (length j : Z)
    : option (Z * Z * Z * Z * Z) :=
  match GET16 packet length j with None => None | Some (type, j) =>
  match GET16 packet length j with None => None | Some (class, j) =>
  match GET32 packet length j with None => None | Some (ttl, j) =>
  match GET16 packet length j with None => None | Some (datalength, j) =>
    Some (type, class, ttl, datalength, j)
  end end end end.

(** The answer loop, [n] answers to go. *)
Fixpoint parse_answers (fuel : nat) (n : nat) (request_type : Z)
    (packet : list Z) (length : Z) (a : answers) : parse answers :=
  match n with
  | O => PDone a
  | S n' =>
      match name_parse fuel packet length (a_j a) 256 with
      | NameParse.Error => PError
      | NameParse.Running => PRunning
      | NameParse.Parsed j _ =>
          match answer_fields packet length j with
          | None => PError
          | Some (type, class, ttl, datalength, j) =>
              let reply := a_reply a in
              let skip := parse_answers fuel n' request_type packet length
                            (mkAnswers (j + datalength) reply (a_ttl_r a)) in
              if (type =? TYPE_A) && (class =? CLASS_INET) then
                if negb (request_type =? TYPE_A) then skip else
                let addrcount := Z.shiftr datalength 2 in
                let addrtocopy := Z.min (MAX_ADDRS - rp_addrcount reply) addrcount in
                let ttl_r := Z.min (a_ttl_r a) ttl in
                if j + 4 * addrtocopy >? length then PError else
                let reply :=
                  mkReply (rp_type reply) true (rp_addrcount reply + addrtocopy)
                    (rp_addresses reply ++
                       List.map (fun k => u32_at packet (j + 4 * Z.of_nat k))
                                (seq 0 (Z.to_nat addrtocopy)))
                    (rp_name reply) in
                let a := mkAnswers (j + 4 * addrtocopy) reply ttl_r in
                if rp_addrcount reply =? MAX_ADDRS then PDone a
                else parse_answers fuel n' request_type packet length a
              else if (type =? TYPE_PTR) && (class =? CLASS_INET) then
                if negb (request_type =? TYPE_PTR) then skip else
                match name_parse fuel packet length j HOST_NAME_MAX with
                | NameParse.Error => PError
                | NameParse.Running => PRunning
                | NameParse.Parsed j name =>
                    PDone (mkAnswers j
                             (mkReply (rp_type reply) true (rp_addrcount reply)
                                (rp_addresses reply) name)
                             (a_ttl_r a))
                end
              else skip
          end
      end
  end.

(** [reply_parse(packet, length)]: 0, or -1 on a packet it rejects.
    [fuel] bounds each name decode. *)
Definition reply_parse (fuel : nat) (packet : list Z) (length : Z) : M Z :=
  match parse_header packet length with
  | None => ret (-1)
  | Some (h, j) =>
      req <- request_find_from_trans_id (h_trans_id h) ;;
      match req with
      | None => ret (-1)
      | Some req =>
          let flags := h_flags h in
          if Z.land flags 0x8000 =? 0 then ret (-1) else    (* must be an answer *)
          if negb (Z.land flags 0x020f =? 0) then
            (* there was an error *)
            reply_handle req flags 0 None ;;
            ret (-1)
          else
            r <- deref_req req ;;
            match skip_questions fuel (Z.to_nat (h_questions h)) packet length j with
            | PError => ret (-1)
            | PRunning => spin
            | PDone j =>
                match parse_answers fuel (Z.to_nat (h_answers h)) (r_request_type r)
                        packet length
                        (mkAnswers j (mkReply (r_request_type r) false 0 [] [])
                                   0xffffffff) with
                | PError => ret (-1)
                | PRunning => spin
                | PDone a =>
                    reply_handle req flags (a_ttl_r a) (Some (a_reply a)) ;;
                    ret 0
                end
            end
      end
  end.

(** One datagram of [nameserver_read(ns)]. *)
Definition nameserver_read (fuel : nat) (ns : nat) (packet : list Z) : M unit :=
  update_ns ns (set_ns_timedout 0) ;;
  _ <- reply_parse fuel packet (Z.of_nat (List.length packet)) ;;
  ret tt.

(** ** Timeouts and probes *)

(** [evdns_request_timeout_callback(fd, events, arg)] with [arg] the
    request. *)
Definition evdns_request_timeout_callback (req : nat) : M unit :=
  ns <- req_ns req ;;
  update_ns ns (fun n => set_ns_timedout (ns_timedout n + 1) n) ;;
  ns <- req_ns req ;;
  n <- deref_ns ns ;;
  s <- get ;;
  when (ns_timedout n >? global_max_nameserver_timeout s)
    (update_ns ns (set_ns_timedout 0) ;;
     ns <- req_ns req ;;
     nameserver_failed ns) ;;
  (* evtimer_del(&req->timeout_event) *)
  update_req req (set_r_timeout_event false) ;;
  r <- deref_req req ;;
  s <- get ;;
  if r_tx_count r >=? global_max_retransmits s then
    (* this request has failed *)
    reply_callback req 0 DNS_ERR_TIMEOUT None ;;
    request_finished req Inflight
  else
    (* retransmit it *)
    _ <- evdns_request_transmit req ;;
    ret tt.

(** [nameserver_send_probe(ns)] *)
Definition nameserver_send_probe (ns : nat) : M unit :=
  req <- request_new TYPE_A "www.google.com" DNS_QUERY_NO_SEARCH probe_fn ns ;;
  match req with
  | None => ret tt
  | Some req =>
      (* we force this into the inflight queue no matter what *)
      trans_id <- transaction_id_pick ;;
      request_trans_id_set req trans_id ;;
      update_req req (set_r_ns (Some ns)) ;;
      request_submit req
  end.

(** [nameserver_prod_callback(fd, events, arg)] *)
Definition nameserver_prod_callback (ns : nat) : M unit :=
  nameserver_send_probe ns.

(** ** Configuration calls *)

(** [evdns_count_nameservers()] *)
Definition evdns_count_nameservers : M Z :=
  s <- get ;;
  ret (Z.of_nat (List.length (server_head s))).

(** [evdns_clear_nameservers_and_suspend()] *)
Definition evdns_clear_nameservers_and_suspend : M Z :=
  s <- get ;;
  match server_head s with
  | [] => ret 0
  | _ :: _ =>
      for_each (server_head s) (fun server =>
        _ <- deref_ns server ;;
        (* event_del, evtimer_del, CLOSE_SOCKET, free(server) *)
        modify (fun s => set_nameservers (delete server (nameservers s)) s)) ;;
      modify (set_server_head []) ;;
      modify (set_global_good_nameservers 0) ;;
      for_each (req_head s) (fun req =>
        update_req req (fun r => set_r_reissue_count 0 (set_r_tx_count 0 r)) ;;
        update_req req (set_r_ns None) ;;
        update_req req (set_r_timeout_event false) ;;
        update_req req (set_r_trans_id 0) ;;
        update_req req (set_r_transmit_me false) ;;
        modify (fun s => set_global_requests_waiting (global_requests_waiting s + 1) s) ;;
        evdns_request_insert req Waiting ;;
        (* req_waiting_head = req_waiting_head->prev *)
        modify (fun s => set_req_waiting_head (ring_prev (req_waiting_head s)) s)) ;;
      modify (set_req_head []) ;;
      modify (set_global_requests_inflight 0) ;;
      ret 0
  end.

(** [evdns_resume()] *)
Definition evdns_resume : M Z :=
  evdns_requests_pump_waiting_queue ;;
  ret 0.

(** The duplicate check of [evdns_nameserver_add]: the stored
    [u32] against the [unsigned long] argument. *)
Fixpoint nameserver_known (l : list nat) (address : Z) : M bool :=
  match l with
  | [] => ret false
  | server :: l' =>
      n <- deref_ns server ;;
      if ns_address n =? address then ret true
      else nameserver_known l' address
  end.

(** [evdns_nameserver_add(address)]; [ns->address] is a [u32]. *)
Definition evdns_nameserver_add (address : Z) : M Z :=
  s <- get ;;
  dup <- nameserver_known (server_head s) address ;;
  if dup then ret 3 else
  ns <- malloc ;;
  s <- get ;;
  let answer := match env_socket s with
                | [] => SocketOk (Z.of_nat ns)
                | x :: _ => x
                end in
  modify (fun s => set_env_socket (tail (env_socket s)) s) ;;
  match answer with
  | SocketFails => ret 1
  | ConnectFails => ret 2
  | EventAddFails => ret 2
  | SocketOk fd =>
      modify (fun s => set_nameservers
        (<[ns := mkNameserver fd (u32 address) 0 0 None true false false]>
           (nameservers s)) s) ;;
      (* insert this nameserver into the list of them *)
      modify (fun s =>
        match server_head s with
        | [] => set_server_head [ns] s
        | h :: rest => set_server_head (h :: ns :: rest) s
        end) ;;
      modify (fun s => set_global_good_nameservers (global_good_nameservers s + 1) s) ;;
      ret 0
  end.

(** [evdns_resolve_ipv4(name, flags, callback, ptr)] *)
Definition evdns_resolve_ipv4 (name : string) (flags : Z)
    (callback : callback) (ptr : nat) : M Z :=
  if negb (Z.land flags DNS_QUERY_NO_SEARCH =? 0) then
    req <- request_new TYPE_A name flags callback ptr ;;
    match req with
    | None => ret 1
    | Some req => request_submit req ;; ret 0
    end
  else search_request_new TYPE_A name flags callback ptr.

(** ** resolv.conf *)

Section ResolvConf.

(** libc's [inet_aton]: the address, or [None] when it returns 0. *)
Variable inet_aton : string -> option Z.

(** libc's [strtol(str, &endptr, 10)]: the value and what [endptr]
    is left pointing at. *)
Variable strtol : string -> Z * string.

(** [evdns_nameserver_ip_add(ip_as_string)] *)
Definition evdns_nameserver_ip_add (ip_as_string : string) : M Z :=
  match inet_aton ip_as_string with
  | None => ret 4
  | Some address => evdns_nameserver_add address
  end.

(** [evdns_resolv_set_defaults(flags)] *)
Definition evdns_resolv_set_defaults (flags : Z) : M unit :=
  (* if the file isn't found then we assume a local resolver *)
  when (negb (Z.land flags DNS_OPTION_SEARCH =? 0)) search_set_from_hostname ;;
  when (negb (Z.land flags DNS_OPTION_NAMESERVERS =? 0))
    (_ <- evdns_nameserver_ip_add "127.0.0.1" ;; ret tt).

(** [strtoint(str)]; the [long] of [strtol] is stored in an [int]. *)
Definition strtoint (str : string) : Z :=
  let (r, endptr) := strtol str in
  match endptr with
  | EmptyString => int32 r
  | String _ _ => -1
  end.

Definition is_delim (c : ascii) : bool :=
  Ascii.eqb c " "%char || Ascii.eqb c "009"%char.

(** The tokens [strtok_r(_, " \t", _)] hands out for a line. *)
Fixpoint tokens (line : string) (cur : string) : list string :=
  match line with
  | EmptyString =>
      match cur with EmptyString => [] | _ => [cur] end
  | String c line' =>
      if is_delim c then
        match cur with
        | EmptyString => tokens line' EmptyString
        | _ => cur :: tokens line' EmptyString
        end
      else tokens line' (cur ++ String c EmptyString)%string
  end.

(** [!strncmp(option, prefix, strlen(prefix))]: the rest of the
    option after [prefix]. *)
Fixpoint strip_prefix (prefix opt : string) : option string :=
  match prefix, opt with
  | EmptyString, _ => Some opt
  | String p prefix', String c opt' =>
      if Ascii.eqb p c then strip_prefix prefix' opt' else None
  | String _ _, EmptyString => None
  end.

(** One token of an [options] line. *)
Definition resolv_conf_option (flags : Z) (opt : string) : M unit :=
  match strip_prefix "ndots:" opt with
  | Some v =>
      let ndots := strtoint v in
      if ndots =? -1 then ret tt else
      if Z.land flags DNS_OPTION_SEARCH =? 0 then ret tt else
      p <- global_search_state_force ;;
      update_search p (set_ss_ndots ndots)
  | None =>
  match strip_prefix "timeout:" opt with
  | Some v =>
      let timeout := strtoint v in
      if timeout =? -1 then ret tt else
      if Z.land flags DNS_OPTION_MISC =? 0 then ret tt else
      modify (set_global_timeout timeout)
  | None =>
  match strip_prefix "attempts:" opt with
  | Some v =>
      let retries := strtoint v in
      if retries =? -1 then ret tt else
      let retries := if retries >? 255 then 255 else retries in
      if Z.land flags DNS_OPTION_MISC =? 0 then ret tt else
      modify (set_global_max_retransmits retries)
  | None => ret tt
  end end end.

(** [resolv_conf_parse_line(start, flags)] *)
Definition resolv_conf_parse_line (start : string) (flags : Z) : M unit :=
  match tokens start EmptyString with
  | [] => ret tt
  | first_token :: rest =>
      if String.eqb first_token "nameserver" then
        match rest with
        | [] => crash                          (* inet_aton(NULL, _) *)
        | nameserver :: _ =>
            match inet_aton nameserver with
            | Some address => _ <- evdns_nameserver_add address ;; ret tt
            | None => ret tt
            end
        end
      else if String.eqb first_token "domain"
              && negb (Z.land flags DNS_OPTION_SEARCH =? 0) then
        match rest with
        | [] => ret tt
        | domain :: _ => search_postfix_clear ;; search_postfix_add domain
        end
      else if String.eqb first_token "search"
              && negb (Z.land flags DNS_OPTION_SEARCH =? 0) then
        search_postfix_clear ;;
        for_each rest search_postfix_add ;;
        search_reverse
      else if String.eqb first_token "options" then
        for_each rest (resolv_conf_option flags)
      else ret tt
  end.

(** What the file system answers for the file name given to
    [evdns_resolv_conf_parse]. *)
Record file : Type := mkFile {
  f_open : bool;       (* [open] returned a descriptor *)
  f_fstat : bool;      (* [fstat] succeeded *)
  f_size : Z;          (* [st.st_size] *)
  f_malloc : bool;     (* the buffer could be allocated *)
  f_read : Z;          (* what [read] returned *)
  f_data : string      (* the bytes read *)
}.

Definition newline : ascii := "010"%char.

(** The pieces of the buffer between newlines. *)
Fixpoint split_lines (data : string) (cur : string) : list string :=
  match data with
  | EmptyString => [cur]
  | String c data' =>
      if Ascii.eqb c newline then cur :: split_lines data' EmptyString
      else split_lines data' (cur ++ String c EmptyString)%string
  end.

(** [evdns_resolv_conf_parse(flags, filename)] *)
Definition evdns_resolv_conf_parse (flags : Z) (f : file) : M Z :=
  if negb (f_open f) then
    evdns_resolv_set_defaults flags ;;
    ret 0
  else if negb (f_fstat f) then ret 2
  else if f_size f =? 0 then
    evdns_resolv_set_defaults flags ;;
    ret 0
  else if f_size f >? 65535 then ret 3
  else if negb (f_malloc f) then ret 4
  else if negb (f_read f =? f_size f) then ret 5
  else
    for_each (split_lines (f_data f) EmptyString)
      (fun start => resolv_conf_parse_line start flags) ;;
    s <- get ;;
    when (bool_decide (server_head s = [])
          && negb (Z.land flags DNS_OPTION_NAMESERVERS =? 0))
      (_ <- evdns_nameserver_ip_add "127.0.0.1" ;; ret tt) ;;
    s <- get ;;
    no_domains <-
      (match global_search_state s with
       | None => ret true
       | Some p => st <- deref_search p ;; ret (ss_num_domains st =? 0)
       end) ;;
    when (negb (Z.land flags DNS_OPTION_SEARCH =? 0) && no_domains)
      search_set_from_hostname ;;
    ret 0.

End ResolvConf.

(** ** The server side

    The responder's pure core: the question parser, the records the
    user attaches to a request, and the response encoder with its
    name compression.  The port's socket and its queue of pending
    replies are not part of it; [malloc] and [strdup] do not fail. *)

Module Server.

(** *** Name compression *)

Definition MAX_LABELS : Z := 128.

(** [struct dnslabel_table]: the entries in use, oldest first; an
    entry is the name that starts at a label and the label's
    position in the message. *)
Definition dnslabel_table : Type := list (string * Z).

(** [dnslabel_table_get_pos(table, label)] *)
Fixpoint dnslabel_table_get_pos (table : dnslabel_table) (label : string) : Z :=
  match table with
  | [] => -1
  | (v, pos) :: table' =>
      if String.eqb label v then pos
      else dnslabel_table_get_pos table' label
  end.

(** [dnslabel_table_add(table, label, pos)]: the return value and
    the table. *)
Definition dnslabel_table_add (table : dnslabel_table) (label : string) (pos : Z)
    : Z * dnslabel_table :=
  if Z.of_nat (List.length table) =? MAX_LABELS then (-1, table)
  else (0, table ++ [(label, pos)]).

(** The string at [start] when the labels [ls] are still to be
    written: the rest of the name. *)
Definition name_at (ls : list string) : string := String.concat "." ls.

(** The label loop of [dnsname_to_labels] with a table.  The flag of
    the result tells whether the loop was left by the [return j]
    behind a pointer. *)
Fixpoint dnsname_to_labels_loop (ls : list string) (buf : list Z) (buf_len : Z)
    (table : dnslabel_table) : Z + (list Z * dnslabel_table * bool) :=
  match ls with
  | [] => inr (buf, table, false)
  | l :: ls' =>
      let ref := dnslabel_table_get_pos table (name_at ls) in
      if ref >=? 0 then
        match APPEND16 (Z.lor ref 0xc000) buf buf_len with
        | inl e => inl e
        | inr buf' => inr (buf', table, true)
        end
      else
        let label_len := strlen l in
        let j := buf_pos buf in
        if label_len >? 63 then inl (-1)
        else if j + label_len + 1 >? buf_len then inl (-2)
        else
          let table := snd (dnslabel_table_add table (name_at ls) j) in
          dnsname_to_labels_loop ls' (buf ++ [label_len] ++ bytes_of_string l)
            buf_len table
  end.

(** [dnsname_to_labels(buf, buf_len, j, name, name_len, table)] with
    a table; [j] is the length of [buf].  On an error the caller
    gives the message up, so the table is not returned then.  The
    terminating zero is written without a look at [buf_len], so the
    result may be one byte longer than [buf_len]. *)
Definition dnsname_to_labels (buf : list Z) (buf_len : Z) (name : string)
    (name_len : Z) (table : dnslabel_table) : Z + (list Z * dnslabel_table) :=
  if name_len >? 255 then inl (-2) else
  match dnsname_to_labels_loop (split_labels name EmptyString) buf buf_len table with
  | inl e => inl e
  | inr (buf', table', true) => inr (buf', table')
  | inr (buf', table', false) =>
      if (buf_pos buf' =? 0) || negb (List.last buf' 0 =? 0)
      then inr (buf' ++ [0], table')
      else inr (buf', table')
  end.

(** *** Requests and their records *)

(** [struct evdns_server_question] *)
Record question : Type := mkQuestion {
  q_type : Z;
  q_class : Z;
  q_name : string
}.

(** [struct server_request_item]; [i_data] is the memory at [data],
    [None] for NULL. *)
Record item : Type := mkItem {
  i_name : string;
  i_type : Z;            (* unsigned, 16 bits *)
  i_class : Z;           (* unsigned, 16 bits *)
  i_ttl : Z;
  i_is_name : bool;
  i_datalen : Z;         (* signed, 31 bits *)
  i_data : option (list Z)
}.

(** [struct server_request] with the fields of its [base];
    [nquestions] is the length of [sr_questions]. *)
Record server_request : Type := mkServerRequest {
  sr_trans_id : Z;
  sr_flags : Z;
  sr_questions : list question;
  sr_n_answer : Z;
  sr_n_authority : Z;
  sr_n_additional : Z;
  sr_answer : list item;
  sr_authority : list item;
  sr_additional : list item;
  sr_response : option (list Z)
}.

(** Modelled from the spec: the section constants of [eventdns.h],
    which is not part of the sources; the spec names the three
    sections answer, authority and additional.  [OtherSection] is any
    other value, the [default] of the switch. *)
Inductive section : Type :=
| EVDNS_ANSWER_SECTION
| EVDNS_AUTHORITY_SECTION
| EVDNS_ADDITIONAL_SECTION
| OtherSection.

(** A signed bit field of 31 bits. *)
Definition int31 (x : Z) : Z := (x + 2 ^ 30) mod 2 ^ 31 - 2 ^ 30.

(** The C string at the start of [bytes]: the bytes before the first
    zero. *)
Fixpoint c_str (bytes : list Z) : list Z :=
  match bytes with
  | [] => []
  | b :: bytes' => if b =? 0 then [] else b :: c_str bytes'
  end.

(** Linking [item] in at the end of a section and counting it. *)
Definition section_add (req : server_request) (section : section) (item : item)
    : Z * server_request :=
  match section with
  | EVDNS_ANSWER_SECTION =>
      (0, mkServerRequest (sr_trans_id req) (sr_flags req) (sr_questions req)
            (sr_n_answer req + 1) (sr_n_authority req) (sr_n_additional req)
            (sr_answer req ++ [item]) (sr_authority req) (sr_additional req)
            (sr_response req))
  | EVDNS_AUTHORITY_SECTION =>
      (0, mkServerRequest (sr_trans_id req) (sr_flags req) (sr_questions req)
            (sr_n_answer req) (sr_n_authority req + 1) (sr_n_additional req)
            (sr_answer req) (sr_authority req ++ [item]) (sr_additional req)
            (sr_response req))
  | EVDNS_ADDITIONAL_SECTION =>
      (0, mkServerRequest (sr_trans_id req) (sr_flags req) (sr_questions req)
            (sr_n_answer req) (sr_n_authority req) (sr_n_additional req + 1)
            (sr_answer req) (sr_authority req) (sr_additional req ++ [item])
            (sr_response req))
  | OtherSection => (-1, req)
  end.

(** [evdns_request_add_reply(req, section, name, type, class, ttl,
    datalen, is_name, data)]: the return value and the request.
    [data] is the memory at [data]; a negative [datalen] makes the
    [malloc] of the copy fail, every other allocation succeeds. *)
Definition evdns_request_add_reply (req : server_request) (section : section)
    (name : string) (type class ttl datalen is_name : Z) (data : option (list Z))
    : Z * server_request :=
  match sr_response req with
  | Some _ => (-1, req)                     (* have we already answered? *)
  | None =>
      match section with
      | OtherSection => (-1, req)
      | _ =>
          let is_name := negb (is_name =? 0) in
          let new datalen data :=
            section_add req section
              (mkItem name (Z.land type 0xffff) (Z.land class 0xffff) ttl is_name
                 datalen data) in
          match data with
          | None => new 0 None
          | Some d =>
              if is_name then new (int31 (-1)) (Some (c_str d))
              else if datalen <? 0 then (-1, req)
              else new (int31 datalen) (Some (bytes_at d 0 datalen))
          end
      end
  end.

(** [evdns_request_add_a_reply(req, name, n, addrs, ttl)] *)
Definition evdns_request_add_a_reply (req : server_request) (name : string) (n : Z)
    (addrs : option (list Z)) (ttl : Z) : Z * server_request :=
  evdns_request_add_reply req EVDNS_ANSWER_SECTION name TYPE_A CLASS_INET ttl
    (n * 4) 0 addrs.

(** [evdns_request_add_aaaa_reply(req, name, n, addrs, ttl)] *)
Definition evdns_request_add_aaaa_reply (req : server_request) (name : string) (n : Z)
    (addrs : option (list Z)) (ttl : Z) : Z * server_request :=
  evdns_request_add_reply req EVDNS_ANSWER_SECTION name TYPE_AAAA CLASS_INET ttl
    (n * 16) 0 addrs.

(** [evdns_request_add_cname_reply(req, name, cname, ttl)] *)
Definition evdns_request_add_cname_reply (req : server_request) (name : string)
    (cname : option (list Z)) (ttl : Z) : Z * server_request :=
  evdns_request_add_reply req EVDNS_ANSWER_SECTION name TYPE_A CLASS_INET ttl
    (-1) 1 cname.

(** *** The response encoder *)

(** [APPEND32(x)] *)
Definition APPEND32 (x : Z) (buf : list Z) (buf_len : Z) : Z + list Z :=
  if buf_pos buf + 4 >? buf_len then inl (-1)
  else inr (buf ++ [Z.land (Z.shiftr x 24) 0xff; Z.land (Z.shiftr x 16) 0xff;
                    Z.land (Z.shiftr x 8) 0xff; Z.land x 0xff]).

(** [_t = htons(x); memcpy(buf + idx, &_t, 2);] *)
Definition store16 (buf : list Z) (idx : Z) (x : Z) : list Z :=
  <[S (Z.to_nat idx) := Z.land x 0xff]>
    (<[Z.to_nat idx := Z.land (Z.shiftr x 8) 0xff]> buf).

(** The question loop of [evdns_request_response_format]. *)
Fixpoint format_questions (qs : list question) (buf : list Z) (buf_len : Z)
    (table : dnslabel_table) : Z + (list Z * dnslabel_table) :=
  match qs with
  | [] => inr (buf, table)
  | q :: qs' =>
      match dnsname_to_labels buf buf_len (q_name q) (strlen (q_name q)) table with
      | inl e => inl e
      | inr (buf, table) =>
          match and_then (APPEND16 (q_type q) buf buf_len) (fun buf =>
                APPEND16 (q_class q) buf buf_len) with
          | inl e => inl e
          | inr buf => format_questions qs' buf buf_len table
          end
      end
  end.

(** The [while (item)] loop over one section; [None] is the
    dereference of a NULL [data] (or the [memcpy] of a negative
    length). *)
Fixpoint format_items (items : list item) (buf : list Z) (buf_len : Z)
    (table : dnslabel_table) : option (Z + (list Z * dnslabel_table)) :=
  match items with
  | [] => Some (inr (buf, table))
  | item :: items' =>
      match dnsname_to_labels buf buf_len (i_name item) (strlen (i_name item)) table with
      | inl e => Some (inl e)
      | inr (buf, table) =>
          match and_then (APPEND16 (i_type item) buf buf_len) (fun buf =>
                and_then (APPEND16 (i_class item) buf buf_len) (fun buf =>
                APPEND32 (i_ttl item) buf buf_len)) with
          | inl e => Some (inl e)
          | inr buf =>
              if i_is_name item then
                match i_data item with
                | None => None                          (* strlen(NULL) *)
                | Some d =>
                    let len_idx := buf_pos buf in
                    let buf := buf ++ [0; 0] in         (* j += 2 *)
                    let name_start := buf_pos buf in
                    let name := string_of_bytes d in
                    match dnsname_to_labels buf buf_len name (strlen name) table with
                    | inl e => Some (inl e)
                    | inr (buf, table) =>
                        format_items items'
                          (store16 buf len_idx (buf_pos buf - name_start))
                          buf_len table
                    end
                end
              else
                match APPEND16 (i_datalen item) buf buf_len with
                | inl e => Some (inl e)
                | inr buf =>
                    if buf_pos buf + i_datalen item >? buf_len then Some (inl (-1))
                    else if i_datalen item <? 0 then None
                    else
                      let data := match i_data item with
                                  | Some d => d
                                  | None => []
                                  end in
                      format_items items'
                        (buf ++ bytes_at data 0 (i_datalen item)) buf_len table
                end
          end
      end
  end.

(** [evdns_request_response_format(req, flags)]: the return value
    and the request, or [None] where the encoder faults. *)
Definition evdns_request_response_format (req : server_request) (flags : Z)
    : option (Z * server_request) :=
  let buf_len := 1500 in
  match and_then (APPEND16 (sr_trans_id req) [] buf_len) (fun buf =>
        and_then (APPEND16 flags buf buf_len) (fun buf =>
        and_then (APPEND16 (Z.of_nat (List.length (sr_questions req))) buf buf_len)
          (fun buf =>
        and_then (APPEND16 (sr_n_answer req) buf buf_len) (fun buf =>
        and_then (APPEND16 (sr_n_authority req) buf buf_len) (fun buf =>
        APPEND16 (sr_n_additional req) buf buf_len))))) with
  | inl e => Some (e, req)
  | inr buf =>
      match format_questions (sr_questions req) buf buf_len [] with
      | inl e => Some (e, req)
      | inr (buf, table) =>
          match format_items (sr_answer req) buf buf_len table with
          | None => None
          | Some (inl e) => Some (e, req)
          | Some (inr (buf, table)) =>
              match format_items (sr_authority req) buf buf_len table with
              | None => None
              | Some (inl e) => Some (e, req)
              | Some (inr (buf, table)) =>
                  match format_items (sr_additional req) buf buf_len table with
                  | None => None
                  | Some (inl e) => Some (e, req)
                  | Some (inr (buf, _)) =>
                      (* evdns_server_request_free_answers(req) *)
                      Some (0, mkServerRequest (sr_trans_id req) (sr_flags req)
                                 (sr_questions req) (sr_n_answer req)
                                 (sr_n_authority req) (sr_n_additional req)
                                 [] [] [] (Some buf))
                  end
              end
          end
      end
  end.

(** *** The question parser *)

(** The question loop of [request_parse]. *)
Fixpoint parse_questions (fuel : nat) (n : nat) (packet : list Z) (length j : Z)
    (questions : list question) : parse (list question) :=
  match n with
  | O => PDone questions
  | S n' =>
      match name_parse fuel packet length j 256 with
      | NameParse.Error => PError
      | NameParse.Running => PRunning
      | NameParse.Parsed j tmp_name =>
          match GET16 packet length j with None => PError | Some (type, j) =>
          match GET16 packet length j with None => PError | Some (class, j) =>
            parse_questions fuel n' packet length j
              (questions ++ [mkQuestion type class (string_of_bytes (c_str tmp_name))])
          end end
      end
  end.

(** [request_parse(packet, length, port, addr, addrlen)]: the request
    handed to the port's callback and the port's reference count, or
    the [return -1].  [fuel] bounds each name decode. *)
Definition request_parse (fuel : nat) (packet : list Z) (length : Z) (refcnt : Z)
    : parse (server_request * Z) :=
  match parse_header packet length with
  | None => PError
  | Some (h, j) =>
      if negb (Z.land (h_flags h) 0x8000 =? 0) then PError   (* must not be an answer *)
      else
        match parse_questions fuel (Z.to_nat (h_questions h)) packet length j [] with
        | PError => PError
        | PRunning => PRunning
        | PDone questions =>
            PDone (mkServerRequest (h_trans_id h) (h_flags h) questions 0 0 0
                     [] [] [] None, refcnt + 1)
        end
  end.

End Server.

(** ** The rings as linked cells

    The ring primitives once more, this time on the [next] / [prev]
    cells of [struct request] themselves, statement by statement. *)

Module Ptr.

Record cell : Type := mkCell {
  next : option nat;
  prev : option nat;
  trans_id : Z
}.

Definition set_next (v : option nat) (c : cell) : cell :=
  mkCell v (prev c) (trans_id c).
Definition set_prev (v : option nat) (c : cell) : cell :=
  mkCell (next c) v (trans_id c).
Definition set_trans_id (v : Z) (c : cell) : cell :=
  mkCell (next c) (prev c) v.

(** [p->field = ...]; [None] when [p] is NULL or not allocated. *)
Definition store (p : option nat) (f : cell -> cell) (m : gmap nat cell)
    : option (gmap nat cell) :=
  match p with
  | None => None
  | Some a =>
      match m !! a with
      | None => None
      | Some c => Some (<[a := f c]> m)
      end
  end.

(** [*p] *)
Definition load (p : option nat) (m : gmap nat cell) : option cell :=
  match p with
  | None => None
  | Some a => m !! a
  end.

(** [evdns_request_insert(req, head)]: the new [*head] and memory. *)
Definition evdns_request_insert (req : nat) (head : option nat)
    (m : gmap nat cell) : option (option nat * gmap nat cell) :=
  match head with
  | None =>
      (* the ring was empty: req becomes the head, linked to itself *)
      match store (Some req) (fun c => set_next (Some req) (set_prev (Some req) c)) m with
      | None => None
      | Some m => Some (Some req, m)
      end
  | Some h =>
      (* req->prev = the head's prev; *)
      match load head m with None => None | Some hc =>
      match store (Some req) (set_prev (prev hc)) m with None => None | Some m =>
      (* req->prev->next = req; *)
      match load (Some req) m with None => None | Some rc =>
      match store (prev rc) (set_next (Some req)) m with None => None | Some m =>
      (* req->next = the head; *)
      match store (Some req) (set_next head) m with None => None | Some m =>
      (* the head's prev = req; *)
      match store head (set_prev (Some req)) m with None => None | Some m =>
        Some (head, m)
      end end end end end end
  end.

(** The request loop of [evdns_clear_nameservers_and_suspend], from
    [req] on: the new [req_waiting_head] and memory. *)
Fixpoint suspend_loop (fuel : nat) (req req_started_at : nat)
    (req_waiting_head : option nat) (m : gmap nat cell)
    : option (option nat * gmap nat cell) :=
  match fuel with
  | O => None
  | S fuel' =>
      match load (Some req) m with None => None | Some c =>
      let next := next c in
      match store (Some req) (set_trans_id 0) m with None => None | Some m =>
      match evdns_request_insert req req_waiting_head m with None => None
      | Some (req_waiting_head, m) =>
      (* req_waiting_head = req_waiting_head->prev; *)
      match load req_waiting_head m with None => None | Some wc =>
      let req_waiting_head := prev wc in
      if bool_decide (next = Some req_started_at) then Some (req_waiting_head, m)
      else
        match next with
        | None => None
        | Some req => suspend_loop fuel' req req_started_at req_waiting_head m
        end
      end end end end
  end.

Definition suspend (req_head req_waiting_head : option nat) (m : gmap nat cell)
    : option (option nat * gmap nat cell) :=
  match req_head with
  | None => Some (req_waiting_head, m)
  | Some req => suspend_loop (size m) req req req_waiting_head m
  end.

(** A ring read from [p] along [next] until it is back at [stop]. *)
Fixpoint walk (fuel : nat) (p stop : nat) (m : gmap nat cell) : option (list nat) :=
  match fuel with
  | O => None
  | S fuel' =>
      match m !! p with
      | None => None
      | Some c =>
          match next c with
          | None => None
          | Some n =>
              if Nat.eqb n stop then Some [p]
              else match walk fuel' n stop m with
                   | None => None
                   | Some l => Some (p :: l)
                   end
          end
      end
  end.

Definition ring_of (head : option nat) (m : gmap nat cell) : option (list nat) :=
  match head with
  | None => Some []
  | Some h => walk (size m) h h m
  end.

(** The [do ... while] of [transaction_id_pick]: where [req] stands
    when the loop is left. *)
Fixpoint scan (fuel : nat) (req started_at : nat) (id : Z) (m : gmap nat cell)
    : option nat :=
  match fuel with
  | O => None
  | S fuel' =>
      match m !! req with
      | None => None
      | Some c =>
          if trans_id c =? id then Some req                 (* break *)
          else match next c with
               | None => None
               | Some n =>
                   if Nat.eqb n started_at then Some n      (* req == started_at *)
                   else scan fuel' n started_at id m
               end
      end
  end.

(** Whether [transaction_id_pick] accepts [id]:
    [if (req == started_at) return trans_id;] *)
Definition accepts (req_head : option nat) (id : Z) (m : gmap nat cell)
    : option bool :=
  match req_head with
  | None => Some true
  | Some h =>
      match scan (size m) h h id m with
      | None => None
      | Some req => Some (Nat.eqb req h)
      end
  end.

(** Cells laid out as a well-formed ring over [l], with the given
    transaction ids. *)
Definition cell_at (l : list nat) (ids : list Z) (i : nat) : cell :=
  let n := List.length l in
  mkCell (l !! ((i + 1) mod n)%nat) (l !! ((i + n - 1) mod n)%nat)
         (nth i ids 0).

Definition layout (l : list nat) (ids : list Z) (m : gmap nat cell)
    : gmap nat cell :=
  fold_right (fun i m => match l !! i with
                         | Some a => <[a := cell_at l ids i]> m
                         | None => m
                         end)
             m (seq 0 (List.length l)).

End Ptr.

(** ** Specification vocabulary *)

(** [wp m Q s]: the run of [m] from [s] does not run out of
    iterations and, if it returns, returns a value and a state
    satisfying [Q].  A crash of the program satisfies it. *)
Definition wp {A : Type} (m : M A) (Q : A -> state -> Prop) (s : state) : Prop :=
  match m s with
  | Ok a s' => Q a s'
  | Crash => True
  | Spin => False
  end.

(** Every run of [m] relates its final state to its initial one. *)
Definition preserves {A : Type} (R : state -> state -> Prop) (m : M A) : Prop :=
  forall s, wp m (fun _ s' => R s s') s.

Definition is_callback (e : event) : bool :=
  match e with
  | EvCallback _ _ _ _ _ _ _ => true
  | EvSend _ _ _ _ => false
  end.

(** The callback invocations of a trace. *)
Definition callbacks (t : list event) : list event := List.filter is_callback t.

(** The tunables nothing but configuration touches. *)
Definition same_config (s s' : state) : Prop :=
  global_max_requests_inflight s' = global_max_requests_inflight s /\
  global_max_reissues s' = global_max_reissues s /\
  global_max_retransmits s' = global_max_retransmits s /\
  global_max_nameserver_timeout s' = global_max_nameserver_timeout s.

(** What the transport layer leaves alone in a request: everything
    but its nameserver, its transmit count and flag and its timer. *)
Definition same_request (r r' : request) : Prop :=
  r_request r' = r_request r /\
  r_request_len r' = r_request_len r /\
  r_reissue_count r' = r_reissue_count r /\
  r_request_type r' = r_request_type r /\
  r_user_pointer r' = r_user_pointer r /\
  r_user_callback r' = r_user_callback r /\
  r_search_index r' = r_search_index r /\
  r_search_state r' = r_search_state r /\
  r_search_origname r' = r_search_origname r /\
  r_search_flags r' = r_search_flags r /\
  r_trans_id r' = r_trans_id r.

(** A nameserver that was not brought up and whose run of timeouts
    was not touched. *)
Definition settled_nameserver (n n' : nameserver) : Prop :=
  ns_address n' = ns_address n /\
  ns_timedout n' = ns_timedout n /\
  (ns_state n' = true -> ns_state n = true).

Definition lifted {A : Type} (R : A -> A -> Prop) (o o' : option A) : Prop :=
  match o, o' with
  | Some a, Some a' => R a a'
  | None, None => True
  | _, _ => False
  end.

(** The footprint of the transport layer ([nameserver_pick],
    [nameserver_failed], [evdns_request_transmit], [evdns_transmit],
    [transaction_id_pick]). *)
Definition transport (s s' : state) : Prop :=
  req_head s' = req_head s /\
  req_waiting_head s' = req_waiting_head s /\
  global_requests_inflight s' = global_requests_inflight s /\
  global_requests_waiting s' = global_requests_waiting s /\
  same_config s s' /\
  search_states s' = search_states s /\
  global_search_state s' = global_search_state s /\
  callbacks (trace s') = callbacks (trace s) /\
  (forall p, lifted same_request (requests s !! p) (requests s' !! p)) /\
  (forall p, lifted settled_nameserver (nameservers s !! p) (nameservers s' !! p)).

(** What holds across every call but those that bring a nameserver
    up, count a timeout or invoke a callback. *)
Definition steady (s s' : state) : Prop :=
  same_config s s' /\
  callbacks (trace s') = callbacks (trace s) /\
  (forall p n, nameservers s !! p = Some n ->
     exists n', nameservers s' !! p = Some n' /\ settled_nameserver n n').

(** [req] has been freed and is on neither ring's inflight side. *)
Definition gone (req : nat) (s : state) : Prop :=
  requests s !! req = None /\ ~ In req (req_head s).

(** The inflight counter stays under the larger of its old value and
    the cap. *)
Definition capped (s s' : state) : Prop :=
  global_max_requests_inflight s' = global_max_requests_inflight s /\
  global_requests_inflight s' <=
    Z.max (global_requests_inflight s) (global_max_requests_inflight s).

(** *** Search order, in the words of the specification *)

Definition ends_with_dot (name : string) : bool :=
  match last_char name with
  | Some c => Ascii.eqb c dot
  | None => false
  end.

(** [name] with [suffix] appended. *)
Definition with_suffix (name suffix : string) : string :=
  (name ++ (if ends_with_dot name then EmptyString else ".") ++ suffix)%string.

(** The attempt order: the bare name first and then each suffix when
    the name has at least [ndots] dots, each suffix first and the bare
    name last otherwise. *)
Definition search_order (ndots : Z) (suffixes : list string) (name : string)
    : list string :=
  if string_num_dots name >=? ndots
  then name :: List.map (with_suffix name) suffixes
  else List.map (with_suffix name) suffixes ++ [name].

(** Where in the attempt order a search request with index
    [search_index] stands. *)
Definition search_position (ndots : Z) (name : string) (search_index : Z) : Z :=
  if string_num_dots name >=? ndots then search_index + 1 else search_index.

(** [packet] is the query [request_new] builds for [name]. *)
Definition query_for (name : string) (type : Z) (packet : list Z) : Prop :=
  exists trans_id,
    evdns_request_data_build name (strlen name) trans_id type CLASS_INET
      (evdns_request_len (strlen name)) = inr packet.

(** The names a trace's datagrams ask for: the labels of each query
    sent, joined with dots. *)
Definition sent_to (e : event) : option (nat * nat) :=
  match e with
  | EvSend ns req _ _ => Some (ns, req)
  | EvCallback _ _ _ _ _ _ _ => None
  end.

Definition sent_name (e : event) : option string :=
  match e with
  | EvSend _ _ packet _ =>
      match name_parse 256 packet (Z.of_nat (List.length packet)) 12 256 with
      | NameParse.Parsed _ name => Some (string_of_bytes name)
      | _ => None
      end
  | EvCallback _ _ _ _ _ _ _ => None
  end.

Definition sent_requests (t : list event) : list nat :=
  omap (fun e => option_map snd (sent_to e)) t.

Definition sent_names (t : list event) : list string := omap sent_name t.

(** What the calls that send nothing leave alone in a request beyond
    [same_request]: its transmit count and flag and its timer. *)
Definition same_schedule (r r' : request) : Prop :=
  r_tx_count r' = r_tx_count r /\
  r_transmit_me r' = r_transmit_me r /\
  r_timeout_event r' = r_timeout_event r.

(** The footprint of the calls that send nothing ([nameserver_pick],
    [nameserver_failed], [transaction_id_pick]). *)
Definition quiet (s s' : state) : Prop :=
  transport s s' /\
  trace s' = trace s /\
  (forall p, lifted same_schedule (requests s !! p) (requests s' !! p)).

(** The tunables and the nameservers' standing, without the trace. *)
Definition settled (s s' : state) : Prop :=
  same_config s s' /\
  (forall p n, nameservers s !! p = Some n ->
     exists n', nameservers s' !! p = Some n' /\ settled_nameserver n n').

(** Requests that are gone stay gone. *)
Definition freed_stay (s s' : state) : Prop :=
  forall req, gone req s -> gone req s'.

(** What holds across a run of the waiting-queue pump. *)
Definition pumped (s s' : state) : Prop :=
  steady s s' /\ capped s s' /\ freed_stay s s'.

(** Housekeeping that keeps the state steady and does not touch the
    inflight ring. *)
Definition tidy (s s' : state) : Prop :=
  steady s s' /\ req_head s' = req_head s.

(** Nothing is added to the trace. *)
Definition silent (s s' : state) : Prop := trace s' = trace s.

(** The allocator has not moved and no request was written. *)
Definition same_heap (s s' : state) : Prop :=
  next_ptr s' = next_ptr s /\ requests s' = requests s.

(** The inflight counter is within the cap. *)
Definition under_cap (s : state) : Prop :=
  global_requests_inflight s <= global_max_requests_inflight s.

(** [req] has been built by [request_new] and may be submitted: it
    has a nameserver only if there is room on the inflight ring. *)
Definition submittable (req : nat) (s : state) : Prop :=
  under_cap s /\
  exists r, requests s !! req = Some r /\
    (r_ns r <> None ->
     global_requests_inflight s < global_max_requests_inflight s).

(** The request [request_new] stores for a packet it has built. *)
Definition new_request (packet : list Z) (type : Z) (user_ptr : nat)
    (cb : callback) (ns : option nat) (trans_id : Z) : request :=
  mkRequest packet (buf_pos packet) 0 0 type user_ptr cb ns 0 None None 0 false
            trans_id false.

(** A request that carries a search on; [k] is its place in the
    attempt order. *)
Definition searching (sp : nat) (st : search_state) (name : string) (flags : Z)
    (k : nat) (r : request) : Prop :=
  r_search_state r = Some sp /\
  r_search_origname r = Some name /\
  r_search_flags r = flags /\
  r_search_index r < ss_num_domains st /\
  search_position (ss_ndots st) name (r_search_index r) = Z.of_nat k.

(** The closing attempt: the bare name, tried after every suffix,
    carries no search. *)
Definition closing (st : search_state) (name : string) (k : nat) (r : request)
    : Prop :=
  r_search_state r = None /\
  string_num_dots name < ss_ndots st /\
  k = List.length (ss_head st).

(** The reply's error reaches the request's callback and the request
    is finished, unless a search moves on to its next candidate, in
    which case the request is finished without a callback. *)
Definition surfaced (req : nat) (r : request) (error : dns_err) (s s' : state)
    : Prop :=
  gone req s' /\
  (callbacks (trace s') =
     callbacks (trace s) ++
     [EvCallback (r_user_callback r) error 0 0 0 data_null (r_user_pointer r)]
   \/
   (r_search_state r <> None /\ r_request_type r <> TYPE_PTR /\
    callbacks (trace s') = callbacks (trace s))).

(** The request is queued for transmission to [picked]: nothing is
    sent and no callback invoked yet. *)
Definition reissued (req : nat) (r : request) (picked : option nat)
    (s s' : state) : Prop :=
  trace s' = trace s /\
  req_head s' = req_head s /\
  exists r', requests s' !! req = Some r' /\
    r_ns r' = picked /\
    r_reissue_count r' = r_reissue_count r + 1 /\
    r_tx_count r' = 0 /\
    r_transmit_me r' = true.

(** Requests that have been transmitted keep their nameserver. *)
Definition sent_kept (s s' : state) : Prop :=
  forall p r, requests s !! p = Some r -> r_tx_count r <> 0 ->
    exists r', requests s' !! p = Some r' /\
      r_ns r' = r_ns r /\ r_tx_count r' = r_tx_count r.

(** The fields a callback is made from. *)
Definition same_caller (r r' : request) : Prop :=
  r_user_callback r' = r_user_callback r /\
  r_user_pointer r' = r_user_pointer r /\
  r_request_type r' = r_request_type r.

(** Some request on the inflight ring has the transaction id [id]. *)
Definition collides (id : Z) (s : state) : Prop :=
  exists req r, In req (req_head s) /\ requests s !! req = Some r /\ r_trans_id r = id.

(** The request at the head of the inflight ring has the id [id]. *)
Definition head_has (id : Z) (s : state) : Prop :=
  exists h r, head (req_head s) = Some h /\ requests s !! h = Some r /\ r_trans_id r = id.

(** [req] is as [evdns_clear_nameservers_and_suspend] leaves a request:
    transaction id 0 and no nameserver. *)
Definition suspended (req : nat) (s : state) : Prop :=
  exists r, requests s !! req = Some r /\ r_trans_id r = 0 /\ r_ns r = None.

(** *** Names on the wire *)

(** The labels of a name: its pieces between dots. *)
Definition labels (name : string) : list string := split_labels name EmptyString.

(** Labels as [dnsname_to_labels] writes them: each one behind its
    length byte. *)
Definition wire_labels (ls : list string) : list Z :=
  flat_map (fun l => strlen l :: bytes_of_string l) ls.

(** A C string holds no NUL byte. *)
Definition c_string (s : string) : Prop := ~ In 0 (bytes_of_string s).

(** What [name_parse] leaves in [name_out] after one more label. *)
Definition with_label (out : list Z) (l : string) : list Z :=
  (if Nat.eqb (List.length out) 0 then out else out ++ [byte_of_ascii dot])
    ++ bytes_of_string l.

(** A 16-bit value in network order, as [APPEND16] writes it. *)
Definition word (x : Z) : list Z := [Z.land (Z.shiftr x 8) 0xff; Z.land x 0xff].

(** The header of a query: the id, the flags 0x0100 (standard query,
    recursion desired), one question and no other record. *)
Definition query_header (trans_id : Z) : list Z :=
  word trans_id ++ [1; 0; 0; 1; 0; 0; 0; 0; 0; 0].

(** *** The nameserver ring *)

(** Whether the nameserver at [ns] is there and thought to be up. *)
Definition is_up (s : state) (ns : nat) : bool :=
  match nameservers s !! ns with
  | Some n => ns_state n
  | None => false
  end.

(** The nameservers of the ring that are up. *)
Definition good_nameservers (s : state) : list nat :=
  List.filter (is_up s) (server_head s).

(** The ring holds each nameserver once, every one of them is
    allocated, and [global_good_nameservers] counts those that are
    up. *)
Definition ring_ok (s : state) : Prop :=
  NoDup (server_head s) /\
  (forall ns, In ns (server_head s) ->
     (ns < next_ptr s)%nat /\ exists n, nameservers s !! ns = Some n) /\
  global_good_nameservers s = Z.of_nat (List.length (good_nameservers s)).

(** Whether the nameserver at [ns] has the address [address]. *)
Definition has_address (s : state) (address : Z) (ns : nat) : bool :=
  match nameservers s !! ns with
  | Some n => ns_address n =? address
  | None => false
  end.

(** The socket layer will let the next nameserver be set up. *)
Definition socket_ready (s : state) : bool :=
  match env_socket s with
  | [] | SocketOk _ :: _ => true
  | _ => false
  end.

(** *** The request rings *)

(** The allocator only moves forward. *)
Definition grown (s s' : state) : Prop := (next_ptr s <= next_ptr s')%nat.

(** Both rings and both counters are as they were. *)
Definition rings_kept (s s' : state) : Prop :=
  req_head s' = req_head s /\
  req_waiting_head s' = req_waiting_head s /\
  global_requests_inflight s' = global_requests_inflight s /\
  global_requests_waiting s' = global_requests_waiting s /\
  global_max_requests_inflight s' = global_max_requests_inflight s /\
  grown s s'.

(** No request is on a ring twice or on both rings, every request on
    a ring has been allocated, and the two counters are the lengths
    of the two rings. *)
Definition rings_ok (s : state) : Prop :=
  NoDup (req_head s ++ req_waiting_head s) /\
  (forall req, In req (req_head s ++ req_waiting_head s) -> (req < next_ptr s)%nat) /\
  global_requests_inflight s = Z.of_nat (List.length (req_head s)) /\
  global_requests_waiting s = Z.of_nat (List.length (req_waiting_head s)).

(** How many requests the pump promotes. *)
Definition pump_count (s : state) : nat :=
  Nat.min (Z.to_nat (global_max_requests_inflight s - global_requests_inflight s))
          (List.length (req_waiting_head s)).

(** [m] takes rings that are in order to rings that are in order. *)
Definition keeps_rings {A : Type} (m : M A) : Prop :=
  forall s, rings_ok s -> wp m (fun _ s' => rings_ok s' /\ grown s s') s.

(** *** Replies on the wire *)

(** A 32-bit value in network order. *)
Definition dword (x : Z) : list Z := word (Z.shiftr x 16) ++ word x.

(** The header of a reply without error to the query [trans_id], with
    one question and one answer. *)
Definition answer_header (trans_id : Z) : list Z :=
  word trans_id ++ [0x81; 0x80; 0; 1; 0; 1; 0; 0; 0; 0].

(** One A record: its name is a pointer to the name of the question
    and its data are [addresses]. *)
Definition a_record (ttl : Z) (addresses : list Z) : list Z :=
  [0xc0; 0x0c] ++ word TYPE_A ++ word CLASS_INET ++ dword ttl ++
  word (4 * Z.of_nat (List.length addresses)) ++ flat_map dword addresses.

(** The reply that answers the query for [name] with [addresses]. *)
Definition answer_packet (trans_id : Z) (name : string) (ttl : Z) (addresses : list Z)
    : list Z :=
  answer_header trans_id ++ wire_labels (labels name) ++
  0 :: (word TYPE_A ++ word CLASS_INET ++ a_record ttl addresses).

(** *** Probes *)

(** The delay of the probe timer after a nameserver has failed
    [failed_times] probes. *)
Definition probe_delay (failed_times : Z) : Z :=
  nth (Z.to_nat (Z.min failed_times 4)) global_nameserver_timeouts 0.

(** An error that a probe's callback takes for a failure. *)
Definition probe_failure (result : dns_err) : Prop :=
  result <> DNS_ERR_NONE /\ result <> DNS_ERR_NOTEXIST.

(** A request as [evdns_clear_nameservers_and_suspend] parks it. *)
Definition parked (req : nat) (s : state) : Prop :=
  exists r, requests s !! req = Some r /\
    r_trans_id r = 0 /\ r_ns r = None /\ r_tx_count r = 0 /\
    r_reissue_count r = 0 /\ r_transmit_me r = false /\ r_timeout_event r = false.

(** [trans_id] is the id of [req]. *)
Definition has_id (s : state) (trans_id : Z) (req : nat) : bool :=
  match requests s !! req with
  | Some r => r_trans_id r =? trans_id
  | None => false
  end.

(** *** Compressed names *)

(** A pointer to [pos] continues a name with [name]: from [pos], in
    [buf] and in any message that starts with it, the decode loop
    adds the labels of [name] to what it has read and returns the
    index that the first pointer left behind. *)
Definition decodes_at (buf : list Z) (pos : Z) (name : string) : Prop :=
  0 <= pos < buf_pos buf /\
  exists n : nat, forall fuel more out name_end name_out_len,
    (n < fuel)%nat -> 0 <= name_end ->
    buf_pos (fold_left with_label (labels name) out) < name_out_len ->
    NameParse.loop fuel (buf ++ more) (buf_pos (buf ++ more)) name_out_len
      (NameParse.mkCursor pos out name_end)
    = NameParse.Parsed name_end (fold_left with_label (labels name) out).

(** Every entry of the label table is the position of its name, and
    the position fits a pointer. *)
Definition table_ok (buf : list Z) (table : Server.dnslabel_table) : Prop :=
  Forall (fun e => decodes_at buf (snd e) (fst e) /\ snd e < 0x4000) table.

(** *** Transmission, case by case *)

(** What the socket layer answers to the next [send]. *)
Definition send_answer (s : state) : send_result :=
  match env_send s with
  | [] => SendFull
  | x :: _ => x
  end.

(** The flags of a nameserver that tell whether its socket is taken
    to be writable. *)
Definition same_choke (n n' : nameserver) : Prop :=
  ns_choaked n' = ns_choaked n /\ ns_write_waiting n' = ns_write_waiting n.

(** The footprint of the calls that hand nothing to a socket: the
    socket layer's answers and the trace are as they were and no
    nameserver is choked or unchoked. *)
Definition unsent (s s' : state) : Prop :=
  env_send s' = env_send s /\
  trace s' = trace s /\
  forall p, lifted same_choke (nameservers s !! p) (nameservers s' !! p).

(** What [evdns_request_transmit] has done when it returns [rc] in
    the state [s'], for the request [req] with the datagram [packet],
    assigned to the nameserver [ns]; [choked] is that nameserver's
    [choaked] flag, [answer] the answer of the socket layer to a
    [send], [tx_count] and [timer] the request's transmit count and
    whether its timer was armed, and [t] the trace, all before the
    call.
    - A choked nameserver: nothing is sent; the request stays marked
      [transmit_me] and 1 is returned.
    - The socket takes the whole datagram: the request is unmarked,
      its count goes up, its timer is armed, and 0 is returned.
    - The socket takes a part or would block: the request stays
      marked, the nameserver is choked and waits for the socket to
      become writable, and 1 is returned.
    - The socket fails: the nameserver is marked failed; the request
      is unmarked, counted and timed as if sent, and 1 is returned. *)
Definition transmit_outcome (req ns : nat) (packet : list Z) (choked : bool)
    (answer : send_result) (tx_count : Z) (timer : bool) (t : list event)
    (rc : Z) (s' : state) : Prop :=
  exists r',
    requests s' !! req = Some r' /\
    r_request r' = packet /\
    if choked then
      rc = 1 /\ trace s' = t /\ r_ns r' = Some ns /\
      r_transmit_me r' = true /\ r_tx_count r' = tx_count /\
      r_timeout_event r' = timer
    else
      trace s' = t ++ [EvSend ns req packet answer] /\
      match answer with
      | SendFull =>
          rc = 0 /\ r_ns r' = Some ns /\
          r_transmit_me r' = false /\ r_tx_count r' = tx_count + 1 /\
          r_timeout_event r' = true
      | SendShort | SendEagain =>
          rc = 1 /\ r_ns r' = Some ns /\
          r_transmit_me r' = true /\ r_tx_count r' = tx_count /\
          r_timeout_event r' = timer /\
          exists n', nameservers s' !! ns = Some n' /\
                     ns_choaked n' = true /\ ns_write_waiting n' = true
      | SendError =>
          rc = 1 /\
          r_transmit_me r' = false /\ r_tx_count r' = tx_count + 1 /\
          r_timeout_event r' = true /\
          is_up s' ns = false
      end.

(** *** Attempts *)

(** [evdns_request_data_build] can encode [name]: at most 255 bytes,
    every label at most 63. *)
Definition encodes (name : string) : bool :=
  (strlen name <=? 255) && forallb (fun l => strlen l <=? 63) (labels name).

(** The ring of nameservers is as it was. *)
Definition ring_same (s s' : state) : Prop := server_head s' = server_head s.

(** There is a nameserver to pick. *)
Definition has_nameserver (s : state) : bool :=
  match server_head s with
  | [] => false
  | _ :: _ => true
  end.

(** What [request_new] and [request_submit], called in the state [s]
    for [name], have done in [s']: there is a new request at [p] with
    the query for [name].  With room under the inflight cap and a
    nameserver to pick, it is at the end of the inflight ring, counted,
    and has been handed to [evdns_request_transmit] with the outcome
    [transmit_outcome] describes; otherwise it is at the end of the
    waiting ring, counted there, without a nameserver, and nothing
    was sent. *)
Definition attempted (p : nat) (name : string) (type : Z) (s s' : state) : Prop :=
  exists r',
    requests s' !! p = Some r' /\
    query_for name type (r_request r') /\
    if (global_requests_inflight s <? global_max_requests_inflight s)
       && has_nameserver s
    then
      req_head s' = req_head s ++ [p] /\
      req_waiting_head s' = req_waiting_head s /\
      global_requests_inflight s' = global_requests_inflight s + 1 /\
      global_requests_waiting s' = global_requests_waiting s /\
      exists ns n rc,
        nameservers s !! ns = Some n /\
        transmit_outcome p ns (r_request r') (ns_choaked n) (send_answer s)
          0 false (trace s) rc s'
    else
      req_waiting_head s' = req_waiting_head s ++ [p] /\
      req_head s' = req_head s /\
      global_requests_waiting s' = global_requests_waiting s + 1 /\
      global_requests_inflight s' = global_requests_inflight s /\
      r_ns r' = None /\
      trace s' = trace s.

(** Nothing was submitted: the rings, their counters and the trace
    are as they were and the requests are [m]. *)
Definition not_attempted (m : gmap nat request) (s s' : state) : Prop :=
  requests s' = m /\
  req_head s' = req_head s /\
  req_waiting_head s' = req_waiting_head s /\
  global_requests_inflight s' = global_requests_inflight s /\
  global_requests_waiting s' = global_requests_waiting s /\
  trace s' = trace s.

(** *** Passing an error on *)

(** The socket refused a datagram outright. *)
Definition send_refused (e : event) : bool :=
  match e with
  | EvSend _ _ _ SendError => true
  | _ => false
  end.

(** The nameserver at [ns], if it was up, is still up. *)
Definition stands (ns : nat) (s s' : state) : Prop :=
  forall n, nameservers s !! ns = Some n ->
    exists n', nameservers s' !! ns = Some n' /\
               (ns_state n = true -> ns_state n' = true).

(** The trace has grown, and unless the socket refused one of the
    datagrams sent meanwhile the nameserver at [ns] has not been marked
    failed. *)
Definition spared (ns : nat) (s s' : state) : Prop :=
  exists extra, trace s' = trace s ++ extra /\
    (existsb send_refused extra = false -> stands ns s s').

(** The error [error] of a reply to [req] is passed on from state
    [s]: the request is finished; for a request that carries a search
    (and is not a PTR request) [search_try_next] is called, and when it
    returns 0, the search having moved on to its next candidate, no
    callback is made; in every other case the request's callback is
    invoked once with the error. *)
Definition passed_on (req : nat) (r : request) (error : dns_err) (s s' : state)
    : Prop :=
  gone req s' /\
  exists next,
    (if bool_decide (r_search_state r <> None) && negb (r_request_type r =? TYPE_PTR)
     then value (search_try_next req s) = Some next
     else next = 1) /\
    callbacks (trace s') =
      callbacks (trace s) ++
      (if next =? 0 then []
       else [EvCallback (r_user_callback r) error 0 0 0 data_null (r_user_pointer r)]).

(** A probe for the nameserver at [ns] has been forced onto the
    inflight ring: its request, at the address [next_ptr s], is the
    ring's new last element, the inflight counter is one higher
    whatever the cap, and the request has been handed to
    [evdns_request_transmit] for the nameserver probed. *)
Definition probe_forced (ns : nat) (n : nameserver) (s s' : state) : Prop :=
  req_head s' = req_head s ++ [next_ptr s] /\
  req_waiting_head s' = req_waiting_head s /\
  global_requests_inflight s' = global_requests_inflight s + 1 /\
  global_requests_waiting s' = global_requests_waiting s /\
  global_max_requests_inflight s' = global_max_requests_inflight s /\
  exists r' rc,
    requests s' !! next_ptr s = Some r' /\
    r_user_callback r' = probe_fn /\
    r_user_pointer r' = ns /\
    transmit_outcome (next_ptr s) ns (r_request r') (ns_choaked n) (send_answer s)
      0 false (trace s) rc s'.

(** ** Scenarios

    Concrete runs of the resolver, driven through its entry points. *)

(** What a run that returned left to observe. *)
Definition observe {A B : Type} (f : state -> B) (r : res A) : option B :=
  match r with
  | Ok _ s => Some (f s)
  | _ => None
  end.

(** The transaction ids of the requests on a ring, in ring order. *)
Definition ring_ids (h : ring_id) (s : state) : list (option Z) :=
  List.map (fun req => option_map r_trans_id (requests s !! req)) (ring h s).

(** The nameservers of the requests on a ring. *)
Definition ring_nameservers (h : ring_id) (s : state) : list (option (option nat)) :=
  List.map (fun req => option_map r_ns (requests s !! req)) (ring h s).

(** Whether each configured nameserver is up, in ring order. *)
Definition server_states (s : state) : list (option bool) :=
  List.map (fun ns => option_map ns_state (nameservers s !! ns)) (server_head s).

(** The callback results of a trace. *)
Definition callback_results (t : list event) : list (callback * dns_err) :=
  omap (fun e => match e with
                 | EvCallback cb result _ _ _ _ _ => Some (cb, result)
                 | EvSend _ _ _ _ => None
                 end) t.

(** A resolver whose id source will deliver [entropy]. *)
Definition fresh (entropy : list Z) : state := set_env_entropy entropy initial_state.

(** A reply header with no records: id, flags and four zero counts. *)
Definition reply_header (trans_id flags : Z) : list Z :=
  [Z.shiftr trans_id 8; Z.land trans_id 0xff; Z.shiftr flags 8; Z.land flags 0xff;
   0; 0; 0; 0; 0; 0; 0; 0].

(** [127.0.0.1] and [8.8.8.8]. *)
Definition loopback : Z := 0x7f000001.
Definition other_server : Z := 0x08080808.

(** Two resolves queued while no nameserver is configured (they wait),
    then a nameserver and two more resolves (they go out): requests
    a, b inflight and c, d waiting.  The requests get the addresses
    c = 1, d = 2, a = 4, b = 5; the nameserver is at 3. *)
Definition two_and_two : M unit :=
  _ <- evdns_resolve_ipv4 "c.example" DNS_QUERY_NO_SEARCH (user_fn 3) 3 ;;
  _ <- evdns_resolve_ipv4 "d.example" DNS_QUERY_NO_SEARCH (user_fn 4) 4 ;;
  _ <- evdns_nameserver_add loopback ;;
  _ <- evdns_resolve_ipv4 "a.example" DNS_QUERY_NO_SEARCH (user_fn 1) 1 ;;
  _ <- evdns_resolve_ipv4 "b.example" DNS_QUERY_NO_SEARCH (user_fn 2) 2 ;;
  ret tt.

(** ... then suspend, configure another nameserver and resume. *)
Definition suspend_and_resume : M unit :=
  two_and_two ;;
  _ <- evdns_clear_nameservers_and_suspend ;;
  _ <- evdns_nameserver_add other_server ;;
  _ <- evdns_resume ;;
  ret tt.

Definition two_and_two_then_suspend : M unit :=
  two_and_two ;;
  _ <- evdns_clear_nameservers_and_suspend ;;
  ret tt.

(** One nameserver and [n] resolves. *)
Definition resolves (n : nat) : M unit :=
  _ <- evdns_nameserver_add loopback ;;
  for_each (seq 0 n) (fun i =>
    _ <- evdns_resolve_ipv4 "example.com" DNS_QUERY_NO_SEARCH (user_fn i) i ;;
    ret tt).

(** The inflight ring filled to the cap, the last datagram failing
    with a hard error, so that the nameserver is down with its probe
    timer armed; then the timer fires. *)
Definition full_house : state :=
  set_env_send (repeat SendFull 63 ++ [SendError])
    (fresh (List.map Z.of_nat (seq 1 80))).

Definition fill_then_probe : M unit :=
  resolves 64 ;;
  nameserver_prod_callback 1.

(** Two nameservers (at 1 and 2) and one resolve; the request is at 3
    and goes to the first nameserver.  Both nameservers answer
    ServFail: the first answer moves the request to the second
    nameserver, the second answer finds the reissue count used up. *)
Definition servfail_flags : Z := 0x8182.

Definition two_servers_one_request : M unit :=
  _ <- evdns_nameserver_add loopback ;;
  _ <- evdns_nameserver_add other_server ;;
  _ <- evdns_resolve_ipv4 "example.com" DNS_QUERY_NO_SEARCH (user_fn 1) 1 ;;
  ret tt.

Definition servfail_once : M unit :=
  two_servers_one_request ;;
  _ <- reply_parse 256 (reply_header 7 servfail_flags) 12 ;;
  _ <- evdns_transmit ;;
  ret tt.

Definition servfail_twice : M unit :=
  servfail_once ;;
  _ <- reply_parse 256 (reply_header 7 servfail_flags) 12 ;;
  ret tt.

(** Search: ndots 2, suffixes corp.example and example.com, one
    nameserver; the resolver is asked for "www" and every answer is
    NXDOMAIN (rcode 3). *)
Definition nxdomain_flags : Z := 0x8183.

Definition search_setup : M unit :=
  evdns_search_add "example.com" ;;
  evdns_search_add "corp.example" ;;
  evdns_search_ndots_set 2 ;;
  _ <- evdns_nameserver_add loopback ;;
  ret tt.

Definition search_walk : M unit :=
  search_setup ;;
  _ <- evdns_resolve_ipv4 "www" 0 (user_fn 1) 1 ;;
  _ <- reply_parse 256 (reply_header 21 nxdomain_flags) 12 ;;
  _ <- reply_parse 256 (reply_header 22 nxdomain_flags) 12 ;;
  _ <- reply_parse 256 (reply_header 23 nxdomain_flags) 12 ;;
  ret tt.

(** A dotted quad, as far as [inet_aton] is needed here: four decimal
    bytes. *)
Definition digit_of (c : ascii) : option Z :=
  let n := byte_of_ascii c in
  if (48 <=? n) && (n <=? 57) then Some (n - 48) else None.

Fixpoint decimal (s : string) (acc : Z) : option Z :=
  match s with
  | EmptyString => Some acc
  | String c s' =>
      match digit_of c with
      | Some d => decimal s' (10 * acc + d)
      | None => None
      end
  end.

Definition dotted_quad (ip : string) : option Z :=
  match List.map (fun l => match l with
                           | EmptyString => None
                           | _ => decimal l 0
                           end) (split_labels ip EmptyString) with
  | [Some a; Some b; Some c; Some d] =>
      if (a <=? 255) && (b <=? 255) && (c <=? 255) && (d <=? 255)
      then Some (Z.lor (Z.shiftl a 24) (Z.lor (Z.shiftl b 16) (Z.lor (Z.shiftl c 8) d)))
      else None
  | _ => None
  end.

(** [strtol] in base 10 on unsigned digit strings: the digits read
    and the rest. *)
Fixpoint strtol_digits (s : string) (acc : Z) : Z * string :=
  match s with
  | EmptyString => (acc, EmptyString)
  | String c s' =>
      match digit_of c with
      | Some d => strtol_digits s' (10 * acc + d)
      | None => (acc, s)
      end
  end.

Definition strtol10 (s : string) : Z * string := strtol_digits s 0.

(** A machine called host.example.org. *)
Definition at_host (s : state) : state :=
  mkState (requests s) (nameservers s) (search_states s) (req_head s)
    (req_waiting_head s) (server_head s) (global_good_nameservers s)
    (global_requests_inflight s) (global_requests_waiting s)
    (global_max_requests_inflight s) (global_timeout s) (global_max_reissues s)
    (global_max_retransmits s) (global_max_nameserver_timeout s)
    (global_search_state s) (next_ptr s) (env_entropy s) (env_send s)
    (env_socket s) (Some "host.example.org"%string) (trace s).

(** A file that cannot be opened, and one that can. *)
Definition no_such_file : file := mkFile false false 0 false 0 EmptyString.

Definition resolv_conf_text : string :=
  String.concat (String newline EmptyString)
    ["nameserver 8.8.8.8"; "search corp.example example.com";
     "options ndots:2 attempts:5"; EmptyString]%string.

Definition small_file : file :=
  mkFile true true (strlen resolv_conf_text) true (strlen resolv_conf_text)
         resolv_conf_text.

(** What a configuration call left: the nameserver addresses, and
    the search state's ndots and suffixes. *)
Definition server_addresses (s : state) : list (option Z) :=
  List.map (fun ns => option_map ns_address (nameservers s !! ns)) (server_head s).

Definition search_config (s : state) : option (Z * list string) :=
  match global_search_state s with
  | None => None
  | Some p => option_map (fun st => (ss_ndots st, ss_head st)) (search_states s !! p)
  end.

(** A nameserver at 1 that has seen [timedout] timeouts in a row and
    one request at 2, inflight on it, transmitted [tx_count] times. *)
Definition lone_request (tx_count : Z) : request :=
  mkRequest (reply_header 7 0x0100) 12 0 tx_count TYPE_A 1 (user_fn 1) (Some 1%nat)
            0 None None 0 true 7 false.

Definition lone_nameserver (timedout : Z) : nameserver :=
  mkNameserver 1 loopback 0 timedout None true false false.

Definition lone (timedout tx_count : Z) : state :=
  mkState {[2%nat := lone_request tx_count]} {[1%nat := lone_nameserver timedout]}
          ∅ [2%nat] [] [1%nat] 1 1 0 64 5 1 3 3 None 3%nat [] [] [] None [].

(** The same with a search state at 3 (ndots 2, suffixes
    corp.example and example.com) and the request the first attempt
    of a search for "www". *)
Definition walk_state : search_state :=
  mkSearchState 2 2 2 ["corp.example"; "example.com"]%string.

Definition walk_request : request :=
  mkRequest (reply_header 7 0x0100) 12 0 1 TYPE_A 1 (user_fn 1) (Some 1%nat)
            0 (Some 3%nat) (Some "www"%string) 0 true 7 false.

Definition walking : state :=
  mkState {[2%nat := walk_request]} {[1%nat := lone_nameserver 0]}
          {[3%nat := walk_state]} [2%nat] [] [1%nat] 1 1 0 64 5 1 3 3 (Some 3%nat)
          4%nat [21; 22; 23] [] [] None [].

(** A suffix of one label of 64 bytes, one more than a label of a
    query may have. *)
Definition long_suffix : string := string_of_list_ascii (repeat "a"%char 64).

(** [walking] with the suffixes example.com, [long_suffix] and
    corp.example: the request is the attempt for www.example.com, and
    the candidate after it cannot be encoded. *)
Definition cut_state : search_state :=
  mkSearchState 2 2 3 ["example.com"; long_suffix; "corp.example"]%string.

Definition cut_short : state :=
  mkState {[2%nat := walk_request]} {[1%nat := lone_nameserver 0]}
          {[3%nat := cut_state]} [2%nat] [] [1%nat] 1 1 0 64 5 1 3 3 (Some 3%nat)
          4%nat [21; 22; 23] [] [] None [].

(** The same search configured through the entry points, the resolver
    asked for "www" and the first answer NXDOMAIN. *)
Definition search_cut : M unit :=
  evdns_search_add "corp.example" ;;
  evdns_search_add long_suffix ;;
  evdns_search_add "example.com" ;;
  evdns_search_ndots_set 2 ;;
  _ <- evdns_nameserver_add loopback ;;
  _ <- evdns_resolve_ipv4 "www" 0 (user_fn 1) 1 ;;
  _ <- reply_parse 256 (reply_header 21 nxdomain_flags) 12 ;;
  ret tt.

(** A reply to the request of [lone]: id 7, flags 0x8180 (a
    response, no error), one question and no answer, and for the
    question's name the two bytes [0xC0 0x0C], a compression pointer
    to offset 12, where it stands itself. *)
Definition looping_reply : list Z :=
  [0; 7; 0x81; 0x80; 0; 1; 0; 0; 0; 0; 0; 0; 0xc0; 0x0c].

(** The state a run left, or the initial state if it did not return. *)
Definition outcome {A : Type} (r : res A) : state :=
  match r with
  | Ok _ s => s
  | _ => initial_state
  end.

(** The inflight ring filled to the cap, the nameserver at 1 down. *)
Definition full_state : state := outcome (resolves 64 full_house).

(** One request at 3, reissued once already and now on the second
    nameserver (at 2), which is up. *)
Definition reissued_state : state := outcome (servfail_once (fresh [7; 8; 9])).

(** The nameserver at 1 in [full_state]. *)
Definition down_nameserver : nameserver :=
  Eval vm_compute in
    match nameservers full_state !! 1%nat with
    | Some n => n
    | None => lone_nameserver 0
    end.

(** Two nameservers, both up, and one request at 3, on the first. *)
Definition two_up_state : state :=
  outcome (two_servers_one_request (fresh [7; 8; 9])).

(** The request at 3 in [two_up_state] and in [reissued_state]. *)
Definition two_up_request : request :=
  Eval vm_compute in
    match requests two_up_state !! 3%nat with
    | Some r => r
    | None => mkRequest [] 0 0 0 0 0 (user_fn 0) None 0 None None 0 false 0 false
    end.

Definition reissued_request : request :=
  Eval vm_compute in
    match requests reissued_state !! 3%nat with
    | Some r => r
    | None => mkRequest [] 0 0 0 0 0 (user_fn 0) None 0 None None 0 false 0 false
    end.

(** The four requests of [two_and_two] suspended and a new nameserver
    configured: nothing is inflight, the requests wait in the order
    b, a, c, d (5, 4, 1, 2) and the nameserver is at 6. *)
Definition queued_state : state :=
  outcome ((two_and_two_then_suspend ;;
            _ <- evdns_nameserver_add other_server ;;
            ret tt)
           (fresh [11; 12; 13; 14; 15; 16; 17; 18])).

(** One nameserver (at 1) and one resolve for www.example.com: the
    request is at 2, inflight with the id 7 and sent once. *)
Definition asked_state : state :=
  outcome ((_ <- evdns_nameserver_add loopback ;;
            _ <- evdns_resolve_ipv4 "www.example.com" DNS_QUERY_NO_SEARCH (user_fn 1) 1 ;;
            ret tt) (fresh [7])).

(** ** Facts *)

(** *** Rules of the program logic *)

Lemma wp_ret {A : Type} (a : A) (Q : A -> state -> Prop) s :
  Q a s -> wp (ret a) Q s.
Proof. intros H. exact H. Qed.

Lemma wp_bind {A B : Type} (m : M A) (k : A -> M B) (Q : B -> state -> Prop) s :
  wp m (fun a s' => wp (k a) Q s') s -> wp (bind m k) Q s.
Proof.
  unfold wp, bind. destruct (m s) as [a s'| |]; auto.
Qed.

Lemma wp_bind_inv {A B : Type} (m : M A) (k : A -> M B) (Q : B -> state -> Prop) s :
  wp (bind m k) Q s -> wp m (fun a s' => wp (k a) Q s') s.
Proof.
  unfold wp, bind. destruct (m s) as [a s'| |]; auto.
Qed.

Lemma wp_mono {A : Type} (m : M A) (Q Q' : A -> state -> Prop) s :
  wp m Q s -> (forall a s', Q a s' -> Q' a s') -> wp m Q' s.
Proof.
  unfold wp. destruct (m s) as [a s'| |]; auto.
Qed.

Lemma wp_conj {A : Type} (m : M A) (Q Q' : A -> state -> Prop) s :
  wp m Q s -> wp m Q' s -> wp m (fun a s' => Q a s' /\ Q' a s') s.
Proof.
  unfold wp. destruct (m s) as [a s'| |]; auto.
Qed.

Lemma wp_get (Q : state -> state -> Prop) s : Q s s -> wp get Q s.
Proof. intros H. exact H. Qed.

Lemma wp_modify (f : state -> state) (Q : unit -> state -> Prop) s :
  Q tt (f s) -> wp (modify f) Q s.
Proof. intros H. exact H. Qed.

Lemma wp_crash {A : Type} (Q : A -> state -> Prop) s : wp crash Q s.
Proof. exact I. Qed.

Lemma wp_assert (b : bool) (Q : unit -> state -> Prop) s :
  (b = true -> Q tt s) -> wp (assert b) Q s.
Proof. destruct b; intros H; [apply H; reflexivity | exact I]. Qed.

Lemma wp_when (c : bool) (m : M unit) (Q : unit -> state -> Prop) s :
  (c = true -> wp m Q s) -> (c = false -> Q tt s) -> wp (when c m) Q s.
Proof. destruct c; intros H1 H2; [apply H1 | apply H2]; reflexivity. Qed.

Lemma wp_deref_req req (Q : request -> state -> Prop) s :
  (forall r, requests s !! req = Some r -> Q r s) -> wp (deref_req req) Q s.
Proof.
  unfold wp, deref_req. intros H. destruct (requests s !! req); auto.
Qed.

Lemma wp_deref_ns ns (Q : nameserver -> state -> Prop) s :
  (forall n, nameservers s !! ns = Some n -> Q n s) -> wp (deref_ns ns) Q s.
Proof.
  unfold wp, deref_ns. intros H. destruct (nameservers s !! ns); auto.
Qed.

Lemma wp_deref_search p (Q : search_state -> state -> Prop) s :
  (forall st, search_states s !! p = Some st -> Q st s) -> wp (deref_search p) Q s.
Proof.
  unfold wp, deref_search. intros H. destruct (search_states s !! p); auto.
Qed.

Lemma wp_update_req req f (Q : unit -> state -> Prop) s :
  (forall r, requests s !! req = Some r ->
     Q tt (set_requests (<[req := f r]> (requests s)) s)) ->
  wp (update_req req f) Q s.
Proof.
  intros H. unfold update_req. apply wp_bind, wp_deref_req. intros r Hr.
  apply wp_modify. auto.
Qed.

Lemma wp_update_ns ns f (Q : unit -> state -> Prop) s :
  (forall n, nameservers s !! ns = Some n ->
     Q tt (set_nameservers (<[ns := f n]> (nameservers s)) s)) ->
  wp (update_ns ns f) Q s.
Proof.
  intros H. unfold update_ns. apply wp_bind, wp_deref_ns. intros r Hr.
  apply wp_modify. auto.
Qed.

Lemma wp_update_search p f (Q : unit -> state -> Prop) s :
  (forall st, search_states s !! p = Some st ->
     Q tt (set_search_states (<[p := f st]> (search_states s)) s)) ->
  wp (update_search p f) Q s.
Proof.
  intros H. unfold update_search. apply wp_bind, wp_deref_search. intros r Hr.
  apply wp_modify. auto.
Qed.

Lemma wp_req_ns req (Q : nat -> state -> Prop) s :
  (forall r ns, requests s !! req = Some r -> r_ns r = Some ns -> Q ns s) ->
  wp (req_ns req) Q s.
Proof.
  intros H. unfold req_ns. apply wp_bind, wp_deref_req. intros r Hr.
  destruct (r_ns r) eqn:E; [apply wp_ret; eauto | apply wp_crash].
Qed.

Lemma wp_emit e (Q : unit -> state -> Prop) s :
  Q tt (set_trace (trace s ++ [e]) s) -> wp (emit e) Q s.
Proof. intros H. exact H. Qed.

Lemma wp_malloc (Q : nat -> state -> Prop) s :
  Q (next_ptr s) (set_next_ptr (S (next_ptr s)) s) -> wp malloc Q s.
Proof. intros H. exact H. Qed.

(** Using a relational fact about [m] inside a [wp] proof. *)
Lemma wp_preserves {A : Type} (R : state -> state -> Prop) (m : M A)
    (Q : A -> state -> Prop) s :
  preserves R m -> (forall a s', R s s' -> Q a s') -> wp m Q s.
Proof.
  intros H HQ. eapply wp_mono; [apply H | auto].
Qed.

Lemma wp_ok {A : Type} (m : M A) (Q : A -> state -> Prop) s a s' :
  wp m Q s -> m s = Ok a s' -> Q a s'.
Proof. unfold wp. intros H E. rewrite E in H. exact H. Qed.

(** *** Rules for relational facts *)

Section Preserves.
Context (R : state -> state -> Prop) `{!PreOrder R}.

Lemma preserves_ret {A : Type} (a : A) : preserves R (ret a).
Proof. intros s. apply wp_ret. reflexivity. Qed.

Lemma preserves_bind {A B : Type} (m : M A) (k : A -> M B) :
  preserves R m -> (forall a, preserves R (k a)) -> preserves R (bind m k).
Proof.
  intros Hm Hk s. apply wp_bind. eapply wp_mono; [apply Hm |].
  intros a s1 H1. eapply wp_mono; [apply Hk |].
  intros b s2 H2. simpl in *. transitivity s1; assumption.
Qed.

Lemma preserves_get : preserves R get.
Proof. intros s. apply wp_get. reflexivity. Qed.

Lemma preserves_crash {A : Type} : preserves R (@crash A).
Proof. intros s. apply wp_crash. Qed.

Lemma preserves_assert b : preserves R (assert b).
Proof. intros s. apply wp_assert. reflexivity. Qed.

Lemma preserves_when c m : preserves R m -> preserves R (when c m).
Proof. intros H. destruct c; [exact H | apply preserves_ret]. Qed.

Lemma preserves_modify f : (forall s, R s (f s)) -> preserves R (modify f).
Proof. intros H s. apply wp_modify. apply H. Qed.

Lemma preserves_deref_req req : preserves R (deref_req req).
Proof. intros s. apply wp_deref_req. reflexivity. Qed.

Lemma preserves_deref_ns ns : preserves R (deref_ns ns).
Proof. intros s. apply wp_deref_ns. reflexivity. Qed.

Lemma preserves_deref_search p : preserves R (deref_search p).
Proof. intros s. apply wp_deref_search. reflexivity. Qed.

Lemma preserves_req_ns req : preserves R (req_ns req).
Proof. intros s. apply wp_req_ns. reflexivity. Qed.

Lemma preserves_for_each {A : Type} (l : list A) (f : A -> M unit) :
  (forall x, preserves R (f x)) -> preserves R (for_each l f).
Proof.
  intros H. induction l as [|x l IH]; simpl.
  - apply preserves_ret.
  - apply preserves_bind; auto.
Qed.

Lemma preserves_update_req req f :
  (forall s r, requests s !! req = Some r ->
     R s (set_requests (<[req := f r]> (requests s)) s)) ->
  preserves R (update_req req f).
Proof. intros H s. apply wp_update_req. auto. Qed.

Lemma preserves_update_ns ns f :
  (forall s n, nameservers s !! ns = Some n ->
     R s (set_nameservers (<[ns := f n]> (nameservers s)) s)) ->
  preserves R (update_ns ns f).
Proof. intros H s. apply wp_update_ns. auto. Qed.

Lemma preserves_update_search p f :
  (forall s st, search_states s !! p = Some st ->
     R s (set_search_states (<[p := f st]> (search_states s)) s)) ->
  preserves R (update_search p f).
Proof. intros H s. apply wp_update_search. auto. Qed.

End Preserves.

Lemma preserves_weaken {A : Type} (R R' : state -> state -> Prop) (m : M A) :
  (forall s s', R s s' -> R' s s') -> preserves R m -> preserves R' m.
Proof.
  intros H Hm s. eapply wp_mono; [apply Hm | auto].
Qed.

(** *** The relations are preorders *)

#[local] Instance same_config_preorder : PreOrder same_config.
Proof.
  split.
  - intros s. unfold same_config. auto.
  - intros s1 s2 s3 (A1 & A2 & A3 & A4) (B1 & B2 & B3 & B4).
    unfold same_config. repeat split; congruence.
Qed.

#[local] Instance same_request_preorder : PreOrder same_request.
Proof.
  split.
  - intros r. unfold same_request. repeat split.
  - intros r1 r2 r3 H1 H2. unfold same_request in *.
    repeat match goal with H : _ /\ _ |- _ => destruct H end.
    repeat split; congruence.
Qed.

#[local] Instance settled_nameserver_preorder : PreOrder settled_nameserver.
Proof.
  split.
  - intros n. unfold settled_nameserver. auto.
  - intros n1 n2 n3 (A1 & A2 & A3) (B1 & B2 & B3).
    unfold settled_nameserver. repeat split; try congruence. auto.
Qed.

#[local] Instance lifted_preorder {A : Type} (R : A -> A -> Prop) `{!PreOrder R} :
  PreOrder (lifted R).
Proof.
  split.
  - intros [a|]; simpl; [reflexivity | exact I].
  - intros [a|] [b|] [c|]; simpl; try tauto. apply transitivity.
Qed.

#[local] Instance transport_preorder : PreOrder transport.
Proof.
  split.
  - intros s. unfold transport. repeat split; intros; reflexivity.
  - intros s1 s2 s3 H1 H2. unfold transport in *.
    destruct H1 as (A1 & A2 & A3 & A4 & A5 & A6 & A7 & A9 & A10 & A11).
    destruct H2 as (B1 & B2 & B3 & B4 & B5 & B6 & B7 & B9 & B10 & B11).
    split; [congruence|]. split; [congruence|]. split; [congruence|].
    split; [congruence|]. split; [etransitivity; eauto|].
    split; [congruence|]. split; [congruence|].
    split; [congruence|]. split.
    + intros p. etransitivity; [apply A10 | apply B10].
    + intros p. etransitivity; [apply A11 | apply B11].
Qed.

(** The parts of [transport], by name. *)
Lemma transport_req_head s s' : transport s s' -> req_head s' = req_head s.
Proof. intros H. apply H. Qed.

Lemma transport_req_waiting_head s s' :
  transport s s' -> req_waiting_head s' = req_waiting_head s.
Proof. intros H. apply H. Qed.

Lemma transport_inflight s s' :
  transport s s' -> global_requests_inflight s' = global_requests_inflight s.
Proof. intros H. apply H. Qed.

Lemma transport_config s s' : transport s s' -> same_config s s'.
Proof. intros H. apply H. Qed.

Lemma transport_search_states s s' :
  transport s s' -> search_states s' = search_states s.
Proof. intros H. apply H. Qed.

Lemma transport_global_search_state s s' :
  transport s s' -> global_search_state s' = global_search_state s.
Proof. intros H. apply H. Qed.

Lemma transport_callbacks s s' :
  transport s s' -> callbacks (trace s') = callbacks (trace s).
Proof. intros H. apply H. Qed.

Lemma transport_requests s s' p :
  transport s s' -> lifted same_request (requests s !! p) (requests s' !! p).
Proof. intros H. apply H. Qed.

Lemma transport_nameservers s s' p :
  transport s s' ->
  lifted settled_nameserver (nameservers s !! p) (nameservers s' !! p).
Proof. intros H. apply H. Qed.

Lemma transport_request s s' req r :
  transport s s' -> requests s !! req = Some r ->
  exists r', requests s' !! req = Some r' /\ same_request r r'.
Proof.
  intros T Hr. pose proof (transport_requests _ _ req T) as H. rewrite Hr in H.
  destruct (requests s' !! req) as [r'|]; simpl in H; [|contradiction].
  exists r'. auto.
Qed.

#[local] Instance steady_preorder : PreOrder steady.
Proof.
  split.
  - intros s. unfold steady. split; [reflexivity|]. split; [reflexivity|].
    intros p n Hn. exists n. split; [exact Hn | reflexivity].
  - intros s1 s2 s3 (A1 & A2 & A3) (B1 & B2 & B3). unfold steady.
    split; [etransitivity; eauto|]. split; [congruence|].
    intros p n Hn. destruct (A3 p n Hn) as (n2 & Hn2 & S2).
    destruct (B3 p n2 Hn2) as (n3 & Hn3 & S3).
    exists n3. split; [exact Hn3 | etransitivity; eauto].
Qed.

#[local] Instance same_schedule_preorder : PreOrder same_schedule.
Proof.
  split.
  - intros r. unfold same_schedule. auto.
  - intros r1 r2 r3 (A1 & A2 & A3) (B1 & B2 & B3).
    unfold same_schedule. repeat split; congruence.
Qed.

#[local] Instance quiet_preorder : PreOrder quiet.
Proof.
  split.
  - intros s. split; [reflexivity|]. split; [reflexivity|].
    intros p. reflexivity.
  - intros s1 s2 s3 (A1 & A2 & A3) (B1 & B2 & B3).
    split; [transitivity s2; assumption|]. split; [congruence|].
    intros p. etransitivity; [apply A3 | apply B3].
Qed.

#[local] Instance settled_preorder : PreOrder settled.
Proof.
  split.
  - intros s. split; [reflexivity|].
    intros p n Hn. exists n. split; [exact Hn | reflexivity].
  - intros s1 s2 s3 (A1 & A3) (B1 & B3).
    split; [etransitivity; eauto|].
    intros p n Hn. destruct (A3 p n Hn) as (n2 & Hn2 & S2).
    destruct (B3 p n2 Hn2) as (n3 & Hn3 & S3).
    exists n3. split; [exact Hn3 | etransitivity; eauto].
Qed.

#[local] Instance silent_preorder : PreOrder silent.
Proof.
  split.
  - intros s. reflexivity.
  - intros s1 s2 s3 H1 H2. unfold silent in *. congruence.
Qed.

#[local] Instance same_heap_preorder : PreOrder same_heap.
Proof.
  split.
  - intros s. split; reflexivity.
  - intros s1 s2 s3 (A1 & A2) (B1 & B2). split; congruence.
Qed.

Lemma quiet_silent s s' : quiet s s' -> silent s s'.
Proof. intros (_ & H & _). exact H. Qed.

Lemma quiet_transport s s' : quiet s s' -> transport s s'.
Proof. intros (H & _). exact H. Qed.

Lemma steady_settled s s' : steady s s' -> settled s s'.
Proof. intros (A1 & A2 & A3). split; assumption. Qed.

Lemma transport_steady s s' : transport s s' -> steady s s'.
Proof.
  intros T. unfold steady.
  split; [apply transport_config, T|]. split; [apply transport_callbacks, T|].
  intros p n Hn. pose proof (transport_nameservers _ _ p T) as H. rewrite Hn in H.
  destruct (nameservers s' !! p) as [n'|]; simpl in H; [|contradiction].
  exists n'. auto.
Qed.

Lemma callbacks_app t1 t2 : callbacks (t1 ++ t2) = callbacks t1 ++ callbacks t2.
Proof. unfold callbacks. apply List.filter_app. Qed.

Lemma callbacks_send t ns req packet r :
  callbacks (t ++ [EvSend ns req packet r]) = callbacks t.
Proof. rewrite callbacks_app. simpl. apply app_nil_r. Qed.

(** Discharging [R s (update s)] for the relations above. *)
Ltac lookup_cases p q :=
  destruct (decide (p = q)) as [->|?];
  [ rewrite ?lookup_insert_eq, ?lookup_delete_eq
  | rewrite ?lookup_insert_ne, ?lookup_delete_ne by congruence ].

(** Reading fields back from updated states. *)
Ltac simpl_state :=
  cbn [requests nameservers search_states req_head req_waiting_head server_head
       global_good_nameservers global_requests_inflight global_requests_waiting
       global_max_requests_inflight global_timeout global_max_reissues
       global_max_retransmits global_max_nameserver_timeout global_search_state
       next_ptr env_entropy env_send env_socket env_hostname trace
       set_requests set_nameservers set_search_states set_req_head
       set_req_waiting_head set_server_head set_global_good_nameservers
       set_global_requests_inflight set_global_requests_waiting set_global_timeout
       set_global_max_retransmits set_global_search_state set_next_ptr
       set_env_entropy set_env_send set_env_socket set_trace set_ring ring] in *.

Ltac footprint :=
  intros;
  unfold same_heap, silent, tidy, quiet, transport, steady, settled, same_config;
  cbn [requests nameservers search_states req_head req_waiting_head server_head
       global_good_nameservers global_requests_inflight global_requests_waiting
       global_max_requests_inflight global_timeout global_max_reissues
       global_max_retransmits global_max_nameserver_timeout global_search_state
       next_ptr env_entropy env_send env_socket env_hostname trace
       set_requests set_nameservers set_search_states set_req_head
       set_req_waiting_head set_server_head set_global_good_nameservers
       set_global_requests_inflight set_global_requests_waiting set_global_timeout
       set_global_max_retransmits set_global_search_state set_next_ptr
       set_env_entropy set_env_send set_env_socket set_trace set_ring ring];
  rewrite ?callbacks_send;
  repeat split; try reflexivity;
  try (let p0 := fresh "p" in
       intros p0;
       match goal with
       | |- lifted _ (_ !! p0) (<[?q := _]> _ !! p0) =>
           lookup_cases p0 q;
           [ match goal with H : _ !! q = Some _ |- _ => rewrite H end;
             cbn; unfold same_request, same_schedule, settled_nameserver; cbn;
             repeat split; try reflexivity; try congruence
           | reflexivity ]
       | |- lifted _ (_ !! p0) (_ !! p0) => reflexivity
       end);
  try (let p0 := fresh "p" in
       let n0 := fresh "n" in
       let Hn0 := fresh "Hn" in
       intros p0 n0 Hn0;
       match goal with
       | |- exists _, <[?q := _]> _ !! p0 = Some _ /\ _ =>
           lookup_cases p0 q;
           [ eexists; split; [reflexivity|];
             match goal with H : _ !! q = Some _ |- _ =>
               rewrite H in Hn0; injection Hn0 as <- end;
             unfold settled_nameserver; cbn;
             repeat split; try reflexivity; try congruence
           | exists n0; split; [exact Hn0 | reflexivity] ]
       | |- exists _, _ !! p0 = Some _ /\ _ =>
           exists n0; split; [exact Hn0 | reflexivity]
       end).

Create HintDb pres.

Ltac pres_rule lem :=
  apply lem;
  try match goal with |- PreOrder _ => typeclasses eauto end.

Ltac pres_step :=
  lazymatch goal with
  | |- preserves _ (bind _ _) => pres_rule preserves_bind; [ | intros ? ]
  | |- preserves _ (ret _) => pres_rule preserves_ret
  | |- preserves _ get => pres_rule preserves_get
  | |- preserves _ crash => pres_rule preserves_crash
  | |- preserves _ (assert _) => pres_rule preserves_assert
  | |- preserves _ (when _ _) => pres_rule preserves_when
  | |- preserves _ (deref_req _) => pres_rule preserves_deref_req
  | |- preserves _ (deref_ns _) => pres_rule preserves_deref_ns
  | |- preserves _ (deref_search _) => pres_rule preserves_deref_search
  | |- preserves _ (req_ns _) => pres_rule preserves_req_ns
  | |- preserves _ (for_each _ _) => pres_rule preserves_for_each; intros ?
  | |- preserves _ (modify _) => pres_rule preserves_modify; footprint
  | |- preserves _ (emit _) => pres_rule preserves_modify; footprint
  | |- preserves _ (update_req _ _) => pres_rule preserves_update_req; footprint
  | |- preserves _ (update_ns _ _) => pres_rule preserves_update_ns; footprint
  | |- preserves _ (update_search _ _) => pres_rule preserves_update_search; footprint
  | |- preserves _ (if ?b then _ else _) => destruct b
  | |- preserves _ (match ?x with _ => _ end) => destruct x
  | |- preserves _ _ => solve [eauto with pres]
  end.

Ltac pres := cbv zeta; repeat (pres_step; cbv zeta).

(** *** The transport layer *)

Lemma server_head_advance_quiet : preserves quiet server_head_advance.
Proof. unfold server_head_advance. pres. Qed.
#[local] Hint Resolve server_head_advance_quiet : pres.

Lemma server_head_advance_ok s :
  server_head_advance s = Ok tt (set_server_head (ring_next (server_head s)) s).
Proof. reflexivity. Qed.

(** The loop of [nameserver_pick] is done within one turn of the
    ring: started with as many iterations as servers it never runs
    out.  [post] is what is left of the ring before the walk is back
    at [started_at]. *)
Lemma nameserver_pick_loop_quiet post : forall pre started_at s,
  post <> [] ->
  server_head s = post ++ pre ->
  head (pre ++ post) = Some started_at ->
  wp (nameserver_pick_loop (List.length post) started_at)
     (fun _ s' => quiet s s') s.
Proof.
  induction post as [|h post IH]; intros pre started_at s Hne Hs Hhd.
  - congruence.
  - cbn [List.length nameserver_pick_loop].
    apply wp_bind, wp_get. rewrite Hs. cbn [app].
    apply wp_bind, wp_deref_ns. intros n Hn.
    destruct (ns_state n).
    + apply wp_bind. eapply wp_preserves; [apply server_head_advance_quiet|].
      intros _ s1 H1. apply wp_ret. exact H1.
    + apply wp_bind. unfold wp at 1. rewrite server_head_advance_ok.
      apply wp_bind, wp_get.
      cbn [server_head set_server_head]. rewrite Hs. cbn [ring_next app].
      set (s1 := set_server_head _ s).
      assert (T1 : quiet s s1) by (subst s1; footprint).
      destruct post as [|h' post].
      * (* the walk is back where it started *)
        cbn [app]. destruct pre as [|p0 pre]; cbn [app] in *.
        -- injection Hhd as <-. rewrite Nat.eqb_refl.
           apply wp_bind, wp_assert. intros _.
           apply wp_bind. eapply wp_preserves; [apply server_head_advance_quiet|].
           intros _ s2 H2. apply wp_ret. transitivity s1; assumption.
        -- injection Hhd as <-. rewrite Nat.eqb_refl.
           apply wp_bind, wp_assert. intros _.
           apply wp_bind. eapply wp_preserves; [apply server_head_advance_quiet|].
           intros _ s2 H2. apply wp_ret. transitivity s1; assumption.
      * cbn [app]. destruct (Nat.eqb h' started_at).
        -- apply wp_bind, wp_assert. intros _.
           apply wp_bind. eapply wp_preserves; [apply server_head_advance_quiet|].
           intros _ s2 H2. apply wp_ret. transitivity s1; assumption.
        -- eapply wp_mono.
           ++ apply (IH (pre ++ [h]) started_at s1); [congruence | |].
              ** subst s1. cbn. rewrite <- app_assoc. reflexivity.
              ** rewrite <- app_assoc. exact Hhd.
           ++ intros a s2 H2. simpl in *. transitivity s1; assumption.
Qed.

Lemma nameserver_pick_quiet : preserves quiet nameserver_pick.
Proof.
  intros s. unfold nameserver_pick. apply wp_bind, wp_get.
  destruct (server_head s) as [|h l] eqn:E.
  - apply wp_ret. reflexivity.
  - destruct (global_good_nameservers s =? 0).
    + apply wp_bind. eapply wp_preserves; [apply server_head_advance_quiet|].
      intros _ s1 H1. apply wp_bind, wp_get. apply wp_ret. exact H1.
    + apply (nameserver_pick_loop_quiet (h :: l) [] h s); [congruence | |].
      * rewrite app_nil_r. exact E.
      * reflexivity.
Qed.
#[local] Hint Resolve nameserver_pick_quiet : pres.

Lemma nameserver_failed_quiet ns : preserves quiet (nameserver_failed ns).
Proof. unfold nameserver_failed. pres. Qed.
#[local] Hint Resolve nameserver_failed_quiet : pres.

Lemma nameserver_write_waiting_quiet ns w :
  preserves quiet (nameserver_write_waiting ns w).
Proof. unfold nameserver_write_waiting. pres. Qed.
#[local] Hint Resolve nameserver_write_waiting_quiet : pres.

Lemma quiet_weaken {A : Type} (m : M A) :
  preserves quiet m -> preserves transport m.
Proof. apply preserves_weaken. exact quiet_transport. Qed.
#[local] Hint Resolve quiet_weaken : pres.

Lemma quiet_silent_weaken {A : Type} (m : M A) :
  preserves quiet m -> preserves silent m.
Proof. apply preserves_weaken. exact quiet_silent. Qed.
#[local] Hint Resolve quiet_silent_weaken : pres.

Lemma nameserver_pick_transport : preserves transport nameserver_pick.
Proof. auto with pres. Qed.

Lemma nameserver_failed_transport ns : preserves transport (nameserver_failed ns).
Proof. auto with pres. Qed.

Lemma send_transport server req : preserves transport (send server req).
Proof. unfold send, emit. pres. Qed.
#[local] Hint Resolve send_transport : pres.

Lemma evdns_request_transmit_to_transport req server :
  preserves transport (evdns_request_transmit_to req server).
Proof. unfold evdns_request_transmit_to. pres. Qed.
#[local] Hint Resolve evdns_request_transmit_to_transport : pres.

Lemma evdns_request_transmit_transport req :
  preserves transport (evdns_request_transmit req).
Proof. unfold evdns_request_transmit. pres. Qed.
#[local] Hint Resolve evdns_request_transmit_transport : pres.

Lemma evdns_transmit_walk_transport l : forall did,
  preserves transport (evdns_transmit_walk l did).
Proof.
  induction l as [|req l IH]; intros did; cbn [evdns_transmit_walk]; pres.
Qed.
#[local] Hint Resolve evdns_transmit_walk_transport : pres.

Lemma evdns_transmit_transport : preserves transport evdns_transmit.
Proof. unfold evdns_transmit. pres. Qed.
#[local] Hint Resolve evdns_transmit_transport : pres.

Lemma transaction_id_scan_quiet l : forall started_at trans_id,
  preserves quiet (transaction_id_scan l started_at trans_id).
Proof.
  induction l as [|req l IH]; intros started_at trans_id;
    cbn [transaction_id_scan]; pres.
Qed.
#[local] Hint Resolve transaction_id_scan_quiet : pres.

Lemma transaction_id_pick_loop_quiet entropy :
  preserves quiet (transaction_id_pick_loop entropy).
Proof.
  induction entropy as [|x entropy IH]; cbn [transaction_id_pick_loop]; pres.
Qed.
#[local] Hint Resolve transaction_id_pick_loop_quiet : pres.

Lemma transaction_id_pick_quiet : preserves quiet transaction_id_pick.
Proof. unfold transaction_id_pick. pres. Qed.
#[local] Hint Resolve transaction_id_pick_quiet : pres.

Lemma transaction_id_pick_transport : preserves transport transaction_id_pick.
Proof. auto with pres. Qed.

(** The nameserver and id pickers write no request and allocate
    nothing. *)
Lemma server_head_advance_same_heap : preserves same_heap server_head_advance.
Proof. unfold server_head_advance. pres. Qed.
#[local] Hint Resolve server_head_advance_same_heap : pres.

Lemma nameserver_pick_loop_same_heap fuel : forall started_at s,
  match nameserver_pick_loop fuel started_at s with
  | Ok _ s' => same_heap s s'
  | _ => True
  end.
Proof.
  induction fuel as [|fuel IH]; intros started_at s; [exact I|].
  cbn [nameserver_pick_loop]. unfold bind at 1, get.
  destruct (server_head s) as [|h l] eqn:E; [exact I|].
  unfold bind at 1, deref_ns. destruct (nameservers s !! h) as [n|]; [|exact I].
  destruct (ns_state n).
  - split; reflexivity.
  - unfold bind at 1. rewrite server_head_advance_ok. unfold bind at 1, get.
    cbn [server_head set_server_head]. rewrite E. cbn [ring_next].
    destruct (l ++ [h]) as [|h' l']; [exact I|].
    destruct (Nat.eqb h' started_at).
    + unfold bind at 1, assert.
      destruct (global_good_nameservers _ =? 0); [split; reflexivity | exact I].
    + match goal with |- match nameserver_pick_loop _ _ ?st with _ => _ end =>
        specialize (IH started_at st) end.
      destruct (nameserver_pick_loop fuel started_at _); auto.
Qed.

Lemma nameserver_pick_heap s :
  match nameserver_pick s with
  | Ok _ s' => same_heap s s'
  | _ => True
  end.
Proof.
  unfold nameserver_pick, bind at 1, get.
  destruct (server_head s) as [|h l]; [split; reflexivity|].
  destruct (global_good_nameservers s =? 0); [split; reflexivity|].
  apply nameserver_pick_loop_same_heap.
Qed.

Lemma nameserver_pick_same_heap : preserves same_heap nameserver_pick.
Proof.
  intros s. pose proof (nameserver_pick_quiet s) as Q.
  pose proof (nameserver_pick_heap s) as H. unfold wp in *.
  destruct (nameserver_pick s); auto.
Qed.
#[local] Hint Resolve nameserver_pick_same_heap : pres.

Lemma transaction_id_scan_same_heap l : forall started_at trans_id,
  preserves same_heap (transaction_id_scan l started_at trans_id).
Proof.
  induction l as [|req l IH]; intros started_at trans_id;
    cbn [transaction_id_scan]; pres.
Qed.
#[local] Hint Resolve transaction_id_scan_same_heap : pres.

Lemma transaction_id_pick_loop_same_heap entropy :
  preserves same_heap (transaction_id_pick_loop entropy).
Proof.
  induction entropy as [|x entropy IH]; cbn [transaction_id_pick_loop]; pres.
Qed.
#[local] Hint Resolve transaction_id_pick_loop_same_heap : pres.

Lemma transaction_id_pick_same_heap : preserves same_heap transaction_id_pick.
Proof. unfold transaction_id_pick. pres. Qed.
#[local] Hint Resolve transaction_id_pick_same_heap : pres.

(** *** The request layer keeps the state steady *)

Lemma transport_weaken {A : Type} (m : M A) :
  preserves transport m -> preserves steady m.
Proof. apply preserves_weaken. exact transport_steady. Qed.

#[local] Hint Resolve transport_weaken : pres.

Lemma malloc_steady : preserves steady malloc.
Proof. intros s. apply wp_malloc. footprint. Qed.
#[local] Hint Resolve malloc_steady : pres.

Lemma request_trans_id_set_steady req id :
  preserves steady (request_trans_id_set req id).
Proof. unfold request_trans_id_set. pres. Qed.
#[local] Hint Resolve request_trans_id_set_steady : pres.

Lemma evdns_request_insert_steady req h :
  preserves steady (evdns_request_insert req h).
Proof. unfold evdns_request_insert. destruct h; pres. Qed.
#[local] Hint Resolve evdns_request_insert_steady : pres.

Lemma request_new_steady type name flags cb ptr :
  preserves steady (request_new type name flags cb ptr).
Proof. unfold request_new. pres. Qed.
#[local] Hint Resolve request_new_steady : pres.

Lemma request_submit_steady req : preserves steady (request_submit req).
Proof. unfold request_submit. pres. Qed.
#[local] Hint Resolve request_submit_steady : pres.

(** *** The waiting-queue pump *)

#[local] Instance capped_preorder : PreOrder capped.
Proof.
  split.
  - intros s. unfold capped. split; [reflexivity | lia].
  - intros s1 s2 s3 (A1 & A2) (B1 & B2). unfold capped. split; [congruence|].
    rewrite A1 in B2. lia.
Qed.

#[local] Instance freed_stay_preorder : PreOrder freed_stay.
Proof.
  split.
  - intros s req H. exact H.
  - intros s1 s2 s3 H1 H2 req H. apply H2, H1, H.
Qed.

#[local] Instance pumped_preorder : PreOrder pumped.
Proof.
  split.
  - intros s. split; [reflexivity|]. split; reflexivity.
  - intros s1 s2 s3 (A1 & A2 & A3) (B1 & B2 & B3).
    split; [transitivity s2; assumption|].
    split; [transitivity s2; assumption|].
    transitivity s2; assumption.
Qed.

Lemma transport_pumped s s' : transport s s' -> pumped s s'.
Proof.
  intros T. split; [apply transport_steady, T|]. split.
  - destruct (transport_config _ _ T) as (C1 & _).
    unfold capped. rewrite (transport_inflight _ _ T). split; [exact C1 | lia].
  - intros req (G1 & G2). split.
    + pose proof (transport_requests _ _ req T) as H. rewrite G1 in H.
      destruct (requests s' !! req); simpl in H; [contradiction | reflexivity].
    + rewrite (transport_req_head _ _ T). exact G2.
Qed.

Lemma pumped_update_req s req r r' :
  requests s !! req = Some r ->
  pumped s (set_requests (<[req := r']> (requests s)) s).
Proof.
  intros Hr. split; [footprint|]. split.
  - unfold capped. cbn. split; [reflexivity | lia].
  - intros q (G1 & G2). split; cbn; [|exact G2].
    rewrite lookup_insert_ne; [exact G1 | congruence].
Qed.

Lemma pumped_insert_inflight s req r :
  requests s !! req = Some r ->
  pumped s (set_req_head (req_head s ++ [req]) s).
Proof.
  intros Hr. split; [footprint|]. split.
  - unfold capped. cbn. split; [reflexivity | lia].
  - intros q (G1 & G2). split; cbn; [exact G1|].
    rewrite in_app_iff. intros [H|[H|[]]]; [auto | congruence].
Qed.

Lemma pumped_promote s rest :
  global_requests_inflight s < global_max_requests_inflight s ->
  pumped s
    (set_global_requests_inflight (global_requests_inflight s + 1)
       (set_global_requests_waiting (global_requests_waiting s - 1)
          (set_req_waiting_head rest s))).
Proof.
  intros Hc. split; [footprint|]. split.
  - unfold capped. cbn. split; [reflexivity | lia].
  - intros q (G1 & G2). split; cbn; assumption.
Qed.

Lemma transport_pumped_weaken {A : Type} (m : M A) :
  preserves transport m -> preserves pumped m.
Proof. apply preserves_weaken. exact transport_pumped. Qed.

(** With more iterations than requests waiting the pump never runs
    out of them. *)
Lemma pump_loop_pumped fuel : forall s,
  (List.length (req_waiting_head s) < fuel)%nat ->
  wp (pump_loop fuel) (fun _ s' => pumped s s') s.
Proof.
  induction fuel as [|fuel IH]; intros s Hfuel; [lia|].
  cbn [pump_loop]. apply wp_bind, wp_get.
  destruct ((global_requests_inflight s <? global_max_requests_inflight s)
            && negb (global_requests_waiting s =? 0)) eqn:C;
    [|apply wp_ret; reflexivity].
  apply andb_true_iff in C. destruct C as [C _]. apply Z.ltb_lt in C.
  destruct (req_waiting_head s) as [|req rest] eqn:W; [apply wp_crash|].
  apply wp_bind, wp_modify. apply wp_bind, wp_modify. apply wp_bind, wp_modify.
  cbn [set_req_waiting_head global_requests_waiting global_requests_inflight
       set_global_requests_waiting].
  match goal with |- wp _ _ ?st => set (s1 := st) end.
  assert (P1 : pumped s s1) by (apply pumped_promote; exact C).
  assert (W1 : req_waiting_head s1 = rest) by reflexivity.
  apply wp_bind. eapply wp_preserves; [apply nameserver_pick_transport|].
  intros ns s2 T2.
  apply wp_bind, wp_update_req. intros r2 Hr2.
  match goal with |- wp _ _ ?st => set (s3 := st) end.
  apply wp_bind. eapply wp_preserves; [apply transaction_id_pick_transport|].
  intros trans_id s4 T4.
  apply wp_bind. unfold request_trans_id_set. apply wp_update_req. intros r4 Hr4.
  match goal with |- wp _ _ ?st => set (s5 := st) end.
  apply wp_bind, wp_modify. cbn [set_ring ring].
  match goal with |- wp _ _ ?st => set (s6 := st) end.
  apply wp_bind. eapply wp_preserves; [apply evdns_request_transmit_transport|].
  intros rc s7 T7.
  apply wp_bind. eapply wp_preserves; [apply evdns_transmit_transport|].
  intros did s8 T8.
  assert (P8 : pumped s s8).
  { transitivity s1; [exact P1|].
    transitivity s2; [apply transport_pumped, T2|].
    transitivity s3; [eapply pumped_update_req, Hr2|].
    transitivity s4; [apply transport_pumped, T4|].
    transitivity s5; [eapply pumped_update_req, Hr4|].
    transitivity s6.
    { subst s6. eapply pumped_insert_inflight. subst s5. cbn.
      apply lookup_insert_eq. }
    transitivity s7; apply transport_pumped; assumption. }
  assert (W8 : req_waiting_head s8 = rest).
  { rewrite (transport_req_waiting_head _ _ T8), (transport_req_waiting_head _ _ T7).
    subst s6 s5. cbn. rewrite (transport_req_waiting_head _ _ T4). subst s3. cbn.
    rewrite (transport_req_waiting_head _ _ T2). exact W1. }
  eapply wp_mono.
  - apply IH. rewrite W8. simpl in Hfuel. lia.
  - intros u s9 P9. simpl in *. transitivity s8; assumption.
Qed.

Lemma evdns_requests_pump_waiting_queue_pumped :
  preserves pumped evdns_requests_pump_waiting_queue.
Proof.
  intros s. unfold evdns_requests_pump_waiting_queue.
  apply wp_bind, wp_get. apply pump_loop_pumped. lia.
Qed.

Lemma pumped_steady s s' : pumped s s' -> steady s s'.
Proof. intros (H & _). exact H. Qed.

Lemma evdns_requests_pump_waiting_queue_steady :
  preserves steady evdns_requests_pump_waiting_queue.
Proof.
  eapply preserves_weaken; [exact pumped_steady|].
  apply evdns_requests_pump_waiting_queue_pumped.
Qed.
#[local] Hint Resolve evdns_requests_pump_waiting_queue_steady : pres.

(** *** Finishing a request *)

#[local] Instance tidy_preorder : PreOrder tidy.
Proof.
  split.
  - intros s. split; reflexivity.
  - intros s1 s2 s3 (A1 & A2) (B1 & B2).
    split; [transitivity s2; assumption | congruence].
Qed.

Lemma search_state_decref_tidy p : preserves tidy (search_state_decref p).
Proof. unfold search_state_decref. pres. Qed.
#[local] Hint Resolve search_state_decref_tidy : pres.

Lemma search_request_finished_tidy req : preserves tidy (search_request_finished req).
Proof. unfold search_request_finished. pres. Qed.

Lemma in_ring_remove req q l : In q (ring_remove req l) <-> In q l /\ q <> req.
Proof.
  unfold ring_remove. rewrite List.filter_In.
  rewrite negb_true_iff, Nat.eqb_neq. tauto.
Qed.

(** [request_finished] frees the request and takes it off the
    inflight ring; nothing it does brings it back. *)
Lemma request_finished_spec req s :
  wp (request_finished req Inflight) (fun _ s' => steady s s' /\ gone req s') s.
Proof.
  unfold request_finished.
  apply wp_bind, wp_deref_req. intros r Hr.
  apply wp_bind, wp_get.
  destruct (negb (existsb (Nat.eqb req) (ring Inflight s))); [apply wp_crash|].
  apply wp_bind, wp_modify. cbn [set_ring ring].
  match goal with |- wp _ _ ?st => set (s1 := st) end.
  apply wp_bind, wp_update_req. intros r1 Hr1.
  match goal with |- wp _ _ ?st => set (s2 := st) end.
  apply wp_bind. eapply wp_preserves; [apply search_request_finished_tidy|].
  intros u s3 (T3 & R3).
  apply wp_bind, wp_modify. apply wp_bind, wp_modify.
  match goal with |- wp _ _ ?st => set (s5 := st) end.
  assert (S5 : steady s s5).
  { transitivity s1; [subst s1; footprint|].
    transitivity s2; [subst s2; footprint|].
    transitivity s3; [exact T3|]. subst s5. footprint. }
  assert (G5 : gone req s5).
  { split.
    - subst s5. cbn. apply lookup_delete_eq.
    - subst s5. cbn. rewrite R3. subst s2 s1. cbn.
      rewrite in_ring_remove. tauto. }
  eapply wp_preserves; [apply evdns_requests_pump_waiting_queue_pumped|].
  intros u' s6 (P1 & P2 & P3). split.
  - transitivity s5; assumption.
  - apply P3, G5.
Qed.

Lemma request_finished_steady req : preserves steady (request_finished req Inflight).
Proof.
  intros s. eapply wp_mono; [apply request_finished_spec|].
  intros a s' (H & _). exact H.
Qed.
#[local] Hint Resolve request_finished_steady : pres.

(** *** Callbacks *)

Lemma nameserver_probe_failed_steady ns : preserves steady (nameserver_probe_failed ns).
Proof. unfold nameserver_probe_failed. pres. Qed.
#[local] Hint Resolve nameserver_probe_failed_steady : pres.

(** A callback invoked with an error other than NOTEXIST is recorded
    and brings no nameserver up. *)
Lemma invoke_callback_spec cb result type count ttl data arg s :
  result <> DNS_ERR_NONE -> result <> DNS_ERR_NOTEXIST ->
  wp (invoke_callback cb result type count ttl data arg)
     (fun _ s' =>
        settled s s' /\
        callbacks (trace s') =
          callbacks (trace s) ++ [EvCallback cb result type count ttl data arg])
     s.
Proof.
  intros N1 N2. unfold invoke_callback.
  apply wp_bind, wp_emit.
  match goal with |- wp _ _ ?st => set (s1 := st) end.
  assert (S1 : settled s s1) by (subst s1; footprint).
  assert (C1 : callbacks (trace s1) =
               callbacks (trace s) ++ [EvCallback cb result type count ttl data arg]).
  { subst s1. cbn. rewrite callbacks_app. reflexivity. }
  destruct cb as [f|].
  - apply wp_ret. split; assumption.
  - unfold nameserver_probe_callback.
    replace (dns_err_eqb result DNS_ERR_NONE || dns_err_eqb result DNS_ERR_NOTEXIST)
      with false by (destruct result; try reflexivity; congruence).
    eapply wp_preserves; [apply nameserver_probe_failed_steady|].
    intros u s2 S2. split.
    + transitivity s1; [exact S1 | apply steady_settled, S2].
    + destruct S2 as (_ & -> & _). exact C1.
Qed.

Lemma reply_callback_error_spec req err s r :
  err <> DNS_ERR_NONE -> err <> DNS_ERR_NOTEXIST ->
  requests s !! req = Some r ->
  wp (reply_callback req 0 err None)
     (fun _ s' =>
        settled s s' /\
        callbacks (trace s') =
          callbacks (trace s) ++
          [EvCallback (r_user_callback r) err 0 0 0 data_null (r_user_pointer r)])
     s.
Proof.
  intros N1 N2 Hr. unfold reply_callback.
  apply wp_bind, wp_deref_req. intros r' Hr'.
  assert (r' = r) as -> by congruence.
  destruct (r_request_type r =? TYPE_A).
  - apply invoke_callback_spec; assumption.
  - destruct (r_request_type r =? TYPE_PTR).
    + apply invoke_callback_spec; assumption.
    + apply wp_crash.
Qed.

(** *** Timeouts *)

Lemma settled_down s s' ns n :
  settled s s' -> nameservers s !! ns = Some n -> ns_state n = false ->
  exists n', nameservers s' !! ns = Some n' /\ ns_state n' = false /\
             ns_timedout n' = ns_timedout n.
Proof.
  intros (_ & H) Hn Hd. destruct (H ns n Hn) as (n' & Hn' & A1 & A2 & A3).
  exists n'. split; [exact Hn'|]. split; [|exact A2].
  destruct (ns_state n'); [|reflexivity]. rewrite A3 in Hd by reflexivity. discriminate.
Qed.

Lemma settled_timedout s s' ns n :
  settled s s' -> nameservers s !! ns = Some n ->
  exists n', nameservers s' !! ns = Some n' /\ ns_timedout n' = ns_timedout n.
Proof.
  intros (_ & H) Hn. destruct (H ns n Hn) as (n' & Hn' & A1 & A2 & A3).
  exists n'. auto.
Qed.

Lemma transport_settled s s' : transport s s' -> settled s s'.
Proof. intros H. apply steady_settled, transport_steady, H. Qed.

Lemma quiet_settled s s' : quiet s s' -> settled s s'.
Proof. intros H. apply transport_settled, quiet_transport, H. Qed.

(** After [nameserver_failed] the nameserver is down. *)
Lemma nameserver_failed_down ns s :
  wp (nameserver_failed ns)
     (fun _ s' => exists n', nameservers s' !! ns = Some n' /\ ns_state n' = false) s.
Proof.
  unfold nameserver_failed.
  apply wp_bind, wp_deref_ns. intros n Hn.
  destruct (ns_state n) eqn:E; cbn [negb].
  2:{ apply wp_ret. exists n. auto. }
  apply wp_bind, wp_modify. apply wp_bind, wp_get. apply wp_bind, wp_assert. intros _.
  apply wp_bind, wp_update_ns. intros n1 Hn1.
  apply wp_bind, wp_update_ns. intros n2 Hn2.
  match goal with |- wp _ _ ?st => set (s3 := st) end.
  assert (D3 : exists n3, nameservers s3 !! ns = Some n3 /\ ns_state n3 = false).
  { subst s3. cbn. rewrite lookup_insert_eq. eexists. split; [reflexivity|].
    cbn in Hn2. rewrite lookup_insert_eq in Hn2. injection Hn2 as <-. reflexivity. }
  destruct D3 as (n3 & Hn3 & D3).
  eapply wp_preserves with (R := quiet).
  - pres.
  - intros u s4 Q4. destruct (settled_down _ _ _ _ (quiet_settled _ _ Q4) Hn3 D3)
      as (n4 & Hn4 & D4 & _). exists n4. auto.
Qed.

Lemma quiet_request s s' req r :
  quiet s s' -> requests s !! req = Some r ->
  exists r', requests s' !! req = Some r' /\ same_request r r' /\ same_schedule r r'.
Proof.
  intros (T & _ & Hs) Hr.
  destruct (transport_request _ _ _ _ T Hr) as (r' & Hr' & S).
  specialize (Hs req). rewrite Hr, Hr' in Hs. exists r'. auto.
Qed.

(** *** Replies for unknown transaction ids *)

Lemma request_find_walk_none l trans_id s :
  (forall req, In req l ->
     exists r, requests s !! req = Some r /\ r_trans_id r <> trans_id) ->
  request_find_walk l trans_id s = Ok None s.
Proof.
  induction l as [|req l IH]; intros H; [reflexivity|].
  cbn [request_find_walk]. unfold bind, deref_req.
  destruct (H req) as (r & Hr & Hne); [left; reflexivity|].
  rewrite Hr. apply Z.eqb_neq in Hne. rewrite Hne.
  apply IH. intros q Hq. apply H. right. exact Hq.
Qed.

(** C10.  A reply whose header carries a transaction id that no
    request on the inflight ring has makes [reply_parse] return -1
    with the state as it was: no callback, no nameserver change, both
    rings and their counters untouched. *)
Theorem reply_parse_unknown_id fuel packet length s h j :
  parse_header packet length = Some (h, j) ->
  (forall req, In req (req_head s) ->
     exists r, requests s !! req = Some r /\ r_trans_id r <> h_trans_id h) ->
  reply_parse fuel packet length s = Ok (-1) s.
Proof.
  intros Hh Hnone. unfold reply_parse. rewrite Hh.
  unfold bind at 1. unfold request_find_from_trans_id, bind at 1, get.
  rewrite request_find_walk_none by exact Hnone. reflexivity.
Qed.

(** *** Building and submitting requests *)

Lemma malloc_quiet : preserves quiet malloc.
Proof. intros s. apply wp_malloc. footprint. Qed.
#[local] Hint Resolve malloc_quiet : pres.

(** [request_new] runs the transport layer and stores one record at
    the next free address; it fails only when the name cannot be
    encoded. *)
Lemma request_new_spec type name flags cb ptr s :
  wp (request_new type name flags cb ptr)
     (fun res s' =>
        match res with
        | None =>
            quiet s s' /\
            exists trans_id e,
              evdns_request_data_build name (strlen name) trans_id type CLASS_INET
                (evdns_request_len (strlen name)) = inl e
        | Some req =>
            req = next_ptr s /\
            exists s3 packet trans_id ns,
              quiet s s3 /\
              next_ptr s3 = S (next_ptr s) /\
              evdns_request_data_build name (strlen name) trans_id type CLASS_INET
                (evdns_request_len (strlen name)) = inr packet /\
              (ns <> None ->
               global_requests_inflight s < global_max_requests_inflight s) /\
              s' = set_requests
                     (<[req := new_request packet type ptr cb ns trans_id]>
                        (requests s3)) s3
        end) s.
Proof.
  unfold request_new. apply wp_bind, wp_get. cbv zeta.
  apply wp_bind.
  apply wp_mono with
    (Q := fun (_ : Z) s1 => quiet s s1 /\ next_ptr s1 = next_ptr s).
  { destruct (global_requests_inflight s <? global_max_requests_inflight s).
    - eapply wp_mono;
        [apply wp_conj; [apply transaction_id_pick_quiet |
                         apply transaction_id_pick_same_heap]|].
      intros a s1 (Q1 & A1 & _). split; assumption.
    - apply wp_ret. split; reflexivity. }
  intros trans_id s1 (Q1 & A1).
  apply wp_bind, wp_malloc.
  match goal with |- wp _ _ ?st => set (s2 := st) end.
  assert (Q2 : quiet s s2).
  { transitivity s1; [exact Q1 | subst s2; footprint]. }
  rewrite A1.
  destruct (evdns_request_data_build name (strlen name) trans_id type CLASS_INET
              (evdns_request_len (strlen name))) as [e|packet] eqn:B.
  { apply wp_ret. split; [exact Q2|]. eauto. }
  apply wp_bind.
  apply wp_mono with
    (Q := fun (ns : option nat) s3 =>
            quiet s2 s3 /\ next_ptr s3 = next_ptr s2 /\
            (ns <> None ->
             global_requests_inflight s < global_max_requests_inflight s)).
  { destruct (global_requests_inflight s <? global_max_requests_inflight s) eqn:C.
    - eapply wp_mono;
        [apply wp_conj; [apply nameserver_pick_quiet | apply nameserver_pick_same_heap]|].
      intros ns s3 (Q3 & A3 & _). split; [exact Q3|]. split; [exact A3|].
      intros _. apply Z.ltb_lt, C.
    - apply wp_ret. split; [reflexivity|]. split; [reflexivity|]. congruence. }
  intros ns s3 (Q3 & A3 & Hns).
  apply wp_bind, wp_modify. apply wp_ret.
  split; [reflexivity|].
  exists s3, packet, trans_id, ns.
  split; [transitivity s2; assumption|].
  split; [rewrite A3; subst s2; cbn; congruence|].
  split; [exact B|]. split; [exact Hns|]. reflexivity.
Qed.

Lemma quiet_inflight s s' :
  quiet s s' -> global_requests_inflight s' = global_requests_inflight s.
Proof. intros Q. apply transport_inflight, quiet_transport, Q. Qed.

Lemma quiet_cap s s' :
  quiet s s' -> global_max_requests_inflight s' = global_max_requests_inflight s.
Proof. intros Q. apply (transport_config _ _ (quiet_transport _ _ Q)). Qed.

(** A request fresh from [request_new] is submittable. *)
Lemma request_new_submittable type name flags cb ptr s :
  under_cap s ->
  wp (request_new type name flags cb ptr)
     (fun res s' =>
        under_cap s' /\
        match res with
        | Some req => submittable req s'
        | None => True
        end) s.
Proof.
  intros U. eapply wp_mono; [apply request_new_spec|].
  intros [req|] s'; cbv beta.
  - intros (-> & s3 & packet & trans_id & ns & Q3 & A3 & B & Hns & ->).
    assert (U3 : under_cap s3).
    { unfold under_cap. rewrite (quiet_inflight _ _ Q3), (quiet_cap _ _ Q3). exact U. }
    split; [exact U3|]. split; [exact U3|].
    eexists. split; [cbn; apply lookup_insert_eq|].
    cbn. intros H. specialize (Hns H).
    rewrite (quiet_inflight _ _ Q3), (quiet_cap _ _ Q3). exact Hns.
  - intros (Q & _). split; [|exact I].
    unfold under_cap. rewrite (quiet_inflight _ _ Q), (quiet_cap _ _ Q). exact U.
Qed.

Lemma submittable_update_req req q f s r :
  submittable req s -> requests s !! q = Some r -> r_ns (f r) = r_ns r ->
  submittable req (set_requests (<[q := f r]> (requests s)) s).
Proof.
  intros (U & r0 & Hr0 & H) Hq Hf. split; [exact U|]. cbn.
  destruct (decide (req = q)) as [->|Hne].
  - rewrite lookup_insert_eq. eexists. split; [reflexivity|].
    assert (r0 = r) as -> by congruence. rewrite Hf. exact H.
  - rewrite lookup_insert_ne by congruence. eauto.
Qed.

Lemma submittable_update_search req p st s :
  submittable req s -> submittable req (set_search_states (<[p := st]> (search_states s)) s).
Proof. intros H. exact H. Qed.

(** Submitting an submittable request keeps the counter within the cap. *)
Lemma request_submit_submittable req s :
  submittable req s ->
  wp (request_submit req) (fun _ s' => under_cap s') s.
Proof.
  intros (U & r & Hr & H). unfold request_submit.
  apply wp_bind, wp_deref_req. intros r' Hr'. assert (r' = r) as -> by congruence.
  destruct (r_ns r) as [ns|] eqn:E.
  - apply wp_bind, wp_modify. apply wp_bind, wp_modify.
    match goal with |- wp _ _ ?st => set (s2 := st) end.
    assert (U2 : under_cap s2).
    { subst s2. unfold under_cap. cbn. assert (Some ns <> None) as N by congruence.
      specialize (H N). lia. }
    apply wp_bind. eapply wp_preserves; [apply evdns_request_transmit_transport|].
    intros rc s3 T3. apply wp_ret. unfold under_cap.
    rewrite (transport_inflight _ _ T3).
    destruct (transport_config _ _ T3) as (-> & _). exact U2.
  - apply wp_bind, wp_modify. apply wp_modify. exact U.
Qed.

(** *** The inflight cap *)

Lemma search_make_new_pure st n base s :
  wp (search_make_new st n base) (fun _ s' => s' = s) s.
Proof.
  unfold search_make_new. destruct (last_char base); [|apply wp_crash].
  destruct (n <? 0); [apply wp_crash|].
  destruct (nth_error (ss_head st) (Z.to_nat n)); [apply wp_ret; reflexivity | apply wp_crash].
Qed.

(** [request_new] followed by [request_submit]. *)
Lemma submit_new_under_cap type name flags cb ptr s :
  under_cap s ->
  wp (req <- request_new type name flags cb ptr ;;
      match req with
      | None => ret 1
      | Some req => request_submit req ;; ret 0
      end)
     (fun _ s' => under_cap s') s.
Proof.
  intros U. apply wp_bind.
  eapply wp_mono; [apply request_new_submittable, U|].
  intros [req|] s1 (U1 & A1); cbv beta.
  - apply wp_bind. eapply wp_mono; [apply request_submit_submittable, A1|].
    intros u s2 U2. apply wp_ret. exact U2.
  - apply wp_ret. exact U1.
Qed.

Ltac submittable_step :=
  lazymatch goal with
  | |- wp (bind (update_req ?q ?f) _) _ _ =>
      apply wp_bind, wp_update_req;
      let r := fresh "r" in let Hr := fresh "Hr" in
      intros r Hr;
      match goal with
      | A : submittable _ _ |- _ =>
          apply (fun A => submittable_update_req _ q f _ _ A Hr) in A; [|reflexivity]
      end
  | |- wp (bind (update_search ?p ?f) _) _ _ =>
      apply wp_bind, wp_update_search;
      let st := fresh "st" in let Hst := fresh "Hst" in
      intros st Hst;
      match goal with
      | A : submittable _ _ |- _ =>
          apply (fun A => submittable_update_search _ p (f st) _ A) in A
      end
  end.

Lemma search_request_new_under_cap type name flags cb ptr s :
  under_cap s ->
  wp (search_request_new type name flags cb ptr) (fun _ s' => under_cap s') s.
Proof.
  intros U. unfold search_request_new.
  apply wp_bind, wp_assert. intros _. apply wp_bind, wp_get. cbv zeta.
  destruct (negb (Z.land flags DNS_QUERY_NO_SEARCH =? 0));
    [apply submit_new_under_cap, U|].
  destruct (global_search_state s) as [gp|]; [|apply submit_new_under_cap, U].
  apply wp_bind, wp_deref_search. intros gs Hgs.
  destruct (ss_num_domains gs =? 0); [apply submit_new_under_cap, U|].
  apply wp_bind.
  apply wp_mono with
    (Q := fun created s1 =>
            under_cap s1 /\
            match created with Some req => submittable req s1 | None => True end).
  { destruct (string_num_dots name >=? ss_ndots gs).
    - apply wp_bind. eapply wp_mono; [apply request_new_submittable, U|].
      intros [req|] s1 (U1 & A1); cbv beta.
      + submittable_step. apply wp_ret. split; [apply A1 | exact A1].
      + apply wp_ret. split; [exact U1 | exact I].
    - apply wp_bind. eapply wp_mono; [apply search_make_new_pure|].
      intros new_name s0 ->.
      apply wp_bind. eapply wp_mono; [apply request_new_submittable, U|].
      intros [req|] s1 (U1 & A1); cbv beta.
      + submittable_step. apply wp_ret. split; [apply A1 | exact A1].
      + apply wp_ret. split; [exact U1 | exact I]. }
  intros [req|] s1 (U1 & A1); [|apply wp_ret; exact U1].
  do 3 submittable_step. submittable_step.
  apply wp_bind. eapply wp_mono; [apply request_submit_submittable, A1|].
  intros u s2 U2. apply wp_ret. exact U2.
Qed.

Lemma evdns_resolve_ipv4_under_cap name flags cb ptr s :
  under_cap s ->
  wp (evdns_resolve_ipv4 name flags cb ptr) (fun _ s' => under_cap s') s.
Proof.
  intros U. unfold evdns_resolve_ipv4.
  destruct (negb (Z.land flags DNS_QUERY_NO_SEARCH =? 0)).
  - apply submit_new_under_cap, U.
  - apply search_request_new_under_cap, U.
Qed.

Lemma under_cap_update_req s q r :
  under_cap s -> under_cap (set_requests (<[q := r]> (requests s)) s).
Proof. intros U. exact U. Qed.

Lemma search_try_next_under_cap req s :
  under_cap s ->
  wp (search_try_next req) (fun _ s' => under_cap s') s.
Proof.
  intros U. unfold search_try_next.
  apply wp_bind, wp_deref_req. intros r Hr.
  destruct (r_search_state r) as [sp|]; [|apply wp_ret; exact U].
  apply wp_bind, wp_update_req. intros r0 Hr0.
  match goal with |- wp _ _ ?st => set (s1 := st) end.
  assert (U1 : under_cap s1) by exact U.
  apply wp_bind, wp_deref_req. intros r1 Hr1.
  apply wp_bind, wp_deref_search. intros st Hst.
  destruct (r_search_index r1 >=? ss_num_domains st).
  - apply wp_bind. unfold req_search_origname.
    apply wp_bind, wp_deref_req. intros r2 Hr2.
    destruct (r_search_origname r2) as [origname|]; [|apply wp_crash].
    apply wp_ret.
    destruct (string_num_dots origname <? ss_ndots st); [|apply wp_ret; exact U1].
    apply wp_bind. eapply wp_mono; [apply request_new_submittable, U1|].
    intros [newreq|] s2 (U2 & A2); cbv beta; [|apply wp_ret; exact U2].
    apply wp_bind. eapply wp_mono; [apply request_submit_submittable, A2|].
    intros u s3 U3. apply wp_ret. exact U3.
  - apply wp_bind. unfold req_search_origname.
    apply wp_bind, wp_deref_req. intros r2 Hr2.
    destruct (r_search_origname r2) as [origname|]; [|apply wp_crash].
    apply wp_ret.
    apply wp_bind. eapply wp_mono; [apply search_make_new_pure|].
    intros new_name s0 ->.
    apply wp_bind. eapply wp_mono; [apply request_new_submittable, U1|].
    intros [newreq|] s2 (U2 & A2); cbv beta; [|apply wp_ret; exact U2].
    do 5 submittable_step. submittable_step.
    apply wp_bind. eapply wp_mono; [apply request_submit_submittable, A2|].
    intros u s3 U3. apply wp_ret. exact U3.
Qed.

Lemma pumped_under_cap s s' : pumped s s' -> under_cap s -> under_cap s'.
Proof.
  intros (_ & (C1 & C2) & _) U. unfold under_cap in *. rewrite C1. lia.
Qed.

(** *** The search walk *)

Lemma nth_error_lookup {A : Type} (l : list A) i : nth_error l i = l !! i.
Proof.
  revert i. induction l as [|x l IH]; intros [|i]; simpl; auto.
Qed.

Lemma lookup_map {A B : Type} (f : A -> B) (l : list A) i :
  List.map f l !! i = option_map f (l !! i).
Proof.
  revert i. induction l as [|x l IH]; intros [|i]; simpl; auto.
Qed.

Lemma wp_update_req_known req f r (Q : unit -> state -> Prop) s :
  requests s !! req = Some r ->
  Q tt (set_requests (<[req := f r]> (requests s)) s) ->
  wp (update_req req f) Q s.
Proof.
  intros Hr HQ. apply wp_update_req. intros r' Hr'.
  assert (r' = r) as -> by congruence. exact HQ.
Qed.

(** Submitting a request leaves its packet and search fields alone. *)
Lemma request_submit_keeps req r s :
  requests s !! req = Some r ->
  wp (request_submit req)
     (fun _ s' => exists r', requests s' !! req = Some r' /\ same_request r r') s.
Proof.
  intros Hr. unfold request_submit.
  apply wp_bind, wp_deref_req. intros r0 Hr0.
  destruct (r_ns r0).
  - apply wp_bind, wp_modify. apply wp_bind, wp_modify.
    apply wp_bind. eapply wp_preserves; [apply evdns_request_transmit_transport|].
    intros rc s' T. apply wp_ret. eapply transport_request; [exact T|]. exact Hr.
  - apply wp_bind, wp_modify. apply wp_modify.
    exists r. split; [exact Hr | reflexivity].
Qed.

(** What [search_make_new] builds is the name with the suffix
    appended. *)
Lemma search_make_new_spec st n base postfix s :
  0 <= n -> ss_head st !! Z.to_nat n = Some postfix ->
  wp (search_make_new st n base)
     (fun new_name s' => s' = s /\ new_name = with_suffix base postfix) s.
Proof.
  intros Hn Hp. unfold search_make_new, with_suffix, ends_with_dot.
  destruct (last_char base) as [c|]; [|apply wp_crash].
  destruct (n <? 0) eqn:E; [apply Z.ltb_lt in E; lia|].
  rewrite nth_error_lookup, Hp. apply wp_ret. split; [reflexivity|].
  destruct (Ascii.eqb c dot); reflexivity.
Qed.

Lemma search_order_suffix ndots suffixes name i postfix :
  suffixes !! i = Some postfix ->
  search_order ndots suffixes name
    !! (if string_num_dots name >=? ndots then S i else i)
  = Some (with_suffix name postfix).
Proof.
  intros H. unfold search_order.
  destruct (string_num_dots name >=? ndots).
  - change ((name :: List.map (with_suffix name) suffixes) !! S i)
      with (List.map (with_suffix name) suffixes !! i).
    rewrite lookup_map, H. reflexivity.
  - rewrite lookup_app_l.
    + rewrite lookup_map, H. reflexivity.
    + rewrite length_map. apply lookup_lt_is_Some. eauto.
Qed.

Lemma search_order_bare_last ndots suffixes name :
  (string_num_dots name >=? ndots) = false ->
  search_order ndots suffixes name !! List.length suffixes = Some name.
Proof.
  intros H. unfold search_order. rewrite H.
  rewrite lookup_app_r by (rewrite length_map; lia).
  rewrite length_map, Nat.sub_diag. reflexivity.
Qed.

Lemma search_order_end ndots suffixes name :
  (string_num_dots name >=? ndots) = true ->
  search_order ndots suffixes name !! S (List.length suffixes) = None.
Proof.
  intros H. unfold search_order. rewrite H.
  apply lookup_ge_None. cbn [List.length]. rewrite length_map. lia.
Qed.

Lemma geb_ltb x y : (x <? y) = negb (x >=? y).
Proof.
  rewrite Z.geb_leb. destruct (Z.ltb_spec x y), (Z.leb_spec y x); auto; lia.
Qed.

(** *** Server errors and reissue *)

Lemma bad_error_flags flags :
  marks_bad_nameserver (reply_error flags) = true ->
  negb (Z.land flags 0x020f =? 0) = true.
Proof.
  intros H. destruct (Z.land flags 0x020f =? 0) eqn:E; [|reflexivity].
  apply Z.eqb_eq in E. exfalso.
  assert (E1 : Z.land flags 0x0200 = 0).
  { replace 0x0200 with (Z.land 0x020f 0x0200) by reflexivity.
    rewrite Z.land_assoc, E. reflexivity. }
  assert (E2 : Z.land flags 0x000f = 0).
  { replace 0x000f with (Z.land 0x020f 0x000f) by reflexivity.
    rewrite Z.land_assoc, E. reflexivity. }
  unfold reply_error in H. rewrite E1, E2 in H. cbn in H. discriminate.
Qed.

Lemma bad_error_is_error error :
  marks_bad_nameserver error = true ->
  error <> DNS_ERR_NONE /\ error <> DNS_ERR_NOTEXIST.
Proof. destruct error; cbn; intros H; split; congruence. Qed.

#[local] Instance sent_kept_preorder : PreOrder sent_kept.
Proof.
  split.
  - intros s p r Hr _. exists r. auto.
  - intros s1 s2 s3 H1 H2 p r Hr Ht.
    destruct (H1 p r Hr Ht) as (r2 & Hr2 & N2 & T2).
    destruct (H2 p r2 Hr2) as (r3 & Hr3 & N3 & T3); [congruence|].
    exists r3. split; [exact Hr3|]. split; congruence.
Qed.

Lemma sent_kept_same_requests s s' : requests s' = requests s -> sent_kept s s'.
Proof. intros E p r Hr _. exists r. rewrite E. auto. Qed.

(** [nameserver_failed] re-homes only requests that have not been
    transmitted yet. *)
Lemma nameserver_failed_sent_kept ns : preserves sent_kept (nameserver_failed ns).
Proof.
  unfold nameserver_failed.
  pres_rule preserves_bind; [pres_rule preserves_deref_ns | intros n].
  destruct (negb (ns_state n)); [pres_rule preserves_ret|].
  pres_rule preserves_bind; [|intros ?].
  { pres_rule preserves_modify. intros s. apply sent_kept_same_requests. reflexivity. }
  pres_rule preserves_bind; [pres_rule preserves_get | intros s0].
  pres_rule preserves_bind; [pres_rule preserves_assert | intros ?].
  pres_rule preserves_bind; [|intros ?].
  { pres_rule preserves_update_ns. intros. apply sent_kept_same_requests. reflexivity. }
  pres_rule preserves_bind; [|intros ?].
  { pres_rule preserves_update_ns. intros. apply sent_kept_same_requests. reflexivity. }
  pres_rule preserves_bind; [pres_rule preserves_get | intros s1].
  destruct (global_good_nameservers s1 =? 0); [pres_rule preserves_ret|].
  pres_rule preserves_for_each. intros req s.
  apply wp_bind, wp_deref_req. intros r Hr.
  apply wp_when; [|reflexivity]. intros C.
  apply andb_true_iff in C. destruct C as (C & _). apply Z.eqb_eq in C.
  apply wp_bind. eapply wp_preserves; [apply nameserver_pick_same_heap|].
  intros p s2 (_ & E2). apply wp_update_req. intros r2 Hr2.
  rewrite E2 in Hr2. assert (r2 = r) as -> by congruence.
  intros q rq Hq Ht. simpl_state.
  destruct (decide (q = req)) as [->|Hne].
  - assert (rq = r) as -> by congruence. contradiction.
  - rewrite lookup_insert_ne by congruence. rewrite E2. exists rq. auto.
Qed.

Lemma search_make_new_steady st n base : preserves steady (search_make_new st n base).
Proof. unfold search_make_new. pres. Qed.
#[local] Hint Resolve search_make_new_steady : pres.

Lemma req_search_origname_steady req : preserves steady (req_search_origname req).
Proof. unfold req_search_origname. pres. Qed.
#[local] Hint Resolve req_search_origname_steady : pres.

Lemma search_try_next_steady req : preserves steady (search_try_next req).
Proof. unfold search_try_next. pres. Qed.
#[local] Hint Resolve search_try_next_steady : pres.

Lemma wp_then_ret {A B : Type} (m : M A) (b : B) (Q : B -> Prop) s :
  wp m (fun _ _ => True) s -> Q b -> wp (m ;; ret b) (fun rc _ => Q rc) s.
Proof.
  intros Hm Hb. apply wp_bind. eapply wp_mono; [exact Hm|].
  intros a s' _. apply wp_ret. exact Hb.
Qed.

Lemma preserves_runs {A : Type} (R : state -> state -> Prop) (m : M A) s :
  preserves R m -> wp m (fun _ _ => True) s.
Proof. intros H. eapply wp_mono; [apply H | auto]. Qed.

(** When [search_try_next] submits nothing it leaves the request's
    callback, argument and type as they were. *)
Lemma search_try_next_caller req r s :
  requests s !! req = Some r ->
  wp (search_try_next req)
     (fun rc s' =>
        rc = 0 \/ exists r', requests s' !! req = Some r' /\ same_caller r r') s.
Proof.
  intros Hr. unfold search_try_next.
  apply wp_bind, wp_deref_req. intros r0 Hr0. assert (r0 = r) as -> by congruence.
  destruct (r_search_state r) as [sp|].
  2:{ apply wp_ret. right. exists r. repeat split; auto. }
  apply wp_bind. eapply wp_update_req_known; [exact Hr|].
  match goal with |- wp _ _ ?st => set (s1 := st) end.
  assert (Hr1 : requests s1 !! req =
                Some (set_r_search_index (r_search_index r + 1) r)).
  { subst s1. simpl_state. apply lookup_insert_eq. }
  assert (Hkeep : forall s2, quiet s1 s2 ->
            exists r', requests s2 !! req = Some r' /\ same_caller r r').
  { intros s2 Q2. destruct (quiet_request _ _ _ _ Q2 Hr1) as (r' & Hr' & SR & _).
    exists r'. split; [exact Hr'|].
    destruct SR as (_ & _ & _ & E4 & E5 & E6 & _). cbn in E4, E5, E6.
    repeat split; assumption. }
  clearbody s1.
  apply wp_bind, wp_deref_req. intros r1 Hr1'.
  apply wp_bind, wp_deref_search. intros st Hst.
  destruct (r_search_index r1 >=? ss_num_domains st).
  - apply wp_bind. eapply wp_preserves with (R := eq).
    { intros s0. unfold req_search_origname. apply wp_bind, wp_deref_req.
      intros r2 _. destruct (r_search_origname r2); [apply wp_ret; reflexivity | apply wp_crash]. }
    intros origname s0 <-.
    destruct (string_num_dots origname <? ss_ndots st).
    + apply wp_bind. eapply wp_mono; [apply request_new_spec|].
      intros [newreq|] s2; cbv beta.
      * intros _. eapply wp_mono.
        -- apply wp_then_ret with (Q := fun rc => rc = 0);
             [eapply preserves_runs, request_submit_steady | reflexivity].
        -- intros rc s3 ->. left. reflexivity.
      * intros (Q2 & _). apply wp_ret. right. apply Hkeep, Q2.
    + apply wp_ret. right. apply Hkeep. reflexivity.
  - apply wp_bind. eapply wp_preserves with (R := eq).
    { intros s0. unfold req_search_origname. apply wp_bind, wp_deref_req.
      intros r2 _. destruct (r_search_origname r2); [apply wp_ret; reflexivity | apply wp_crash]. }
    intros origname s0 <-.
    apply wp_bind. eapply wp_mono; [apply search_make_new_pure|].
    intros new_name s0 ->.
    apply wp_bind. eapply wp_mono; [apply request_new_spec|].
    intros [newreq|] s2; cbv beta.
    + intros _. eapply wp_mono.
      * apply wp_mono with (Q := fun rc _ => rc = 0); [|intros rc s3 H; exact H].
        repeat (apply wp_bind; eapply wp_mono;
                [eapply preserves_runs with (R := steady); pres | intros ? ? _]).
        apply wp_ret. reflexivity.
      * intros rc s3 ->. left. reflexivity.
    + intros (Q2 & _). apply wp_ret. right. apply Hkeep, Q2.
Qed.

(** The tail of the error branch: the search moves on, or the error
    reaches the callback; either way the request is finished. *)
Lemma reply_handle_fail_spec req error r s :
  requests s !! req = Some r ->
  error <> DNS_ERR_NONE -> error <> DNS_ERR_NOTEXIST ->
  wp (reply_handle_fail req error)
     (fun _ s' => settled s s' /\ surfaced req r error s s') s.
Proof.
  intros Hr N1 N2. unfold reply_handle_fail.
  apply wp_bind, wp_deref_req. intros r0 Hr0. assert (r0 = r) as -> by congruence.
  set (cond := bool_decide (r_search_state r <> None)
               && negb (r_request_type r =? TYPE_PTR)).
  apply wp_bind.
  apply wp_mono with
    (Q := fun next s1 =>
       steady s s1 /\
       (next = 0 -> cond = true) /\
       (next <> 0 -> exists r', requests s1 !! req = Some r' /\ same_caller r r')).
  { destruct cond eqn:C.
    - eapply wp_mono;
        [apply wp_conj; [apply search_try_next_steady |
                         apply (search_try_next_caller req r s Hr)]|].
      intros next s1 (S1 & [->|H]); cbv beta.
      + split; [exact S1|]. split; [reflexivity | congruence].
      + split; [exact S1|]. split; [reflexivity | intros _; exact H].
    - apply wp_ret. split; [reflexivity|]. split; [discriminate|].
      intros _. exists r. repeat split; auto. }
  intros next s1 (S1 & H0 & H1).
  destruct (next =? 0) eqn:E.
  - apply Z.eqb_eq in E. specialize (H0 E).
    eapply wp_mono; [apply request_finished_spec|].
    intros u s2 (S2 & G2). cbv beta.
    split; [transitivity s1; apply steady_settled; assumption|].
    split; [exact G2|]. right.
    subst cond. apply andb_true_iff in H0. destruct H0 as (H0a & H0b).
    apply bool_decide_eq_true in H0a. apply negb_true_iff, Z.eqb_neq in H0b.
    split; [exact H0a|]. split; [exact H0b|].
    destruct S2 as (_ & -> & _). destruct S1 as (_ & -> & _). reflexivity.
  - apply Z.eqb_neq in E. destruct (H1 E) as (r' & Hr' & C1 & C2 & C3).
    apply wp_bind.
    eapply wp_mono; [eapply reply_callback_error_spec; [exact N1 | exact N2 | exact Hr']|].
    intros u s2 (S2 & Cb2). cbv beta.
    eapply wp_mono; [apply request_finished_spec|].
    intros u' s3 (S3 & G3). cbv beta.
    split.
    { transitivity s1; [apply steady_settled, S1|].
      transitivity s2; [exact S2 | apply steady_settled, S3]. }
    split; [exact G3|]. left.
    destruct S3 as (_ & -> & _). rewrite Cb2, C1, C2.
    destruct S1 as (_ & -> & _). reflexivity.
Qed.

Lemma quiet_trace s s' : quiet s s' -> trace s' = trace s.
Proof. intros (_ & H & _). exact H. Qed.

(** *** Name decoding *)

(** C3.  [name_parse] does not terminate on every packet: a
    compression pointer that points at itself is followed for ever.
    On the two-byte packet [0xC0 0x00] the decode loop is still
    running after any number of iterations, so it neither returns an
    error nor anything else. *)
Theorem name_parse_pointer_loop :
  forall fuel, name_parse fuel [0xc0; 0x00] 2 0 256 = NameParse.Running.
Proof.
  intros fuel. unfold name_parse, NameParse.name_parse.
  destruct fuel as [|fuel]; [reflexivity|].
  cbn [NameParse.loop].
  change (NameParse.body [0xc0; 0x00] 2 256 (NameParse.mkCursor 0 [] (-1)))
    with (NameParse.Continue (NameParse.mkCursor 0 [] 2)).
  induction fuel as [|fuel IH]; [reflexivity|].
  cbn [NameParse.loop].
  change (NameParse.body [0xc0; 0x00] 2 256 (NameParse.mkCursor 0 [] 2))
    with (NameParse.Continue (NameParse.mkCursor 0 [] 2)).
  exact IH.
Qed.

(** A length byte with only one of the two top bits set is taken for
    a pointer as well: a "label" of length 0x40 is accepted. *)
Lemma name_parse_long_label_accepted :
  name_parse 8 [0x40; 0x03; 0x61; 0x00] 4 0 256 = NameParse.Parsed 2 [].
Proof. reflexivity. Qed.

(** The same in a datagram from the network: a reply to an inflight
    request whose question name is a pointer to itself keeps
    [reply_parse], and with it the resolver's event loop, in the name
    decoder for ever. *)
Lemma name_parse_reply_loop :
  forall fuel, name_parse fuel looping_reply 14 12 256 = NameParse.Running.
Proof.
  intros fuel. unfold name_parse, NameParse.name_parse.
  destruct fuel as [|fuel]; [reflexivity|].
  cbn [NameParse.loop].
  change (NameParse.body looping_reply 14 256 (NameParse.mkCursor 12 [] (-1)))
    with (NameParse.Continue (NameParse.mkCursor 12 [] 14)).
  induction fuel as [|fuel IH]; [reflexivity|].
  cbn [NameParse.loop].
  change (NameParse.body looping_reply 14 256 (NameParse.mkCursor 12 [] 14))
    with (NameParse.Continue (NameParse.mkCursor 12 [] 14)).
  exact IH.
Qed.

Lemma reply_parse_pointer_loop :
  forall fuel, reply_parse fuel looping_reply 14 (lone 0 1) = Spin.
Proof.
  intros fuel. unfold reply_parse.
  change (parse_header looping_reply 14) with (Some (mkHeader 7 0x8180 1 0 0 0, 12)).
  cbv beta iota. unfold bind at 1.
  change (request_find_from_trans_id (h_trans_id (mkHeader 7 0x8180 1 0 0 0)) (lone 0 1))
    with (Ok (Some 2%nat) (lone 0 1)).
  cbv beta iota.
  change (h_flags (mkHeader 7 0x8180 1 0 0 0)) with 0x8180.
  change (Z.land 0x8180 0x8000 =? 0) with false.
  change (negb (Z.land 0x8180 0x020f =? 0)) with false.
  cbv beta iota. unfold bind at 1.
  change (deref_req 2 (lone 0 1)) with (Ok (lone_request 1) (lone 0 1)).
  cbv beta iota.
  change (Z.to_nat (h_questions (mkHeader 7 0x8180 1 0 0 0))) with 1%nat.
  cbn [skip_questions]. rewrite name_parse_reply_loop. reflexivity.
Qed.

(** What one turn of the loop does reject: reading at or beyond the
    end of the packet (a missing terminator ends there), ... *)
Lemma name_parse_body_end packet length name_out_len c :
  NameParse.c_j c >= length ->
  NameParse.body packet length name_out_len c = NameParse.Fail.
Proof.
  intros H. unfold NameParse.body.
  destruct (NameParse.c_j c >=? length) eqn:E; [reflexivity|].
  rewrite Z.geb_leb in E. apply Z.leb_gt in E. lia.
Qed.

(** ... a pointer whose target is at or beyond the end, ... *)
Lemma name_parse_body_pointer packet length name_out_len c :
  let label_len := u8_at packet (NameParse.c_j c) in
  let ptr_low := u8_at packet (NameParse.c_j c + 1) in
  label_len <> 0 ->
  Z.land label_len 0xc0 <> 0 ->
  Z.shiftl (Z.land label_len 0x3f) 8 + ptr_low >= length ->
  NameParse.body packet length name_out_len c = NameParse.Fail.
Proof.
  intros label_len ptr_low H0 Hp Ht. unfold NameParse.body.
  destruct (NameParse.c_j c >=? length); [reflexivity|]. fold label_len.
  apply Z.eqb_neq in H0. rewrite H0.
  apply Z.eqb_neq in Hp. rewrite Hp. cbn [negb].
  destruct (NameParse.c_j c + 1 >=? length); [reflexivity|]. fold ptr_low.
  replace (Z.shiftl (Z.land label_len 63) 8 + ptr_low >=? length) with true.
  - rewrite orb_true_r. reflexivity.
  - symmetry. rewrite Z.geb_leb. apply Z.leb_le. lia.
Qed.

(** ... and a label that does not fit the output buffer. *)
Lemma name_parse_body_overflow packet length name_out_len c :
  let label_len := u8_at packet (NameParse.c_j c) in
  label_len <> 0 ->
  Z.land label_len 0xc0 = 0 ->
  NameParse.c_cp c + label_len >= name_out_len ->
  0 <= label_len ->
  NameParse.body packet length name_out_len c = NameParse.Fail.
Proof.
  intros label_len H0 Hp Ho Hl. unfold NameParse.body.
  destruct (NameParse.c_j c >=? length); [reflexivity|]. fold label_len.
  apply Z.eqb_neq in H0. rewrite H0. rewrite Hp. cbn [Z.eqb negb].
  destruct (label_len >? 63); [reflexivity|].
  destruct (negb (NameParse.c_cp c =? 0) && (NameParse.c_cp c + 1 >=? name_out_len));
    [reflexivity|].
  match goal with |- (if ?b then _ else _) = _ => replace b with true; [reflexivity|] end.
  symmetry. rewrite Z.geb_leb. apply Z.leb_le.
  destruct (negb (NameParse.c_cp c =? 0)).
  - rewrite length_app. cbn [List.length]. unfold NameParse.c_cp in Ho. lia.
  - unfold NameParse.c_cp in Ho. lia.
Qed.

(** *** Transaction ids *)

(** [transaction_id_pick] never returns the sentinel. *)
Lemma transaction_id_pick_loop_not_sentinel entropy : forall s,
  wp (transaction_id_pick_loop entropy) (fun id _ => id <> 0xffff /\ 0 <= id < 65536) s.
Proof.
  induction entropy as [|x entropy IH]; intros s; cbn [transaction_id_pick_loop].
  - apply wp_crash.
  - apply wp_bind, wp_modify. cbv zeta.
    assert (Hrange : 0 <= Z.land x 0xffff < 65536).
    { change 0xffff with (Z.ones 16). rewrite Z.land_ones by lia.
      apply Z.mod_pos_bound. reflexivity. }
    destruct (Z.land x 65535 =? 65535) eqn:E; [apply IH|].
    apply Z.eqb_neq in E.
    apply wp_bind, wp_get. simpl_state.
    destruct (req_head s) as [|started_at l]; [apply wp_ret; auto|].
    apply wp_bind.
    eapply wp_preserves; [apply (transaction_id_scan_quiet (started_at :: l))|].
    intros req s' _.
    destruct (Nat.eqb req started_at); [apply wp_ret; auto | apply IH].
Qed.

Lemma transaction_id_pick_not_sentinel s :
  wp transaction_id_pick (fun id _ => id <> 0xffff /\ 0 <= id < 65536) s.
Proof.
  unfold transaction_id_pick. apply wp_bind, wp_get.
  apply transaction_id_pick_loop_not_sentinel.
Qed.

(** Where the scan of [transaction_id_pick] stops: at [started_at]
    when no request of the ring has the id, at the first request that
    has it otherwise. *)
Lemma transaction_id_scan_spec l : forall started_at id s,
  wp (transaction_id_scan l started_at id)
     (fun q s' =>
        s' = s /\
        ((q = started_at /\
          forall req r, In req l -> requests s !! req = Some r -> r_trans_id r <> id) \/
         (In q l /\ exists r, requests s !! q = Some r /\ r_trans_id r = id))) s.
Proof.
  induction l as [|req l IH]; intros started_at id s; cbn [transaction_id_scan].
  - apply wp_ret. split; [reflexivity|]. left. split; [reflexivity|]. intros ? ? [].
  - apply wp_bind, wp_deref_req. intros r Hr.
    destruct (r_trans_id r =? id) eqn:E.
    + apply wp_ret. split; [reflexivity|]. right. split; [left; reflexivity|].
      exists r. split; [exact Hr|]. apply Z.eqb_eq, E.
    + eapply wp_mono; [apply IH|]. intros q s' (-> & H). split; [reflexivity|].
      destruct H as [(-> & Hno) | (Hin & Hq)].
      * left. split; [reflexivity|]. intros req' r' [<-|Hin] Hr'.
        -- assert (r' = r) as -> by congruence. apply Z.eqb_neq, E.
        -- exact (Hno _ _ Hin Hr').
      * right. split; [right; exact Hin | exact Hq].
Qed.

(** What is right in C9: an id that [transaction_id_pick] returns is
    the id of no request on the inflight ring, unless the request at
    the head of the ring has it. *)
Lemma transaction_id_pick_loop_unique_but_head entropy : forall s,
  wp (transaction_id_pick_loop entropy)
     (fun id _ => collides id s -> head_has id s) s.
Proof.
  induction entropy as [|x entropy IH]; intros s; cbn [transaction_id_pick_loop].
  - apply wp_crash.
  - apply wp_bind, wp_modify. cbv zeta.
    destruct (Z.land x 65535 =? 65535); [exact (IH (set_env_entropy entropy s))|].
    apply wp_bind, wp_get. simpl_state.
    destruct (req_head s) as [|started_at l] eqn:Hh.
    + apply wp_ret. intros (req & r & Hin & _).
      rewrite Hh in Hin. destruct Hin.
    + apply wp_bind.
      eapply wp_mono; [apply (transaction_id_scan_spec (started_at :: l))|].
      intros q s' (-> & H). cbv beta.
      destruct (Nat.eqb q started_at) eqn:Eq.
      * apply Nat.eqb_eq in Eq. subst q. apply wp_ret. intros (req & r & Hin & Hr & Hid).
        destruct H as [(_ & Hno) | (_ & r0 & Hr0 & Hid0)].
        -- exfalso. rewrite Hh in Hin. exact (Hno _ _ Hin Hr Hid).
        -- exists started_at, r0. split; [rewrite Hh; reflexivity|].
           split; [exact Hr0 | exact Hid0].
      * eapply wp_mono; [exact (IH (set_env_entropy entropy s))|].
        intros id s'' K. exact K.
Qed.

Lemma transaction_id_pick_unique_but_head s :
  wp transaction_id_pick (fun id _ => collides id s -> head_has id s) s.
Proof.
  unfold transaction_id_pick. apply wp_bind, wp_get.
  apply transaction_id_pick_loop_unique_but_head.
Qed.

(** What is wrong: a draw that equals the id of the request at the
    head of the ring is returned. *)
Lemma transaction_id_pick_accepts_head_id s h rest r x entropy :
  req_head s = h :: rest ->
  requests s !! h = Some r ->
  env_entropy s = x :: entropy ->
  Z.land x 0xffff = r_trans_id r ->
  r_trans_id r <> 0xffff ->
  transaction_id_pick s = Ok (r_trans_id r) (set_env_entropy entropy s).
Proof.
  intros Hh Hr He Hx Hne.
  unfold transaction_id_pick, bind, get. rewrite He.
  cbn [transaction_id_pick_loop]. unfold bind, modify, get.
  change (Z.land x 65535) with (Z.land x 0xffff). rewrite Hx.
  apply Z.eqb_neq in Hne. rewrite Hne.
  change (req_head (set_env_entropy entropy s)) with (req_head s). rewrite Hh.
  cbn [transaction_id_scan]. unfold bind, deref_req.
  change (requests (set_env_entropy entropy s)) with (requests s). rewrite Hr.
  rewrite Z.eqb_refl. unfold ret. rewrite Nat.eqb_refl. reflexivity.
Qed.

(** C9.  [transaction_id_pick] can return the id of a request that
    is inflight.  With one nameserver and an id source that delivers
    7, 8, 8, 9, 7, four resolves get the ids 7, 8, 9 and 7: the third
    draw (8) is refused because the second request has it, but the
    last draw (7) is accepted although the request at the head of the
    ring has it. *)
Theorem transaction_id_pick_repeats_head :
  observe (ring_ids Inflight) (resolves 4 (fresh [7; 8; 8; 9; 7]))
  = Some [Some 7; Some 8; Some 9; Some 7].
Proof. vm_compute. reflexivity. Qed.

(** The same on the cells of the ring: with a (id 7) at the head and
    b (id 8) behind it, the scan accepts 7 and refuses 8. *)
Lemma ptr_scan_accepts_head_id :
  let m := Ptr.layout [4%nat; 5%nat] [7; 8] ∅ in
  Ptr.ring_of (Some 4%nat) m = Some [4%nat; 5%nat] /\
  Ptr.accepts (Some 4%nat) 7 m = Some true /\
  Ptr.accepts (Some 4%nat) 8 m = Some false /\
  Ptr.accepts (Some 4%nat) 9 m = Some true.
Proof. vm_compute. repeat split; reflexivity. Qed.

(** *** Suspend and resume *)

Lemma ring_prev_snoc {A : Type} (l : list A) x : ring_prev (l ++ [x]) = x :: l.
Proof.
  unfold ring_prev. rewrite rev_app_distr. cbn. rewrite rev_involutive. reflexivity.
Qed.

(** The request loop of [evdns_clear_nameservers_and_suspend] puts
    the inflight requests in front of the waiting ones, last one
    first. *)
Lemma suspend_loop_order (l : list nat) : forall s,
  wp (for_each l (fun req =>
        update_req req (fun r => set_r_reissue_count 0 (set_r_tx_count 0 r)) ;;
        update_req req (set_r_ns None) ;;
        update_req req (set_r_timeout_event false) ;;
        update_req req (set_r_trans_id 0) ;;
        update_req req (set_r_transmit_me false) ;;
        modify (fun s => set_global_requests_waiting (global_requests_waiting s + 1) s) ;;
        evdns_request_insert req Waiting ;;
        modify (fun s => set_req_waiting_head (ring_prev (req_waiting_head s)) s)))
     (fun _ s' => req_waiting_head s' = rev l ++ req_waiting_head s) s.
Proof.
  induction l as [|req l IH]; intros s; cbn [for_each].
  - apply wp_ret. reflexivity.
  - apply wp_bind.
    do 5 (apply wp_bind, wp_update_req; intros ? ?; simpl_state).
    apply wp_bind, wp_modify. apply wp_bind, wp_modify. apply wp_modify.
    simpl_state. rewrite ring_prev_snoc.
    eapply wp_mono; [apply IH|].
    intros u s' W. cbv beta in W. simpl_state. rewrite W.
    cbn [rev]. rewrite <- app_assoc. reflexivity.
Qed.

(** The nameserver loop of [evdns_clear_nameservers_and_suspend]
    does not touch the waiting ring. *)
Lemma free_nameservers_waiting (l : list nat) :
  preserves (fun s s' => req_waiting_head s' = req_waiting_head s)
    (for_each l (fun server =>
       _ <- deref_ns server ;;
       modify (fun s => set_nameservers (delete server (nameservers s)) s))).
Proof.
  pres_rule preserves_for_each.
  - split; [intros x; reflexivity | intros x y z H1 H2; congruence].
  - intros server. pres_rule preserves_bind;
      try (split; [intros x; reflexivity | intros x y z H1 H2; congruence]).
    + intros s0. apply wp_deref_ns. reflexivity.
    + intros n s0. apply wp_modify. reflexivity.
Qed.

Lemma evdns_clear_nameservers_and_suspend_order s :
  server_head s <> [] ->
  wp evdns_clear_nameservers_and_suspend
     (fun _ s' =>
        req_head s' = [] /\
        req_waiting_head s' = rev (req_head s) ++ req_waiting_head s) s.
Proof.
  intros Hne. unfold evdns_clear_nameservers_and_suspend.
  apply wp_bind, wp_get. destruct (server_head s) as [|h l] eqn:E; [congruence|].
  apply wp_bind.
  eapply wp_preserves; [apply free_nameservers_waiting|].
  intros u s1 W1.
  apply wp_bind, wp_modify. apply wp_bind, wp_modify. simpl_state.
  apply wp_bind. eapply wp_mono; [apply suspend_loop_order|].
  intros u' s2 W2. cbv beta in W2. simpl_state.
  apply wp_bind, wp_modify. apply wp_bind, wp_modify. apply wp_ret.
  simpl_state. split; [reflexivity|]. rewrite W2, W1. reflexivity.
Qed.

(** ... and leaves each of them with the transaction id 0 and no
    nameserver. *)
Lemma suspend_loop_ids (l : list nat) : forall s,
  wp (for_each l (fun req =>
        update_req req (fun r => set_r_reissue_count 0 (set_r_tx_count 0 r)) ;;
        update_req req (set_r_ns None) ;;
        update_req req (set_r_timeout_event false) ;;
        update_req req (set_r_trans_id 0) ;;
        update_req req (set_r_transmit_me false) ;;
        modify (fun s => set_global_requests_waiting (global_requests_waiting s + 1) s) ;;
        evdns_request_insert req Waiting ;;
        modify (fun s => set_req_waiting_head (ring_prev (req_waiting_head s)) s)))
     (fun _ s' =>
        (forall p, suspended p s -> suspended p s') /\
        (forall req, In req l -> suspended req s')) s.
Proof.
  induction l as [|req l IH]; intros s; cbn [for_each].
  - apply wp_ret. split; [auto | intros ? []].
  - apply wp_bind.
    apply wp_bind, wp_update_req. intros r Hr. simpl_state.
    do 4 (apply wp_bind; eapply wp_update_req_known;
          [simpl_state; apply lookup_insert_eq|]; simpl_state).
    apply wp_bind, wp_modify. apply wp_bind, wp_modify. apply wp_modify.
    simpl_state.
    match goal with |- wp _ _ ?st => set (s1 := st) end.
    assert (Hreq : suspended req s1).
    { subst s1. eexists. split; [simpl_state; apply lookup_insert_eq|].
      split; reflexivity. }
    assert (Hkeep : forall p, suspended p s -> suspended p s1).
    { intros p Hp. destruct (decide (p = req)) as [->|Hne]; [exact Hreq|].
      destruct Hp as (rp & Hrp & Hid & Hns). exists rp.
      split; [|split; assumption].
      subst s1. simpl_state. rewrite !lookup_insert_ne by congruence. exact Hrp. }
    clearbody s1.
    eapply wp_mono; [apply IH|]. intros u s' (K1 & K2). split.
    + intros p Hp. apply K1, Hkeep, Hp.
    + intros q [<-|Hin]; [apply K1, Hreq | apply K2, Hin].
Qed.

Lemma evdns_clear_nameservers_and_suspend_ids s :
  server_head s <> [] ->
  wp evdns_clear_nameservers_and_suspend
     (fun _ s' => forall req, In req (req_head s) -> suspended req s') s.
Proof.
  intros Hne. unfold evdns_clear_nameservers_and_suspend.
  apply wp_bind, wp_get. destruct (server_head s) as [|h l] eqn:E; [congruence|].
  apply wp_bind.
  eapply wp_preserves; [apply free_nameservers_waiting|].
  intros u s1 _.
  apply wp_bind, wp_modify. apply wp_bind, wp_modify. simpl_state.
  apply wp_bind. eapply wp_mono; [apply suspend_loop_ids|].
  intros u' s2 (_ & W2). cbv beta in W2. simpl_state.
  apply wp_bind, wp_modify. apply wp_bind, wp_modify. apply wp_ret.
  intros req Hin. destruct (W2 req Hin) as (r & Hr & H). exists r.
  split; [exact Hr | exact H].
Qed.

(** C1.  Suspending does not keep the order of the inflight
    requests.  With a, b inflight and c, d waiting (a = 4, b = 5,
    c = 1, d = 2), after [evdns_clear_nameservers_and_suspend] the
    waiting ring is b, a, c, d, and after a new nameserver and
    [evdns_resume] the datagrams go out in that order. *)
Theorem suspend_resume_order :
  let ids := [11; 12; 13; 14; 15; 16; 17; 18] in
  observe (fun s => (req_head s, req_waiting_head s)) (two_and_two (fresh ids))
    = Some ([4%nat; 5%nat], [1%nat; 2%nat]) /\
  observe (fun s => (req_head s, req_waiting_head s))
          (two_and_two_then_suspend (fresh ids))
    = Some ([], [5%nat; 4%nat; 1%nat; 2%nat]) /\
  observe (fun s => sent_names (drop 2 (trace s))) (suspend_and_resume (fresh ids))
    = Some ["b.example"; "a.example"; "c.example"; "d.example"]%string.
Proof. vm_compute. repeat split; reflexivity. Qed.

(** The same on the cells of the rings, statement by statement: the
    loop of [evdns_clear_nameservers_and_suspend] turns the rings
    a, b and c, d into b, a, c, d. *)
Lemma ptr_suspend_order :
  let m := Ptr.layout [4%nat; 5%nat] [13; 14] (Ptr.layout [1%nat; 2%nat] [11; 12] ∅) in
  Ptr.ring_of (Some 4%nat) m = Some [4%nat; 5%nat] /\
  Ptr.ring_of (Some 1%nat) m = Some [1%nat; 2%nat] /\
  match Ptr.suspend (Some 4%nat) (Some 1%nat) m with
  | Some (head, m') => Ptr.ring_of head m' = Some [5%nat; 4%nat; 1%nat; 2%nat]
  | None => False
  end.
Proof. vm_compute. repeat split; reflexivity. Qed.

(** C5.  Requests on the waiting ring do not all carry the sentinel
    id.  In the run above the two requests submitted while no
    nameserver was configured wait with the ids picked for them (11
    and 12), and the two that [evdns_clear_nameservers_and_suspend]
    moves over get the id 0, not 0xffff; their nameserver is
    detached. *)
Theorem suspended_ids :
  let ids := [11; 12; 13; 14; 15; 16; 17; 18] in
  observe (ring_ids Waiting) (two_and_two (fresh ids)) = Some [Some 11; Some 12] /\
  observe (ring_ids Waiting) (two_and_two_then_suspend (fresh ids))
    = Some [Some 0; Some 0; Some 11; Some 12] /\
  observe (ring_nameservers Waiting) (two_and_two_then_suspend (fresh ids))
    = Some [Some None; Some None; Some None; Some None].
Proof. vm_compute. repeat split; reflexivity. Qed.

(** *** resolv.conf *)

(** When the file cannot be opened the defaults are installed and 0
    is returned. *)
Lemma evdns_resolv_conf_parse_open_failed inet_aton strtol flags f s :
  f_open f = false ->
  evdns_resolv_conf_parse inet_aton strtol flags f s
  = (evdns_resolv_set_defaults inet_aton flags ;; ret 0) s.
Proof. intros H. unfold evdns_resolv_conf_parse. rewrite H. reflexivity. Qed.

Lemma evdns_resolv_conf_parse_open_failed_returns inet_aton strtol flags f s :
  f_open f = false ->
  wp (evdns_resolv_conf_parse inet_aton strtol flags f) (fun rc _ => rc = 0) s.
Proof.
  intros H. unfold wp. rewrite (evdns_resolv_conf_parse_open_failed _ _ _ _ _ H).
  unfold bind. destruct (evdns_resolv_set_defaults inet_aton flags s) eqn:E.
  - reflexivity.
  - exact I.
  - (* the defaults never run out of iterations *)
    revert E. unfold evdns_resolv_set_defaults.
    assert (Hs : forall s0, search_set_from_hostname s0 <> Spin).
    { intros s0. pose proof (preserves_runs steady search_set_from_hostname s0) as R.
      unfold wp in R. intros E. rewrite E in R. apply R.
      unfold search_set_from_hostname, search_postfix_clear, search_postfix_add,
        search_state_new, global_search_state_force, search_state_decref.
      repeat (first [ pres_step
                    | pres_rule preserves_modify; footprint
                    | apply malloc_steady ]; cbv zeta). }
    assert (Ha : forall ip s0, evdns_nameserver_ip_add inet_aton ip s0 <> Spin).
    { intros ip s0. unfold evdns_nameserver_ip_add.
      destruct (inet_aton ip) as [address|]; [|discriminate].
      unfold evdns_nameserver_add, bind at 1, get.
      assert (Hk : forall l s1, nameserver_known l address s1 <> Spin).
      { induction l as [|x l IH]; intros s1; cbn [nameserver_known]; [discriminate|].
        unfold bind, deref_ns. destruct (nameservers s1 !! x); [|discriminate].
        destruct (ns_address n =? address); [discriminate | apply IH]. }
      unfold bind at 1. destruct (nameserver_known (server_head s0) address s0) eqn:K;
        [| discriminate | destruct (Hk _ _ K)].
      destruct a; [discriminate|].
      unfold bind, malloc, get, modify.
      destruct (match env_socket _ with [] => _ | x :: _ => x end); discriminate. }
    unfold bind, when.
    destruct (negb (Z.land flags DNS_OPTION_SEARCH =? 0)).
    + destruct (search_set_from_hostname s) eqn:E1; [| discriminate | destruct (Hs _ E1)].
      destruct (negb (Z.land flags DNS_OPTION_NAMESERVERS =? 0)); [|discriminate].
      destruct (evdns_nameserver_ip_add inet_aton "127.0.0.1" s0) eqn:E2;
        [discriminate | discriminate | destruct (Ha _ _ E2)].
    + unfold ret.
      destruct (negb (Z.land flags DNS_OPTION_NAMESERVERS =? 0)); [|discriminate].
      destruct (evdns_nameserver_ip_add inet_aton "127.0.0.1" s) eqn:E2;
        [discriminate | discriminate | destruct (Ha _ _ E2)].
Qed.

(** C2.  When the configuration file cannot be opened
    [evdns_resolv_conf_parse] installs the defaults but returns 0,
    not 1: on a machine called host.example.org, with all options
    asked for, it returns 0 and leaves the loopback nameserver and
    the search suffix example.org, exactly what it returns for a file
    it parsed. *)
Theorem resolv_conf_open_failed_returns_0 :
  (match evdns_resolv_conf_parse dotted_quad strtol10 DNS_OPTIONS_ALL no_such_file
           (at_host initial_state) with
   | Ok rc s => Some (rc, server_addresses s, search_config s)
   | _ => None
   end) = Some (0, [Some loopback], Some (1, ["example.org"%string])) /\
  (match evdns_resolv_conf_parse dotted_quad strtol10 DNS_OPTIONS_ALL small_file
           (at_host initial_state) with
   | Ok rc s => Some (rc, server_addresses s, search_config s)
   | _ => None
   end) = Some (0, [Some other_server],
                Some (2, ["corp.example"; "example.com"]%string)).
Proof. vm_compute. split; reflexivity. Qed.

(** *** Where the specification and the code part *)

Lemma full_state_under_cap : under_cap full_state.
Proof. vm_compute. discriminate. Qed.

(** How [full_state] comes about: 64 resolves fill the inflight ring
    to the cap, the last of them finding its nameserver failing; the
    probe the nameserver's timer then sends is the 65th request
    inflight. *)
Lemma full_state_reached :
  observe (fun s => (global_requests_inflight s, global_max_requests_inflight s,
                     server_states s))
          (resolves 64 full_house) = Some (64, 64, [Some false]) /\
  observe (fun s => (global_requests_inflight s, global_max_requests_inflight s,
                     List.length (req_head s)))
          (fill_then_probe full_house) = Some (65, 64, 65%nat).
Proof. vm_compute. split; reflexivity. Qed.


(** How [reissued_state] comes about, and what a second ServFail
    reply does there: the nameserver at 2, which sent it, stays up,
    and SERVERFAILED reaches the callback. *)
Lemma servfail_run :
  observe (fun s => (ring_nameservers Inflight s, server_head s, server_states s))
          (servfail_once (fresh [7; 8; 9]))
    = Some ([Some (Some 2%nat)], [1%nat; 2%nat], [Some false; Some true]) /\
  observe (fun s => (server_head s, server_states s, callback_results (trace s)))
          (servfail_twice (fresh [7; 8; 9]))
    = Some ([1%nat; 2%nat], [Some false; Some true],
            [(user_fn 1, DNS_ERR_SERVERFAILED)]).
Proof. vm_compute. split; reflexivity. Qed.

(** C7 as stated fails: a ServFail reply does not mark the
    nameserver failed when the request's reissue count is used up.
    In [reissued_state] the request at 3 has been reissued once and is
    on the nameserver at 2; a ServFail reply from it leaves that
    nameserver up. *)
Lemma servfail_leaves_nameserver_up :
  ~ (forall s req r ns n flags ttl reply,
       requests s !! req = Some r ->
       r_ns r = Some ns ->
       nameservers s !! ns = Some n ->
       marks_bad_nameserver (reply_error flags) = true ->
       wp (reply_handle req flags ttl reply)
          (fun _ s' => exists n', nameservers s' !! ns = Some n' /\ ns_state n' = false)
          s).
Proof.
  intros H.
  eassert (Hr : requests reissued_state !! 3%nat = Some _) by (vm_compute; reflexivity).
  eassert (Hn : nameservers reissued_state !! 2%nat = Some _) by (vm_compute; reflexivity).
  specialize (H reissued_state 3%nat _ 2%nat _ servfail_flags 0 None Hr eq_refl Hn eq_refl).
  revert H. unfold wp. vm_compute.
  intros (n' & Hn' & D). injection Hn' as <-. discriminate D.
Qed.

(** The search walk of the specification: with ndots 2 and the
    suffixes corp.example and example.com, "www" is asked for as
    www.corp.example, www.example.com and www, each after an NXDOMAIN
    answer to the one before, and the callback is made once, with the
    last answer. *)
Lemma search_walk_run :
  search_order 2 ["corp.example"; "example.com"]%string "www"
    = ["www.corp.example"; "www.example.com"; "www"]%string /\
  observe (fun s => (sent_names (trace s), callback_results (trace s)))
          (search_walk (fresh [21; 22; 23; 24]))
    = Some (["www.corp.example"; "www.example.com"; "www"]%string,
            [(user_fn 1, DNS_ERR_NOTEXIST)]).
Proof. vm_compute. split; reflexivity. Qed.

(** *** The theorems at concrete states *)

(** C10 at a reply with id 9 while the one inflight request has id 7. *)
Lemma reply_parse_unknown_id_witness :
  parse_header (reply_header 9 0x8180) 12 = Some (mkHeader 9 0x8180 0 0 0 0, 12) /\
  (forall req, In req (req_head (lone 0 1)) ->
     exists r, requests (lone 0 1) !! req = Some r /\
               r_trans_id r <> h_trans_id (mkHeader 9 0x8180 0 0 0 0)) /\
  reply_parse 12 (reply_header 9 0x8180) 12 (lone 0 1) = Ok (-1) (lone 0 1).
Proof.
  assert (H : forall req, In req (req_head (lone 0 1)) ->
     exists r, requests (lone 0 1) !! req = Some r /\
               r_trans_id r <> h_trans_id (mkHeader 9 0x8180 0 0 0 0)).
  { intros req [<-|[]]. exists (lone_request 1). split; [reflexivity|].
    cbn. discriminate. }
  split; [reflexivity|]. split; [exact H|].
  apply (reply_parse_unknown_id 12%nat (reply_header 9 0x8180) 12 (lone 0 1)
           (mkHeader 9 0x8180 0 0 0 0) 12); [reflexivity | exact H].
Defined.



(** *** Names on the wire *)

Lemma strlen_nonneg s : 0 <= strlen s.
Proof. unfold strlen. lia. Qed.

Lemma strlen_snoc s c : strlen (s ++ String c EmptyString) = strlen s + 1.
Proof.
  unfold strlen. induction s as [|a s IH]; simpl String.length; lia.
Qed.

Lemma length_bytes_of_string s : Z.of_nat (List.length (bytes_of_string s)) = strlen s.
Proof.
  unfold strlen. induction s as [|a s IH]; cbn [bytes_of_string List.length String.length]; lia.
Qed.

Lemma buf_pos_app a b : buf_pos (a ++ b) = buf_pos a + buf_pos b.
Proof. unfold buf_pos. rewrite length_app. lia. Qed.

Lemma buf_pos_wire_cons l ls :
  buf_pos (wire_labels (l :: ls)) = strlen l + 1 + buf_pos (wire_labels ls).
Proof.
  unfold wire_labels. cbn [flat_map]. rewrite buf_pos_app. unfold buf_pos at 1.
  cbn [List.length]. rewrite Nat2Z.inj_succ, length_bytes_of_string. lia.
Qed.

(** The labels of a name take one byte more than the name. *)
Lemma buf_pos_split_labels name : forall cur,
  buf_pos (wire_labels (split_labels name cur)) = strlen cur + strlen name + 1.
Proof.
  induction name as [|c name IH]; intros cur; cbn [split_labels].
  - rewrite buf_pos_wire_cons. unfold wire_labels, buf_pos, strlen. cbn. lia.
  - destruct (Ascii.eqb c dot).
    + rewrite buf_pos_wire_cons, IH. unfold strlen. cbn [String.length]. lia.
    + rewrite IH, strlen_snoc. unfold strlen. cbn [String.length]. lia.
Qed.

Lemma buf_pos_labels name : buf_pos (wire_labels (labels name)) = strlen name + 1.
Proof. unfold labels. rewrite buf_pos_split_labels. reflexivity. Qed.

(** With room for all of them, the label loop writes the labels or
    stops at the first one longer than 63 bytes. *)
Lemma dnsname_to_labels_loop_ok ls : forall buf buf_len,
  Forall (fun l => strlen l <= 63) ls ->
  buf_pos buf + buf_pos (wire_labels ls) <= buf_len ->
  dnsname_to_labels_loop ls buf buf_len = inr (buf ++ wire_labels ls).
Proof.
  induction ls as [|l ls IH]; intros buf buf_len Hall Hroom; cbn [dnsname_to_labels_loop].
  - rewrite app_nil_r. reflexivity.
  - inversion Hall as [|? ? Hl Hls]; subst.
    rewrite buf_pos_wire_cons in Hroom.
    pose proof (strlen_nonneg l).
    assert (0 <= buf_pos (wire_labels ls)) by (unfold buf_pos; lia).
    destruct (strlen l >? 63) eqn:E1; [apply Z.gtb_lt in E1; lia|].
    destruct (buf_pos buf + strlen l + 1 >? buf_len) eqn:E2; [apply Z.gtb_lt in E2; lia|].
    rewrite IH; [| exact Hls |].
    + unfold wire_labels. cbn [flat_map]. rewrite <- !app_assoc. reflexivity.
    + rewrite !buf_pos_app. unfold buf_pos at 2 3. cbn [List.length].
      rewrite length_bytes_of_string. lia.
Qed.

Lemma dnsname_to_labels_loop_long ls : forall buf buf_len,
  Exists (fun l => 63 < strlen l) ls ->
  buf_pos buf + buf_pos (wire_labels ls) <= buf_len ->
  dnsname_to_labels_loop ls buf buf_len = inl (-1).
Proof.
  induction ls as [|l ls IH]; intros buf buf_len Hex Hroom; cbn [dnsname_to_labels_loop].
  - inversion Hex.
  - rewrite buf_pos_wire_cons in Hroom.
    pose proof (strlen_nonneg l).
    assert (0 <= buf_pos (wire_labels ls)) by (unfold buf_pos; lia).
    destruct (strlen l >? 63) eqn:E; [reflexivity|].
    assert (strlen l <= 63).
    { destruct (Z.gtb_spec (strlen l) 63); [discriminate | lia]. }
    destruct (buf_pos buf + strlen l + 1 >? buf_len) eqn:E2; [apply Z.gtb_lt in E2; lia|].
    apply IH.
    + inversion Hex as [? ? Hl|? ? Hls]; subst; [lia | exact Hls].
    + rewrite !buf_pos_app. unfold buf_pos at 2 3. cbn [List.length].
      rewrite length_bytes_of_string. lia.
Qed.

Lemma APPEND16_ok x buf buf_len :
  buf_pos buf + 2 <= buf_len ->
  APPEND16 x buf buf_len = inr (buf ++ word x).
Proof.
  intros H. unfold APPEND16.
  destruct (buf_pos buf + 2 >? buf_len) eqn:E; [apply Z.gtb_lt in E; lia | reflexivity].
Qed.

(** The six header words of [evdns_request_data_build]. *)
Lemma query_header_built trans_id buf_len (k : list Z -> Z + list Z) :
  12 <= buf_len ->
  and_then (APPEND16 trans_id [] buf_len) (fun buf =>
  and_then (APPEND16 0x0100 buf buf_len) (fun buf =>
  and_then (APPEND16 1 buf buf_len) (fun buf =>
  and_then (APPEND16 0 buf buf_len) (fun buf =>
  and_then (APPEND16 0 buf buf_len) (fun buf =>
  and_then (APPEND16 0 buf buf_len) k)))))
  = k (query_header trans_id).
Proof.
  intros H.
  do 6 (rewrite APPEND16_ok
          by (unfold buf_pos, word; cbn [List.length app]; lia);
        cbn [and_then]).
  reflexivity.
Qed.

Lemma buf_pos_query_header trans_id : buf_pos (query_header trans_id) = 12.
Proof. reflexivity. Qed.

(** A name of at most 255 bytes whose labels have at most 63 is
    built into a query: the header, the labels, a zero unless the
    labels end in one, the type and the class. *)
Lemma evdns_request_data_build_ok name trans_id type class :
  strlen name <= 255 ->
  Forall (fun l => strlen l <= 63) (labels name) ->
  exists terminator,
    (terminator = [0] \/ terminator = []) /\
    (List.last (query_header trans_id ++ wire_labels (labels name)) 0 <> 0 ->
     terminator = [0]) /\
    (List.last (query_header trans_id ++ wire_labels (labels name)) 0 = 0 ->
     terminator = []) /\
    evdns_request_data_build name (strlen name) trans_id type class
      (evdns_request_len (strlen name))
    = inr (query_header trans_id ++ wire_labels (labels name) ++ terminator
             ++ word type ++ word class).
Proof.
  intros Hlen Hall. pose proof (strlen_nonneg name) as Hn.
  unfold evdns_request_data_build, evdns_request_len.
  rewrite query_header_built by lia.
  unfold dnsname_to_labels.
  destruct (strlen name >? 255) eqn:E; [apply Z.gtb_lt in E; lia|].
  fold (labels name).
  rewrite dnsname_to_labels_loop_ok;
    [| exact Hall | rewrite buf_pos_query_header, buf_pos_labels; lia].
  set (buf := query_header trans_id ++ wire_labels (labels name)).
  assert (Hbuf : buf_pos buf = 12 + (strlen name + 1)).
  { subst buf. rewrite buf_pos_app, buf_pos_query_header, buf_pos_labels. reflexivity. }
  destruct ((buf_pos buf =? 0) || negb (List.last buf 0 =? 0)) eqn:T.
  - exists [0]. split; [left; reflexivity|]. split; [reflexivity|].
    split.
    { intros Hlast. apply orb_true_iff in T. destruct T as [T|T].
      - apply Z.eqb_eq in T. lia.
      - apply negb_true_iff, Z.eqb_neq in T. contradiction. }
    cbn [and_then].
    rewrite APPEND16_ok by (rewrite buf_pos_app, Hbuf; unfold buf_pos; cbn [List.length]; lia). cbn [and_then].
    rewrite APPEND16_ok by (rewrite !buf_pos_app, Hbuf; unfold buf_pos, word; cbn [List.length]; lia).
    subst buf. rewrite <- !app_assoc. reflexivity.
  - exists []. split; [right; reflexivity|]. split.
    + intros Hlast. apply orb_false_iff in T. destruct T as (_ & T).
      apply negb_false_iff, Z.eqb_eq in T. contradiction.
    + split; [reflexivity|]. cbn [and_then].
      rewrite APPEND16_ok by (rewrite Hbuf; lia). cbn [and_then].
      rewrite APPEND16_ok by (rewrite !buf_pos_app, Hbuf; unfold buf_pos, word; cbn [List.length]; lia).
      subst buf. rewrite <- !app_assoc. reflexivity.
Qed.

(** The results of [evdns_request_data_build]. *)
Lemma evdns_request_data_build_classes name trans_id type class :
  match evdns_request_data_build name (strlen name) trans_id type class
          (evdns_request_len (strlen name)) with
  | inr packet =>
      strlen name <= 255 /\
      Forall (fun l => strlen l <= 63) (labels name) /\
      buf_pos packet <= strlen name + 18
  | inl e =>
      (e = -2 /\ 255 < strlen name) \/
      (e = -1 /\ strlen name <= 255 /\ Exists (fun l => 63 < strlen l) (labels name))
  end.
Proof.
  pose proof (strlen_nonneg name) as Hn.
  destruct (Z_le_gt_dec (strlen name) 255) as [Hlen|Hlen].
  - assert (dec : forall l, {strlen l <= 63} + {63 < strlen l}).
    { intros l. destruct (Z_le_gt_dec (strlen l) 63); [left | right]; lia. }
    destruct (Forall_Exists_dec _ _ dec (labels name)) as [Hall|Hex'].
    + destruct (evdns_request_data_build_ok name trans_id type class Hlen Hall)
        as (t & Ht & _ & _ & ->).
      split; [exact Hlen|]. split; [exact Hall|].
      rewrite !buf_pos_app, buf_pos_query_header, buf_pos_labels.
      destruct Ht as [-> | ->]; unfold buf_pos, word; cbn [List.length]; lia.
    + unfold evdns_request_data_build, evdns_request_len.
      rewrite query_header_built by lia.
      unfold dnsname_to_labels.
      destruct (strlen name >? 255) eqn:E; [apply Z.gtb_lt in E; lia|].
      fold (labels name).
      rewrite dnsname_to_labels_loop_long;
        [| exact Hex' | rewrite buf_pos_query_header, buf_pos_labels; lia].
      cbn [and_then]. right. auto.
  - unfold evdns_request_data_build, evdns_request_len.
    rewrite query_header_built by lia.
    unfold dnsname_to_labels.
    destruct (strlen name >? 255) eqn:E.
    + cbn [and_then]. left. split; [reflexivity | lia].
    + destruct (Z.gtb_spec (strlen name) 255); [discriminate | lia].
Qed.

(** X1.  [evdns_request_data_build], given the buffer size
    [evdns_request_len] computes for the name, fails in two cases
    only: with -2 for a name longer than 255 bytes, and with -1 for a
    name with a label longer than 63 bytes.  The buffer is never too
    small, and the query is at most 18 bytes longer than the name. *)
Theorem evdns_request_data_build_result name trans_id type class :
  match evdns_request_data_build name (strlen name) trans_id type class
          (evdns_request_len (strlen name)) with
  | inr packet =>
      strlen name <= 255 /\
      Forall (fun l => strlen l <= 63) (labels name) /\
      buf_pos packet <= strlen name + 18
  | inl e =>
      (e = -2 /\ 255 < strlen name) \/
      (e = -1 /\ strlen name <= 255 /\ Exists (fun l => 63 < strlen l) (labels name))
  end.
Proof. exact (evdns_request_data_build_classes name trans_id type class). Qed.


(** *** Decoding what was built *)

Lemma land_c0_small x : 0 <= x <= 63 -> Z.land x 0xc0 = 0.
Proof.
  intros H. apply Z.bits_inj'. intros n Hn.
  rewrite Z.land_spec, Z.bits_0.
  destruct (Z_lt_le_dec n 6) as [Hlt|Hge].
  - assert (Hc : n = 0 \/ n = 1 \/ n = 2 \/ n = 3 \/ n = 4 \/ n = 5) by lia.
    destruct Hc as [-> | [-> | [-> | [-> | [-> | ->]]]]]; apply andb_false_r.
  - destruct (Z.eq_dec x 0) as [->|Hx]; [rewrite Z.bits_0; reflexivity|].
    rewrite (Z.bits_above_log2 x n); [reflexivity | lia |].
    assert (Z.log2 x < 6); [|lia].
    apply Z.log2_lt_pow2; [lia|]. change (2 ^ 6) with 64. lia.
Qed.

Lemma u8_at_middle pre x post : u8_at (pre ++ x :: post) (buf_pos pre) = x.
Proof.
  unfold u8_at, buf_pos. rewrite Nat2Z.id. apply nth_middle.
Qed.

Lemma bytes_at_middle b : forall pre post,
  bytes_at (pre ++ b ++ post) (buf_pos pre) (buf_pos b) = b.
Proof.
  unfold bytes_at. induction b as [|x b IH]; intros pre post.
  - reflexivity.
  - unfold buf_pos at 2. rewrite Nat2Z.id. cbn [List.length seq List.map].
    f_equal.
    + rewrite Z.add_0_r. cbn [app]. apply u8_at_middle.
    + rewrite <- seq_shift, List.map_map.
      specialize (IH (pre ++ [x]) post).
      unfold buf_pos at 2 in IH. rewrite Nat2Z.id in IH.
      rewrite <- app_assoc in IH. cbn [app] in IH.
      rewrite <- IH at 2. apply List.map_ext. intros k.
      f_equal. rewrite buf_pos_app. unfold buf_pos at 3. cbn [List.length]. lia.
Qed.

Lemma buf_pos_bytes_of_string s : buf_pos (bytes_of_string s) = strlen s.
Proof. apply length_bytes_of_string. Qed.

Lemma buf_pos_with_label out l :
  buf_pos out + strlen l <= buf_pos (with_label out l) <= buf_pos out + strlen l + 1.
Proof.
  unfold with_label. destruct out as [|a out]; cbn [List.length Nat.eqb].
  - rewrite buf_pos_app, buf_pos_bytes_of_string. lia.
  - rewrite !buf_pos_app, buf_pos_bytes_of_string. unfold buf_pos. cbn [List.length]. lia.
Qed.

Lemma buf_pos_fold_with_label ls : forall out,
  buf_pos out <= buf_pos (fold_left with_label ls out).
Proof.
  induction ls as [|l ls IH]; intros out; cbn [fold_left]; [lia|].
  pose proof (buf_pos_with_label out l). pose proof (strlen_nonneg l).
  specialize (IH (with_label out l)). lia.
Qed.

(** One turn of the decode loop on a label. *)
Lemma name_parse_body_label pre l rest out name_out_len name_end :
  1 <= strlen l <= 63 ->
  buf_pos (with_label out l) < name_out_len ->
  let packet := pre ++ (strlen l :: bytes_of_string l) ++ rest in
  rest <> [] ->
  NameParse.body packet (buf_pos packet) name_out_len
    (NameParse.mkCursor (buf_pos pre) out name_end)
  = NameParse.Continue
      (NameParse.mkCursor (buf_pos (pre ++ strlen l :: bytes_of_string l))
         (with_label out l) name_end).
Proof.
  intros Hl Hroom packet Hrest. unfold NameParse.body.
  cbn [NameParse.c_j NameParse.c_out NameParse.c_name_end].
  assert (Hlen : buf_pos pre + 1 + strlen l < buf_pos packet).
  { subst packet. rewrite !buf_pos_app. unfold buf_pos at 3. cbn [List.length].
    rewrite Nat2Z.inj_succ, length_bytes_of_string.
    destruct rest; [congruence|]. unfold buf_pos. cbn [List.length]. lia. }
  assert (Hpre : 0 <= buf_pos pre) by (unfold buf_pos; lia).
  destruct (buf_pos pre >=? buf_pos packet) eqn:E1;
    [rewrite Z.geb_leb in E1; apply Z.leb_le in E1; lia|].
  assert (Hu : u8_at packet (buf_pos pre) = strlen l).
  { subst packet. cbn [app]. apply u8_at_middle. }
  rewrite Hu.
  destruct (strlen l =? 0) eqn:E2; [apply Z.eqb_eq in E2; lia|].
  rewrite land_c0_small by lia. cbn [Z.eqb negb].
  destruct (strlen l >? 63) eqn:E3; [apply Z.gtb_lt in E3; lia|].
  assert (Hb : bytes_at packet (buf_pos pre + 1) (strlen l) = bytes_of_string l).
  { pose proof (bytes_at_middle (bytes_of_string l) (pre ++ [strlen l]) rest) as B.
    rewrite buf_pos_app, buf_pos_bytes_of_string, <- app_assoc in B.
    exact B. }
  rewrite Hb.
  assert (Hj : buf_pos (pre ++ strlen l :: bytes_of_string l) = buf_pos pre + 1 + strlen l).
  { rewrite buf_pos_app. unfold buf_pos at 2. cbn [List.length].
    rewrite Nat2Z.inj_succ, length_bytes_of_string. lia. }
  rewrite Hj.
  unfold NameParse.c_cp. cbn [NameParse.c_out]. fold (buf_pos out).
  unfold with_label in *. destruct out as [|a out]; cbn [List.length Nat.eqb] in *.
  - change (buf_pos []) with 0. cbn [Z.eqb negb andb].
    rewrite buf_pos_app, buf_pos_bytes_of_string in Hroom.
    change (buf_pos []) with 0 in Hroom.
    match goal with |- context [?a >=? name_out_len] =>
      destruct (a >=? name_out_len) eqn:E4 end;
      [rewrite Z.geb_leb in E4; apply Z.leb_le in E4; cbn [List.length] in E4; lia|].
    reflexivity.
  - assert (Hne : (buf_pos (a :: out) =? 0) = false).
    { apply Z.eqb_neq. unfold buf_pos. cbn [List.length]. lia. }
    rewrite Hne. cbn [negb andb].
    rewrite !buf_pos_app, buf_pos_bytes_of_string in Hroom.
    change (buf_pos [byte_of_ascii dot]) with 1 in Hroom.
    destruct (buf_pos (a :: out) + 1 >=? name_out_len) eqn:E4;
      [rewrite Z.geb_leb in E4; apply Z.leb_le in E4; lia|].
    match goal with |- context [?a >=? name_out_len] =>
      destruct (a >=? name_out_len) eqn:E5 end;
      [rewrite Z.geb_leb in E5; apply Z.leb_le in E5;
       rewrite length_app in E5; unfold buf_pos in *; cbn [List.length] in *; lia|].
    reflexivity.
Qed.


(** The turn that reads the terminating zero. *)
Lemma name_parse_body_terminator pre rest out name_out_len name_end :
  NameParse.body (pre ++ 0 :: rest) (buf_pos (pre ++ 0 :: rest)) name_out_len
    (NameParse.mkCursor (buf_pos pre) out name_end)
  = NameParse.Break (NameParse.mkCursor (buf_pos pre + 1) out name_end).
Proof.
  unfold NameParse.body. cbn [NameParse.c_j NameParse.c_out NameParse.c_name_end].
  assert (Hlen : buf_pos pre < buf_pos (pre ++ 0 :: rest)).
  { rewrite buf_pos_app. unfold buf_pos. cbn [List.length]. lia. }
  destruct (buf_pos pre >=? buf_pos (pre ++ 0 :: rest)) eqn:E1;
    [rewrite Z.geb_leb in E1; apply Z.leb_le in E1; lia|].
  rewrite u8_at_middle. reflexivity.
Qed.

(** The decode loop on labels followed by a zero: it leaves the
    labels, joined by dots, in the output and stops behind the zero. *)
Lemma name_parse_loop_labels ls : forall pre out rest fuel name_out_len name_end,
  Forall (fun l => 1 <= strlen l <= 63) ls ->
  (List.length ls < fuel)%nat ->
  buf_pos (fold_left with_label ls out) < name_out_len ->
  let packet := pre ++ wire_labels ls ++ 0 :: rest in
  NameParse.loop fuel packet (buf_pos packet) name_out_len
    (NameParse.mkCursor (buf_pos pre) out name_end)
  = NameParse.Parsed
      (if name_end <? 0 then buf_pos pre + buf_pos (wire_labels ls) + 1 else name_end)
      (fold_left with_label ls out).
Proof.
  induction ls as [|l ls IH];
    intros pre out rest fuel name_out_len name_end Hall Hfuel Hroom packet.
  - destruct fuel as [|fuel]; [cbn in Hfuel; lia|].
    cbn [NameParse.loop]. subst packet. cbn [wire_labels flat_map app].
    rewrite name_parse_body_terminator.
    unfold NameParse.finish, NameParse.c_cp.
    cbn [NameParse.c_j NameParse.c_out NameParse.c_name_end fold_left] in *.
    fold (buf_pos out).
    destruct (buf_pos out >=? name_out_len) eqn:E;
      [rewrite Z.geb_leb in E; apply Z.leb_le in E; lia|].
    change (buf_pos []) with 0. destruct (name_end <? 0); f_equal; lia.
  - destruct fuel as [|fuel]; [cbn in Hfuel; lia|].
    inversion Hall as [|? ? Hl Hls]; subst.
    cbn [fold_left] in Hroom.
    pose proof (buf_pos_fold_with_label ls (with_label out l)) as Hmono.
    cbn [NameParse.loop].
    assert (Hp : packet = pre ++ (strlen l :: bytes_of_string l)
                            ++ (wire_labels ls ++ 0 :: rest)).
    { subst packet. unfold wire_labels. cbn [flat_map]. rewrite <- !app_assoc.
      reflexivity. }
    rewrite Hp.
    rewrite name_parse_body_label; [| exact Hl | lia | ].
    2:{ destruct (wire_labels ls); discriminate. }
    rewrite <- Hp.
    assert (Hp' : packet = (pre ++ strlen l :: bytes_of_string l)
                             ++ wire_labels ls ++ 0 :: rest).
    { rewrite Hp. rewrite <- !app_assoc. reflexivity. }
    rewrite Hp'.
    rewrite (IH (pre ++ strlen l :: bytes_of_string l) (with_label out l) rest fuel
               name_out_len name_end Hls);
      [| cbn [List.length] in Hfuel; lia | exact Hroom].
    cbn [fold_left]. destruct (name_end <? 0); [|reflexivity]. f_equal.
    rewrite buf_pos_wire_cons, buf_pos_app. unfold buf_pos at 2. cbn [List.length].
    rewrite Nat2Z.inj_succ, length_bytes_of_string. lia.
Qed.

Lemma bytes_of_string_app a b :
  bytes_of_string (a ++ b) = bytes_of_string a ++ bytes_of_string b.
Proof.
  induction a as [|c a IH]; [reflexivity|].
  simpl. rewrite IH. reflexivity.
Qed.

(** Labels that are not empty, joined by dots, are the name again. *)
Lemma fold_with_label_split name : forall cur out,
  Forall (fun l => 1 <= strlen l <= 63) (split_labels name cur) ->
  fold_left with_label (split_labels name cur) out
  = (if Nat.eqb (List.length out) 0 then out else out ++ [byte_of_ascii dot])
      ++ bytes_of_string cur ++ bytes_of_string name.
Proof.
  induction name as [|c name IH]; intros cur out Hall; cbn [split_labels] in *.
  - cbn [fold_left bytes_of_string]. rewrite app_nil_r. reflexivity.
  - destruct (Ascii.eqb c dot) eqn:E.
    + apply Ascii.eqb_eq in E. subst c.
      inversion Hall as [|? ? Hcur Hrest]; subst.
      cbn [fold_left]. rewrite (IH EmptyString (with_label out cur) Hrest).
      assert (Hne : Nat.eqb (List.length (with_label out cur)) 0 = false).
      { apply Nat.eqb_neq. pose proof (buf_pos_with_label out cur) as Hw.
        unfold buf_pos in Hw. lia. }
      rewrite Hne. unfold with_label. cbn [bytes_of_string app].
      rewrite <- !app_assoc. reflexivity.
    + rewrite (IH _ out Hall). rewrite bytes_of_string_app.
      cbn [bytes_of_string]. rewrite <- !app_assoc. reflexivity.
Qed.

Lemma fold_with_label_labels name :
  Forall (fun l => 1 <= strlen l <= 63) (labels name) ->
  fold_left with_label (labels name) [] = bytes_of_string name.
Proof.
  intros H. unfold labels in *. rewrite fold_with_label_split by exact H.
  reflexivity.
Qed.

(** The bytes of the labels are bytes of the name. *)
Lemma split_labels_bytes name : forall cur l b,
  In l (split_labels name cur) -> In b (bytes_of_string l) ->
  In b (bytes_of_string cur) \/ In b (bytes_of_string name).
Proof.
  induction name as [|c name IH]; intros cur l b Hl Hb; cbn [split_labels] in Hl.
  - destruct Hl as [<-|[]]. left. exact Hb.
  - destruct (Ascii.eqb c dot).
    + destruct Hl as [<-|Hl]; [left; exact Hb|].
      destruct (IH _ _ _ Hl Hb) as [H|H]; [destruct H|].
      right. right. exact H.
    + destruct (IH _ _ _ Hl Hb) as [H|H].
      * rewrite bytes_of_string_app in H. apply in_app_or in H.
        destruct H as [H|H]; [left; exact H|].
        destruct H as [<-|[]]. right. left. reflexivity.
      * right. right. exact H.
Qed.

(** The labels of a C string do not end in a zero byte. *)
Lemma last_wire_labels ls : forall pre,
  ls <> [] ->
  Forall (fun l => 1 <= strlen l <= 63) ls ->
  (forall l b, In l ls -> In b (bytes_of_string l) -> b <> 0) ->
  List.last (pre ++ wire_labels ls) 0 <> 0.
Proof.
  induction ls as [|l ls IH]; intros pre Hne Hall Hnz; [congruence|].
  inversion Hall as [|? ? Hl Hls]; subst.
  destruct ls as [|l' ls].
  - unfold wire_labels. cbn [flat_map]. rewrite app_nil_r.
    destruct (exists_last (l := bytes_of_string l)) as (init & x & Hx).
    { intros E. pose proof (length_bytes_of_string l) as HL. rewrite E in HL.
      cbn in HL. lia. }
    rewrite Hx.
    replace (pre ++ strlen l :: init ++ [x]) with ((pre ++ strlen l :: init) ++ [x])
      by (rewrite <- app_assoc; reflexivity).
    rewrite last_last. apply (Hnz l x); [left; reflexivity|].
    rewrite Hx. apply in_or_app. right. left. reflexivity.
  - replace (pre ++ wire_labels (l :: l' :: ls))
      with ((pre ++ strlen l :: bytes_of_string l) ++ wire_labels (l' :: ls)).
    + apply IH; [discriminate | exact Hls |].
      intros l0 b Hin. apply Hnz. right. exact Hin.
    + unfold wire_labels. cbn [flat_map]. rewrite <- !app_assoc. reflexivity.
Qed.

Lemma split_labels_nonempty name : forall cur, split_labels name cur <> [].
Proof.
  induction name as [|c name IH]; intros cur; cbn [split_labels]; [discriminate|].
  destruct (Ascii.eqb c dot); [discriminate | apply IH].
Qed.

(** X2.  Decoding what was encoded: for a name of at most 255 bytes
    whose labels have between 1 and 63 bytes, [name_parse], started
    behind the header of the query that [evdns_request_data_build]
    writes for it, returns the name, and the index behind the name's
    terminating zero. *)
Theorem name_parse_data_build_roundtrip name trans_id type class fuel :
  c_string name ->
  strlen name <= 255 ->
  Forall (fun l => 1 <= strlen l <= 63) (labels name) ->
  (List.length (labels name) < fuel)%nat ->
  exists packet,
    evdns_request_data_build name (strlen name) trans_id type class
      (evdns_request_len (strlen name)) = inr packet /\
    name_parse fuel packet (buf_pos packet) 12 256
    = NameParse.Parsed (12 + strlen name + 2) (bytes_of_string name).
Proof.
  intros Hc Hlen Hall Hfuel.
  assert (Hall' : Forall (fun l => strlen l <= 63) (labels name)).
  { eapply Forall_impl; [exact Hall|]. cbn. intros; lia. }
  destruct (evdns_request_data_build_ok name trans_id type class Hlen Hall')
    as (t & _ & Ht & _ & Hb).
  assert (Hlabels : labels name <> []) by apply split_labels_nonempty.
  assert (t = [0]) as ->.
  { apply Ht. apply last_wire_labels; [exact Hlabels | exact Hall |].
    intros l b Hl Hin ->. apply Hc.
    destruct (split_labels_bytes name EmptyString l 0 Hl Hin) as [[]|H]. exact H. }
  eexists. split; [exact Hb|].
  unfold name_parse, NameParse.name_parse.
  change 12 with (buf_pos (query_header trans_id)) at 1 2.
  cbn [app].
  rewrite (name_parse_loop_labels (labels name) (query_header trans_id) []
             (word type ++ word class) fuel 256 (-1) Hall Hfuel).
  - rewrite fold_with_label_labels by exact Hall. cbn [Z.ltb Z.compare]. f_equal.
    rewrite buf_pos_labels, buf_pos_query_header. lia.
  - rewrite fold_with_label_labels by exact Hall.
    rewrite buf_pos_bytes_of_string. lia.
Qed.


(** *** The nameserver ring *)

Lemma first_up {A : Type} (f : A -> bool) (l : list A) :
  List.filter f l <> [] ->
  exists pre x post,
    l = pre ++ x :: post /\ Forall (fun y => f y = false) pre /\ f x = true.
Proof.
  induction l as [|a l IH]; cbn [List.filter]; [congruence|].
  destruct (f a) eqn:E.
  - intros _. exists [], a, l. split; [reflexivity|]. split; [constructor | exact E].
  - intros H. destruct (IH H) as (pre & x & post & -> & Hpre & Hx).
    exists (a :: pre), x, post. split; [reflexivity|].
    split; [constructor; assumption | exact Hx].
Qed.

Ltac reassoc :=
  repeat first [rewrite <- app_assoc | rewrite <- app_comm_cons];
  repeat first [rewrite <- app_assoc in * | rewrite <- app_comm_cons in * ].

Lemma is_up_lookup s ns b :
  (exists n, nameservers s !! ns = Some n) -> is_up s ns = b ->
  exists n, nameservers s !! ns = Some n /\ ns_state n = b.
Proof.
  intros (n & Hn) H. unfold is_up in H. rewrite Hn in H. exists n. auto.
Qed.

(** The walk of [nameserver_pick] from the head of the ring: it
    passes the servers that are down and stops at the first one that
    is up, leaving the head behind it. *)
Lemma nameserver_pick_loop_first_up ns post cur : forall done s fuel started_at,
  server_head s = cur ++ ns :: post ++ done ->
  NoDup (cur ++ ns :: post ++ done) ->
  head (done ++ cur ++ [ns]) = Some started_at ->
  Forall (fun y => is_up s y = false /\ exists n, nameservers s !! y = Some n) cur ->
  is_up s ns = true ->
  (List.length cur < fuel)%nat ->
  nameserver_pick_loop fuel started_at s
  = Ok (Some ns) (set_server_head (post ++ done ++ cur ++ [ns]) s).
Proof.
  induction cur as [|h cur IH]; intros done s fuel started_at Hs Hnd Hst Hdown Hup Hfuel;
    (destruct fuel as [|fuel]; [cbn in Hfuel; lia|]);
    cbn [nameserver_pick_loop]; unfold bind at 1, get; rewrite Hs; cbn [app].
  - unfold is_up in Hup. unfold bind at 1, deref_ns.
    destruct (nameservers s !! ns) as [n|] eqn:Hn; [|discriminate].
    rewrite Hup. unfold bind, server_head_advance, modify, ret.
    rewrite Hs. cbn [app ring_next]. rewrite <- app_assoc. reflexivity.
  - inversion Hdown as [|? ? (Hh & n & Hn) Hcur]; subst.
    unfold is_up in Hh. rewrite Hn in Hh.
    unfold bind at 1, deref_ns. rewrite Hn, Hh.
    unfold bind at 1, server_head_advance, modify.
    rewrite Hs. cbn [app ring_next].
    set (s1 := set_server_head _ s).
    unfold bind at 1, get.
    assert (Hs1 : server_head s1 = cur ++ ns :: post ++ (done ++ [h])).
    { subst s1. cbn [server_head set_server_head]. reassoc. reflexivity. }
    rewrite Hs1.
    assert (Hnd1 : NoDup (cur ++ ns :: post ++ done ++ [h])).
    { replace (cur ++ ns :: post ++ done ++ [h])
        with ((cur ++ ns :: post ++ done) ++ [h]) by (reassoc; reflexivity).
      rewrite <- Permutation_cons_append. exact Hnd. }
    assert (Hst1 : head ((done ++ [h]) ++ cur ++ [ns]) = Some started_at).
    { rewrite <- app_assoc. exact Hst. }
    assert (Hcur1 : Forall (fun y => is_up s1 y = false /\
                                     exists n, nameservers s1 !! y = Some n) cur)
      by exact Hcur.
    assert (Hup1 : is_up s1 ns = true) by exact Hup.
    assert (Es1 : forall l, set_server_head l s1 = set_server_head l s)
      by reflexivity.
    clearbody s1.
    assert (Hneq : forall h', head (cur ++ ns :: post ++ done ++ [h]) = Some h' ->
                     Nat.eqb h' started_at = false).
    { intros h' Hh'. apply Nat.eqb_neq. intros ->.
      assert (Hin1 : started_at ∈ cur ++ [ns]).
      { destruct cur as [|c cur]; cbn in Hh'; injection Hh' as <-;
          apply elem_of_cons; left; reflexivity. }
      cbn [app] in Hnd. apply NoDup_cons in Hnd as (Hnotin & Hnd).
      destruct done as [|d done]; cbn [app head] in Hst; injection Hst as Hst.
      - subst h. apply Hnotin. apply elem_of_app in Hin1 as [H|H].
        + apply elem_of_app. left. exact H.
        + apply list_elem_of_singleton in H. subst. apply elem_of_app. right.
          apply elem_of_cons; left; reflexivity.
      - subst d.
        replace (cur ++ ns :: post ++ started_at :: done)
          with ((cur ++ [ns]) ++ post ++ started_at :: done) in Hnd
          by (reassoc; reflexivity).
        apply NoDup_app in Hnd as (_ & Hd & _).
        apply (Hd started_at Hin1). apply elem_of_app. right.
        apply elem_of_cons; left; reflexivity. }
    assert (Hring : exists h' ring', cur ++ ns :: post ++ done ++ [h] = h' :: ring').
    { destruct cur; eexists _, _; reflexivity. }
    destruct Hring as (h' & ring' & Hring).
    rewrite Hring. rewrite (Hneq h') by (rewrite Hring; reflexivity).
    rewrite (IH (done ++ [h]) s1 fuel started_at Hs1);
      [ | reassoc; exact Hnd1 | exact Hst1 | exact Hcur1 | exact Hup1
        | cbn in Hfuel; lia ].
    rewrite Es1. cbn [set_server_head]. reassoc. reflexivity.
Qed.


Lemma wp_of_ok {A : Type} (m : M A) (Q : A -> state -> Prop) s a s' :
  m s = Ok a s' -> Q a s' -> wp m Q s.
Proof. intros E H. unfold wp. rewrite E. exact H. Qed.

(** A loop that keeps an invariant. *)
Lemma wp_for_each_inv {A : Type} (I : state -> Prop) (f : A -> M unit) (l : list A) :
  (forall x s, In x l -> I s -> wp (f x) (fun _ s' => I s') s) ->
  forall s, I s -> wp (for_each l f) (fun _ s' => I s') s.
Proof.
  induction l as [|x l IH]; intros Hf s Hs; cbn [for_each].
  - apply wp_ret. exact Hs.
  - apply wp_bind. eapply wp_mono; [apply Hf; [left; reflexivity | exact Hs]|].
    intros u s1 H1. cbv beta. apply IH; [|exact H1].
    intros y s2 Hy. apply Hf. right. exact Hy.
Qed.

Lemma filter_length_perm {A : Type} (f : A -> bool) (l l' : list A) :
  l ≡ₚ l' -> List.length (List.filter f l) = List.length (List.filter f l').
Proof.
  induction 1 as [|x l l' _ IH|x y l|l l' l'' _ IH1 _ IH2]; cbn [List.filter].
  - reflexivity.
  - destruct (f x); cbn [List.length]; congruence.
  - destruct (f x), (f y); reflexivity.
  - congruence.
Qed.

Lemma filter_ext_in_length {A : Type} (f g : A -> bool) (l : list A) :
  (forall x, In x l -> f x = g x) ->
  List.length (List.filter f l) = List.length (List.filter g l).
Proof.
  intros H. rewrite (List.filter_ext_in f g l H). reflexivity.
Qed.

(** Turning off one member of a duplicate-free list takes one off
    the count. *)
Lemma filter_length_off (f g : nat -> bool) (l : list nat) x :
  NoDup l -> In x l -> f x = true -> g x = false ->
  (forall y, y <> x -> g y = f y) ->
  List.length (List.filter f l) = S (List.length (List.filter g l)).
Proof.
  intros Hnd Hin Hf Hg Hother.
  induction l as [|a l IH]; [destruct Hin|].
  apply NoDup_cons in Hnd as (Hnotin & Hnd).
  cbn [List.filter]. destruct (decide (a = x)) as [->|Hne].
  - rewrite Hf, Hg. cbn [List.length]. f_equal.
    apply filter_ext_in_length. intros y Hy. symmetry. apply Hother.
    intros ->. apply Hnotin. apply list_elem_of_In. exact Hy.
  - destruct Hin as [->|Hin]; [congruence|].
    rewrite (Hother a Hne). destruct (f a); cbn [List.length]; rewrite (IH Hnd Hin);
      reflexivity.
Qed.

(** The ring may be turned. *)
Lemma ring_ok_turn s l :
  l ≡ₚ server_head s -> ring_ok s -> ring_ok (set_server_head l s).
Proof.
  intros Hp (Hnd & Hall & Hcount). unfold ring_ok, good_nameservers.
  cbn [server_head set_server_head next_ptr nameservers global_good_nameservers].
  split; [rewrite Hp; exact Hnd|]. split.
  - intros ns Hns. apply Hall. apply list_elem_of_In. rewrite <- Hp.
    apply list_elem_of_In. exact Hns.
  - rewrite Hcount. unfold good_nameservers. f_equal.
    symmetry. exact (filter_length_perm (is_up s) l (server_head s) Hp).
Qed.

(** The server [nameserver_pick] returns while one is up, and the
    ring it leaves. *)
Lemma nameserver_pick_spec s :
  ring_ok s ->
  global_good_nameservers s <> 0 ->
  exists pre ns post,
    server_head s = pre ++ ns :: post /\
    Forall (fun y => is_up s y = false) pre /\
    is_up s ns = true /\
    nameserver_pick s = Ok (Some ns) (set_server_head (post ++ pre ++ [ns]) s).
Proof.
  intros (Hnd & Hall & Hcount) Hgood.
  destruct (first_up (is_up s) (server_head s)) as (pre & ns & post & Hs & Hpre & Hup).
  { intros E. apply Hgood. rewrite Hcount. unfold good_nameservers. rewrite E.
    reflexivity. }
  exists pre, ns, post. split; [exact Hs|]. split; [exact Hpre|]. split; [exact Hup|].
  unfold nameserver_pick, bind at 1, get.
  destruct (server_head s) as [|h l] eqn:E; [destruct pre; discriminate|].
  apply Z.eqb_neq in Hgood. rewrite Hgood.
  rewrite (nameserver_pick_loop_first_up ns post pre [] s _ h).
  - rewrite app_nil_l. reflexivity.
  - rewrite app_nil_r. rewrite E. exact Hs.
  - rewrite app_nil_r. rewrite <- Hs. exact Hnd.
  - rewrite app_nil_l. destruct pre as [|p pre]; cbn [app head] in *; congruence.
  - apply Forall_forall. intros y Hy. split.
    + rewrite Forall_forall in Hpre. apply Hpre. exact Hy.
    + apply Hall. rewrite Hs. apply in_or_app. left. apply list_elem_of_In. exact Hy.
  - exact Hup.
  - rewrite Hs, length_app. cbn [List.length]. lia.
Qed.

(** [nameserver_pick] on a good ring returns, and leaves a good
    ring: it only turns it. *)
Lemma nameserver_pick_turns s :
  ring_ok s ->
  exists res l,
    nameserver_pick s = Ok res (set_server_head l s) /\
    l ≡ₚ server_head s /\
    match res with
    | Some ns => In ns (server_head s)
    | None => server_head s = []
    end.
Proof.
  intros Hok.
  destruct (Z.eq_dec (global_good_nameservers s) 0) as [Hz|Hnz].
  - unfold nameserver_pick, bind at 1, get.
    destruct (server_head s) as [|h l] eqn:E.
    + exists None, []. rewrite <- E. split; [|split; [rewrite E|]; reflexivity].
      unfold ret. f_equal. destruct s; cbn in *; subst; reflexivity.
    + rewrite Hz. cbn [Z.eqb].
      unfold bind, server_head_advance, modify, get, ret. rewrite E.
      cbn [ring_next server_head set_server_head].
      exists (head (l ++ [h])), (l ++ [h]). split; [reflexivity|].
      split; [symmetry; apply Permutation_cons_append|].
      destruct l as [|a l]; cbn [app head]; [left | right; left]; reflexivity.
  - destruct (nameserver_pick_spec s Hok Hnz) as (pre & ns & post & Hs & _ & _ & Hp).
    exists (Some ns), (post ++ pre ++ [ns]). split; [exact Hp|]. split.
    + rewrite Hs. rewrite app_assoc. rewrite <- Permutation_cons_append.
      apply (Permutation_app_comm (ns :: post) pre).
    + rewrite Hs. apply in_or_app. right. left. reflexivity.
Qed.

(** X3.  While a nameserver is up, [nameserver_pick] returns the
    first one of the ring, from its head on, that is up; it passes
    the ones that are down, and it leaves the head of the ring behind
    the server it returns, so the next pick starts with its
    successor.  Nothing but the head of the ring changes, and the
    ring stays good. *)
Theorem nameserver_pick_first_up s :
  ring_ok s ->
  global_good_nameservers s <> 0 ->
  exists pre ns post,
    server_head s = pre ++ ns :: post /\
    Forall (fun y => is_up s y = false) pre /\
    is_up s ns = true /\
    nameserver_pick s = Ok (Some ns) (set_server_head (post ++ pre ++ [ns]) s) /\
    ring_ok (set_server_head (post ++ pre ++ [ns]) s).
Proof.
  intros Hok Hgood.
  destruct (nameserver_pick_spec s Hok Hgood) as (pre & ns & post & Hs & Hpre & Hup & Hp).
  exists pre, ns, post.
  split; [exact Hs|]. split; [exact Hpre|]. split; [exact Hup|]. split; [exact Hp|].
  apply ring_ok_turn; [|exact Hok].
  rewrite Hs, app_assoc, <- Permutation_cons_append.
  apply (Permutation_app_comm (ns :: post) pre).
Qed.


Lemma ring_ok_same_ring s s' :
  server_head s' = server_head s ->
  nameservers s' = nameservers s ->
  next_ptr s' = next_ptr s ->
  global_good_nameservers s' = global_good_nameservers s ->
  ring_ok s -> ring_ok s'.
Proof.
  intros H1 H2 H3 H4 (Hnd & Hall & Hcount).
  unfold ring_ok, good_nameservers, is_up. rewrite H1, H2, H3, H4.
  split; [exact Hnd|]. split; [exact Hall | exact Hcount].
Qed.

Lemma wp_update_ns_known ns f n (Q : unit -> state -> Prop) s :
  nameservers s !! ns = Some n ->
  Q tt (set_nameservers (<[ns := f n]> (nameservers s)) s) ->
  wp (update_ns ns f) Q s.
Proof.
  intros Hn HQ. apply wp_update_ns. intros n' Hn'.
  assert (n' = n) as -> by congruence. exact HQ.
Qed.

(** What the request loop of [nameserver_failed] keeps: the ring is
    only turned. *)
Lemma reassign_loop_ring_ok ns l s :
  ring_ok s ->
  wp (for_each l (fun req =>
        r <- deref_req req ;;
        when ((r_tx_count r =? 0) && bool_decide (r_ns r = Some ns))
          (p <- nameserver_pick ;;
           update_req req (set_r_ns p))))
     (fun _ s' =>
        ring_ok s' /\ nameservers s' = nameservers s /\
        global_good_nameservers s' = global_good_nameservers s) s.
Proof.
  intros Hok.
  apply (wp_for_each_inv
           (fun s' => ring_ok s' /\ nameservers s' = nameservers s /\
                      global_good_nameservers s' = global_good_nameservers s));
    [|auto].
  intros req s1 _ (Hok1 & Hn1 & Hg1).
  apply wp_bind, wp_deref_req. intros r Hr.
  apply wp_when; [intros _ | intros _; auto].
  destruct (nameserver_pick_turns s1 Hok1) as (res & l' & Hp & Hperm & _).
  apply wp_bind. eapply wp_of_ok; [exact Hp|].
  apply wp_update_req. intros r' Hr'.
  split; [|split; [exact Hn1 | exact Hg1]].
  eapply (ring_ok_same_ring (set_server_head l' s1)); try reflexivity.
  apply ring_ok_turn; assumption.
Qed.

(** X4.  [nameserver_failed] keeps the ring good: called for a
    nameserver of the ring that is up, it marks it down and takes one
    off [global_good_nameservers]; called for one that is down
    already, it changes nothing.  No other nameserver changes its
    standing. *)
Theorem nameserver_failed_ring_ok ns s :
  ring_ok s ->
  In ns (server_head s) ->
  wp (nameserver_failed ns)
     (fun _ s' =>
        ring_ok s' /\
        is_up s' ns = false /\
        (forall other, other <> ns -> is_up s' other = is_up s other) /\
        if is_up s ns
        then global_good_nameservers s' = global_good_nameservers s - 1
        else s' = s) s.
Proof.
  intros Hok Hin. pose proof Hok as (Hnd & Hall & Hcount).
  unfold nameserver_failed. apply wp_bind, wp_deref_ns. intros n Hn.
  assert (Hupn : is_up s ns = ns_state n) by (unfold is_up; rewrite Hn; reflexivity).
  rewrite Hupn.
  destruct (ns_state n) eqn:Hst; cbn [negb].
  2:{ apply wp_ret. split; [exact Hok|]. split; [exact Hupn|]. auto. }
  apply wp_bind, wp_modify. apply wp_bind, wp_get. apply wp_bind, wp_assert. intros _.
  apply wp_bind. eapply wp_update_ns_known; [simpl_state; exact Hn|].
  apply wp_bind. eapply wp_update_ns_known; [simpl_state; apply lookup_insert_eq|].
  simpl_state. rewrite insert_insert_eq.
  match goal with |- wp _ _ ?st => set (s2 := st) end.
  assert (Hup2 : is_up s2 ns = false).
  { subst s2. unfold is_up. simpl_state. rewrite lookup_insert_eq. reflexivity. }
  assert (Hother : forall other, other <> ns -> is_up s2 other = is_up s other).
  { intros other Hne. subst s2. unfold is_up. simpl_state.
    rewrite lookup_insert_ne by congruence. reflexivity. }
  assert (Hok2 : ring_ok s2).
  { split; [exact Hnd|]. split.
    - intros x Hx. destruct (Hall x Hx) as (Hlt & nx & Hnx). split; [exact Hlt|].
      subst s2. simpl_state. destruct (decide (x = ns)) as [->|Hne].
      + rewrite lookup_insert_eq. eauto.
      + rewrite lookup_insert_ne by congruence. eauto.
    - unfold good_nameservers.
      change (server_head s2) with (server_head s).
      change (global_good_nameservers s2) with (global_good_nameservers s - 1).
      rewrite Hcount. unfold good_nameservers.
      rewrite (filter_length_off (is_up s) (is_up s2) (server_head s) ns Hnd Hin);
        [lia | rewrite Hupn; reflexivity | exact Hup2 | exact Hother]. }
  assert (Hg2 : global_good_nameservers s2 = global_good_nameservers s - 1)
    by reflexivity.
  clearbody s2.
  apply wp_bind, wp_get.
  destruct (global_good_nameservers s2 =? 0).
  - apply wp_ret. auto.
  - eapply wp_mono; [apply (reassign_loop_ring_ok ns _ s2 Hok2)|].
    intros u s' (Hok' & Hn' & Hg'). split; [exact Hok'|].
    assert (Hupeq : forall x, is_up s' x = is_up s2 x).
    { intros x. unfold is_up. rewrite Hn'. reflexivity. }
    split; [rewrite Hupeq; exact Hup2|]. split.
    + intros other Hne. rewrite Hupeq. apply Hother, Hne.
    + rewrite Hg'. exact Hg2.
Qed.


(** X5.  [nameserver_up] keeps the ring good: called for a
    nameserver of the ring that is down, it marks it up, clears its
    counts of failures and of timeouts and adds one to
    [global_good_nameservers]; called for one that is up, it changes
    nothing. *)
Theorem nameserver_up_ring_ok ns s :
  ring_ok s ->
  In ns (server_head s) ->
  exists s',
    nameserver_up ns s = Ok tt s' /\
    ring_ok s' /\
    (forall other, other <> ns -> is_up s' other = is_up s other) /\
    (exists n', nameservers s' !! ns = Some n' /\ ns_state n' = true /\
                (is_up s ns = false -> ns_failed_times n' = 0 /\ ns_timedout n' = 0)) /\
    if is_up s ns
    then s' = s
    else global_good_nameservers s' = global_good_nameservers s + 1.
Proof.
  intros Hok Hin. pose proof Hok as (Hnd & Hall & Hcount).
  destruct (Hall ns Hin) as (_ & n & Hn).
  assert (Hupn : is_up s ns = ns_state n) by (unfold is_up; rewrite Hn; reflexivity).
  unfold nameserver_up, bind at 1, deref_ns. rewrite Hn, Hupn.
  destruct (ns_state n) eqn:Hst.
  - exists s. split; [reflexivity|]. split; [exact Hok|]. split; [auto|].
    split; [|reflexivity]. exists n. split; [exact Hn|]. split; [exact Hst|].
    discriminate.
  - unfold bind, update_ns, bind, deref_ns, modify. rewrite Hn.
    eexists. split; [reflexivity|].
    match goal with |- ring_ok ?st /\ _ => set (s2 := st) end.
    assert (Hup2 : is_up s2 ns = true).
    { subst s2. unfold is_up. simpl_state. rewrite lookup_insert_eq. reflexivity. }
    assert (Hother : forall other, other <> ns -> is_up s2 other = is_up s other).
    { intros other Hne. subst s2. unfold is_up. simpl_state.
      rewrite lookup_insert_ne by congruence. reflexivity. }
    split; [|split; [exact Hother|split; [|reflexivity]]].
    + split; [exact Hnd|]. split.
      * intros x Hx. destruct (Hall x Hx) as (Hlt & nx & Hnx). split; [exact Hlt|].
        subst s2. simpl_state. destruct (decide (x = ns)) as [->|Hne].
        -- rewrite lookup_insert_eq. eauto.
        -- rewrite lookup_insert_ne by congruence. eauto.
      * unfold good_nameservers.
        change (server_head s2) with (server_head s).
        change (global_good_nameservers s2) with (global_good_nameservers s + 1).
        rewrite Hcount. unfold good_nameservers.
        rewrite (filter_length_off (is_up s2) (is_up s) (server_head s) ns Hnd Hin);
          [lia | exact Hup2 | rewrite Hupn; reflexivity |].
        intros y Hy. symmetry. apply Hother, Hy.
    + subst s2. simpl_state. rewrite lookup_insert_eq. eexists. split; [reflexivity|].
      split; [reflexivity|]. intros _. split; reflexivity.
Qed.

(** The duplicate check of [evdns_nameserver_add] on a ring whose
    nameservers are all allocated. *)
Lemma nameserver_known_spec address s l :
  (forall ns, In ns l -> exists n, nameservers s !! ns = Some n) ->
  nameserver_known l address s = Ok (existsb (has_address s address) l) s.
Proof.
  induction l as [|x l IH]; intros Hall; cbn [nameserver_known existsb]; [reflexivity|].
  destruct (Hall x) as (n & Hn); [left; reflexivity|].
  unfold bind at 1, deref_ns. rewrite Hn. unfold has_address at 1. rewrite Hn.
  destruct (ns_address n =? address); [reflexivity|].
  apply IH. intros ns Hns. apply Hall. right. exact Hns.
Qed.



(** *** The request rings *)

#[local] Instance grown_preorder : PreOrder grown.
Proof.
  split; [intros s; unfold grown; lia | intros a b c; unfold grown; lia].
Qed.

#[local] Instance rings_kept_preorder : PreOrder rings_kept.
Proof.
  split.
  - intros s. unfold rings_kept, grown. repeat split; lia.
  - intros a b c (A1 & A2 & A3 & A4 & A5 & A6) (B1 & B2 & B3 & B4 & B5 & B6).
    unfold rings_kept, grown in *. repeat split; try congruence. lia.
Qed.

Ltac footprint ::=
  intros;
  unfold rings_kept, grown, same_heap, silent, tidy, quiet, transport, steady,
    settled, same_config;
  cbn [requests nameservers search_states req_head req_waiting_head server_head
       global_good_nameservers global_requests_inflight global_requests_waiting
       global_max_requests_inflight global_timeout global_max_reissues
       global_max_retransmits global_max_nameserver_timeout global_search_state
       next_ptr env_entropy env_send env_socket env_hostname trace
       set_requests set_nameservers set_search_states set_req_head
       set_req_waiting_head set_server_head set_global_good_nameservers
       set_global_requests_inflight set_global_requests_waiting set_global_timeout
       set_global_max_retransmits set_global_search_state set_next_ptr
       set_env_entropy set_env_send set_env_socket set_trace set_ring ring];
  rewrite ?callbacks_send;
  repeat split; try reflexivity; try lia;
  try (let p0 := fresh "p" in
       intros p0;
       match goal with
       | |- lifted _ (_ !! p0) (<[?q := _]> _ !! p0) =>
           lookup_cases p0 q;
           [ match goal with H : _ !! q = Some _ |- _ => rewrite H end;
             cbn; unfold same_request, same_schedule, settled_nameserver; cbn;
             repeat split; try reflexivity; try congruence
           | reflexivity ]
       | |- lifted _ (_ !! p0) (_ !! p0) => reflexivity
       end);
  try (let p0 := fresh "p" in
       let n0 := fresh "n" in
       let Hn0 := fresh "Hn" in
       intros p0 n0 Hn0;
       match goal with
       | |- exists _, <[?q := _]> _ !! p0 = Some _ /\ _ =>
           lookup_cases p0 q;
           [ eexists; split; [reflexivity|];
             match goal with H : _ !! q = Some _ |- _ =>
               rewrite H in Hn0; injection Hn0 as <- end;
             unfold settled_nameserver; cbn;
             repeat split; try reflexivity; try congruence
           | exists n0; split; [exact Hn0 | reflexivity] ]
       | |- exists _, _ !! p0 = Some _ /\ _ =>
           exists n0; split; [exact Hn0 | reflexivity]
       end).

Lemma same_heap_grown {A : Type} (m : M A) :
  preserves same_heap m -> preserves grown m.
Proof.
  apply preserves_weaken. intros s s' (H & _). unfold grown. lia.
Qed.

Lemma nameserver_pick_grown : preserves grown nameserver_pick.
Proof. apply same_heap_grown, nameserver_pick_same_heap. Qed.
#[local] Hint Resolve nameserver_pick_grown : pres.

Lemma transaction_id_pick_grown : preserves grown transaction_id_pick.
Proof. apply same_heap_grown, transaction_id_pick_same_heap. Qed.
#[local] Hint Resolve transaction_id_pick_grown : pres.

Lemma malloc_grown : preserves grown malloc.
Proof. intros s. unfold wp, malloc, grown. cbn. lia. Qed.
#[local] Hint Resolve malloc_grown : pres.

Lemma nameserver_failed_grown ns : preserves grown (nameserver_failed ns).
Proof. unfold nameserver_failed. pres. Qed.
#[local] Hint Resolve nameserver_failed_grown : pres.

Lemma nameserver_up_grown ns : preserves grown (nameserver_up ns).
Proof. unfold nameserver_up. pres. Qed.
#[local] Hint Resolve nameserver_up_grown : pres.

Lemma nameserver_probe_failed_grown ns : preserves grown (nameserver_probe_failed ns).
Proof. unfold nameserver_probe_failed. pres. Qed.
#[local] Hint Resolve nameserver_probe_failed_grown : pres.

Lemma nameserver_write_waiting_grown ns w :
  preserves grown (nameserver_write_waiting ns w).
Proof. unfold nameserver_write_waiting. pres. Qed.
#[local] Hint Resolve nameserver_write_waiting_grown : pres.

Lemma send_grown server req : preserves grown (send server req).
Proof. unfold send, emit. pres. Qed.
#[local] Hint Resolve send_grown : pres.

Lemma evdns_request_transmit_to_grown req server :
  preserves grown (evdns_request_transmit_to req server).
Proof. unfold evdns_request_transmit_to. pres. Qed.
#[local] Hint Resolve evdns_request_transmit_to_grown : pres.

Lemma evdns_request_transmit_grown req : preserves grown (evdns_request_transmit req).
Proof. unfold evdns_request_transmit. pres. Qed.
#[local] Hint Resolve evdns_request_transmit_grown : pres.

Lemma evdns_transmit_walk_grown l : forall did,
  preserves grown (evdns_transmit_walk l did).
Proof. induction l as [|req l IH]; intros did; cbn [evdns_transmit_walk]; pres. Qed.
#[local] Hint Resolve evdns_transmit_walk_grown : pres.

Lemma evdns_transmit_grown : preserves grown evdns_transmit.
Proof. unfold evdns_transmit. pres. Qed.
#[local] Hint Resolve evdns_transmit_grown : pres.

Lemma request_trans_id_set_grown req id : preserves grown (request_trans_id_set req id).
Proof. unfold request_trans_id_set. pres. Qed.
#[local] Hint Resolve request_trans_id_set_grown : pres.

Lemma request_new_grown type name flags cb ptr :
  preserves grown (request_new type name flags cb ptr).
Proof. unfold request_new. pres. Qed.
#[local] Hint Resolve request_new_grown : pres.

Lemma preserves_conj {A : Type} (R R' : state -> state -> Prop) (m : M A) :
  preserves R m -> preserves R' m -> preserves (fun s s' => R s s' /\ R' s s') m.
Proof. intros H H' s. apply wp_conj; [apply H | apply H']. Qed.

Lemma transport_grown_rings_kept {A : Type} (m : M A) :
  preserves transport m -> preserves grown m -> preserves rings_kept m.
Proof.
  intros Ht Hg.
  eapply preserves_weaken; [|apply (preserves_conj _ _ m Ht Hg)].
  intros s s' (T & G). unfold rings_kept.
  destruct (transport_config _ _ T) as (C & _).
  split; [apply (transport_req_head _ _ T)|].
  split; [apply (transport_req_waiting_head _ _ T)|].
  split; [apply (transport_inflight _ _ T)|].
  split; [|split; [exact C | exact G]].
  destruct T as (_ & _ & _ & W & _). exact W.
Qed.

Lemma rings_ok_kept s s' : rings_kept s s' -> rings_ok s -> rings_ok s'.
Proof.
  intros (H1 & H2 & H3 & H4 & _ & G) (Hnd & Hall & Hi & Hw).
  unfold rings_ok, grown in *. rewrite H1, H2, H3, H4.
  split; [exact Hnd|]. split; [|split; assumption].
  intros req Hreq. specialize (Hall req Hreq). lia.
Qed.


(** *** The pump and the rings *)

Lemma nameserver_pick_rings_kept : preserves rings_kept nameserver_pick.
Proof.
  apply transport_grown_rings_kept;
    [apply nameserver_pick_transport | apply nameserver_pick_grown].
Qed.

Lemma transaction_id_pick_rings_kept : preserves rings_kept transaction_id_pick.
Proof.
  apply transport_grown_rings_kept;
    [apply transaction_id_pick_transport | apply transaction_id_pick_grown].
Qed.

Lemma evdns_request_transmit_rings_kept req :
  preserves rings_kept (evdns_request_transmit req).
Proof.
  apply transport_grown_rings_kept;
    [apply evdns_request_transmit_transport | apply evdns_request_transmit_grown].
Qed.

Lemma evdns_transmit_rings_kept : preserves rings_kept evdns_transmit.
Proof.
  apply transport_grown_rings_kept;
    [apply evdns_transmit_transport | apply evdns_transmit_grown].
Qed.

Lemma rings_kept_update_req s req r' :
  rings_kept s (set_requests (<[req := r']> (requests s)) s).
Proof. footprint. Qed.

Lemma pump_count_stop s :
  rings_ok s ->
  (global_requests_inflight s <? global_max_requests_inflight s)
    && negb (global_requests_waiting s =? 0) = false ->
  pump_count s = 0%nat.
Proof.
  intros (_ & _ & _ & Hw) C. unfold pump_count.
  apply andb_false_iff in C. destruct C as [C|C].
  - apply Z.ltb_ge in C. replace (Z.to_nat _) with 0%nat by lia. reflexivity.
  - apply negb_false_iff, Z.eqb_eq in C.
    destruct (req_waiting_head s); [apply Nat.min_0_r | cbn in Hw; lia].
Qed.

(** One turn of the pump's loop: the head of the waiting ring goes to
    the tail of the inflight ring. *)
Lemma pump_loop_fifo fuel : forall s,
  (List.length (req_waiting_head s) < fuel)%nat -> rings_ok s ->
  wp (pump_loop fuel) (fun _ s' =>
    req_head s' = req_head s ++ take (pump_count s) (req_waiting_head s) /\
    req_waiting_head s' = drop (pump_count s) (req_waiting_head s) /\
    global_max_requests_inflight s' = global_max_requests_inflight s /\
    grown s s' /\ rings_ok s') s.
Proof.
  induction fuel as [|fuel IH]; intros s Hfuel Hok; [lia|].
  cbn [pump_loop]. apply wp_bind, wp_get.
  destruct ((global_requests_inflight s <? global_max_requests_inflight s)
            && negb (global_requests_waiting s =? 0)) eqn:C.
  2:{ apply wp_ret. rewrite (pump_count_stop s Hok C). cbn [take drop].
      rewrite app_nil_r. split; [reflexivity|]. split; [reflexivity|].
      split; [reflexivity|]. split; [reflexivity | exact Hok]. }
  apply andb_true_iff in C. destruct C as [C _]. apply Z.ltb_lt in C.
  destruct (req_waiting_head s) as [|req rest] eqn:W; [apply wp_crash|].
  destruct Hok as (Hnd & Hall & Hi & Hw). rewrite W in Hnd, Hall, Hw.
  apply wp_bind, wp_modify. apply wp_bind, wp_modify. apply wp_bind, wp_modify.
  cbn [set_req_waiting_head global_requests_waiting global_requests_inflight
       set_global_requests_waiting].
  match goal with |- wp _ _ ?st => set (s1 := st) end.
  apply wp_bind. eapply wp_preserves; [apply nameserver_pick_rings_kept|].
  intros ns s2 K2.
  apply wp_bind, wp_update_req. intros r2 Hr2.
  match goal with |- wp _ _ ?st => set (s3 := st) end.
  apply wp_bind. eapply wp_preserves; [apply transaction_id_pick_rings_kept|].
  intros trans_id s4 K4.
  apply wp_bind. unfold request_trans_id_set. apply wp_update_req. intros r4 Hr4.
  match goal with |- wp _ _ ?st => set (s5 := st) end.
  assert (K5 : rings_kept s1 s5).
  { transitivity s2; [exact K2|].
    transitivity s3; [apply rings_kept_update_req|].
    transitivity s4; [exact K4|]. apply rings_kept_update_req. }
  destruct K5 as (E1 & E2 & E3 & E4 & E5 & G5).
  apply wp_bind, wp_modify. cbn [set_ring ring].
  match goal with |- wp _ _ ?st => set (s6 := st) end.
  apply wp_bind. eapply wp_preserves; [apply evdns_request_transmit_rings_kept|].
  intros rc s7 K7.
  apply wp_bind. eapply wp_preserves; [apply evdns_transmit_rings_kept|].
  intros did s8 K8.
  assert (K : rings_kept s6 s8) by (transitivity s7; assumption).
  destruct K as (F1 & F2 & F3 & F4 & F5 & G8).
  assert (H1 : req_head s8 = req_head s ++ [req]).
  { rewrite F1. change (req_head s6) with (req_head s5 ++ [req]).
    rewrite E1. reflexivity. }
  assert (H2 : req_waiting_head s8 = rest).
  { rewrite F2. change (req_waiting_head s6) with (req_waiting_head s5).
    rewrite E2. reflexivity. }
  assert (H3 : global_requests_inflight s8 = global_requests_inflight s + 1).
  { rewrite F3. change (global_requests_inflight s6) with (global_requests_inflight s5).
    rewrite E3. reflexivity. }
  assert (H4 : global_requests_waiting s8 = global_requests_waiting s - 1).
  { rewrite F4. change (global_requests_waiting s6) with (global_requests_waiting s5).
    rewrite E4. reflexivity. }
  assert (H5 : global_max_requests_inflight s8 = global_max_requests_inflight s).
  { rewrite F5.
    change (global_max_requests_inflight s6) with (global_max_requests_inflight s5).
    rewrite E5. reflexivity. }
  assert (H6 : grown s s8).
  { unfold grown in *. change (next_ptr s6) with (next_ptr s5) in G8.
    change (next_ptr s1) with (next_ptr s) in G5. lia. }
  assert (Hok8 : rings_ok s8).
  { unfold rings_ok. rewrite H1, H2, H3, H4. split; [|split; [|split]].
    - rewrite <- app_assoc. exact Hnd.
    - intros q Hq. rewrite <- app_assoc in Hq. specialize (Hall q Hq).
      unfold grown in H6. lia.
    - rewrite length_app. cbn. lia.
    - cbn in Hw. lia. }
  assert (Hk : pump_count s = S (pump_count s8)).
  { unfold pump_count. rewrite W, H2, H3, H5. cbn [List.length].
    replace (Z.to_nat (global_max_requests_inflight s - global_requests_inflight s))
      with (S (Z.to_nat (global_max_requests_inflight s
                         - (global_requests_inflight s + 1)))) by lia.
    reflexivity. }
  eapply wp_mono.
  - apply IH; [rewrite H2; simpl in Hfuel; lia | exact Hok8].
  - intros u s9 (A1 & A2 & A3 & A4 & A5). cbv beta.
    rewrite Hk. cbn [take drop]. rewrite A1, A2, H1, H2, <- app_assoc.
    split; [reflexivity|]. split; [reflexivity|].
    split; [congruence|]. split; [|exact A5].
    transitivity s8; assumption.
Qed.

Lemma take_drop_left {A : Type} (l : list A) (a b : nat) :
  Nat.min a (List.length l) = b -> drop b l = [] \/ a = b.
Proof.
  intros H. destruct (Nat.le_gt_cases (List.length l) a) as [L|L].
  - left. apply drop_ge. lia.
  - right. lia.
Qed.

(** X7.  The waiting-queue pump is first in, first out.  On rings
    that are in order it moves the first [k] waiting requests, in
    their order, to the tail of the inflight ring, where [k] is the
    free room under the cap or the whole waiting ring if that is
    shorter; it leaves the rings in order, and when it is done either
    nothing waits or the inflight ring is full. *)
Theorem evdns_requests_pump_waiting_queue_fifo s :
  rings_ok s ->
  wp evdns_requests_pump_waiting_queue (fun _ s' =>
    req_head s' = req_head s ++ take (pump_count s) (req_waiting_head s) /\
    req_waiting_head s' = drop (pump_count s) (req_waiting_head s) /\
    rings_ok s' /\
    (req_waiting_head s' = [] \/
     global_max_requests_inflight s' <= global_requests_inflight s')) s.
Proof.
  intros Hok. unfold evdns_requests_pump_waiting_queue. apply wp_bind, wp_get.
  eapply wp_mono; [apply pump_loop_fifo; [lia | exact Hok]|].
  intros u s' (A1 & A2 & A3 & A4 & A5). cbv beta.
  split; [exact A1|]. split; [exact A2|]. split; [exact A5|].
  destruct (take_drop_left (req_waiting_head s)
              (Z.to_nat (global_max_requests_inflight s - global_requests_inflight s))
              (pump_count s) eq_refl) as [D|D].
  - left. rewrite A2. exact D.
  - right. destruct A5 as (_ & _ & Hi' & _). destruct Hok as (_ & _ & Hi & _).
    rewrite Hi', A1, length_app, length_take, A3.
    fold (pump_count s) in D.
    assert (pump_count s <= List.length (req_waiting_head s))%nat
      by (unfold pump_count; lia).
    rewrite Hi in D. lia.
Qed.


(** *** Every operation keeps the rings in order *)

#[local] Hint Resolve nameserver_pick_rings_kept transaction_id_pick_rings_kept
  evdns_request_transmit_rings_kept evdns_transmit_rings_kept : pres.

Lemma malloc_rings_kept : preserves rings_kept malloc.
Proof. intros s. apply wp_malloc. footprint. Qed.
#[local] Hint Resolve malloc_rings_kept : pres.

Lemma nameserver_failed_rings_kept ns : preserves rings_kept (nameserver_failed ns).
Proof. unfold nameserver_failed. pres. Qed.
#[local] Hint Resolve nameserver_failed_rings_kept : pres.

Lemma nameserver_up_rings_kept ns : preserves rings_kept (nameserver_up ns).
Proof. unfold nameserver_up. pres. Qed.
#[local] Hint Resolve nameserver_up_rings_kept : pres.

Lemma nameserver_probe_failed_rings_kept ns :
  preserves rings_kept (nameserver_probe_failed ns).
Proof. unfold nameserver_probe_failed. pres. Qed.
#[local] Hint Resolve nameserver_probe_failed_rings_kept : pres.

Lemma reply_callback_rings_kept req ttl err reply :
  preserves rings_kept (reply_callback req ttl err reply).
Proof.
  unfold reply_callback, invoke_callback, nameserver_probe_callback, emit. pres.
Qed.
#[local] Hint Resolve reply_callback_rings_kept : pres.

Lemma request_reissue_rings_kept req : preserves rings_kept (request_reissue req).
Proof. unfold request_reissue. pres. Qed.
#[local] Hint Resolve request_reissue_rings_kept : pres.

Lemma request_trans_id_set_rings_kept req id :
  preserves rings_kept (request_trans_id_set req id).
Proof. unfold request_trans_id_set. pres. Qed.
#[local] Hint Resolve request_trans_id_set_rings_kept : pres.

Lemma search_state_decref_rings_kept p : preserves rings_kept (search_state_decref p).
Proof. unfold search_state_decref. pres. Qed.
#[local] Hint Resolve search_state_decref_rings_kept : pres.

Lemma search_request_finished_rings_kept req :
  preserves rings_kept (search_request_finished req).
Proof. unfold search_request_finished. pres. Qed.
#[local] Hint Resolve search_request_finished_rings_kept : pres.

Lemma search_make_new_rings_kept st n base :
  preserves rings_kept (search_make_new st n base).
Proof. unfold search_make_new. pres. Qed.
#[local] Hint Resolve search_make_new_rings_kept : pres.

Lemma req_search_origname_rings_kept req :
  preserves rings_kept (req_search_origname req).
Proof. unfold req_search_origname. pres. Qed.
#[local] Hint Resolve req_search_origname_rings_kept : pres.

Lemma request_new_rings_kept type name flags cb ptr :
  preserves rings_kept (request_new type name flags cb ptr).
Proof. unfold request_new. pres. Qed.
#[local] Hint Resolve request_new_rings_kept : pres.

Lemma nameserver_known_rings_kept l address :
  preserves rings_kept (nameserver_known l address).
Proof. induction l as [|x l IH]; cbn [nameserver_known]; pres. Qed.
#[local] Hint Resolve nameserver_known_rings_kept : pres.

Lemma evdns_nameserver_add_rings_kept address :
  preserves rings_kept (evdns_nameserver_add address).
Proof.
  unfold evdns_nameserver_add. pres.
  all: match goal with |- context [server_head ?x] => destruct (server_head x) end;
    footprint.
Qed.

(** The rules for [keeps_rings]. *)
Lemma keeps_rings_bind {A B : Type} (m : M A) (k : A -> M B) :
  keeps_rings m -> (forall a, keeps_rings (k a)) -> keeps_rings (bind m k).
Proof.
  intros Hm Hk s Hok. apply wp_bind. eapply wp_mono; [apply Hm, Hok|].
  intros a s1 (Hok1 & G1). eapply wp_mono; [apply Hk, Hok1|].
  intros b s2 (Hok2 & G2). cbv beta. split; [exact Hok2|].
  transitivity s1; assumption.
Qed.

Lemma rings_kept_keeps_rings {A : Type} (m : M A) :
  preserves rings_kept m -> keeps_rings m.
Proof.
  intros H s Hok. eapply wp_mono; [apply H|]. intros a s' K. cbv beta.
  split; [exact (rings_ok_kept _ _ K Hok)|]. apply K.
Qed.

Lemma evdns_requests_pump_waiting_queue_keeps_rings :
  keeps_rings evdns_requests_pump_waiting_queue.
Proof.
  intros s Hok. unfold evdns_requests_pump_waiting_queue. apply wp_bind, wp_get.
  eapply wp_mono; [apply pump_loop_fifo; [lia | exact Hok]|].
  intros u s' (_ & _ & _ & G & Hok'). split; assumption.
Qed.

Lemma ring_remove_length req l :
  NoDup l -> In req l -> S (List.length (ring_remove req l)) = List.length l.
Proof.
  unfold ring_remove. induction l as [|x l IH]; intros Hnd Hin; [destruct Hin|].
  apply NoDup_cons in Hnd. destruct Hnd as (Hx & Hnd). cbn [List.filter].
  destruct (Nat.eqb_spec x req) as [->|Hne]; cbn [negb].
  - rewrite (List.forallb_filter_id _ l); [reflexivity|].
    apply List.forallb_forall. intros y Hy. apply negb_true_iff, Nat.eqb_neq.
    intros ->. apply Hx, list_elem_of_In, Hy.
  - cbn [List.length]. f_equal. apply IH; [exact Hnd|].
    destruct Hin as [Hin|Hin]; [congruence | exact Hin].
Qed.

Lemma ring_remove_NoDup req l : NoDup l -> NoDup (ring_remove req l).
Proof.
  intros H. apply NoDup_ListNoDup. apply List.NoDup_filter.
  apply NoDup_ListNoDup, H.
Qed.

Lemma existsb_eqb_In req l : existsb (Nat.eqb req) l = true <-> In req l.
Proof.
  rewrite existsb_exists. split.
  - intros (x & Hx & E). apply Nat.eqb_eq in E. subst x. exact Hx.
  - intros H. exists req. split; [exact H | apply Nat.eqb_refl].
Qed.

(** Taking [req] off the inflight ring, as [request_finished] does
    before it runs the pump. *)
Lemma rings_ok_unlink req s :
  rings_ok s -> In req (req_head s) ->
  rings_ok (set_global_requests_inflight (global_requests_inflight s - 1)
              (set_req_head (ring_remove req (req_head s)) s)).
Proof.
  intros (Hnd & Hall & Hi & Hw) Hin. unfold rings_ok. simpl_state.
  apply NoDup_app in Hnd. destruct Hnd as (N1 & N2 & N3).
  split; [|split; [|split]].
  - apply NoDup_app. split; [apply ring_remove_NoDup, N1|]. split; [|exact N3].
    intros x Hx. apply N2. apply list_elem_of_In.
    apply list_elem_of_In, in_ring_remove in Hx. apply Hx.
  - intros q Hq. apply Hall. apply in_app_iff. apply in_app_iff in Hq.
    destruct Hq as [Hq|Hq]; [left; apply in_ring_remove in Hq; apply Hq | right; exact Hq].
  - pose proof (ring_remove_length req _ N1 Hin). lia.
  - exact Hw.
Qed.

(** What [request_finished] leaves: the request is off the inflight
    ring and freed, and the pump has filled the room. *)
Lemma request_finished_effect req s :
  rings_ok s ->
  wp (request_finished req Inflight) (fun _ s' =>
    let k := Nat.min (Z.to_nat (global_max_requests_inflight s
                                - (global_requests_inflight s - 1)))
                     (List.length (req_waiting_head s)) in
    req_head s' = ring_remove req (req_head s) ++ take k (req_waiting_head s) /\
    req_waiting_head s' = drop k (req_waiting_head s) /\
    rings_ok s' /\ grown s s' /\ In req (req_head s)) s.
Proof.
  intros Hok. unfold request_finished.
  apply wp_bind, wp_deref_req. intros r Hr.
  apply wp_bind, wp_get.
  destruct (existsb (Nat.eqb req) (ring Inflight s)) eqn:Hin; [|apply wp_crash].
  cbn [negb]. apply existsb_eqb_In in Hin. cbn [ring] in Hin.
  apply wp_bind, wp_modify. cbn [set_ring ring].
  match goal with |- wp _ _ ?st => set (s1 := st) end.
  apply wp_bind. eapply wp_preserves;
    [apply (preserves_update_req rings_kept); intros; apply rings_kept_update_req|].
  intros u2 s2 K2.
  apply wp_bind. eapply wp_preserves; [apply search_request_finished_rings_kept|].
  intros u3 s3 K3.
  assert (K : rings_kept s1 s3) by (transitivity s2; assumption).
  destruct K as (E1 & E2 & E3 & E4 & E5 & G3).
  apply wp_bind, wp_modify. apply wp_bind, wp_modify.
  match goal with |- wp _ _ ?st => set (s5 := st) end.
  assert (H1 : req_head s5 = ring_remove req (req_head s)) by exact E1.
  assert (H2 : req_waiting_head s5 = req_waiting_head s) by exact E2.
  assert (H3 : global_requests_inflight s5 = global_requests_inflight s - 1).
  { change (global_requests_inflight s5) with (global_requests_inflight s3 - 1).
    rewrite E3. reflexivity. }
  assert (H4 : global_requests_waiting s5 = global_requests_waiting s) by exact E4.
  assert (H5 : global_max_requests_inflight s5 = global_max_requests_inflight s)
    by exact E5.
  assert (H6 : grown s s5) by exact G3.
  assert (Hok5 : rings_ok s5).
  { pose proof (rings_ok_unlink req s Hok Hin) as (A1 & A2 & A3 & A4).
    simpl_state. unfold rings_ok. rewrite H1, H2, H3, H4.
    split; [exact A1|]. split; [|split; assumption].
    intros q Hq. specialize (A2 q Hq). unfold grown in H6. simpl_state. lia. }
  unfold evdns_requests_pump_waiting_queue. apply wp_bind, wp_get.
  eapply wp_mono; [apply pump_loop_fifo; [lia | exact Hok5]|].
  intros u s' (A1 & A2 & A3 & A4 & A5). cbv beta zeta.
  unfold pump_count in A1, A2. rewrite H1, H2, H3, H5 in *.
  split; [exact A1|]. split; [exact A2|]. split; [exact A5|].
  split; [transitivity s5; assumption | exact Hin].
Qed.

Lemma request_finished_keeps_rings req : keeps_rings (request_finished req Inflight).
Proof.
  intros s Hok. eapply wp_mono; [apply request_finished_effect, Hok|].
  intros u s' (_ & _ & H & G & _). split; assumption.
Qed.

(** Putting a request that is on neither ring on one. *)
Lemma request_submit_fresh req s :
  rings_ok s -> ~ In req (req_head s ++ req_waiting_head s) ->
  (req < next_ptr s)%nat ->
  wp (request_submit req) (fun _ s' => rings_ok s' /\ grown s s') s.
Proof.
  intros (Hnd & Hall & Hi & Hw) Hfresh Hlt. unfold request_submit.
  apply wp_bind, wp_deref_req. intros r Hr.
  destruct (r_ns r) as [ns|].
  - apply wp_bind, wp_modify. apply wp_bind, wp_modify. cbn [set_ring ring].
    match goal with |- wp _ _ ?st => set (s2 := st) end.
    assert (Hok2 : rings_ok s2).
    { unfold rings_ok. subst s2. simpl_state. split; [|split; [|split]].
      - rewrite <- app_assoc. cbn [app]. rewrite <- Permutation_middle.
        apply NoDup_cons. split; [|exact Hnd].
        intros H. apply Hfresh, list_elem_of_In, H.
      - intros q Hq. rewrite <- app_assoc in Hq. apply in_app_iff in Hq.
        destruct Hq as [Hq|[Hq|Hq]].
        + apply Hall, in_app_iff. left. exact Hq.
        + subst q. exact Hlt.
        + apply Hall, in_app_iff. right. exact Hq.
      - rewrite length_app. cbn. lia.
      - exact Hw. }
    apply wp_bind. eapply wp_preserves; [apply evdns_request_transmit_rings_kept|].
    intros rc s3 K3. apply wp_ret. split; [exact (rings_ok_kept _ _ K3 Hok2)|].
    transitivity s2; [unfold grown; subst s2; simpl_state; lia | apply K3].
  - apply wp_bind, wp_modify. apply wp_modify. cbn [set_ring ring].
    split; [|unfold grown; simpl_state; lia].
    unfold rings_ok. simpl_state. split; [|split; [|split]].
    + rewrite app_assoc. rewrite <- Permutation_cons_append.
      apply NoDup_cons. split; [|exact Hnd].
      intros H. apply Hfresh, list_elem_of_In, H.
    + intros q Hq. rewrite app_assoc in Hq. apply in_app_iff in Hq.
      destruct Hq as [Hq|[Hq|[]]]; [apply Hall, Hq | subst q; exact Hlt].
    + exact Hi.
    + rewrite length_app. cbn. lia.
Qed.

(** A request fresh from [request_new] is on neither ring, and stays
    off them until it is submitted. *)
Lemma request_new_fresh type name flags cb ptr s :
  rings_ok s ->
  wp (request_new type name flags cb ptr) (fun res s1 =>
    rings_ok s1 /\ grown s s1 /\
    match res with
    | None => True
    | Some req =>
        forall s2, rings_kept s1 s2 ->
          wp (request_submit req) (fun _ s' => rings_ok s' /\ grown s s') s2
    end) s.
Proof.
  intros Hok.
  eapply wp_mono;
    [apply wp_conj; [apply request_new_spec | apply request_new_rings_kept]|].
  intros [req|] s1; cbv beta.
  - intros ((-> & s3 & packet & trans_id & ns & Q3 & A3 & _ & _ & ->) & K).
    pose proof (rings_ok_kept _ _ K Hok) as Hok1.
    split; [exact Hok1|]. split; [apply K|].
    intros s2 K2. pose proof (rings_ok_kept _ _ K2 Hok1) as Hok2.
    assert (K02 : rings_kept s s2) by (transitivity
      (set_requests (<[next_ptr s := new_request packet type ptr cb ns trans_id]>
                       (requests s3)) s3); assumption).
    destruct K02 as (E1 & E2 & _ & _ & _ & G).
    eapply wp_mono.
    + apply request_submit_fresh; [exact Hok2| |].
      * rewrite E1, E2. intros Hin. destruct Hok as (_ & Hall & _).
        specialize (Hall _ Hin). lia.
      * destruct K2 as (_ & _ & _ & _ & _ & G2). unfold grown in G2.
        simpl_state. lia.
    + intros u s' (R & G'). cbv beta. split; [exact R|].
      transitivity s2; [exact G | exact G'].
  - intros (_ & K). split; [exact (rings_ok_kept _ _ K Hok)|]. split; [apply K | exact I].
Qed.


(** *** The entry points keep the rings in order *)

Create HintDb ord.

#[local] Hint Resolve evdns_requests_pump_waiting_queue_keeps_rings
  request_finished_keeps_rings : ord.

Ltac ord_step :=
  first
    [ solve [eauto with ord]
    | lazymatch goal with
      | |- keeps_rings (bind _ _) => apply keeps_rings_bind; [ | intros ? ]
      | |- keeps_rings (if ?b then _ else _) => destruct b
      | |- keeps_rings (match ?x with _ => _ end) => destruct x
      | |- keeps_rings _ => apply rings_kept_keeps_rings; solve [pres]
      end ].

Ltac ord := cbv zeta; repeat (ord_step; cbv zeta).

(** One step that leaves the rings alone, between [request_new] and
    [request_submit]. *)
Ltac kept_step K :=
  apply wp_bind; eapply (wp_preserves rings_kept); [solve [pres]|];
  let u := fresh "u" in
  let s' := fresh "s" in
  let K' := fresh "K" in
  intros u s' K';
  pose proof (transitivity K K') as K'';
  clear K K'; rename K'' into K.

Ltac grown_lia :=
  repeat match goal with
         | K : rings_kept _ _ |- _ => destruct K as (_ & _ & _ & _ & _ & K)
         end;
  unfold grown in *; lia.

Ltac submit_now Hsub K :=
  first [ apply wp_bind; eapply wp_mono;
            [apply Hsub; exact K | intros ? ? ?; apply wp_ret; assumption]
        | eapply wp_mono; [apply Hsub; exact K | intros ? ? H; exact H] ].

(** [request_new] and then [request_submit], as the resolve calls do. *)
Lemma submit_new_keeps_rings type name flags cb ptr :
  keeps_rings
    (req <- request_new type name flags cb ptr ;;
     match req with
     | None => ret 1
     | Some req => request_submit req ;; ret 0
     end).
Proof.
  intros s Hok. apply wp_bind.
  eapply wp_mono; [apply request_new_fresh, Hok|].
  intros [req|] s1 (Hok1 & G1 & Hsub); cbv beta.
  - assert (K : rings_kept s1 s1) by reflexivity. submit_now Hsub K.
  - apply wp_ret. split; assumption.
Qed.
#[local] Hint Resolve submit_new_keeps_rings : ord.

Lemma search_try_next_keeps_rings req : keeps_rings (search_try_next req).
Proof.
  intros s Hok. unfold search_try_next.
  apply wp_bind, wp_deref_req. intros r Hr.
  destruct (r_search_state r) as [sp|]; [|apply wp_ret; split; [exact Hok | reflexivity]].
  assert (K0 : rings_kept s s) by reflexivity.
  kept_step K0. kept_step K0. kept_step K0.
  pose proof (rings_ok_kept _ _ K0 Hok) as Hok2.
  assert (G2 : grown s s2) by apply K0.
  match goal with |- context [r_search_index ?x >=? ss_num_domains ?y] =>
    destruct (r_search_index x >=? ss_num_domains y) end.
  - assert (K : rings_kept s2 s2) by reflexivity. kept_step K.
    match goal with |- context [string_num_dots ?x <? ?y] =>
      destruct (string_num_dots x <? y) end.
    2:{ apply wp_ret. split; [exact (rings_ok_kept _ _ K Hok2)|].
        transitivity s2; [exact G2 | apply K]. }
    pose proof (rings_ok_kept _ _ K Hok2) as Hok3.
    apply wp_bind. eapply wp_mono; [apply request_new_fresh, Hok3|].
    intros [newreq|] s4 (Hok4 & G4 & Hsub); cbv beta.
    + assert (K4 : rings_kept s4 s4) by reflexivity.
      apply wp_bind. eapply wp_mono; [apply Hsub; exact K4|].
      intros ? ? (Hok5 & G5). apply wp_ret. split; [exact Hok5 | grown_lia].
    + apply wp_ret. split; [exact Hok4 | grown_lia].
  - assert (K : rings_kept s2 s2) by reflexivity. kept_step K. kept_step K.
    pose proof (rings_ok_kept _ _ K Hok2) as Hok3.
    apply wp_bind. eapply wp_mono; [apply request_new_fresh, Hok3|].
    intros [newreq|] s5 (Hok5 & G5 & Hsub); cbv beta.
    + assert (K5 : rings_kept s5 s5) by reflexivity.
      do 6 kept_step K5.
      apply wp_bind. eapply wp_mono; [apply Hsub; exact K5|].
      intros ? ? (Hok6 & G6). apply wp_ret. split; [exact Hok6 | grown_lia].
    + apply wp_ret. split; [exact Hok5 | grown_lia].
Qed.
#[local] Hint Resolve search_try_next_keeps_rings : ord.

Lemma reply_handle_fail_keeps_rings req error :
  keeps_rings (reply_handle_fail req error).
Proof. unfold reply_handle_fail. ord. Qed.
#[local] Hint Resolve reply_handle_fail_keeps_rings : ord.

Lemma reply_handle_keeps_rings req flags ttl reply :
  keeps_rings (reply_handle req flags ttl reply).
Proof. unfold reply_handle. ord. Qed.

Lemma evdns_request_timeout_callback_keeps_rings req :
  keeps_rings (evdns_request_timeout_callback req).
Proof. unfold evdns_request_timeout_callback. ord. Qed.

Lemma nameserver_send_probe_keeps_rings ns : keeps_rings (nameserver_send_probe ns).
Proof.
  intros s Hok. unfold nameserver_send_probe. apply wp_bind.
  eapply wp_mono; [apply request_new_fresh, Hok|].
  intros [req|] s1 (Hok1 & G1 & Hsub); cbv beta.
  - assert (K : rings_kept s1 s1) by reflexivity.
    do 3 kept_step K. submit_now Hsub K.
  - apply wp_ret. split; assumption.
Qed.

Lemma search_request_new_keeps_rings type name flags cb ptr :
  keeps_rings (search_request_new type name flags cb ptr).
Proof.
  unfold search_request_new. cbv zeta.
  apply keeps_rings_bind; [ord|]. intros _.
  apply keeps_rings_bind; [ord|]. intros s0.
  destruct (negb (Z.land flags DNS_QUERY_NO_SEARCH =? 0)); [ord|].
  destruct (global_search_state s0) as [gp|]; [|ord].
  apply keeps_rings_bind; [ord|]. intros gs.
  destruct (ss_num_domains gs =? 0); [ord|].
  intros s Hok.
  destruct (string_num_dots name >=? ss_ndots gs).
  - apply wp_bind. apply wp_bind.
    eapply wp_mono; [apply request_new_fresh, Hok|].
    intros [req|] t1 (Hok1 & G1 & Hsub); cbv beta.
    + assert (K : rings_kept t1 t1) by reflexivity.
      kept_step K. apply wp_ret. do 4 kept_step K. submit_now Hsub K.
    + apply wp_ret. apply wp_ret. split; assumption.
  - apply wp_bind. assert (K0 : rings_kept s s) by reflexivity. kept_step K0.
    pose proof (rings_ok_kept _ _ K0 Hok) as Hok0.
    apply wp_bind. eapply wp_mono; [apply request_new_fresh, Hok0|].
    intros [req|] t1 (Hok1 & G1 & Hsub); cbv beta.
    + assert (K : rings_kept t1 t1) by reflexivity.
      kept_step K. apply wp_ret. do 4 kept_step K.
      apply wp_bind. eapply wp_mono; [apply Hsub; exact K|].
      intros ? ? (Hok5 & G5). apply wp_ret. split; [exact Hok5 | grown_lia].
    + apply wp_ret. apply wp_ret. split; [exact Hok1 | grown_lia].
Qed.

Lemma evdns_resolve_ipv4_keeps_rings name flags cb ptr :
  keeps_rings (evdns_resolve_ipv4 name flags cb ptr).
Proof.
  unfold evdns_resolve_ipv4.
  destruct (negb (Z.land flags DNS_QUERY_NO_SEARCH =? 0));
    [apply submit_new_keeps_rings | apply search_request_new_keeps_rings].
Qed.

(** The request loop of [evdns_clear_nameservers_and_suspend]: the
    waiting ring, its counter and the allocator. *)
Lemma suspend_loop_counts (l : list nat) : forall s,
  wp (for_each l (fun req =>
        update_req req (fun r => set_r_reissue_count 0 (set_r_tx_count 0 r)) ;;
        update_req req (set_r_ns None) ;;
        update_req req (set_r_timeout_event false) ;;
        update_req req (set_r_trans_id 0) ;;
        update_req req (set_r_transmit_me false) ;;
        modify (fun s => set_global_requests_waiting (global_requests_waiting s + 1) s) ;;
        evdns_request_insert req Waiting ;;
        modify (fun s => set_req_waiting_head (ring_prev (req_waiting_head s)) s)))
     (fun _ s' =>
        req_waiting_head s' = rev l ++ req_waiting_head s /\
        global_requests_waiting s'
          = global_requests_waiting s + Z.of_nat (List.length l) /\
        next_ptr s' = next_ptr s /\
        nameservers s' = nameservers s /\
        server_head s' = server_head s /\
        global_good_nameservers s' = global_good_nameservers s) s.
Proof.
  induction l as [|req l IH]; intros s; cbn [for_each].
  - apply wp_ret. cbn. split; [reflexivity|]. split; [lia | repeat split; reflexivity].
  - apply wp_bind.
    do 5 (apply wp_bind, wp_update_req; intros ? ?; simpl_state).
    apply wp_bind, wp_modify. apply wp_bind, wp_modify. apply wp_modify.
    simpl_state. rewrite ring_prev_snoc.
    eapply wp_mono; [apply IH|].
    intros u s' (W & C & P & N & Hs & G). cbv beta in *. simpl_state.
    rewrite W, C, P, N, Hs, G.
    cbn [rev List.length]. rewrite <- app_assoc.
    split; [reflexivity|]. split; [lia | repeat split; reflexivity].
Qed.

Lemma evdns_clear_nameservers_and_suspend_keeps_rings :
  keeps_rings evdns_clear_nameservers_and_suspend.
Proof.
  intros s Hok. unfold evdns_clear_nameservers_and_suspend.
  apply wp_bind, wp_get.
  destruct (server_head s) as [|h l]; [apply wp_ret; split; [exact Hok | reflexivity]|].
  apply wp_bind. eapply wp_preserves with (R := rings_kept); [pres|].
  intros u s1 (E1 & E2 & E3 & E4 & E5 & G1).
  apply wp_bind, wp_modify. apply wp_bind, wp_modify. simpl_state.
  apply wp_bind. eapply wp_mono; [apply suspend_loop_counts|].
  intros u' s2 (W & C & P & _ & _ & _). cbv beta in *. simpl_state.
  apply wp_bind, wp_modify. apply wp_bind, wp_modify. apply wp_ret.
  destruct Hok as (Hnd & Hall & Hi & Hw).
  split; [|unfold grown in *; simpl_state; lia].
  unfold rings_ok. simpl_state. rewrite W, C, E2, E4. split; [|split; [|split]].
  - cbn [app]. rewrite <- (Permutation_rev (req_head s)). exact Hnd.
  - cbn [app]. intros q Hq. rewrite P. unfold grown in G1.
    assert (In q (req_head s ++ req_waiting_head s)) as Hq'.
    { apply in_app_iff. apply in_app_iff in Hq.
      destruct Hq as [Hq|Hq]; [left; apply in_rev, Hq | right; exact Hq]. }
    specialize (Hall q Hq'). lia.
  - reflexivity.
  - rewrite length_app, length_rev. lia.
Qed.

Lemma evdns_resume_keeps_rings : keeps_rings evdns_resume.
Proof. unfold evdns_resume. ord. Qed.

(** X9.  The event handlers keep the request rings in order: after a
    reply has been handled, a request's timer has fired or a
    nameserver has been probed, no request is on a ring twice or on
    both rings, every request on a ring has been allocated, and the
    inflight and waiting counters are the lengths of the two rings. *)
Theorem handlers_keep_rings_ok s :
  rings_ok s ->
  (forall req flags ttl reply,
     wp (reply_handle req flags ttl reply) (fun _ s' => rings_ok s') s) /\
  (forall req, wp (evdns_request_timeout_callback req) (fun _ s' => rings_ok s') s) /\
  (forall ns, wp (nameserver_prod_callback ns) (fun _ s' => rings_ok s') s).
Proof.
  intros Hok. split; [|split].
  - intros req flags ttl reply.
    eapply wp_mono; [apply reply_handle_keeps_rings, Hok|]. intros u s' H. apply H.
  - intros req.
    eapply wp_mono; [apply evdns_request_timeout_callback_keeps_rings, Hok|].
    intros u s' H. apply H.
  - intros ns. unfold nameserver_prod_callback.
    eapply wp_mono; [apply nameserver_send_probe_keeps_rings, Hok|].
    intros u s' H. apply H.
Qed.

(** X10.  The calls of the interface keep the request rings in order:
    a resolve, suspending, resuming and adding a nameserver. *)
Theorem calls_keep_rings_ok s :
  rings_ok s ->
  (forall name flags cb ptr,
     wp (evdns_resolve_ipv4 name flags cb ptr) (fun _ s' => rings_ok s') s) /\
  wp evdns_clear_nameservers_and_suspend (fun _ s' => rings_ok s') s /\
  wp evdns_resume (fun _ s' => rings_ok s') s /\
  (forall address, wp (evdns_nameserver_add address) (fun _ s' => rings_ok s') s).
Proof.
  intros Hok. split; [|split; [|split]].
  - intros name flags cb ptr.
    eapply wp_mono; [apply evdns_resolve_ipv4_keeps_rings, Hok|]. intros u s' H. apply H.
  - eapply wp_mono; [apply evdns_clear_nameservers_and_suspend_keeps_rings, Hok|].
    intros u s' H. apply H.
  - eapply wp_mono; [apply evdns_resume_keeps_rings, Hok|]. intros u s' H. apply H.
  - intros address.
    eapply wp_mono; [apply evdns_nameserver_add_rings_kept|].
    intros u s' K. exact (rings_ok_kept _ _ K Hok).
Qed.


(** X8.  Finishing an inflight request, on rings that are in order:
    the request is freed and is on neither ring any more, the other
    inflight requests keep their order, and the pump moves the first
    [k] waiting requests behind them, where [k] is the room under the
    cap once the request has left (or the whole waiting ring). *)
Theorem request_finished_rings req s :
  rings_ok s ->
  wp (request_finished req Inflight) (fun _ s' =>
    let k := Nat.min (Z.to_nat (global_max_requests_inflight s
                                - (global_requests_inflight s - 1)))
                     (List.length (req_waiting_head s)) in
    req_head s' = ring_remove req (req_head s) ++ take k (req_waiting_head s) /\
    req_waiting_head s' = drop k (req_waiting_head s) /\
    requests s' !! req = None /\
    ~ In req (req_head s' ++ req_waiting_head s')) s.
Proof.
  intros Hok.
  eapply wp_mono;
    [apply wp_conj; [apply request_finished_effect, Hok
                    | apply request_finished_spec]|].
  intros u s' ((A1 & A2 & A3 & A4 & Hreq) & (_ & G1 & G2)). cbv beta zeta in *.
  split; [exact A1|]. split; [exact A2|]. split; [exact G1|].
  intros H. apply in_app_iff in H. destruct H as [H|H]; [exact (G2 H)|].
  rewrite A2 in H.
  assert (Hw : In req (req_waiting_head s)).
  { rewrite <- (take_drop (Nat.min
      (Z.to_nat (global_max_requests_inflight s - (global_requests_inflight s - 1)))
      (List.length (req_waiting_head s))) (req_waiting_head s)).
    apply in_app_iff. right. exact H. }
  destruct Hok as (Hnd & _).
  apply NoDup_app in Hnd. destruct Hnd as (_ & Hd & _).
  apply (Hd req); apply list_elem_of_In; assumption.
Qed.


(** *** The theorems at concrete states *)

Lemma ring_ok_lone : ring_ok (lone 0 1).
Proof.
  split; [refine (bool_decide_unpack _ _); vm_compute; exact I|].
  split; [|reflexivity].
  intros ns [<-|[]]. split; [cbn; lia|]. eexists. reflexivity.
Qed.

Lemma rings_ok_lone : rings_ok (lone 0 1).
Proof.
  split; [refine (bool_decide_unpack _ _); vm_compute; exact I|].
  split; [|split; reflexivity].
  intros req [<-|[]]. cbn. lia.
Qed.

Lemma ring_ok_reissued_state : ring_ok reissued_state.
Proof.
  split; [refine (bool_decide_unpack _ _); vm_compute; exact I|].
  split; [|vm_compute; reflexivity].
  assert (E : server_head reissued_state = [1; 2]%nat) by (vm_compute; reflexivity).
  rewrite E. intros ns [<-|[<-|[]]]; (split; [vm_compute; lia|]).
  all: eexists; vm_compute; reflexivity.
Qed.

Lemma rings_ok_queued_state : rings_ok queued_state.
Proof.
  split; [refine (bool_decide_unpack _ _); vm_compute; exact I|].
  split; [|split; vm_compute; reflexivity].
  assert (E : req_head queued_state ++ req_waiting_head queued_state
              = [5; 4; 1; 2]%nat) by (vm_compute; reflexivity).
  rewrite E. intros req [<-|[<-|[<-|[<-|[]]]]]; vm_compute; lia.
Qed.


(** X2 at www.example.com. *)
Lemma name_parse_data_build_roundtrip_witness :
  c_string "www.example.com" /\
  strlen "www.example.com" <= 255 /\
  Forall (fun l => 1 <= strlen l <= 63) (labels "www.example.com") /\
  (List.length (labels "www.example.com") < 4)%nat /\
  exists packet,
    evdns_request_data_build "www.example.com" (strlen "www.example.com") 7
      TYPE_A CLASS_INET (evdns_request_len (strlen "www.example.com")) = inr packet /\
    name_parse 4 packet (buf_pos packet) 12 256
    = NameParse.Parsed (12 + strlen "www.example.com" + 2)
        (bytes_of_string "www.example.com").
Proof.
  assert (H1 : c_string "www.example.com").
  { unfold c_string. vm_compute. intros H.
    repeat (destruct H as [H|H]; [discriminate H|]). exact H. }
  assert (H2 : strlen "www.example.com" <= 255) by (vm_compute; discriminate).
  assert (H3 : Forall (fun l => 1 <= strlen l <= 63) (labels "www.example.com"))
    by (refine (bool_decide_unpack _ _); vm_compute; exact I).
  assert (H4 : (List.length (labels "www.example.com") < 4)%nat) by (vm_compute; lia).
  split; [exact H1|]. split; [exact H2|]. split; [exact H3|]. split; [exact H4|].
  exact (name_parse_data_build_roundtrip "www.example.com" 7 TYPE_A CLASS_INET 4
           H1 H2 H3 H4).
Defined.

(** X3 at two nameservers of which the first is down: the pick skips
    it, returns the second and leaves the ring turned past it. *)
Lemma nameserver_pick_first_up_witness :
  ring_ok reissued_state /\
  global_good_nameservers reissued_state <> 0 /\
  server_head reissued_state = [1; 2]%nat /\
  is_up reissued_state 1 = false /\
  exists pre ns post,
    server_head reissued_state = pre ++ ns :: post /\
    Forall (fun y => is_up reissued_state y = false) pre /\
    is_up reissued_state ns = true /\
    nameserver_pick reissued_state
    = Ok (Some ns) (set_server_head (post ++ pre ++ [ns]) reissued_state) /\
    ring_ok (set_server_head (post ++ pre ++ [ns]) reissued_state).
Proof.
  assert (H2 : global_good_nameservers reissued_state <> 0)
    by (vm_compute; discriminate).
  split; [exact ring_ok_reissued_state|]. split; [exact H2|].
  split; [vm_compute; reflexivity|]. split; [vm_compute; reflexivity|].
  exact (nameserver_pick_first_up reissued_state ring_ok_reissued_state H2).
Defined.

(** X4 at the one nameserver of a resolver. *)
Lemma nameserver_failed_ring_ok_witness :
  ring_ok (lone 0 1) /\
  In 1%nat (server_head (lone 0 1)) /\
  is_up (lone 0 1) 1 = true /\
  value (nameserver_failed 1 (lone 0 1)) = Some tt /\
  wp (nameserver_failed 1) (fun _ s' =>
    ring_ok s' /\ is_up s' 1 = false /\
    (forall other, other <> 1%nat -> is_up s' other = is_up (lone 0 1) other) /\
    if is_up (lone 0 1) 1
    then global_good_nameservers s' = global_good_nameservers (lone 0 1) - 1
    else s' = lone 0 1) (lone 0 1).
Proof.
  assert (H2 : In 1%nat (server_head (lone 0 1))) by (left; reflexivity).
  split; [exact ring_ok_lone|]. split; [exact H2|].
  split; [reflexivity|]. split; [vm_compute; reflexivity|].
  exact (nameserver_failed_ring_ok 1%nat (lone 0 1) ring_ok_lone H2).
Defined.

(** X5 at the nameserver a ServFail reply has marked failed. *)
Lemma nameserver_up_ring_ok_witness :
  ring_ok reissued_state /\
  In 1%nat (server_head reissued_state) /\
  is_up reissued_state 1 = false /\
  exists s',
    nameserver_up 1 reissued_state = Ok tt s' /\
    ring_ok s' /\
    (forall other, other <> 1%nat -> is_up s' other = is_up reissued_state other) /\
    (exists n', nameservers s' !! 1%nat = Some n' /\ ns_state n' = true /\
       (is_up reissued_state 1 = false ->
        ns_failed_times n' = 0 /\ ns_timedout n' = 0)) /\
    if is_up reissued_state 1 then s' = reissued_state
    else global_good_nameservers s' = global_good_nameservers reissued_state + 1.
Proof.
  assert (H2 : In 1%nat (server_head reissued_state)) by (vm_compute; left; reflexivity).
  split; [exact ring_ok_reissued_state|]. split; [exact H2|].
  split; [vm_compute; reflexivity|].
  exact (nameserver_up_ring_ok 1%nat reissued_state ring_ok_reissued_state H2).
Defined.


(** X7 at four waiting requests and an empty inflight ring: all four
    are promoted, in their order. *)
Lemma evdns_requests_pump_waiting_queue_fifo_witness :
  rings_ok queued_state /\
  req_head queued_state = [] /\
  req_waiting_head queued_state = [5; 4; 1; 2]%nat /\
  pump_count queued_state = 4%nat /\
  value (evdns_requests_pump_waiting_queue queued_state) = Some tt /\
  wp evdns_requests_pump_waiting_queue (fun _ s' =>
    req_head s' = req_head queued_state
                  ++ take (pump_count queued_state) (req_waiting_head queued_state) /\
    req_waiting_head s'
    = drop (pump_count queued_state) (req_waiting_head queued_state) /\
    rings_ok s' /\
    (req_waiting_head s' = [] \/
     global_max_requests_inflight s' <= global_requests_inflight s')) queued_state.
Proof.
  split; [exact rings_ok_queued_state|].
  split; [vm_compute; reflexivity|]. split; [vm_compute; reflexivity|].
  split; [vm_compute; reflexivity|]. split; [vm_compute; reflexivity|].
  exact (evdns_requests_pump_waiting_queue_fifo queued_state rings_ok_queued_state).
Defined.

(** X8 at the one inflight request of a resolver. *)
Lemma request_finished_rings_witness :
  rings_ok (lone 0 1) /\
  req_head (lone 0 1) = [2%nat] /\
  value (request_finished 2 Inflight (lone 0 1)) = Some tt /\
  wp (request_finished 2 Inflight) (fun _ s' =>
    let k := Nat.min (Z.to_nat (global_max_requests_inflight (lone 0 1)
                                - (global_requests_inflight (lone 0 1) - 1)))
                     (List.length (req_waiting_head (lone 0 1))) in
    req_head s' = ring_remove 2 (req_head (lone 0 1))
                  ++ take k (req_waiting_head (lone 0 1)) /\
    req_waiting_head s' = drop k (req_waiting_head (lone 0 1)) /\
    requests s' !! 2%nat = None /\
    ~ In 2%nat (req_head s' ++ req_waiting_head s')) (lone 0 1).
Proof.
  split; [exact rings_ok_lone|]. split; [reflexivity|].
  split; [vm_compute; reflexivity|].
  exact (request_finished_rings 2%nat (lone 0 1) rings_ok_lone).
Defined.

(** X9 at a resolver with one request inflight. *)
Lemma handlers_keep_rings_ok_witness :
  rings_ok (lone 0 1) /\
  value (evdns_request_timeout_callback 2 (lone 0 1)) = Some tt /\
  (forall req flags ttl reply,
     wp (reply_handle req flags ttl reply) (fun _ s' => rings_ok s') (lone 0 1)) /\
  (forall req,
     wp (evdns_request_timeout_callback req) (fun _ s' => rings_ok s') (lone 0 1)) /\
  (forall ns, wp (nameserver_prod_callback ns) (fun _ s' => rings_ok s') (lone 0 1)).
Proof.
  split; [exact rings_ok_lone|]. split; [vm_compute; reflexivity|].
  exact (handlers_keep_rings_ok (lone 0 1) rings_ok_lone).
Defined.

(** X10 at four waiting requests and an empty inflight ring. *)
Lemma calls_keep_rings_ok_witness :
  rings_ok queued_state /\
  value (evdns_resume queued_state) = Some 0 /\
  (forall name flags cb ptr,
     wp (evdns_resolve_ipv4 name flags cb ptr) (fun _ s' => rings_ok s') queued_state) /\
  wp evdns_clear_nameservers_and_suspend (fun _ s' => rings_ok s') queued_state /\
  wp evdns_resume (fun _ s' => rings_ok s') queued_state /\
  (forall address,
     wp (evdns_nameserver_add address) (fun _ s' => rings_ok s') queued_state).
Proof.
  split; [exact rings_ok_queued_state|]. split; [vm_compute; reflexivity|].
  exact (calls_keep_rings_ok queued_state rings_ok_queued_state).
Defined.


(** *** Replies on the wire *)

Lemma join_bits x k :
  0 <= k ->
  Z.lor (Z.shiftl (Z.land (Z.shiftr x k) (Z.ones k)) k) (Z.land x (Z.ones k))
  = Z.land x (Z.ones (2 * k)).
Proof.
  intros Hk. apply Z.bits_inj'. intros n Hn.
  rewrite Z.lor_spec, !Z.land_spec.
  destruct (Z_lt_le_dec n k) as [Hlt|Hge].
  - rewrite Z.shiftl_spec_low by lia.
    rewrite !Z.ones_spec_low by lia. rewrite andb_true_r. reflexivity.
  - rewrite Z.shiftl_spec by lia. rewrite Z.land_spec, Z.shiftr_spec by lia.
    replace (n - k + k) with n by lia.
    rewrite (Z.ones_spec_high k n) by lia. rewrite andb_false_r, orb_false_r.
    destruct (Z_lt_le_dec n (2 * k)) as [Hlt2|Hge2].
    + rewrite !Z.ones_spec_low by lia. reflexivity.
    + rewrite !Z.ones_spec_high by lia. rewrite !andb_false_r. reflexivity.
Qed.

Lemma land_ones_small x k : 0 <= k -> 0 <= x < 2 ^ k -> Z.land x (Z.ones k) = x.
Proof. intros Hk Hx. rewrite Z.land_ones by lia. apply Z.mod_small. exact Hx. Qed.

Lemma drop_length (l : list Z) j x rest :
  0 <= j -> drop (Z.to_nat j) l = x :: rest ->
  buf_pos l = j + 1 + buf_pos rest.
Proof.
  intros Hj H. pose proof (length_drop l (Z.to_nat j)) as L. rewrite H in L.
  unfold buf_pos. cbn [List.length] in L. lia.
Qed.

Lemma u8_at_drop packet j x rest :
  0 <= j -> drop (Z.to_nat j) packet = x :: rest -> u8_at packet j = x.
Proof.
  intros Hj H. unfold u8_at.
  pose proof (drop_length packet j x rest Hj H) as L. unfold buf_pos in L.
  rewrite <- (take_drop (Z.to_nat j) packet) at 1. rewrite H.
  assert (L' : List.length (take (Z.to_nat j) packet) = Z.to_nat j).
  { rewrite length_take. lia. }
  rewrite <- L' at 1. apply nth_middle.
Qed.

Lemma drop_more (l : list Z) j a rest :
  0 <= j -> drop (Z.to_nat j) l = a ++ rest ->
  drop (Z.to_nat (j + buf_pos a)) l = rest.
Proof.
  intros Hj H. unfold buf_pos.
  replace (Z.to_nat (j + Z.of_nat (List.length a)))
    with (Z.to_nat j + List.length a)%nat by lia.
  rewrite <- drop_drop, H. apply drop_app_length.
Qed.

Lemma u16_at_drop packet j x rest :
  0 <= j -> drop (Z.to_nat j) packet = word x ++ rest ->
  u16_at packet j = Z.land x (Z.ones 16).
Proof.
  intros Hj H. unfold u16_at, word in *. cbn [app] in H.
  rewrite (u8_at_drop packet j _ _ Hj H).
  pose proof (drop_more packet j [Z.land (Z.shiftr x 8) 255] _ Hj H) as H'.
  change (buf_pos [Z.land (Z.shiftr x 8) 255]) with 1 in H'.
  rewrite (u8_at_drop packet (j + 1) _ _ ltac:(lia) H').
  change 255 with (Z.ones 8). apply (join_bits x 8). lia.
Qed.

Lemma GET16_drop packet j x rest :
  0 <= j -> 0 <= x < 65536 -> drop (Z.to_nat j) packet = word x ++ rest ->
  GET16 packet (buf_pos packet) j = Some (x, j + 2) /\
  drop (Z.to_nat (j + 2)) packet = rest.
Proof.
  intros Hj Hx H. split.
  - unfold GET16.
    pose proof (drop_length packet j _ _ Hj H) as L. cbn [app] in L.
    unfold buf_pos at 2 in L. cbn [List.length] in L.
    destruct (Z.gtb_spec (j + 2) (buf_pos packet)); [lia|].
    rewrite (u16_at_drop packet j x rest Hj H).
    rewrite land_ones_small; [reflexivity | lia | exact Hx].
  - exact (drop_more packet j (word x) rest Hj H).
Qed.

Lemma GET32_drop packet j x rest :
  0 <= j -> 0 <= x < 2 ^ 32 -> drop (Z.to_nat j) packet = dword x ++ rest ->
  GET32 packet (buf_pos packet) j = Some (x, j + 4) /\
  drop (Z.to_nat (j + 4)) packet = rest.
Proof.
  intros Hj Hx H. unfold dword in H. rewrite <- app_assoc in H.
  pose proof (drop_more packet j (word (Z.shiftr x 16)) _ Hj H) as H2.
  change (buf_pos (word (Z.shiftr x 16))) with 2 in H2.
  pose proof (drop_more packet (j + 2) (word x) _ ltac:(lia) H2) as H4.
  change (buf_pos (word x)) with 2 in H4.
  replace (j + 2 + 2) with (j + 4) in H4 by lia.
  split; [|exact H4].
  unfold GET32.
  pose proof (drop_length packet (j + 2) _ _ ltac:(lia) H2) as L. cbn [app] in L.
  unfold buf_pos at 2 in L. cbn [List.length] in L.
  destruct (Z.gtb_spec (j + 4) (buf_pos packet)); [lia|].
  unfold u32_at.
  rewrite (u16_at_drop packet j _ _ Hj H).
  rewrite (u16_at_drop packet (j + 2) _ _ ltac:(lia) H2).
  rewrite (join_bits x 16) by lia.
  rewrite land_ones_small; [reflexivity | lia | exact Hx].
Qed.

(** The header of twelve bytes. *)
Lemma parse_header_bytes b0 b1 b2 b3 b4 b5 b6 b7 b8 b9 b10 b11 tail length :
  12 <= length ->
  parse_header (b0 :: b1 :: b2 :: b3 :: b4 :: b5 :: b6 :: b7 :: b8 :: b9 :: b10
                :: b11 :: tail) length
  = Some (mkHeader (Z.lor (Z.shiftl b0 8) b1) (Z.lor (Z.shiftl b2 8) b3)
            (Z.lor (Z.shiftl b4 8) b5) (Z.lor (Z.shiftl b6 8) b7)
            (Z.lor (Z.shiftl b8 8) b9) (Z.lor (Z.shiftl b10 8) b11), 12).
Proof.
  intros H. unfold parse_header, GET16.
  repeat match goal with
         | |- context [?a >? length] => destruct (Z.gtb_spec a length); [lia|]
         end.
  reflexivity.
Qed.

Lemma length_flat_map_dword addresses :
  buf_pos (flat_map dword addresses) = 4 * Z.of_nat (List.length addresses).
Proof.
  unfold buf_pos. induction addresses as [|a l IH]; [reflexivity|].
  cbn [flat_map]. rewrite length_app. cbn [List.length dword word app] in *. lia.
Qed.

Lemma buf_pos_a_record ttl addresses :
  buf_pos (a_record ttl addresses) = 12 + 4 * Z.of_nat (List.length addresses).
Proof.
  unfold a_record. cbn [app word dword]. unfold buf_pos. cbn [List.length].
  pose proof (length_flat_map_dword addresses) as L. unfold buf_pos in L. lia.
Qed.

Lemma answer_packet_split trans_id name ttl addresses :
  answer_packet trans_id name ttl addresses
  = (answer_header trans_id ++ wire_labels (labels name) ++ 0 :: word TYPE_A
       ++ word CLASS_INET) ++ a_record ttl addresses.
Proof.
  unfold answer_packet. rewrite <- !app_assoc. cbn [app]. rewrite <- !app_assoc. reflexivity.
Qed.

Lemma buf_pos_answer_packet trans_id name ttl addresses :
  buf_pos (answer_packet trans_id name ttl addresses)
  = 12 + buf_pos (wire_labels (labels name)) + 1 + 4 + 12
    + 4 * Z.of_nat (List.length addresses).
Proof.
  rewrite answer_packet_split. rewrite !buf_pos_app, buf_pos_a_record.
  unfold buf_pos at 3. cbn [List.length app word].
  change (buf_pos (answer_header trans_id)) with 12. lia.
Qed.

Lemma drop_a_record trans_id name ttl addresses :
  drop (Z.to_nat (12 + buf_pos (wire_labels (labels name)) + 1 + 4))
       (answer_packet trans_id name ttl addresses)
  = a_record ttl addresses.
Proof.
  rewrite answer_packet_split. apply drop_app_length'.
  rewrite !length_app. cbn [List.length app word answer_header]. unfold buf_pos. lia.
Qed.

(** The addresses of the record, as the copy loop reads them. *)
Lemma u32_at_addresses packet addresses : forall n j rest,
  0 <= j ->
  Forall (fun a => 0 <= a < 2 ^ 32) addresses ->
  drop (Z.to_nat j) packet = flat_map dword addresses ++ rest ->
  (n <= List.length addresses)%nat ->
  List.map (fun k => u32_at packet (j + 4 * Z.of_nat k)) (seq 0 n)
  = take n addresses.
Proof.
  induction addresses as [|a l IH]; intros n j rest Hj Hall H Hn.
  - destruct n; [reflexivity | cbn in Hn; lia].
  - destruct n as [|n]; [reflexivity|].
    inversion Hall as [|? ? Ha Hl]; subst.
    cbn [flat_map] in H. rewrite <- app_assoc in H.
    destruct (GET32_drop packet j a _ Hj Ha H) as (G & D).
    cbn [seq List.map take]. f_equal.
    + unfold GET32 in G. rewrite Z.mul_0_r, Z.add_0_r.
      destruct (j + 4 >? buf_pos packet); [discriminate|]. congruence.
    + rewrite <- seq_shift, List.map_map.
      rewrite <- (IH n (j + 4) rest ltac:(lia) Hl D ltac:(cbn in Hn; lia)).
      apply List.map_ext. intros k. f_equal. lia.
Qed.


(** *** A reply that answers *)

(** The first inflight request that has the id is the one found. *)
Lemma request_find_walk_first pre : forall req post r trans_id s,
  (forall q, In q pre ->
     exists rq, requests s !! q = Some rq /\ r_trans_id rq <> trans_id) ->
  requests s !! req = Some r -> r_trans_id r = trans_id ->
  request_find_walk (pre ++ req :: post) trans_id s = Ok (Some req) s.
Proof.
  induction pre as [|q pre IH]; intros req post r trans_id s Hpre Hr Hid;
    cbn [app request_find_walk]; unfold bind, deref_req.
  - rewrite Hr, Hid, Z.eqb_refl. reflexivity.
  - destruct (Hpre q (or_introl eq_refl)) as (rq & Hq & Hne). rewrite Hq.
    apply Z.eqb_neq in Hne. rewrite Hne.
    apply (IH req post r); [|exact Hr | exact Hid].
    intros q' Hq'. apply Hpre. right. exact Hq'.
Qed.

Lemma wire_nonneg name : 0 <= buf_pos (wire_labels (labels name)).
Proof. unfold buf_pos. lia. Qed.

Section Answer.
Context (trans_id : Z) (name : string) (ttl : Z) (addresses : list Z).
Local Abbreviation packet := (answer_packet trans_id name ttl addresses).
Local Abbreviation W := (buf_pos (wire_labels (labels name))).

Lemma parse_header_answer_packet :
  0 <= trans_id < 65536 ->
  parse_header packet (buf_pos packet)
  = Some (mkHeader trans_id 0x8180 1 1 0 0, 12).
Proof.
  intros Hid.
  pose proof (buf_pos_answer_packet trans_id name ttl addresses) as L.
  pose proof (wire_nonneg name) as HW.
  unfold answer_packet at 1, answer_header, word. cbn [app].
  rewrite parse_header_bytes by lia.
  change 255 with (Z.ones 8). rewrite (join_bits trans_id 8) by lia.
  rewrite land_ones_small; [reflexivity | lia | exact Hid].
Qed.

Lemma name_parse_question fuel :
  strlen name <= 255 ->
  Forall (fun l => 1 <= strlen l <= 63) (labels name) ->
  (S (List.length (labels name)) < fuel)%nat ->
  name_parse fuel packet (buf_pos packet) 12 256
  = NameParse.Parsed (12 + W + 1) (bytes_of_string name).
Proof.
  intros Hlen Hall Hfuel.
  unfold name_parse, NameParse.name_parse, answer_packet.
  change 12 with (buf_pos (answer_header trans_id)) at 1.
  rewrite name_parse_loop_labels; [| exact Hall | lia |].
  - rewrite fold_with_label_labels by exact Hall. reflexivity.
  - rewrite fold_with_label_labels by exact Hall.
    rewrite buf_pos_bytes_of_string. lia.
Qed.

Lemma skip_questions_answer_packet fuel :
  strlen name <= 255 ->
  Forall (fun l => 1 <= strlen l <= 63) (labels name) ->
  (S (List.length (labels name)) < fuel)%nat ->
  skip_questions fuel 1 packet (buf_pos packet) 12 = PDone (12 + W + 1 + 4).
Proof.
  intros Hlen Hall Hfuel.
  cbn [skip_questions]. rewrite (name_parse_question fuel Hlen Hall Hfuel).
  pose proof (buf_pos_answer_packet trans_id name ttl addresses) as L.
  destruct (12 + W + 1 + 4 >=? buf_pos packet) eqn:E; [|reflexivity].
  rewrite Z.geb_leb in E. apply Z.leb_le in E. lia.
Qed.

(** The name of the answer: the pointer leads back to the name of
    the question. *)
Lemma name_parse_answer fuel :
  strlen name <= 255 ->
  Forall (fun l => 1 <= strlen l <= 63) (labels name) ->
  (S (List.length (labels name)) < fuel)%nat ->
  name_parse fuel packet (buf_pos packet) (12 + W + 1 + 4) 256
  = NameParse.Parsed (12 + W + 1 + 4 + 2) (bytes_of_string name).
Proof.
  intros Hlen Hall Hfuel.
  pose proof (buf_pos_answer_packet trans_id name ttl addresses) as L.
  pose proof (wire_nonneg name) as HW.
  pose proof (drop_a_record trans_id name ttl addresses) as D.
  unfold name_parse, NameParse.name_parse.
  destruct fuel as [|fuel']; [lia|]. cbn [NameParse.loop].
  assert (B : NameParse.body packet (buf_pos packet) 256
                (NameParse.mkCursor (12 + W + 1 + 4) [] (-1))
              = NameParse.Continue (NameParse.mkCursor 12 [] (12 + W + 1 + 4 + 2))).
  { unfold NameParse.body. cbn [NameParse.c_j NameParse.c_out NameParse.c_name_end].
    destruct (Z.geb_spec (12 + W + 1 + 4) (buf_pos packet)); [lia|].
    unfold a_record in D. cbn [app] in D.
    assert (H0 : 0 <= 12 + W + 1 + 4) by lia.
    rewrite (u8_at_drop packet _ _ _ H0 D).
    pose proof (drop_more packet _ [192] _ H0 D) as D1.
    change (buf_pos [192]) with 1 in D1.
    assert (H1 : 0 <= 12 + W + 1 + 4 + 1) by lia.
    rewrite (u8_at_drop packet _ _ _ H1 D1).
    cbn [Z.eqb Z.land Pos.land negb Z.ltb Z.compare Pos.compare Pos.compare_cont
         Z.shiftl Pos.shiftl Pos.iter Z.add Pos.add Pos.succ orb Z.of_N N.succ_pos].
    destruct (Z.geb_spec (12 + W + 1 + 4 + 1) (buf_pos packet)); [lia|].
    change (Z.shiftl (Z.land 192 63) 8 + 12) with 12.
    destruct (Z.geb_spec 12 (buf_pos packet)); [lia|].
    cbn [Z.ltb Z.compare orb]. f_equal. f_equal. lia. }
  rewrite B.
  unfold answer_packet.
  change 12 with (buf_pos (answer_header trans_id)) at 1.
  rewrite name_parse_loop_labels; [| exact Hall | lia |].
  - rewrite fold_with_label_labels by exact Hall.
    destruct (Z.ltb_spec (12 + W + 1 + 4 + 2) 0); [lia|]. reflexivity.
  - rewrite fold_with_label_labels by exact Hall.
    rewrite buf_pos_bytes_of_string. lia.
Qed.

Lemma answer_fields_answer_packet :
  0 <= ttl < 2 ^ 32 ->
  4 * Z.of_nat (List.length addresses) < 65536 ->
  answer_fields packet (buf_pos packet) (12 + W + 1 + 4 + 2)
  = Some (TYPE_A, CLASS_INET, ttl, 4 * Z.of_nat (List.length addresses),
          12 + W + 1 + 4 + 12) /\
  drop (Z.to_nat (12 + W + 1 + 4 + 12)) packet = flat_map dword addresses.
Proof.
  intros Httl Hcount.
  pose proof (wire_nonneg name) as HW.
  pose proof (drop_a_record trans_id name ttl addresses) as D.
  unfold a_record in D.
  assert (H0 : 0 <= 12 + W + 1 + 4) by lia.
  pose proof (drop_more packet _ [192; 12] _ H0 D) as D2.
  change (buf_pos [192; 12]) with 2 in D2.
  assert (H2 : 0 <= 12 + W + 1 + 4 + 2) by lia.
  assert (HA : 0 <= TYPE_A < 65536) by (unfold TYPE_A; lia).
  assert (HC : 0 <= CLASS_INET < 65536) by (unfold CLASS_INET; lia).
  destruct (GET16_drop packet _ TYPE_A _ H2 HA D2) as (G1 & D3).
  assert (H3 : 0 <= 12 + W + 1 + 4 + 2 + 2) by lia.
  destruct (GET16_drop packet _ CLASS_INET _ H3 HC D3) as (G2 & D4).
  assert (H4 : 0 <= 12 + W + 1 + 4 + 2 + 2 + 2) by lia.
  destruct (GET32_drop packet _ ttl _ H4 Httl D4) as (G3 & D5).
  rewrite <- (app_nil_r (flat_map dword addresses)) in D5.
  assert (H5 : 0 <= 12 + W + 1 + 4 + 2 + 2 + 2 + 4) by lia.
  assert (HK : 0 <= 4 * Z.of_nat (List.length addresses) < 65536) by lia.
  destruct (GET16_drop packet _ (4 * Z.of_nat (List.length addresses)) _ H5 HK D5)
    as (G4 & D6).
  unfold answer_fields. rewrite G1, G2, G3, G4.
  split.
  - f_equal. f_equal. lia.
  - rewrite app_nil_r in D6. rewrite <- D6. f_equal. lia.
Qed.

(** What the answer loop hands to [reply_handle]. *)
Lemma parse_answers_answer_packet fuel :
  strlen name <= 255 ->
  Forall (fun l => 1 <= strlen l <= 63) (labels name) ->
  (S (List.length (labels name)) < fuel)%nat ->
  0 <= ttl < 2 ^ 32 ->
  Forall (fun a => 0 <= a < 2 ^ 32) addresses ->
  4 * Z.of_nat (List.length addresses) < 65536 ->
  exists j,
    parse_answers fuel 1 TYPE_A packet (buf_pos packet)
      (mkAnswers (12 + W + 1 + 4) (mkReply TYPE_A false 0 [] []) 0xffffffff)
    = PDone (mkAnswers j
               (mkReply TYPE_A true (Z.of_nat (List.length (take 4 addresses)))
                  (take 4 addresses) [])
               ttl).
Proof.
  intros Hlen Hall Hfuel Httl Haddr Hcount.
  pose proof (wire_nonneg name) as HW.
  pose proof (buf_pos_answer_packet trans_id name ttl addresses) as L.
  destruct (answer_fields_answer_packet Httl Hcount) as (F & D).
  cbn [parse_answers a_j a_reply a_ttl_r]. rewrite (name_parse_answer fuel Hlen Hall Hfuel), F.
  cbn [rp_addrcount rp_type rp_addresses rp_name].
  change ((TYPE_A =? TYPE_A) && (CLASS_INET =? CLASS_INET)) with true.
  change (negb (TYPE_A =? TYPE_A)) with false. cbv iota.
  set (k := List.length addresses) in *.
  assert (Hshift : Z.shiftr (4 * Z.of_nat k) 2 = Z.of_nat k).
  { rewrite Z.shiftr_div_pow2 by lia. change (2 ^ 2) with 4.
    rewrite Z.mul_comm. apply Z.div_mul. lia. }
  rewrite Hshift.
  assert (Hmin : Z.min (MAX_ADDRS - 0) (Z.of_nat k) = Z.of_nat (Nat.min 4 k)).
  { unfold MAX_ADDRS. lia. }
  rewrite Hmin.
  assert (Htake : List.length (take 4 addresses) = Nat.min 4 k).
  { rewrite length_take. reflexivity. }
  destruct (Z.gtb_spec (12 + W + 1 + 4 + 12 + 4 * Z.of_nat (Nat.min 4 k))
              (buf_pos packet)); [lia|].
  rewrite Nat2Z.id.
  rewrite <- (app_nil_r (flat_map dword addresses)) in D.
  assert (H12 : 0 <= 12 + W + 1 + 4 + 12) by lia.
  rewrite (u32_at_addresses packet addresses (Nat.min 4 k) _ [] H12 Haddr D)
    by (subst k; lia).
  assert (Hfew : take (Nat.min 4 k) addresses = take 4 addresses).
  { destruct (Nat.le_gt_cases 4 k) as [H4|H4].
    - rewrite Nat.min_l by exact H4. reflexivity.
    - rewrite Nat.min_r by lia. subst k.
      rewrite !take_ge by lia. reflexivity. }
  rewrite Hfew, Htake. cbn [app].
  replace (Z.min 4294967295 ttl) with ttl by lia.
  rewrite Z.add_0_l.
  eexists.
  destruct (Z.of_nat (Nat.min 4 k) =? MAX_ADDRS); reflexivity.
Qed.

End Answer.


Lemma nameserver_up_silent ns : preserves silent (nameserver_up ns).
Proof. unfold nameserver_up. pres. Qed.

(** [reply_parse] on the reply that answers an inflight A request. *)
Lemma reply_parse_answer_packet s req r pre post name ttl addresses fuel :
  req_head s = pre ++ req :: post ->
  (forall q, In q pre ->
     exists rq, requests s !! q = Some rq /\ r_trans_id rq <> r_trans_id r) ->
  requests s !! req = Some r ->
  r_request_type r = TYPE_A ->
  0 <= r_trans_id r < 65536 ->
  strlen name <= 255 ->
  Forall (fun l => 1 <= strlen l <= 63) (labels name) ->
  (S (List.length (labels name)) < fuel)%nat ->
  0 <= ttl < 2 ^ 32 ->
  Forall (fun a => 0 <= a < 2 ^ 32) addresses ->
  4 * Z.of_nat (List.length addresses) < 65536 ->
  let packet := answer_packet (r_trans_id r) name ttl addresses in
  wp (reply_parse fuel packet (buf_pos packet))
     (fun rc s' =>
        rc = 0 /\
        callbacks (trace s') =
          callbacks (trace s) ++
          [EvCallback (r_user_callback r) DNS_ERR_NONE DNS_IPv4_A
             (Z.of_nat (List.length (take 4 addresses))) (int32 ttl)
             (data_addresses (take 4 addresses)) (r_user_pointer r)] /\
        gone req s') s.
Proof.
  intros Hhead Hpre Hr Hty Hid Hlen Hall Hfuel Httl Haddr Hcount packet.
  unfold reply_parse. subst packet.
  rewrite (parse_header_answer_packet (r_trans_id r) name ttl addresses Hid).
  cbn [h_trans_id h_flags h_questions h_answers].
  apply wp_bind.
  eapply wp_of_ok.
  { unfold request_find_from_trans_id, bind, get. rewrite Hhead.
    apply (request_find_walk_first pre req post r); [exact Hpre | exact Hr | reflexivity]. }
  change (Z.land 33152 32768 =? 0) with false.
  change (negb (Z.land 33152 527 =? 0)) with false. cbv iota.
  apply wp_bind, wp_deref_req. intros r' Hr'. assert (r' = r) as -> by congruence.
  change (Z.to_nat 1) with 1%nat.
  rewrite (skip_questions_answer_packet (r_trans_id r) name ttl addresses fuel Hlen Hall Hfuel).
  destruct (parse_answers_answer_packet (r_trans_id r) name ttl addresses fuel Hlen Hall Hfuel
              Httl Haddr Hcount) as (j & E).
  rewrite Hty, E. cbn [a_ttl_r a_reply].
  apply wp_bind.
  unfold reply_handle. cbn [rp_have_answer].
  change (negb (Z.land 33152 527 =? 0) || negb true) with false. cbv iota.
  (* the callback *)
  apply wp_bind. unfold reply_callback.
  apply wp_bind, wp_deref_req. intros r' Hr''. assert (r' = r) as -> by congruence.
  rewrite Hty. change (TYPE_A =? TYPE_A) with true. cbv iota.
  cbn [rp_addrcount rp_addresses].
  unfold invoke_callback. apply wp_bind, wp_emit.
  match goal with |- wp _ _ ?st => set (s1 := st) end.
  assert (C1 : callbacks (trace s1) =
               callbacks (trace s) ++
               [EvCallback (r_user_callback r) DNS_ERR_NONE DNS_IPv4_A
                  (Z.of_nat (List.length (take 4 addresses))) (int32 ttl)
                  (data_addresses (take 4 addresses)) (r_user_pointer r)]).
  { subst s1. cbn [trace set_trace]. rewrite callbacks_app. reflexivity. }
  apply wp_mono with (Q := fun _ s2 => callbacks (trace s2) = callbacks (trace s1)).
  { destruct (r_user_callback r) as [f|]; [apply wp_ret; reflexivity|].
    unfold nameserver_probe_callback. cbn [dns_err_eqb orb].
    eapply wp_preserves; [apply nameserver_up_silent|].
    intros u s2 S2. unfold silent in S2. rewrite S2. reflexivity. }
  intros u2 s2 C2. cbv beta in C2.
  apply wp_bind, wp_req_ns. intros ns r2 Hr2 Hns.
  apply wp_bind. eapply wp_preserves; [apply nameserver_up_silent|].
  intros u3 s3 S3. unfold silent in S3.
  eapply wp_mono; [apply request_finished_spec|].
  intros u4 s4 ((_ & C4 & _) & G4). cbv beta.
  apply wp_ret. split; [reflexivity|]. split; [|exact G4].
  rewrite C4, S3, C2. exact C1.
Qed.

(** X11.  A reply that answers.  The reply carries the id of an
    inflight A request (the first on the ring with that id), the
    flags of a response without error, one question for any name and
    one A record with [addresses] and [ttl]: [reply_parse] returns 0,
    the request's callback is called once, with no error, the first
    four of the addresses and the ttl converted to the callback's
    [int] (a ttl of 2^31 or more arrives negative), and the request
    is freed and off the inflight ring.  The name in the reply is not compared
    with the name that was asked for. *)
Theorem reply_parse_answer s req r pre post name ttl addresses fuel :
  req_head s = pre ++ req :: post ->
  (forall q, In q pre ->
     exists rq, requests s !! q = Some rq /\ r_trans_id rq <> r_trans_id r) ->
  requests s !! req = Some r ->
  r_request_type r = TYPE_A ->
  0 <= r_trans_id r < 65536 ->
  strlen name <= 255 ->
  Forall (fun l => 1 <= strlen l <= 63) (labels name) ->
  (S (List.length (labels name)) < fuel)%nat ->
  0 <= ttl < 2 ^ 32 ->
  Forall (fun a => 0 <= a < 2 ^ 32) addresses ->
  4 * Z.of_nat (List.length addresses) < 65536 ->
  let packet := answer_packet (r_trans_id r) name ttl addresses in
  wp (reply_parse fuel packet (buf_pos packet))
     (fun rc s' =>
        rc = 0 /\
        callbacks (trace s') =
          callbacks (trace s) ++
          [EvCallback (r_user_callback r) DNS_ERR_NONE DNS_IPv4_A
             (Z.of_nat (List.length (take 4 addresses))) (int32 ttl)
             (data_addresses (take 4 addresses)) (r_user_pointer r)] /\
        gone req s') s.
Proof. exact (reply_parse_answer_packet s req r pre post name ttl addresses fuel). Qed.


(** X11 at the one inflight request of a resolver (id 7), answered
    with one address and a ttl of 300 seconds. *)
Lemma reply_parse_answer_witness :
  req_head (lone 0 1) = [] ++ 2%nat :: [] /\
  (forall q, In q [] ->
     exists rq, requests (lone 0 1) !! q = Some rq /\
                r_trans_id rq <> r_trans_id (lone_request 1)) /\
  requests (lone 0 1) !! 2%nat = Some (lone_request 1) /\
  r_request_type (lone_request 1) = TYPE_A /\
  0 <= r_trans_id (lone_request 1) < 65536 /\
  strlen "www.example.com" <= 255 /\
  Forall (fun l => 1 <= strlen l <= 63) (labels "www.example.com") /\
  (S (List.length (labels "www.example.com")) < 5)%nat /\
  0 <= 300 < 2 ^ 32 /\
  Forall (fun a => 0 <= a < 2 ^ 32) [0x5db8d822] /\
  4 * Z.of_nat (List.length [0x5db8d822]) < 65536 /\
  (let packet := answer_packet 7 "www.example.com" 300 [0x5db8d822] in
   value (reply_parse 5 packet (buf_pos packet) (lone 0 1)) = Some 0) /\
  (let packet := answer_packet (r_trans_id (lone_request 1)) "www.example.com" 300
                   [0x5db8d822] in
   wp (reply_parse 5 packet (buf_pos packet))
      (fun rc s' =>
         rc = 0 /\
         callbacks (trace s') =
           callbacks (trace (lone 0 1)) ++
           [EvCallback (r_user_callback (lone_request 1)) DNS_ERR_NONE DNS_IPv4_A
              (Z.of_nat (List.length (take 4 [0x5db8d822]))) (int32 300)
              (data_addresses (take 4 [0x5db8d822]))
              (r_user_pointer (lone_request 1))] /\
         gone 2 s') (lone 0 1)).
Proof.
  assert (H1 : req_head (lone 0 1) = [] ++ 2%nat :: []) by reflexivity.
  assert (H2 : forall q, In q [] ->
            exists rq, requests (lone 0 1) !! q = Some rq /\
                       r_trans_id rq <> r_trans_id (lone_request 1))
    by (intros q []).
  assert (H3 : requests (lone 0 1) !! 2%nat = Some (lone_request 1)) by reflexivity.
  assert (H4 : r_request_type (lone_request 1) = TYPE_A) by reflexivity.
  assert (H5 : 0 <= r_trans_id (lone_request 1) < 65536) by (cbn; lia).
  assert (H6 : strlen "www.example.com" <= 255) by (vm_compute; discriminate).
  assert (H7 : Forall (fun l => 1 <= strlen l <= 63) (labels "www.example.com"))
    by (refine (bool_decide_unpack _ _); vm_compute; exact I).
  assert (H8 : (S (List.length (labels "www.example.com")) < 5)%nat)
    by (vm_compute; lia).
  assert (H9 : 0 <= 300 < 2 ^ 32) by lia.
  assert (H10 : Forall (fun a => 0 <= a < 2 ^ 32) [0x5db8d822])
    by (constructor; [lia | constructor]).
  assert (H11 : 4 * Z.of_nat (List.length [0x5db8d822]) < 65536) by (cbn; lia).
  split; [exact H1|]. split; [exact H2|]. split; [exact H3|]. split; [exact H4|]. split; [exact H5|].
  split; [exact H6|]. split; [exact H7|]. split; [exact H8|]. split; [exact H9|].
  split; [exact H10|]. split; [exact H11|]. split; [vm_compute; reflexivity|].
  exact (reply_parse_answer (lone 0 1) 2%nat (lone_request 1) [] [] "www.example.com"
           300 [0x5db8d822] 5 H1 H2 H3 H4 H5 H6 H7 H8 H9 H10 H11).
Defined.


(** *** The search list *)

(** [search_postfix_clear] leaves a new, empty search state with
    [ndots] 1. *)
Lemma search_postfix_clear_spec s :
  wp search_postfix_clear (fun _ s' =>
    exists p, global_search_state s' = Some p /\
              search_states s' !! p = Some (mkSearchState 1 1 0 [])) s.
Proof.
  unfold search_postfix_clear. apply wp_bind, wp_get.
  apply wp_bind. apply wp_mono with (Q := fun _ _ => True).
  { unfold search_state_decref. destruct (global_search_state s) as [p0|];
      [|apply wp_ret; exact I].
    apply wp_bind, wp_update_search. intros st0 H0.
    apply wp_bind, wp_deref_search. intros st1 H1.
    destruct (ss_refcount st1 =? 0); [apply wp_modify | apply wp_ret]; exact I. }
  intros u s1 _. unfold search_state_new.
  apply wp_bind, wp_bind, wp_malloc. apply wp_bind, wp_modify. apply wp_ret.
  apply wp_modify. exists (next_ptr s1). split; [reflexivity|].
  simpl_state. apply lookup_insert_eq.
Qed.

Lemma update_search_ok p f s st :
  search_states s !! p = Some st ->
  update_search p f s = Ok tt (set_search_states (<[p := f st]> (search_states s)) s).
Proof.
  intros H. unfold update_search, bind, deref_search, modify. rewrite H. reflexivity.
Qed.

(** [search_postfix_add] puts the domain, without its leading dots,
    in front of the list. *)
Lemma search_postfix_add_spec domain s p st :
  global_search_state s = Some p ->
  search_states s !! p = Some st ->
  exists s',
    search_postfix_add domain s = Ok tt s' /\
    global_search_state s' = Some p /\
    search_states s' !! p
    = Some (mkSearchState (ss_refcount st) (ss_ndots st) (ss_num_domains st + 1)
              (skip_dots domain :: ss_head st)).
Proof.
  intros Hg Hp. unfold search_postfix_add, global_search_state_force.
  unfold bind at 1. unfold bind at 1. unfold get. rewrite Hg. unfold ret at 1.
  unfold bind. rewrite (update_search_ok _ _ _ _ Hp).
  erewrite update_search_ok by (simpl_state; apply lookup_insert_eq).
  eexists. split; [reflexivity|]. simpl_state.
  split; [exact Hg|]. rewrite lookup_insert_eq. reflexivity.
Qed.

Lemma search_postfix_add_loop domains : forall s p st,
  global_search_state s = Some p ->
  search_states s !! p = Some st ->
  exists s',
    for_each domains search_postfix_add s = Ok tt s' /\
    global_search_state s' = Some p /\
    search_states s' !! p
    = Some (mkSearchState (ss_refcount st) (ss_ndots st)
              (ss_num_domains st + Z.of_nat (List.length domains))
              (rev (List.map skip_dots domains) ++ ss_head st)).
Proof.
  induction domains as [|d domains IH]; intros s p st Hg Hp.
  - exists s. split; [reflexivity|]. split; [exact Hg|].
    rewrite Hp. cbn. rewrite Z.add_0_r. destruct st; reflexivity.
  - destruct (search_postfix_add_spec d s p st Hg Hp) as (s1 & E1 & G1 & P1).
    destruct (IH s1 p _ G1 P1) as (s' & E & G & P).
    exists s'. split; [|split; [exact G|]].
    + cbn [for_each]. unfold bind. rewrite E1. exact E.
    + rewrite P. cbn [ss_refcount ss_ndots ss_num_domains ss_head List.length
                      List.map rev].
      rewrite <- app_assoc. cbn [app]. f_equal. f_equal. lia.
Qed.

(** X12.  After [evdns_search_clear], the domains added by
    [evdns_search_add] are searched last one first: each call puts
    its domain, without its leading dots, in front of the list.  The
    search state is a new one with [ndots] 1 and a count that is the
    length of the list. *)
Theorem evdns_search_add_order domains s :
  wp (evdns_search_clear ;; for_each domains evdns_search_add) (fun _ s' =>
    exists p,
      global_search_state s' = Some p /\
      search_states s' !! p
      = Some (mkSearchState 1 1 (Z.of_nat (List.length domains))
                (rev (List.map skip_dots domains)))) s.
Proof.
  apply wp_bind. unfold evdns_search_clear.
  eapply wp_mono; [apply search_postfix_clear_spec|].
  intros u s1 (p & Hg & Hp). cbv beta.
  destruct (search_postfix_add_loop domains s1 p _ Hg Hp) as (s' & E & G & P).
  eapply wp_of_ok; [exact E|].
  exists p. split; [exact G|]. rewrite P. cbn [ss_refcount ss_ndots ss_num_domains ss_head].
  rewrite app_nil_r. reflexivity.
Qed.

(** X13.  A [search] line of resolv.conf, read with the search
    option on: the search list becomes the domains of the line, in
    the order of the line and without their leading dots, whatever
    it was before, and [ndots] is back at 1 (an [options ndots:] line
    read earlier has no effect any more). *)
Theorem resolv_conf_search_line inet_aton strtol start flags domains s :
  tokens start EmptyString = "search"%string :: domains ->
  Z.land flags DNS_OPTION_SEARCH <> 0 ->
  wp (resolv_conf_parse_line inet_aton strtol start flags) (fun _ s' =>
    exists p,
      global_search_state s' = Some p /\
      search_states s' !! p
      = Some (mkSearchState 1 1 (Z.of_nat (List.length domains))
                (List.map skip_dots domains))) s.
Proof.
  intros Ht Hf. unfold resolv_conf_parse_line. rewrite Ht.
  apply Z.eqb_neq in Hf. rewrite Hf.
  change (String.eqb "search" "nameserver") with false.
  change (String.eqb "search" "domain") with false.
  change (String.eqb "search" "search") with true.
  cbn [negb andb]. cbv iota.
  apply wp_bind. eapply wp_mono; [apply search_postfix_clear_spec|].
  intros u s1 (p & Hg & Hp). cbv beta.
  destruct (search_postfix_add_loop domains s1 p _ Hg Hp) as (s2 & E & G & P).
  apply wp_bind. eapply wp_of_ok; [exact E|].
  unfold search_reverse. apply wp_bind, wp_get. rewrite G.
  apply wp_update_search. intros st Hst. exists p. simpl_state.
  split; [exact G|]. rewrite lookup_insert_eq.
  rewrite P in Hst. injection Hst as <-.
  cbn [ss_refcount ss_ndots ss_num_domains ss_head set_ss_head].
  rewrite app_nil_r, rev_involutive. reflexivity.
Qed.


(** *** The probe timer *)

Lemma update_ns_ok ns f s n :
  nameservers s !! ns = Some n ->
  update_ns ns f s = Ok tt (set_nameservers (<[ns := f n]> (nameservers s)) s).
Proof.
  intros H. unfold update_ns, bind, deref_ns, modify. rewrite H. reflexivity.
Qed.

(** One failed probe of a nameserver that is down. *)
Lemma nameserver_probe_failed_step ns n s :
  nameservers s !! ns = Some n -> ns_state n = false ->
  nameserver_probe_failed ns s
  = Ok tt (set_nameservers
             (<[ns := set_ns_timeout_event (Some (probe_delay (ns_failed_times n)))
                        (set_ns_failed_times (ns_failed_times n + 1) n)]>
                (nameservers s)) s).
Proof.
  intros Hn Hdown. unfold nameserver_probe_failed.
  unfold bind at 1. rewrite (update_ns_ok _ _ _ _ Hn).
  unfold bind at 1. unfold deref_ns. simpl_state. rewrite lookup_insert_eq.
  cbn [ns_state set_ns_timeout_event]. rewrite Hdown. cbv zeta.
  unfold bind. erewrite update_ns_ok by (simpl_state; apply lookup_insert_eq).
  erewrite update_ns_ok by (simpl_state; apply lookup_insert_eq).
  simpl_state. rewrite !insert_insert_eq. reflexivity.
Qed.

(** The delays the table gives. *)
Lemma probe_delay_table f :
  0 <= f ->
  probe_delay f = (if f =? 0 then 10 else if f =? 1 then 60 else if f =? 2 then 300
                   else if f =? 3 then 900 else 3600).
Proof.
  intros Hf. unfold probe_delay.
  destruct (Z.eqb_spec f 0) as [->|H0]; [reflexivity|].
  destruct (Z.eqb_spec f 1) as [->|H1]; [reflexivity|].
  destruct (Z.eqb_spec f 2) as [->|H2]; [reflexivity|].
  destruct (Z.eqb_spec f 3) as [->|H3]; [reflexivity|].
  replace (Z.min f 4) with 4 by lia. reflexivity.
Qed.

(** X14.  The probe timer backs off.  For a nameserver that is down
    and has failed [f] probes, [j + 1] more probes that fail (any
    result but NONE and NOTEXIST) leave it down with [f + j + 1]
    failures counted and its timer set to the delay for [f + j]
    failures: 10, 60, 300 and 900 seconds for 0, 1, 2 and 3 failures
    and 3600 seconds from then on.  Nothing else changes. *)
Theorem probe_failures_back_off result ns n j : forall s,
  probe_failure result ->
  nameservers s !! ns = Some n -> ns_state n = false -> 0 <= ns_failed_times n ->
  let f := ns_failed_times n + Z.of_nat j in
  for_each (seq 0 (S j)) (fun _ => nameserver_probe_callback result ns) s
  = Ok tt (set_nameservers
             (<[ns := set_ns_timeout_event (Some (probe_delay f))
                        (set_ns_failed_times (f + 1) n)]> (nameservers s)) s) /\
  probe_delay f = (if f =? 0 then 10 else if f =? 1 then 60 else if f =? 2 then 300
                   else if f =? 3 then 900 else 3600).
Proof.
  intros s (N1 & N2) Hn Hdown Hf. cbv zeta.
  split; [|apply probe_delay_table; lia].
  assert (Hcb : forall s', nameserver_probe_callback result ns s'
                           = nameserver_probe_failed ns s').
  { intros s'. unfold nameserver_probe_callback.
    destruct result; try reflexivity; congruence. }
  revert n s Hn Hdown Hf. induction j as [|j IH]; intros n s Hn Hdown Hf.
  - cbn [seq for_each]. unfold bind. rewrite Hcb.
    rewrite (nameserver_probe_failed_step ns n s Hn Hdown).
    unfold ret. rewrite Z.add_0_r. reflexivity.
  - change (seq 0 (S (S j))) with (0%nat :: seq 1 (S j)).
    cbn [for_each]. unfold bind at 1. rewrite Hcb.
    rewrite (nameserver_probe_failed_step ns n s Hn Hdown).
    rewrite <- seq_shift.
    assert (Hmap : forall (l : list nat) s',
              for_each (List.map S l) (fun _ => nameserver_probe_callback result ns) s'
              = for_each l (fun _ => nameserver_probe_callback result ns) s').
    { induction l as [|x l IHl]; intros s'; [reflexivity|].
      cbn [List.map for_each]. unfold bind.
      destruct (nameserver_probe_callback result ns s'); try reflexivity. apply IHl. }
    rewrite Hmap.
    match goal with |- for_each _ _ ?st = _ => set (s1 := st) end.
    rewrite (IH (set_ns_timeout_event (Some (probe_delay (ns_failed_times n)))
                   (set_ns_failed_times (ns_failed_times n + 1) n)) s1).
    + subst s1. simpl_state. rewrite insert_insert_eq.
      cbn [ns_failed_times set_ns_failed_times set_ns_timeout_event ns_socket
           ns_address ns_timedout ns_timeout_event ns_state ns_choaked
           ns_write_waiting].
      replace (ns_failed_times n + 1 + Z.of_nat j)
        with (ns_failed_times n + Z.of_nat (S j)) by lia.
      reflexivity.
    + subst s1. simpl_state. apply lookup_insert_eq.
    + exact Hdown.
    + cbn. lia.
Qed.


(** *** A trailing dot *)

Lemma split_labels_trailing_dot name : forall cur,
  split_labels (name ++ ".") cur = split_labels name cur ++ [EmptyString].
Proof.
  induction name as [|c name IH]; intros cur; [reflexivity|].
  change (String c name ++ ".")%string with (String c (name ++ "."))%string.
  cbn [split_labels]. destruct (Ascii.eqb c dot).
  - rewrite IH. reflexivity.
  - apply IH.
Qed.

Lemma wire_labels_app ls ls' : wire_labels (ls ++ ls') = wire_labels ls ++ wire_labels ls'.
Proof. unfold wire_labels. apply flat_map_app. Qed.

Lemma strlen_app a b : strlen (a ++ b) = strlen a + strlen b.
Proof.
  unfold strlen. induction a as [|c a IH]; [reflexivity|].
  change (String c a ++ b)%string with (String c (a ++ b))%string.
  cbn [String.length]. lia.
Qed.

(** X15.  A dot at the end of a name does not change the query: for
    a name of less than 255 bytes whose labels have between 1 and 63
    bytes, [evdns_request_data_build] writes for the name followed by
    a dot the packet it writes for the name itself, with the one
    terminating zero. *)
Theorem evdns_request_data_build_trailing_dot name trans_id type class :
  c_string name ->
  strlen name < 255 ->
  Forall (fun l => 1 <= strlen l <= 63) (labels name) ->
  evdns_request_data_build (name ++ ".") (strlen (name ++ ".")) trans_id type class
    (evdns_request_len (strlen (name ++ "."))) =
  evdns_request_data_build name (strlen name) trans_id type class
    (evdns_request_len (strlen name)) /\
  evdns_request_data_build name (strlen name) trans_id type class
    (evdns_request_len (strlen name))
  = inr (query_header trans_id ++ wire_labels (labels name) ++ [0]
           ++ word type ++ word class).
Proof.
  intros Hc Hlen Hall.
  assert (Hall' : Forall (fun l => strlen l <= 63) (labels name)).
  { eapply Forall_impl; [exact Hall|]. cbn. intros; lia. }
  assert (Hdot : labels (name ++ ".") = labels name ++ [EmptyString])
    by apply split_labels_trailing_dot.
  assert (Hall2 : Forall (fun l => strlen l <= 63) (labels (name ++ "."))).
  { rewrite Hdot. apply Forall_app. split; [exact Hall'|].
    constructor; [vm_compute; discriminate | constructor]. }
  assert (Hlen2 : strlen (name ++ ".") <= 255).
  { rewrite strlen_app. change (strlen ".") with 1. lia. }
  assert (Hlen1 : strlen name <= 255) by lia.
  destruct (evdns_request_data_build_ok name trans_id type class Hlen1 Hall')
    as (t & _ & Ht & _ & Hb).
  assert (t = [0]) as ->.
  { apply Ht. apply last_wire_labels;
      [apply split_labels_nonempty | exact Hall |].
    intros l b Hl Hin ->. apply Hc.
    destruct (split_labels_bytes name EmptyString l 0 Hl Hin) as [[]|H]. exact H. }
  destruct (evdns_request_data_build_ok (name ++ ".") trans_id type class Hlen2 Hall2)
    as (t2 & _ & _ & Ht2 & Hb2).
  assert (Hwire : wire_labels (labels (name ++ ".")) = wire_labels (labels name) ++ [0]).
  { rewrite Hdot, wire_labels_app. reflexivity. }
  assert (t2 = []) as ->.
  { apply Ht2. rewrite Hwire, app_assoc. apply last_last. }
  split; [|exact Hb].
  rewrite Hb2, Hb, Hwire. rewrite <- !app_assoc. reflexivity.
Qed.

(** X15 at www.example.com. *)
Lemma evdns_request_data_build_trailing_dot_witness :
  c_string "www.example.com" /\
  strlen "www.example.com" < 255 /\
  Forall (fun l => 1 <= strlen l <= 63) (labels "www.example.com") /\
  evdns_request_data_build ("www.example.com" ++ ".")
    (strlen ("www.example.com" ++ ".")) 7 TYPE_A CLASS_INET
    (evdns_request_len (strlen ("www.example.com" ++ "."))) =
  evdns_request_data_build "www.example.com" (strlen "www.example.com") 7 TYPE_A
    CLASS_INET (evdns_request_len (strlen "www.example.com")) /\
  evdns_request_data_build "www.example.com" (strlen "www.example.com") 7 TYPE_A
    CLASS_INET (evdns_request_len (strlen "www.example.com"))
  = inr (query_header 7 ++ wire_labels (labels "www.example.com") ++ [0]
           ++ word TYPE_A ++ word CLASS_INET).
Proof.
  assert (H1 : c_string "www.example.com").
  { unfold c_string. vm_compute. intros H.
    repeat (destruct H as [H|H]; [discriminate H|]). exact H. }
  assert (H2 : strlen "www.example.com" < 255) by (vm_compute; reflexivity).
  assert (H3 : Forall (fun l => 1 <= strlen l <= 63) (labels "www.example.com"))
    by (refine (bool_decide_unpack _ _); vm_compute; exact I).
  split; [exact H1|]. split; [exact H2|]. split; [exact H3|].
  exact (evdns_request_data_build_trailing_dot "www.example.com" 7 TYPE_A CLASS_INET
           H1 H2 H3).
Defined.

(** X13 at a line with two domains, read into a resolver that has no
    search state yet. *)
Lemma resolv_conf_search_line_witness :
  tokens "search corp.example .example.com" EmptyString
  = "search"%string :: ["corp.example"; ".example.com"]%string /\
  Z.land DNS_OPTIONS_ALL DNS_OPTION_SEARCH <> 0 /\
  value (resolv_conf_parse_line dotted_quad strtol10
           "search corp.example .example.com" DNS_OPTIONS_ALL initial_state)
  = Some tt /\
  wp (resolv_conf_parse_line dotted_quad strtol10
        "search corp.example .example.com" DNS_OPTIONS_ALL)
     (fun _ s' =>
        exists p,
          global_search_state s' = Some p /\
          search_states s' !! p
          = Some (mkSearchState 1 1
                    (Z.of_nat (List.length ["corp.example"; ".example.com"]%string))
                    (List.map skip_dots ["corp.example"; ".example.com"]%string)))
     initial_state.
Proof.
  assert (H1 : tokens "search corp.example .example.com" EmptyString
               = "search"%string :: ["corp.example"; ".example.com"]%string)
    by (vm_compute; reflexivity).
  assert (H2 : Z.land DNS_OPTIONS_ALL DNS_OPTION_SEARCH <> 0)
    by (vm_compute; discriminate).
  split; [exact H1|]. split; [exact H2|]. split; [vm_compute; reflexivity|].
  exact (resolv_conf_search_line dotted_quad strtol10
           "search corp.example .example.com" DNS_OPTIONS_ALL
           ["corp.example"; ".example.com"]%string initial_state H1 H2).
Defined.

(** X14 at the nameserver a ServFail reply has marked failed, for
    four probes that time out: the timer stands at one hour. *)
Lemma probe_failures_back_off_witness :
  probe_failure DNS_ERR_TIMEOUT /\
  (exists n, nameservers reissued_state !! 1%nat = Some n /\
     ns_state n = false /\ ns_failed_times n = 1 /\
     let f := ns_failed_times n + Z.of_nat 3 in
     for_each (seq 0 4) (fun _ => nameserver_probe_callback DNS_ERR_TIMEOUT 1)
       reissued_state
     = Ok tt (set_nameservers
                (<[1%nat := set_ns_timeout_event (Some (probe_delay f))
                              (set_ns_failed_times (f + 1) n)]>
                   (nameservers reissued_state)) reissued_state) /\
     probe_delay f = 3600).
Proof.
  assert (H1 : probe_failure DNS_ERR_TIMEOUT) by (split; discriminate).
  split; [exact H1|].
  destruct (nameservers reissued_state !! 1%nat) as [n|] eqn:Hn;
    [|vm_compute in Hn; discriminate Hn].
  assert (Hdown : ns_state n = false)
    by (vm_compute in Hn; injection Hn as <-; reflexivity).
  assert (Hf : ns_failed_times n = 1)
    by (vm_compute in Hn; injection Hn as <-; reflexivity).
  exists n. split; [reflexivity|]. split; [exact Hdown|]. split; [exact Hf|].
  assert (H0 : 0 <= ns_failed_times n) by lia.
  destruct (probe_failures_back_off DNS_ERR_TIMEOUT 1%nat n 3 reissued_state H1 Hn
              Hdown H0) as (E & D).
  cbv zeta in *. split; [exact E|]. rewrite D, Hf. reflexivity.
Defined.


(** *** Looking a request up by its id *)

Lemma request_find_walk_spec l : forall trans_id s,
  (forall req, In req l -> exists r, requests s !! req = Some r) ->
  request_find_walk l trans_id s = Ok (List.find (has_id s trans_id) l) s.
Proof.
  induction l as [|req l IH]; intros trans_id s Hlive; cbn [request_find_walk List.find].
  - reflexivity.
  - destruct (Hlive req (or_introl eq_refl)) as (r & Hr).
    unfold bind, deref_req, has_id. rewrite Hr.
    destruct (r_trans_id r =? trans_id); [reflexivity|].
    apply IH. intros q Hq. apply Hlive. right. exact Hq.
Qed.

(** X16.  [request_find_from_trans_id] returns the first request of
    the inflight ring that has the id, and NULL exactly when no
    inflight request has it; it changes nothing. *)
Theorem request_find_from_trans_id_spec trans_id s :
  (forall req, In req (req_head s) -> exists r, requests s !! req = Some r) ->
  exists res,
    request_find_from_trans_id trans_id s = Ok res s /\
    match res with
    | Some req =>
        exists pre post,
          req_head s = pre ++ req :: post /\
          has_id s trans_id req = true /\
          Forall (fun q => has_id s trans_id q = false) pre
    | None => Forall (fun q => has_id s trans_id q = false) (req_head s)
    end.
Proof.
  intros Hlive. exists (List.find (has_id s trans_id) (req_head s)). split.
  - unfold request_find_from_trans_id, bind, get.
    apply request_find_walk_spec, Hlive.
  - clear Hlive. induction (req_head s) as [|q l IH]; cbn [List.find].
    + constructor.
    + destruct (has_id s trans_id q) eqn:E.
      * exists [], l. split; [reflexivity|]. split; [exact E | constructor].
      * destruct (List.find (has_id s trans_id) l) as [req|].
        -- destruct IH as (pre & post & -> & Hid & Hpre).
           exists (q :: pre), post. split; [reflexivity|]. split; [exact Hid|].
           constructor; assumption.
        -- constructor; assumption.
Qed.

(** X16 at the one inflight request of a resolver, whose id is 7. *)
Lemma request_find_from_trans_id_spec_witness :
  (forall req, In req (req_head (lone 0 1)) ->
     exists r, requests (lone 0 1) !! req = Some r) /\
  request_find_from_trans_id 7 (lone 0 1) = Ok (Some 2%nat) (lone 0 1) /\
  exists res,
    request_find_from_trans_id 7 (lone 0 1) = Ok res (lone 0 1) /\
    match res with
    | Some req =>
        exists pre post,
          req_head (lone 0 1) = pre ++ req :: post /\
          has_id (lone 0 1) 7 req = true /\
          Forall (fun q => has_id (lone 0 1) 7 q = false) pre
    | None => Forall (fun q => has_id (lone 0 1) 7 q = false) (req_head (lone 0 1))
    end.
Proof.
  assert (H : forall req, In req (req_head (lone 0 1)) ->
            exists r, requests (lone 0 1) !! req = Some r).
  { intros req [<-|[]]. eexists. reflexivity. }
  split; [exact H|]. split; [vm_compute; reflexivity|].
  exact (request_find_from_trans_id_spec 7 (lone 0 1) H).
Defined.

(** *** Suspending *)

(** The nameserver loop of [evdns_clear_nameservers_and_suspend]
    frees every nameserver of the ring. *)
Lemma free_nameservers_freed (l : list nat) : forall s,
  wp (for_each l (fun server =>
        _ <- deref_ns server ;;
        modify (fun s => set_nameservers (delete server (nameservers s)) s)))
     (fun _ s' =>
        (forall ns, nameservers s !! ns = None -> nameservers s' !! ns = None) /\
        (forall ns, In ns l -> nameservers s' !! ns = None) /\
        rings_kept s s') s.
Proof.
  induction l as [|server l IH]; intros s; cbn [for_each].
  - apply wp_ret. split; [auto|]. split; [intros ? [] | reflexivity].
  - apply wp_bind, wp_bind, wp_deref_ns. intros n Hn. apply wp_modify.
    match goal with |- wp _ _ ?st => set (s1 := st) end.
    assert (K1 : rings_kept s s1) by (subst s1; footprint).
    assert (F1 : nameservers s1 !! server = None)
      by (subst s1; simpl_state; apply lookup_delete_eq).
    assert (M1 : forall ns, nameservers s !! ns = None -> nameservers s1 !! ns = None).
    { intros ns H. subst s1. simpl_state.
      destruct (decide (ns = server)) as [->|Hne]; [apply lookup_delete_eq|].
      rewrite lookup_delete_ne by congruence. exact H. }
    clearbody s1.
    eapply wp_mono; [apply IH|]. intros u s' (A & B & K). cbv beta.
    split; [intros ns H; apply A, M1, H|]. split.
    + intros ns [<-|Hin]; [apply A, F1 | apply B, Hin].
    + transitivity s1; assumption.
Qed.

(** The request loop parks every request it moves. *)
Lemma suspend_loop_parked (l : list nat) : forall s,
  wp (for_each l (fun req =>
        update_req req (fun r => set_r_reissue_count 0 (set_r_tx_count 0 r)) ;;
        update_req req (set_r_ns None) ;;
        update_req req (set_r_timeout_event false) ;;
        update_req req (set_r_trans_id 0) ;;
        update_req req (set_r_transmit_me false) ;;
        modify (fun s => set_global_requests_waiting (global_requests_waiting s + 1) s) ;;
        evdns_request_insert req Waiting ;;
        modify (fun s => set_req_waiting_head (ring_prev (req_waiting_head s)) s)))
     (fun _ s' =>
        (forall p, parked p s -> parked p s') /\
        (forall req, In req l -> parked req s')) s.
Proof.
  induction l as [|req l IH]; intros s; cbn [for_each].
  - apply wp_ret. split; [auto | intros ? []].
  - apply wp_bind.
    apply wp_bind, wp_update_req. intros r Hr. simpl_state.
    do 4 (apply wp_bind; eapply wp_update_req_known;
          [simpl_state; apply lookup_insert_eq|]; simpl_state).
    apply wp_bind, wp_modify. apply wp_bind, wp_modify. apply wp_modify.
    simpl_state.
    match goal with |- wp _ _ ?st => set (s1 := st) end.
    assert (Hreq : parked req s1).
    { subst s1. eexists. split; [simpl_state; apply lookup_insert_eq|].
      repeat split; reflexivity. }
    assert (Hkeep : forall p, parked p s -> parked p s1).
    { intros p Hp. destruct (decide (p = req)) as [->|Hne]; [exact Hreq|].
      destruct Hp as (rp & Hrp & H). exists rp. split; [|exact H].
      subst s1. simpl_state. rewrite !lookup_insert_ne by congruence. exact Hrp. }
    clearbody s1.
    eapply wp_mono; [apply IH|]. intros u s' (K1 & K2). split.
    + intros p Hp. apply K1, Hkeep, Hp.
    + intros q [<-|Hin]; [apply K1, Hreq | apply K2, Hin].
Qed.

(** X17.  [evdns_clear_nameservers_and_suspend] with a nameserver
    configured returns 0 and leaves no nameserver: the ring is empty,
    its nameservers are freed and none counts as good.  Nothing is
    inflight any more: the requests that were wait in front of the
    ones that waited already, the last of them first, each with its
    transaction id set to 0, its nameserver, its counts of
    transmissions and reissues and its timer cleared; the waiting
    counter has grown by their number.  With no nameserver configured
    the call returns 0 and changes nothing. *)
Theorem evdns_clear_nameservers_and_suspend_spec s :
  wp evdns_clear_nameservers_and_suspend (fun rc s' =>
    rc = 0 /\
    if bool_decide (server_head s = []) then s' = s else
    server_head s' = [] /\ global_good_nameservers s' = 0 /\
    (forall ns, In ns (server_head s) -> nameservers s' !! ns = None) /\
    req_head s' = [] /\ global_requests_inflight s' = 0 /\
    req_waiting_head s' = rev (req_head s) ++ req_waiting_head s /\
    global_requests_waiting s'
    = global_requests_waiting s + Z.of_nat (List.length (req_head s)) /\
    (forall req, In req (req_head s) -> parked req s')) s.
Proof.
  unfold evdns_clear_nameservers_and_suspend. apply wp_bind, wp_get.
  destruct (server_head s) as [|h l] eqn:E.
  { apply wp_ret. split; reflexivity. }
  rewrite bool_decide_eq_false_2 by discriminate.
  apply wp_bind. eapply wp_mono; [apply free_nameservers_freed|].
  intros u s1 (_ & F1 & (E1 & E2 & E3 & E4 & E5 & G1)). cbv beta.
  apply wp_bind, wp_modify. apply wp_bind, wp_modify. simpl_state.
  apply wp_bind.
  eapply wp_mono; [apply wp_conj; [apply suspend_loop_counts | apply suspend_loop_parked]|].
  intros u' s2 ((W & C & P & N & H & G) & (_ & K)). cbv beta in *. simpl_state.
  apply wp_bind, wp_modify. apply wp_bind, wp_modify. apply wp_ret.
  simpl_state. split; [reflexivity|].
  split; [exact H|]. split; [exact G|]. split.
  { intros ns Hin. rewrite N. apply F1. exact Hin. }
  split; [reflexivity|]. split; [reflexivity|].
  split; [rewrite W, E2; reflexivity|].
  split; [rewrite C, E4; reflexivity|].
  exact K.
Qed.


(** *** Name compression *)

Lemma append_cons c a b : (String c a ++ b)%string = String c (a ++ b)%string.
Proof. reflexivity. Qed.

Lemma append_nil b : (EmptyString ++ b)%string = b.
Proof. reflexivity. Qed.

Lemma append_nil_r a : (a ++ EmptyString)%string = a.
Proof. induction a as [|x a IH]; [reflexivity|]. rewrite append_cons, IH. reflexivity. Qed.

Lemma append_assoc a b c : ((a ++ b) ++ c)%string = (a ++ (b ++ c))%string.
Proof.
  induction a as [|x a IH]; [reflexivity|]. rewrite !append_cons, IH. reflexivity.
Qed.

Lemma string_num_dots_nonneg s : 0 <= string_num_dots s.
Proof.
  induction s as [|c s IH]; cbn [string_num_dots]; [lia|].
  destruct (Ascii.eqb c dot); lia.
Qed.

Lemma name_at_cons l l' ls :
  Server.name_at (l :: l' :: ls) = (l ++ "." ++ Server.name_at (l' :: ls))%string.
Proof. reflexivity. Qed.

(** Cutting runs over a piece without dots. *)
Lemma split_labels_no_dot l : forall cur rest,
  string_num_dots l = 0 ->
  split_labels (l ++ rest) cur = split_labels rest (cur ++ l).
Proof.
  induction l as [|c l IH]; intros cur rest Hd.
  - rewrite append_nil, append_nil_r. reflexivity.
  - rewrite append_cons. cbn [split_labels string_num_dots] in *.
    destruct (Ascii.eqb c dot) eqn:E.
    + pose proof (string_num_dots_nonneg l). lia.
    + rewrite IH by exact Hd. f_equal. rewrite append_assoc. reflexivity.
Qed.

(** The pieces [split_labels] cuts have no dots. *)
Lemma split_labels_dots name : forall cur,
  string_num_dots cur = 0 ->
  Forall (fun l => string_num_dots l = 0) (split_labels name cur).
Proof.
  induction name as [|c name IH]; intros cur Hc; cbn [split_labels].
  - constructor; [exact Hc | constructor].
  - destruct (Ascii.eqb c dot) eqn:E.
    + constructor; [exact Hc | apply IH; reflexivity].
    + apply IH. clear IH. induction cur as [|x cur IHc].
      * rewrite append_nil. cbn [string_num_dots]. rewrite E. reflexivity.
      * rewrite append_cons. cbn [string_num_dots] in *.
        destruct (Ascii.eqb x dot).
        -- pose proof (string_num_dots_nonneg cur). lia.
        -- apply IHc, Hc.
Qed.

(** Labels without dots, joined by dots and cut again, are the
    labels. *)
Lemma labels_name_at ls :
  ls <> [] -> Forall (fun l => string_num_dots l = 0) ls ->
  labels (Server.name_at ls) = ls.
Proof.
  unfold labels. induction ls as [|l ls IH]; intros Hne Hall; [congruence|].
  inversion Hall as [|? ? Hl Hls]; subst.
  destruct ls as [|l' ls].
  - cbn [Server.name_at String.concat].
    rewrite <- (append_nil_r l) at 1. rewrite split_labels_no_dot by exact Hl.
    reflexivity.
  - rewrite name_at_cons. rewrite split_labels_no_dot by exact Hl.
    change ("." ++ Server.name_at (l' :: ls))%string
      with (String dot (Server.name_at (l' :: ls))).
    cbn [split_labels]. rewrite Ascii.eqb_refl. rewrite append_nil.
    f_equal. apply IH; [discriminate | exact Hls].
Qed.

(** The rest of a name is shorter than the name. *)
Lemma name_at_shorter l l' ls :
  (String.length (Server.name_at (l' :: ls)) <
   String.length (Server.name_at (l :: l' :: ls)))%nat.
Proof.
  rewrite name_at_cons. pose proof (strlen_app l ("." ++ Server.name_at (l' :: ls))) as H.
  pose proof (strlen_app "." (Server.name_at (l' :: ls))) as H'.
  unfold strlen in *. change (String.length ".") with 1%nat in H'. lia.
Qed.

(** *** The table *)

Lemma get_pos_hit table : forall label ref,
  Server.dnslabel_table_get_pos table label = ref -> 0 <= ref ->
  In (label, ref) table.
Proof.
  induction table as [|[v pos] table IH]; intros label ref H Href;
    cbn [Server.dnslabel_table_get_pos] in H.
  - lia.
  - destruct (String.eqb label v) eqn:E.
    + apply String.eqb_eq in E. subst. left. reflexivity.
    + right. apply IH; assumption.
Qed.

Lemma decodes_at_more buf x pos name :
  decodes_at buf pos name -> decodes_at (buf ++ x) pos name.
Proof.
  intros ((H0 & H1) & n & H). split.
  - rewrite buf_pos_app. unfold buf_pos in *. lia.
  - exists n. intros fuel more out name_end name_out_len Hf Hn Hroom.
    rewrite <- app_assoc. apply H; assumption.
Qed.

Lemma table_ok_more buf x table : table_ok buf table -> table_ok (buf ++ x) table.
Proof.
  unfold table_ok. intros H. eapply Forall_impl; [exact H|].
  intros e (D & P). split; [apply decodes_at_more, D | exact P].
Qed.

(** *** The pointer *)

Lemma lor_c000 ref : 0 <= ref < 0x4000 -> Z.lor ref 0xc000 = ref + 0xc000.
Proof.
  intros H. rewrite <- Z.lxor_lor.
  - symmetry. apply Z.add_nocarry_lxor.
    apply Z.bits_inj'. intros n Hn. rewrite Z.land_spec, Z.bits_0.
    destruct (Z_lt_le_dec n 14) as [Hlt|Hge].
    + change 49152 with (3 * 2 ^ 14). rewrite Z.mul_pow2_bits_low by lia.
      apply andb_false_r.
    + destruct (Z.eq_dec ref 0) as [->|Hz]; [rewrite Z.bits_0; reflexivity|].
      rewrite (Z.bits_above_log2 ref n); [reflexivity | lia |].
      assert (Z.log2 ref < 14); [|lia].
      apply Z.log2_lt_pow2; [lia|]. change (2 ^ 14) with 16384. lia.
  - apply Z.bits_inj'. intros n Hn. rewrite Z.land_spec, Z.bits_0.
    destruct (Z_lt_le_dec n 14) as [Hlt|Hge].
    + change 49152 with (3 * 2 ^ 14). rewrite Z.mul_pow2_bits_low by lia.
      apply andb_false_r.
    + destruct (Z.eq_dec ref 0) as [->|Hz]; [rewrite Z.bits_0; reflexivity|].
      rewrite (Z.bits_above_log2 ref n); [reflexivity | lia |].
      assert (Z.log2 ref < 14); [|lia].
      apply Z.log2_lt_pow2; [lia|]. change (2 ^ 14) with 16384. lia.
Qed.

(** The two bytes of a pointer to [ref], and what the decoder makes
    of them. *)
Lemma pointer_bytes ref :
  0 <= ref < 0x4000 ->
  let b0 := Z.land (Z.shiftr (Z.lor ref 0xc000) 8) 0xff in
  let b1 := Z.land (Z.lor ref 0xc000) 0xff in
  b0 <> 0 /\ Z.land b0 0xc0 <> 0 /\ Z.shiftl (Z.land b0 0x3f) 8 + b1 = ref.
Proof.
  intros H. cbv zeta. rewrite lor_c000 by exact H.
  change 255 with (Z.ones 8). change 63 with (Z.ones 6).
  rewrite !Z.land_ones by lia. rewrite Z.shiftr_div_pow2 by lia.
  rewrite Z.shiftl_mul_pow2 by lia.
  change (2 ^ 8) with 256. change (2 ^ 6) with 64.
  assert (E0 : ((ref + 49152) / 256) mod 256 = ref / 256 + 192).
  { Z.div_mod_to_equations. lia. }
  rewrite E0.
  assert (E1 : (ref / 256 + 192) mod 64 = ref / 256).
  { Z.div_mod_to_equations. lia. }
  rewrite E1.
  split; [Z.div_mod_to_equations; lia|]. split.
  - intros E. assert (T : Z.testbit (Z.land (ref / 256 + 192) 192) 7 = false)
      by (rewrite E; apply Z.bits_0).
    rewrite Z.land_spec in T.
    assert (T7 : Z.testbit (ref / 256 + 192) 7 = true).
    { apply Z.testbit_true; [lia|]. change (2 ^ 7) with 128.
      Z.div_mod_to_equations. lia. }
    rewrite T7 in T. discriminate T.
  - Z.div_mod_to_equations. lia.
Qed.


(** One turn of the decode loop on a pointer. *)
Lemma name_parse_body_jump pre ref rest out name_out_len name_end :
  0 <= ref < 0x4000 -> ref < buf_pos pre ->
  let packet := pre ++ word (Z.lor ref 0xc000) ++ rest in
  NameParse.body packet (buf_pos packet) name_out_len
    (NameParse.mkCursor (buf_pos pre) out name_end)
  = NameParse.Continue
      (NameParse.mkCursor ref out
         (if name_end <? 0 then buf_pos pre + 2 else name_end)).
Proof.
  intros Href Hlt packet.
  destruct (pointer_bytes ref Href) as (B0 & B1 & B2). cbv zeta in B0, B1, B2.
  assert (Hpre : 0 <= buf_pos pre) by (unfold buf_pos; lia).
  assert (Hlen : buf_pos packet = buf_pos pre + 2 + buf_pos rest).
  { subst packet. rewrite !buf_pos_app. unfold word, buf_pos. cbn [List.length]. lia. }
  assert (Hrest : 0 <= buf_pos rest) by (unfold buf_pos; lia).
  unfold NameParse.body. cbn [NameParse.c_j NameParse.c_out NameParse.c_name_end].
  destruct (Z.geb_spec (buf_pos pre) (buf_pos packet)); [lia|].
  assert (U0 : u8_at packet (buf_pos pre)
               = Z.land (Z.shiftr (Z.lor ref 0xc000) 8) 0xff).
  { subst packet. unfold word. cbn [app]. apply u8_at_middle. }
  assert (U1 : u8_at packet (buf_pos pre + 1) = Z.land (Z.lor ref 0xc000) 0xff).
  { subst packet. unfold word. cbn [app].
    pose proof (u8_at_middle (pre ++ [Z.land (Z.shiftr (Z.lor ref 0xc000) 8) 0xff])
                  (Z.land (Z.lor ref 0xc000) 0xff) rest) as U.
    rewrite buf_pos_app in U. change (buf_pos [_]) with 1 in U.
    rewrite <- app_assoc in U. exact U. }
  rewrite U0, U1.
  apply Z.eqb_neq in B0. rewrite B0.
  apply Z.eqb_neq in B1. rewrite B1. cbn [negb].
  destruct (Z.geb_spec (buf_pos pre + 1) (buf_pos packet)); [lia|].
  rewrite B2.
  destruct (Z.ltb_spec ref 0); [lia|].
  destruct (Z.geb_spec ref (buf_pos packet)); [lia|].
  cbn [orb]. replace (buf_pos pre + 1 + 1) with (buf_pos pre + 2) by lia.
  reflexivity.
Qed.

Lemma last_bytes_of_string pre l :
  1 <= strlen l -> ~ In 0 (bytes_of_string l) ->
  List.last (pre ++ bytes_of_string l) 0 <> 0.
Proof.
  intros Hl Hnz.
  destruct (exists_last (l := bytes_of_string l)) as (init & x & Hx).
  { intros E. pose proof (length_bytes_of_string l) as HL. rewrite E in HL.
    cbn in HL. lia. }
  rewrite Hx, app_assoc, last_last. intros ->. apply Hnz. rewrite Hx.
  apply in_or_app. right. left. reflexivity.
Qed.

(** The label loop with a table: what it writes decodes to the
    labels, and the entries it adds are positions of their names.
    [old] are the entries of names written before, [pending] the ones
    of the name being written. *)
Lemma dnsname_to_labels_loop_decodes buf_len ls :
  forall buf old pending buf' table' ptr,
  buf_len <= 0x4000 ->
  table_ok buf old ->
  Forall (fun e => (String.length (Server.name_at ls) < String.length (fst e))%nat)
    pending ->
  Forall (fun l => 1 <= strlen l <= 63) ls ->
  Forall (fun l => string_num_dots l = 0) ls ->
  Forall (fun l => ~ In 0 (bytes_of_string l)) ls ->
  Server.dnsname_to_labels_loop ls buf buf_len (old ++ pending)
  = inr (buf', table', ptr) ->
  exists added new,
    buf' = buf ++ added /\
    table' = old ++ pending ++ new /\
    (ptr = true -> added <> []) /\
    (ls <> [] -> ptr = false -> List.last buf' 0 <> 0) /\
    (exists n : nat, forall fuel more out name_end name_out_len,
       (n < fuel)%nat ->
       buf_pos (fold_left with_label ls out) < name_out_len ->
       NameParse.loop fuel (buf' ++ (if ptr then [] else [0]) ++ more)
         (buf_pos (buf' ++ (if ptr then [] else [0]) ++ more)) name_out_len
         (NameParse.mkCursor (buf_pos buf) out name_end)
       = NameParse.Parsed
           (if name_end <? 0 then buf_pos (buf' ++ (if ptr then [] else [0]))
            else name_end)
           (fold_left with_label ls out)) /\
    Forall (fun e => decodes_at (buf' ++ (if ptr then [] else [0])) (snd e) (fst e) /\
                     snd e < 0x4000) new.
Proof.
  induction ls as [|l ls IH];
    intros buf old pending buf' table' ptr Hcap Hold Hpend Hall Hdots Hnz Hrun.
  - (* nothing left: the terminating zero follows *)
    cbn [Server.dnsname_to_labels_loop] in Hrun. injection Hrun as <- <- <-.
    exists [], []. rewrite !app_nil_r.
    split; [reflexivity|]. split; [reflexivity|]. split; [discriminate|].
    split; [congruence|]. split; [|constructor].
    exists 0%nat. intros fuel more out name_end name_out_len Hf Hroom.
    destruct fuel as [|fuel]; [lia|]. cbn [NameParse.loop app fold_left] in *.
    rewrite name_parse_body_terminator.
    unfold NameParse.finish, NameParse.c_cp.
    cbn [NameParse.c_j NameParse.c_out NameParse.c_name_end]. fold (buf_pos out).
    destruct (Z.geb_spec (buf_pos out) name_out_len); [lia|].
    rewrite buf_pos_app. change (buf_pos [0]) with 1. reflexivity.
  - inversion Hall as [|? ? Hl Hls]; subst.
    inversion Hdots as [|? ? Hd Hds]; subst.
    inversion Hnz as [|? ? Hz Hzs]; subst.
    assert (Hlabels : labels (Server.name_at (l :: ls)) = l :: ls)
      by (apply labels_name_at; [discriminate | exact Hdots]).
    assert (Hbuf : 0 <= buf_pos buf) by (unfold buf_pos; lia).
    cbn [Server.dnsname_to_labels_loop] in Hrun. cbv zeta in Hrun.
    destruct (Z.geb_spec (Server.dnslabel_table_get_pos (old ++ pending)
                            (Server.name_at (l :: ls))) 0) as [Hhit|Hmiss].
    + (* the rest of the name is in the table: a pointer *)
      set (ref := Server.dnslabel_table_get_pos (old ++ pending)
                    (Server.name_at (l :: ls))) in *.
      assert (Hin : In (Server.name_at (l :: ls), ref) old).
      { pose proof (get_pos_hit (old ++ pending) _ ref eq_refl Hhit) as Hin.
        apply in_app_or in Hin. destruct Hin as [Hin|Hin]; [exact Hin|].
        rewrite Forall_forall in Hpend.
        specialize (Hpend _ (proj2 (list_elem_of_In _ _) Hin)). cbn [fst] in Hpend. lia. }
      unfold table_ok in Hold. rewrite Forall_forall in Hold.
      destruct (Hold _ (proj2 (list_elem_of_In _ _) Hin))
        as (((Hr0 & Hr1) & n & Hdec) & Hsmall).
      cbn [fst snd] in *.
      unfold APPEND16 in Hrun.
      destruct (buf_pos buf + 2 >? buf_len); [discriminate Hrun|].
      injection Hrun as <- <- <-.
      exists (word (Z.lor ref 0xc000)), []. rewrite !app_nil_r.
      split; [reflexivity|]. split; [reflexivity|].
      split; [intros _; discriminate|]. split; [discriminate|].
      split; [|constructor].
      exists (S n). intros fuel more out name_end name_out_len Hf Hroom.
      destruct fuel as [|fuel]; [lia|]. cbn [NameParse.loop app].
      rewrite <- app_assoc. fold (word (Z.lor ref 0xc000)).
      rewrite (name_parse_body_jump buf ref more out name_out_len name_end);
        [| split; [exact Hr0 | exact Hsmall] | exact Hr1].
      rewrite Hdec;
        [| lia | destruct (name_end <? 0) eqn:E;
                   [lia | apply Z.ltb_ge in E; exact E]
         | rewrite Hlabels; exact Hroom].
      rewrite Hlabels. f_equal.
      destruct (name_end <? 0); [|reflexivity].
      rewrite buf_pos_app. reflexivity.
    + (* a label *)
      destruct (Z.gtb_spec (strlen l) 63); [discriminate Hrun|].
      destruct (Z.gtb_spec (buf_pos buf + strlen l + 1) buf_len) as [|Hfit];
        [discriminate Hrun|].
      set (buf1 := buf ++ [strlen l] ++ bytes_of_string l) in *.
      set (e0 := (Server.name_at (l :: ls), buf_pos buf)) in *.
      assert (Hshort : (String.length (Server.name_at ls)
                        < String.length (Server.name_at (l :: ls)))%nat).
      { destruct ls as [|l' ls]; [|apply name_at_shorter].
        cbn [Server.name_at String.concat String.length].
        unfold strlen in Hl. lia. }
      assert (Hstep : exists extra,
                 (extra = [] \/ extra = [e0]) /\
                 snd (Server.dnslabel_table_add (old ++ pending)
                        (Server.name_at (l :: ls)) (buf_pos buf))
                 = old ++ pending ++ extra).
      { unfold Server.dnslabel_table_add.
        destruct (Z.of_nat (List.length (old ++ pending)) =? Server.MAX_LABELS).
        - exists []. split; [left; reflexivity|]. rewrite app_nil_r. reflexivity.
        - exists [e0]. split; [right; reflexivity|]. cbn [snd].
          rewrite <- app_assoc. reflexivity. }
      destruct Hstep as (extra & Hextra & Htab). rewrite Htab in Hrun.
      rewrite (app_assoc old) in Hrun. rewrite <- (app_assoc old) in Hrun.
      assert (Hpend' : Forall (fun e => (String.length (Server.name_at ls)
                                          < String.length (fst e))%nat)
                         (pending ++ extra)).
      { apply Forall_app. split.
        - eapply Forall_impl; [exact Hpend|]. cbv beta. intros e He.
          eapply Nat.lt_trans; [exact Hshort | exact He].
        - destruct Hextra as [-> | ->]; [constructor|].
          constructor; [exact Hshort | constructor]. }
      destruct (IH buf1 old (pending ++ extra) buf' table' ptr Hcap
                  (table_ok_more buf _ old Hold) Hpend' Hls Hds Hzs Hrun)
        as (added' & new' & E1 & E2 & Hptr & Hlast & (n & Hdec) & Hnew).
      assert (Hb1 : buf_pos buf1 = buf_pos buf + 1 + strlen l).
      { subst buf1. rewrite !buf_pos_app. unfold buf_pos at 2. cbn [List.length].
        rewrite buf_pos_bytes_of_string. lia. }
      set (t := if ptr then [] else [0]) in *.
      assert (Hfollow : forall more : list Z, added' ++ t ++ more <> []).
      { intros more. subst t. destruct ptr.
        - specialize (Hptr eq_refl). destruct added'; [congruence | discriminate].
        - destruct added'; discriminate. }
      assert (Hmine : forall fuel more out name_end name_out_len,
                 (S n < fuel)%nat ->
                 buf_pos (fold_left with_label (l :: ls) out) < name_out_len ->
                 NameParse.loop fuel (buf' ++ t ++ more) (buf_pos (buf' ++ t ++ more))
                   name_out_len (NameParse.mkCursor (buf_pos buf) out name_end)
                 = NameParse.Parsed
                     (if name_end <? 0 then buf_pos (buf' ++ t) else name_end)
                     (fold_left with_label (l :: ls) out)).
      { intros fuel more out name_end name_out_len Hf Hroom.
        destruct fuel as [|fuel]; [lia|]. cbn [NameParse.loop fold_left] in *.
        pose proof (buf_pos_fold_with_label ls (with_label out l)) as Hmono.
        assert (Hp : buf' ++ t ++ more
                     = buf ++ (strlen l :: bytes_of_string l)
                           ++ (added' ++ t ++ more)).
        { rewrite E1. subst buf1. rewrite <- !app_assoc. reflexivity. }
        rewrite Hp.
        rewrite name_parse_body_label; [| exact Hl | lia | apply Hfollow].
        rewrite <- Hp.
        replace (buf_pos (buf ++ strlen l :: bytes_of_string l)) with (buf_pos buf1)
          by (subst buf1; reflexivity).
        apply Hdec; [lia | exact Hroom]. }
      exists ([strlen l] ++ bytes_of_string l ++ added'), (extra ++ new').
      split; [rewrite E1; subst buf1; rewrite <- !app_assoc; reflexivity|].
      split; [rewrite E2, <- !app_assoc; reflexivity|].
      split; [intros _; discriminate|].
      split.
      { intros _ Hp. destruct ls as [|l' ls].
        - cbn [Server.dnsname_to_labels_loop] in Hrun. injection Hrun as <- _ _.
          subst buf1. rewrite app_assoc. apply last_bytes_of_string; [lia | exact Hz].
        - apply Hlast; [discriminate | exact Hp]. }
      split; [exists (S n); exact Hmine|].
      apply Forall_app. split; [|exact Hnew].
      destruct Hextra as [-> | ->]; [constructor|].
      constructor; [|constructor]. subst e0. cbn [fst snd]. split; [|lia].
      split.
      * rewrite E1, !buf_pos_app, Hb1. pose proof (strlen_nonneg l).
        unfold buf_pos. lia.
      * exists (S n). intros fuel more out name_end name_out_len Hf Hne Hroom.
        rewrite Hlabels in *. rewrite <- app_assoc.
        rewrite Hmine; [| exact Hf | exact Hroom].
        destruct (Z.ltb_spec name_end 0); [lia | reflexivity].
Qed.


(** X18.  Compression round trip.  Let every entry of the label
    table be the position, below 0x4000, of a name that [name_parse]
    reads there from the message written so far, and let the buffer
    be at most 0x4000 bytes.  When [dnsname_to_labels] writes a name
    whose labels have between 1 and 63 bytes and stays within the
    buffer, it only appends to the message and to the table, the
    table still has that property, and [name_parse], started where
    the name was written, returns the name and the index behind what
    was written, whether labels or a pointer into an earlier name. *)
Theorem dnsname_to_labels_compression_roundtrip
    buf buf_len name table buf' table' :
  buf_len <= 0x4000 ->
  table_ok buf table ->
  c_string name ->
  Forall (fun l => 1 <= strlen l <= 63) (labels name) ->
  Server.dnsname_to_labels buf buf_len name (strlen name) table
  = inr (buf', table') ->
  buf_pos buf' <= buf_len ->
  (exists added, added <> [] /\ buf' = buf ++ added) /\
  (exists new, table' = table ++ new) /\
  table_ok buf' table' /\
  exists n : nat, forall fuel more, (n < fuel)%nat ->
    name_parse fuel (buf' ++ more) (buf_pos (buf' ++ more)) (buf_pos buf) 256
    = NameParse.Parsed (buf_pos buf') (bytes_of_string name).
Proof.
  intros Hcap Hok Hc Hall Hrun _.
  unfold Server.dnsname_to_labels in Hrun.
  destruct (Z.gtb_spec (strlen name) 255) as [|Hlen]; [discriminate Hrun|].
  fold (labels name) in Hrun.
  destruct (Server.dnsname_to_labels_loop (labels name) buf buf_len table)
    as [e|[[b t] ptr]] eqn:Hloop; [discriminate Hrun|].
  assert (Hne : labels name <> []) by apply split_labels_nonempty.
  assert (Hdots : Forall (fun l => string_num_dots l = 0) (labels name))
    by (apply split_labels_dots; reflexivity).
  assert (Hnz : Forall (fun l => ~ In 0 (bytes_of_string l)) (labels name)).
  { apply List.Forall_forall. intros l Hl Hin. apply Hc.
    destruct (split_labels_bytes name EmptyString l 0 Hl Hin) as [[]|H]. exact H. }
  rewrite <- (app_nil_r table) in Hloop.
  destruct (dnsname_to_labels_loop_decodes buf_len (labels name) buf table [] b t ptr
              Hcap Hok (List.Forall_nil _) Hall Hdots Hnz Hloop)
    as (added & new & E1 & E2 & Hptr & Hlast & (n & Hdec) & Hnew).
  cbn [app] in E2.
  assert (Hfinal : buf' = b ++ (if ptr then [] else [0]) /\ table' = t).
  { destruct ptr.
    - injection Hrun as <- <-. rewrite app_nil_r. split; reflexivity.
    - specialize (Hlast Hne eq_refl). apply Z.eqb_neq in Hlast.
      rewrite Hlast, orb_true_r in Hrun. injection Hrun as <- <-.
      split; reflexivity. }
  destruct Hfinal as (-> & ->).
  split; [|split; [|split]].
  - exists (added ++ (if ptr then [] else [0])). split.
    + destruct ptr; [rewrite app_nil_r; apply Hptr; reflexivity|].
      destruct added; discriminate.
    + rewrite E1, <- app_assoc. reflexivity.
  - exists new. exact E2.
  - rewrite E2. unfold table_ok. apply Forall_app. split; [|exact Hnew].
    rewrite E1, <- app_assoc. apply table_ok_more. exact Hok.
  - exists n. intros fuel more Hf.
    unfold name_parse, NameParse.name_parse. rewrite <- app_assoc.
    rewrite Hdec; [| exact Hf |].
    + rewrite fold_with_label_labels by exact Hall. reflexivity.
    + rewrite fold_with_label_labels by exact Hall.
      rewrite buf_pos_bytes_of_string. lia.
Qed.


(** X18 at example.com written behind a header with an empty table,
    and then www.example.com with the table of the first: the second
    name is the label www and a pointer to offset 12. *)
Lemma dnsname_to_labels_compression_roundtrip_witness :
  exists buf1 table1 buf2 table2,
    Server.dnsname_to_labels (query_header 7) 1500 "example.com"
      (strlen "example.com") [] = inr (buf1, table1) /\
    table_ok buf1 table1 /\
    Server.dnsname_to_labels buf1 1500 "www.example.com"
      (strlen "www.example.com") table1 = inr (buf2, table2) /\
    buf2 = buf1 ++ [3; 119; 119; 119; 0xc0; 12] /\
    table_ok buf2 table2 /\
    exists n : nat, forall fuel more, (n < fuel)%nat ->
      name_parse fuel (buf2 ++ more) (buf_pos (buf2 ++ more)) (buf_pos buf1) 256
      = NameParse.Parsed (buf_pos buf2) (bytes_of_string "www.example.com").
Proof.
  assert (Hcap : 1500 <= 0x4000) by (vm_compute; discriminate).
  assert (Hc1 : c_string "example.com").
  { unfold c_string. vm_compute. intros H.
    repeat (destruct H as [H|H]; [discriminate H|]). exact H. }
  assert (Hc2 : c_string "www.example.com").
  { unfold c_string. vm_compute. intros H.
    repeat (destruct H as [H|H]; [discriminate H|]). exact H. }
  assert (Hl1 : Forall (fun l => 1 <= strlen l <= 63) (labels "example.com"))
    by (refine (bool_decide_unpack _ _); vm_compute; exact I).
  assert (Hl2 : Forall (fun l => 1 <= strlen l <= 63) (labels "www.example.com"))
    by (refine (bool_decide_unpack _ _); vm_compute; exact I).
  eexists _, _, _, _.
  split; [vm_compute; reflexivity|].
  match goal with
  | |- table_ok ?b ?t /\ _ =>
      assert (E1 : Server.dnsname_to_labels (query_header 7) 1500 "example.com"
                     (strlen "example.com") [] = inr (b, t))
        by (vm_compute; reflexivity);
      destruct (dnsname_to_labels_compression_roundtrip
                  (query_header 7) 1500 "example.com" [] b t
                  Hcap (List.Forall_nil _) Hc1 Hl1 E1
                  ltac:(vm_compute; discriminate)) as (_ & _ & Hok1 & _)
  end.
  split; [exact Hok1|].
  split; [vm_compute; reflexivity|].
  split; [reflexivity|].
  match goal with
  | |- table_ok ?b2 ?t2 /\ _ =>
      match type of Hok1 with
      | table_ok ?b1 ?t1 =>
          assert (E2 : Server.dnsname_to_labels b1 1500 "www.example.com"
                         (strlen "www.example.com") t1 = inr (b2, t2))
            by (vm_compute; reflexivity);
          destruct (dnsname_to_labels_compression_roundtrip
                      b1 1500 "www.example.com" t1 b2 t2
                      Hcap Hok1 Hc2 Hl2 E2
                      ltac:(vm_compute; discriminate)) as (_ & _ & Hok2 & Hdec)
      end
  end.
  split; [exact Hok2 | exact Hdec].
Defined.


(** *** The server reads the resolver's queries *)

Lemma ascii_of_byte_of_ascii c : ascii_of_byte (byte_of_ascii c) = c.
Proof.
  unfold ascii_of_byte, byte_of_ascii.
  pose proof (N_ascii_bounded c) as B.
  rewrite Z.mod_small by lia. rewrite N2Z.id. apply ascii_N_embedding.
Qed.

Lemma string_of_bytes_of_string s : string_of_bytes (bytes_of_string s) = s.
Proof.
  induction s as [|c s IH]; [reflexivity|].
  cbn [bytes_of_string string_of_bytes]. rewrite ascii_of_byte_of_ascii, IH.
  reflexivity.
Qed.

Lemma c_str_no_zero bytes : ~ In 0 bytes -> Server.c_str bytes = bytes.
Proof.
  induction bytes as [|b bytes IH]; intros H; [reflexivity|].
  cbn [Server.c_str]. destruct (Z.eqb_spec b 0) as [->|_].
  - exfalso. apply H. left. reflexivity.
  - rewrite IH; [reflexivity|]. intros Hin. apply H. right. exact Hin.
Qed.

Lemma parse_header_query_header trans_id tail :
  0 <= trans_id < 65536 ->
  parse_header (query_header trans_id ++ tail) (buf_pos (query_header trans_id ++ tail))
  = Some (mkHeader trans_id 0x0100 1 0 0 0, 12).
Proof.
  intros Hid.
  assert (L : 12 <= buf_pos (query_header trans_id ++ tail)).
  { rewrite buf_pos_app, buf_pos_query_header. unfold buf_pos. lia. }
  unfold query_header at 1, word. cbn [app].
  rewrite parse_header_bytes by exact L.
  change 255 with (Z.ones 8). rewrite (join_bits trans_id 8) by lia.
  rewrite land_ones_small; [reflexivity | lia | exact Hid].
Qed.

(** [request_parse] on a query of the resolver. *)
Lemma request_parse_query name trans_id type class fuel refcnt :
  c_string name ->
  strlen name <= 255 ->
  Forall (fun l => 1 <= strlen l <= 63) (labels name) ->
  (List.length (labels name) < fuel)%nat ->
  0 <= trans_id < 65536 -> 0 <= type < 65536 -> 0 <= class < 65536 ->
  exists packet,
    evdns_request_data_build name (strlen name) trans_id type class
      (evdns_request_len (strlen name)) = inr packet /\
    Server.request_parse fuel packet (buf_pos packet) refcnt
    = PDone (Server.mkServerRequest trans_id 0x0100
               [Server.mkQuestion type class name] 0 0 0 [] [] [] None,
             refcnt + 1).
Proof.
  intros Hc Hlen Hall Hfuel Hid Hty Hcl.
  assert (Hall' : Forall (fun l => strlen l <= 63) (labels name)).
  { eapply Forall_impl; [exact Hall|]. cbv beta. intros; lia. }
  destruct (evdns_request_data_build_ok name trans_id type class Hlen Hall')
    as (t & _ & Ht & _ & Hb).
  assert (Hlabels : labels name <> []) by apply split_labels_nonempty.
  assert (t = [0]) as ->.
  { apply Ht. apply last_wire_labels; [exact Hlabels | exact Hall |].
    intros l b Hl Hin ->. apply Hc.
    destruct (split_labels_bytes name EmptyString l 0 Hl Hin) as [[]|H]. exact H. }
  eexists. split; [exact Hb|].
  set (packet := query_header trans_id ++ wire_labels (labels name) ++ [0]
                   ++ word type ++ word class).
  pose proof (strlen_nonneg name) as Hn.
  assert (Hname : name_parse fuel packet (buf_pos packet) 12 256
                  = NameParse.Parsed (12 + strlen name + 2) (bytes_of_string name)).
  { unfold name_parse, NameParse.name_parse. subst packet.
    change 12 with (buf_pos (query_header trans_id)) at 1 2.
    cbn [app].
    rewrite (name_parse_loop_labels (labels name) (query_header trans_id) []
               (word type ++ word class) fuel 256 (-1) Hall Hfuel).
    - rewrite fold_with_label_labels by exact Hall. cbn [Z.ltb Z.compare]. f_equal.
      rewrite buf_pos_labels, buf_pos_query_header. lia.
    - rewrite fold_with_label_labels by exact Hall.
      rewrite buf_pos_bytes_of_string. lia. }
  assert (Hdrop : drop (Z.to_nat (12 + strlen name + 2)) packet
                  = word type ++ word class ++ []).
  { subst packet. rewrite app_nil_r.
    rewrite (app_assoc (query_header trans_id)), (app_assoc _ [0]).
    apply drop_app_length'. rewrite !length_app.
    pose proof (buf_pos_labels name) as L. unfold buf_pos in L.
    cbn [List.length query_header word app]. lia. }
  destruct (GET16_drop packet (12 + strlen name + 2) type _ ltac:(lia) Hty Hdrop)
    as (G1 & Hdrop').
  destruct (GET16_drop packet (12 + strlen name + 2 + 2) class _ ltac:(lia) Hcl Hdrop')
    as (G2 & _).
  unfold Server.request_parse.
  subst packet. rewrite parse_header_query_header by exact Hid.
  cbn [h_flags h_questions h_trans_id].
  change (negb (Z.land 256 32768 =? 0)) with false. cbv iota.
  change (Z.to_nat 1) with 1%nat. cbn [Server.parse_questions].
  rewrite Hname, G1, G2. cbn [app].
  rewrite c_str_no_zero by exact Hc. rewrite string_of_bytes_of_string.
  reflexivity.
Qed.

(** X19.  The server side reads what the resolver sends: for a name
    of at most 255 bytes without NUL whose labels have between 1 and
    63 bytes, [request_parse] applied to the query that
    [evdns_request_data_build] builds returns 0 after handing the
    user callback a request with the query's transaction id, the
    flags 0x0100 and one question with the query's type, class and
    name; the port's reference count is raised by one. *)
Theorem request_parse_data_build name trans_id type class fuel refcnt :
  c_string name ->
  strlen name <= 255 ->
  Forall (fun l => 1 <= strlen l <= 63) (labels name) ->
  (List.length (labels name) < fuel)%nat ->
  0 <= trans_id < 65536 -> 0 <= type < 65536 -> 0 <= class < 65536 ->
  exists packet,
    evdns_request_data_build name (strlen name) trans_id type class
      (evdns_request_len (strlen name)) = inr packet /\
    Server.request_parse fuel packet (buf_pos packet) refcnt
    = PDone (Server.mkServerRequest trans_id 0x0100
               [Server.mkQuestion type class name] 0 0 0 [] [] [] None,
             refcnt + 1).
Proof. exact (request_parse_query name trans_id type class fuel refcnt). Qed.

(** X19 at www.example.com. *)
Lemma request_parse_data_build_witness :
  exists packet,
    evdns_request_data_build "www.example.com" (strlen "www.example.com") 7
      TYPE_A CLASS_INET (evdns_request_len (strlen "www.example.com")) = inr packet /\
    Server.request_parse 4 packet (buf_pos packet) 0
    = PDone (Server.mkServerRequest 7 0x0100
               [Server.mkQuestion TYPE_A CLASS_INET "www.example.com"]
               0 0 0 [] [] [] None, 0 + 1).
Proof.
  assert (H1 : c_string "www.example.com").
  { unfold c_string. vm_compute. intros H.
    repeat (destruct H as [H|H]; [discriminate H|]). exact H. }
  assert (H2 : strlen "www.example.com" <= 255) by (vm_compute; discriminate).
  assert (H3 : Forall (fun l => 1 <= strlen l <= 63) (labels "www.example.com"))
    by (refine (bool_decide_unpack _ _); vm_compute; exact I).
  assert (H4 : (List.length (labels "www.example.com") < 4)%nat) by (vm_compute; lia).
  assert (H5 : 0 <= 7 < 65536) by lia.
  assert (H6 : 0 <= TYPE_A < 65536) by (unfold TYPE_A; lia).
  assert (H7 : 0 <= CLASS_INET < 65536) by (unfold CLASS_INET; lia).
  exact (request_parse_data_build "www.example.com" 7 TYPE_A CLASS_INET 4 0
           H1 H2 H3 H4 H5 H6 H7).
Defined.


(** *** The response encoder *)

Lemma get_pos_miss table label :
  Forall (fun e => fst e <> label) table ->
  Server.dnslabel_table_get_pos table label = -1.
Proof.
  induction table as [|[v pos] table IH]; intros H; [reflexivity|].
  inversion H as [|? ? Hv Ht]; subst. cbn [Server.dnslabel_table_get_pos fst] in *.
  destruct (String.eqb_spec label v) as [->|_]; [congruence | apply IH, Ht].
Qed.

(** The name is its labels joined by dots. *)
Lemma name_at_split_labels name : forall cur,
  Server.name_at (split_labels name cur) = (cur ++ name)%string.
Proof.
  unfold Server.name_at.
  induction name as [|c name IH]; intros cur; cbn [split_labels].
  - cbn [String.concat]. rewrite append_nil_r. reflexivity.
  - destruct (Ascii.eqb_spec c dot) as [->|_].
    + pose proof (split_labels_nonempty name EmptyString) as Hne.
      specialize (IH EmptyString).
      destruct (split_labels name EmptyString) as [|l ls]; [congruence|].
      cbn [String.concat] in *. rewrite IH. reflexivity.
    + rewrite IH, append_assoc. reflexivity.
Qed.

Lemma name_at_labels name : Server.name_at (labels name) = name.
Proof. unfold labels. rewrite name_at_split_labels. reflexivity. Qed.

(** The label loop when no rest of the name is in the table: the
    labels are written, and the rests of the name are added to the
    table, the whole of it first. *)
Lemma dnsname_to_labels_loop_fresh buf_len ls : forall buf table,
  Forall (fun e => (String.length (Server.name_at ls) < String.length (fst e))%nat)
    table ->
  Forall (fun l => 1 <= strlen l <= 63) ls ->
  buf_pos buf + buf_pos (wire_labels ls) <= buf_len ->
  exists new,
    Server.dnsname_to_labels_loop ls buf buf_len table
    = inr (buf ++ wire_labels ls, table ++ new, false) /\
    (ls <> [] -> Z.of_nat (List.length table) <> Server.MAX_LABELS ->
     exists new', new = (Server.name_at ls, buf_pos buf) :: new').
Proof.
  induction ls as [|l ls IH]; intros buf table Hlong Hall Hroom.
  - exists []. cbn [Server.dnsname_to_labels_loop wire_labels flat_map].
    rewrite !app_nil_r. split; [reflexivity | congruence].
  - inversion Hall as [|? ? Hl Hls]; subst.
    rewrite buf_pos_wire_cons in Hroom.
    assert (HW : 0 <= buf_pos (wire_labels ls)) by (unfold buf_pos; lia).
    cbn [Server.dnsname_to_labels_loop]. cbv zeta.
    rewrite get_pos_miss.
    2:{ eapply Forall_impl; [exact Hlong|]. cbv beta. intros e He E.
        rewrite E in He. lia. }
    change (-1 >=? 0) with false. cbv iota.
    destruct (Z.gtb_spec (strlen l) 63); [lia|].
    destruct (Z.gtb_spec (buf_pos buf + strlen l + 1) buf_len); [lia|].
    assert (Hshort : (String.length (Server.name_at ls)
                      < String.length (Server.name_at (l :: ls)))%nat).
    { destruct ls as [|l' ls]; [|apply name_at_shorter].
      cbn [Server.name_at String.concat String.length].
      unfold strlen in Hl. lia. }
    set (e0 := (Server.name_at (l :: ls), buf_pos buf)).
    assert (Hstep : exists extra,
               (Z.of_nat (List.length table) <> Server.MAX_LABELS -> extra = [e0]) /\
               Forall (fun e => (String.length (Server.name_at ls)
                                 < String.length (fst e))%nat) extra /\
               snd (Server.dnslabel_table_add table (Server.name_at (l :: ls))
                      (buf_pos buf)) = table ++ extra).
    { unfold Server.dnslabel_table_add.
      destruct (Z.eqb_spec (Z.of_nat (List.length table)) Server.MAX_LABELS).
      - exists []. rewrite app_nil_r. split; [congruence|]. split; [constructor|].
        reflexivity.
      - exists [e0]. split; [reflexivity|]. split; [|reflexivity].
        constructor; [exact Hshort | constructor]. }
    destruct Hstep as (extra & Hfirst & Hextra & ->).
    destruct (IH (buf ++ [strlen l] ++ bytes_of_string l) (table ++ extra))
      as (new & E & _).
    + apply Forall_app. split; [|exact Hextra].
      eapply Forall_impl; [exact Hlong|]. cbv beta. intros e He.
      eapply Nat.lt_trans; [exact Hshort | exact He].
    + exact Hls.
    + rewrite !buf_pos_app, buf_pos_bytes_of_string. unfold buf_pos at 2.
      cbn [List.length]. lia.
    + exists (extra ++ new). split.
      * rewrite E. unfold wire_labels. cbn [flat_map app].
        rewrite <- !app_assoc. reflexivity.
      * intros _ Hfree. rewrite (Hfirst Hfree). exists new. reflexivity.
Qed.

(** A name written with an empty table: its labels and the
    terminating zero, and the table then has the name at the position
    where it was written. *)
Lemma dnsname_to_labels_fresh buf buf_len name :
  c_string name ->
  strlen name <= 255 ->
  Forall (fun l => 1 <= strlen l <= 63) (labels name) ->
  buf_pos buf + strlen name + 2 <= buf_len ->
  exists table,
    Server.dnsname_to_labels buf buf_len name (strlen name) []
    = inr (buf ++ wire_labels (labels name) ++ [0], table) /\
    Server.dnslabel_table_get_pos table name = buf_pos buf.
Proof.
  intros Hc Hlen Hall Hroom.
  assert (Hne : labels name <> []) by apply split_labels_nonempty.
  destruct (dnsname_to_labels_loop_fresh buf_len (labels name) buf []
              (List.Forall_nil _) Hall) as (new & E & Hfirst).
  { rewrite buf_pos_labels. lia. }
  destruct (Hfirst Hne) as (new' & ->); [cbn; unfold Server.MAX_LABELS; lia|].
  exists ((Server.name_at (labels name), buf_pos buf) :: new').
  split.
  - unfold Server.dnsname_to_labels.
    destruct (Z.gtb_spec (strlen name) 255); [lia|].
    fold (labels name). rewrite E. cbn [app].
    assert (Hlast : List.last (buf ++ wire_labels (labels name)) 0 <> 0).
    { apply last_wire_labels; [exact Hne | exact Hall |].
      intros l b Hl Hin ->. apply Hc.
      destruct (split_labels_bytes name EmptyString l 0 Hl Hin) as [[]|Hb]. exact Hb. }
    apply Z.eqb_neq in Hlast. rewrite Hlast, orb_true_r, <- app_assoc. reflexivity.
  - cbn [Server.dnslabel_table_get_pos]. rewrite name_at_labels, String.eqb_refl.
    reflexivity.
Qed.

(** A name that is in the table is written as a pointer. *)
Lemma dnsname_to_labels_hit buf buf_len name table :
  strlen name <= 255 ->
  0 <= Server.dnslabel_table_get_pos table name ->
  buf_pos buf + 2 <= buf_len ->
  Server.dnsname_to_labels buf buf_len name (strlen name) table
  = inr (buf ++ word (Z.lor (Server.dnslabel_table_get_pos table name) 0xc000), table).
Proof.
  intros Hlen Hhit Hroom. unfold Server.dnsname_to_labels.
  destruct (Z.gtb_spec (strlen name) 255); [lia|].
  fold (labels name).
  pose proof (split_labels_nonempty name EmptyString) as Hne. fold (labels name) in Hne.
  pose proof (name_at_labels name) as Hn.
  destruct (labels name) as [|l ls]; [congruence|].
  cbn [Server.dnsname_to_labels_loop]. cbv zeta. rewrite Hn.
  destruct (Z.geb_spec (Server.dnslabel_table_get_pos table name) 0); [|lia].
  rewrite APPEND16_ok by exact Hroom. reflexivity.
Qed.

Lemma bytes_at_from (l : list Z) : forall pre,
  List.map (fun k => u8_at (pre ++ l) (0 + Z.of_nat k))
    (seq (List.length pre) (List.length l)) = l.
Proof.
  induction l as [|a l IH]; intros pre; cbn [List.length seq List.map];
    [reflexivity|].
  f_equal.
  - unfold u8_at.
    replace (Z.to_nat (0 + Z.of_nat (List.length pre))) with (List.length pre) by lia.
    rewrite app_nth2, Nat.sub_diag by lia. reflexivity.
  - specialize (IH (pre ++ [a])). rewrite <- app_assoc, length_app in IH.
    cbn [List.length app] in IH.
    replace (List.length pre + 1)%nat with (S (List.length pre)) in IH by lia.
    exact IH.
Qed.

Lemma bytes_at_all (l : list Z) : bytes_at l 0 (buf_pos l) = l.
Proof.
  unfold bytes_at, buf_pos. rewrite Nat2Z.id. exact (bytes_at_from l []).
Qed.

Lemma APPEND32_ok x buf buf_len :
  buf_pos buf + 4 <= buf_len ->
  Server.APPEND32 x buf buf_len = inr (buf ++ dword x).
Proof.
  intros H. unfold Server.APPEND32.
  destruct (Z.gtb_spec (buf_pos buf + 4) buf_len); [lia|].
  unfold dword, word. cbn [app].
  rewrite Z.shiftr_shiftr by lia. reflexivity.
Qed.


Lemma answer_header_built trans_id :
  and_then (APPEND16 trans_id [] 1500) (fun buf =>
  and_then (APPEND16 0x8180 buf 1500) (fun buf =>
  and_then (APPEND16 1 buf 1500) (fun buf =>
  and_then (APPEND16 1 buf 1500) (fun buf =>
  and_then (APPEND16 0 buf 1500) (fun buf =>
  APPEND16 0 buf 1500)))))
  = inr (answer_header trans_id).
Proof.
  do 5 (rewrite APPEND16_ok
          by (unfold buf_pos, word; cbn [List.length app]; lia);
        cbn [and_then]).
  rewrite APPEND16_ok by (unfold buf_pos, word; cbn [List.length app]; lia).
  reflexivity.
Qed.

Lemma buf_pos_answer_header trans_id : buf_pos (answer_header trans_id) = 12.
Proof. reflexivity. Qed.

Lemma buf_pos_word x : buf_pos (word x) = 2.
Proof. reflexivity. Qed.

Lemma buf_pos_dword x : buf_pos (dword x) = 4.
Proof. reflexivity. Qed.

(** The response with one A record for the question's name, or the
    refusal when the record does not fit the buffer of 1500 bytes. *)
Lemma response_format_a_reply_cases name trans_id flags ttl addresses :
  c_string name ->
  strlen name <= 255 ->
  Forall (fun l => 1 <= strlen l <= 63) (labels name) ->
  addresses <> [] ->
  4 * Z.of_nat (List.length addresses) < 2 ^ 30 ->
  exists req1,
    Server.evdns_request_add_a_reply
      (Server.mkServerRequest trans_id flags
         [Server.mkQuestion TYPE_A CLASS_INET name] 0 0 0 [] [] [] None)
      name (Z.of_nat (List.length addresses)) (Some (flat_map dword addresses)) ttl
    = (0, req1) /\
    Server.sr_response req1 = None /\
    Server.evdns_request_response_format req1 0x8180
    = if strlen name + 30 + 4 * Z.of_nat (List.length addresses) <=? 1500
      then Some (0, Server.mkServerRequest trans_id flags
                      [Server.mkQuestion TYPE_A CLASS_INET name] 1 0 0 [] [] []
                      (Some (answer_packet trans_id name ttl addresses)))
      else Some (-1, req1).
Proof.
  intros Hc Hlen Hall _ Hwide. change (2 ^ 30) with 1073741824 in Hwide.
  pose proof (strlen_nonneg name) as Hn.
  pose proof (length_flat_map_dword addresses) as Hd.
  set (n := Z.of_nat (List.length addresses)) in *.
  assert (Hn0 : 0 <= n) by (subst n; lia).
  eexists. split.
  - unfold Server.evdns_request_add_a_reply, Server.evdns_request_add_reply.
    cbn [Server.sr_response]. change (negb (0 =? 0)) with false. cbv iota zeta beta.
    destruct (Z.ltb_spec (n * 4) 0); [lia|].
    replace (Server.int31 (n * 4)) with (n * 4).
    2:{ unfold Server.int31. change (2 ^ 30) with 1073741824.
        change (2 ^ 31) with 2147483648. rewrite Z.mod_small; lia. }
    replace (n * 4) with (buf_pos (flat_map dword addresses)) at 2 by lia.
    rewrite bytes_at_all. reflexivity.
  - split; [reflexivity|].
    unfold Server.evdns_request_response_format.
    cbn [Server.sr_trans_id Server.sr_questions Server.sr_n_answer
         Server.sr_n_authority Server.sr_n_additional Server.sr_answer
         Server.sr_authority Server.sr_additional Server.sr_flags app List.length].
    change (Z.of_nat 1) with 1. change (0 + 1) with 1.
    rewrite answer_header_built.
    (* the question *)
    destruct (dnsname_to_labels_fresh (answer_header trans_id) 1500 name Hc Hlen Hall)
      as (table & E & Hpos); [rewrite buf_pos_answer_header; lia|].
    rewrite buf_pos_answer_header in Hpos.
    cbn [Server.format_questions Server.q_name Server.q_type Server.q_class].
    rewrite E.
    set (b1 := answer_header trans_id ++ wire_labels (labels name) ++ [0]).
    assert (L1 : buf_pos b1 = strlen name + 14).
    { subst b1. rewrite !buf_pos_app, buf_pos_answer_header, buf_pos_labels.
      change (buf_pos [0]) with 1. lia. }
    rewrite (APPEND16_ok TYPE_A b1) by lia. cbn [and_then].
    rewrite APPEND16_ok by (rewrite buf_pos_app, buf_pos_word; lia).
    set (b2 := (b1 ++ word TYPE_A) ++ word CLASS_INET).
    assert (L2 : buf_pos b2 = strlen name + 18).
    { subst b2. rewrite !buf_pos_app, !buf_pos_word. lia. }
    (* the answer *)
    cbn [Server.format_items Server.i_name Server.i_type Server.i_class Server.i_ttl
         Server.i_is_name Server.i_datalen Server.i_data].
    rewrite dnsname_to_labels_hit by (rewrite ?Hpos; lia).
    rewrite Hpos. change (word (Z.lor 12 49152)) with [0xc0; 0x0c].
    set (b3 := b2 ++ [0xc0; 0x0c]).
    assert (L3 : buf_pos b3 = strlen name + 20).
    { subst b3. rewrite buf_pos_app. change (buf_pos [_; _]) with 2. lia. }
    change (Z.land TYPE_A 65535) with TYPE_A.
    change (Z.land CLASS_INET 65535) with CLASS_INET.
    rewrite (APPEND16_ok TYPE_A b3) by lia. cbn [and_then].
    rewrite APPEND16_ok by (rewrite buf_pos_app, buf_pos_word; lia).
    cbn [and_then].
    rewrite APPEND32_ok by (rewrite !buf_pos_app, !buf_pos_word; lia).
    set (b4 := ((b3 ++ word TYPE_A) ++ word CLASS_INET) ++ dword ttl).
    assert (L4 : buf_pos b4 = strlen name + 28).
    { subst b4. rewrite !buf_pos_app, !buf_pos_word, buf_pos_dword. lia. }
    rewrite APPEND16_ok by lia.
    rewrite buf_pos_app, buf_pos_word.
    destruct (Z.leb_spec (strlen name + 30 + 4 * n) 1500) as [Hroom|Hroom];
      (destruct (Z.gtb_spec (buf_pos b4 + 2 + n * 4) 1500); try lia);
      [|reflexivity].
    destruct (Z.ltb_spec (n * 4) 0); [lia|].
    replace (n * 4) with (buf_pos (flat_map dword addresses)) at 2 by lia.
    rewrite bytes_at_all.
    do 3 f_equal.
    subst b4 b3 b2 b1. unfold answer_packet, a_record.
    fold n. replace (4 * n) with (n * 4) by lia.
    rewrite <- !app_assoc. reflexivity.
Qed.

(** The response with one A record for the question's name. *)
Lemma response_format_a_reply name trans_id flags ttl addresses :
  c_string name ->
  strlen name <= 255 ->
  Forall (fun l => 1 <= strlen l <= 63) (labels name) ->
  addresses <> [] ->
  strlen name + 30 + 4 * Z.of_nat (List.length addresses) <= 1500 ->
  exists req1,
    Server.evdns_request_add_a_reply
      (Server.mkServerRequest trans_id flags
         [Server.mkQuestion TYPE_A CLASS_INET name] 0 0 0 [] [] [] None)
      name (Z.of_nat (List.length addresses)) (Some (flat_map dword addresses)) ttl
    = (0, req1) /\
    Server.evdns_request_response_format req1 0x8180
    = Some (0, Server.mkServerRequest trans_id flags
                 [Server.mkQuestion TYPE_A CLASS_INET name] 1 0 0 [] [] []
                 (Some (answer_packet trans_id name ttl addresses))).
Proof.
  intros Hc Hlen Hall Hne Hroom.
  pose proof (strlen_nonneg name) as Hn.
  assert (Hwide : 4 * Z.of_nat (List.length addresses) < 2 ^ 30)
    by (change (2 ^ 30) with 1073741824; lia).
  destruct (response_format_a_reply_cases name trans_id flags ttl addresses
              Hc Hlen Hall Hne Hwide) as (req1 & Hadd & _ & Hfmt).
  exists req1. split; [exact Hadd|]. rewrite Hfmt.
  destruct (Z.leb_spec (strlen name + 30 + 4 * Z.of_nat (List.length addresses)) 1500);
    [reflexivity | lia].
Qed.

(** X20.  The response to an A question.  Take a request with one
    question, of type A and class IN, for a name of at most 255 bytes
    whose labels have between 1 and 63 bytes, and a nonempty list of
    addresses of fewer than 2^30 bytes in all.
    [evdns_request_add_a_reply] with the question's name and the
    addresses returns 0 and leaves the request unanswered.  When the
    response fits the buffer of 1500 bytes, that is when the length
    of the name plus 30 plus four bytes for each address is at most
    1500, [evdns_request_response_format] with the flags 0x8180
    returns 0 and stores as the response: the header with the
    request's transaction id, the flags and the counts 1, 1, 0, 0;
    the question; and one A record whose name is the pointer 0xc00c
    to the question's name, followed by type, class, ttl, data length
    and the addresses; the answer lists are freed, the counts are
    kept.  When it does not fit, [evdns_request_response_format]
    returns -1 and the request is as it was. *)
Theorem evdns_request_response_format_a_reply name trans_id flags ttl addresses :
  c_string name ->
  strlen name <= 255 ->
  Forall (fun l => 1 <= strlen l <= 63) (labels name) ->
  addresses <> [] ->
  4 * Z.of_nat (List.length addresses) < 2 ^ 30 ->
  exists req1,
    Server.evdns_request_add_a_reply
      (Server.mkServerRequest trans_id flags
         [Server.mkQuestion TYPE_A CLASS_INET name] 0 0 0 [] [] [] None)
      name (Z.of_nat (List.length addresses)) (Some (flat_map dword addresses)) ttl
    = (0, req1) /\
    Server.sr_response req1 = None /\
    Server.evdns_request_response_format req1 0x8180
    = if strlen name + 30 + 4 * Z.of_nat (List.length addresses) <=? 1500
      then Some (0, Server.mkServerRequest trans_id flags
                      [Server.mkQuestion TYPE_A CLASS_INET name] 1 0 0 [] [] []
                      (Some (answer_packet trans_id name ttl addresses)))
      else Some (-1, req1).
Proof. exact (response_format_a_reply_cases name trans_id flags ttl addresses). Qed.


(** X20 at www.example.com: with two addresses the response is
    stored, with 400 addresses it does not fit and -1 is returned. *)
Lemma evdns_request_response_format_a_reply_witness :
  (exists req1,
     Server.evdns_request_add_a_reply
       (Server.mkServerRequest 7 0x0100
          [Server.mkQuestion TYPE_A CLASS_INET "www.example.com"] 0 0 0 [] [] [] None)
       "www.example.com" (Z.of_nat (List.length [0x01020304; 0x05060708]))
       (Some (flat_map dword [0x01020304; 0x05060708])) 300
     = (0, req1) /\
     Server.sr_response req1 = None /\
     Server.evdns_request_response_format req1 0x8180
     = Some (0, Server.mkServerRequest 7 0x0100
                  [Server.mkQuestion TYPE_A CLASS_INET "www.example.com"] 1 0 0 [] [] []
                  (Some (answer_packet 7 "www.example.com" 300
                           [0x01020304; 0x05060708])))) /\
  (exists req1,
     Server.evdns_request_add_a_reply
       (Server.mkServerRequest 7 0x0100
          [Server.mkQuestion TYPE_A CLASS_INET "www.example.com"] 0 0 0 [] [] [] None)
       "www.example.com" (Z.of_nat (List.length (repeat 0x01020304 400)))
       (Some (flat_map dword (repeat 0x01020304 400))) 300
     = (0, req1) /\
     Server.sr_response req1 = None /\
     Server.evdns_request_response_format req1 0x8180 = Some (-1, req1)).
Proof.
  assert (H1 : c_string "www.example.com").
  { unfold c_string. vm_compute. intros H.
    repeat (destruct H as [H|H]; [discriminate H|]). exact H. }
  assert (H2 : strlen "www.example.com" <= 255) by (vm_compute; discriminate).
  assert (H3 : Forall (fun l => 1 <= strlen l <= 63) (labels "www.example.com"))
    by (refine (bool_decide_unpack _ _); vm_compute; exact I).
  assert (H4 : [0x01020304; 0x05060708] <> []) by discriminate.
  assert (H5 : 4 * Z.of_nat (List.length [0x01020304; 0x05060708]) < 2 ^ 30)
    by (vm_compute; reflexivity).
  assert (H6 : repeat 0x01020304 400 <> []) by discriminate.
  assert (H7 : 4 * Z.of_nat (List.length (repeat 0x01020304 400)) < 2 ^ 30)
    by (vm_compute; reflexivity).
  split.
  - exact (evdns_request_response_format_a_reply "www.example.com" 7 0x0100 300
             [0x01020304; 0x05060708] H1 H2 H3 H4 H5).
  - exact (evdns_request_response_format_a_reply "www.example.com" 7 0x0100 300
             (repeat 0x01020304 400) H1 H2 H3 H6 H7).
Defined.


(** *** Transmission *)

Lemma quiet_schedule s s' req r :
  quiet s s' -> requests s !! req = Some r ->
  trace s' = trace s /\
  exists r', requests s' !! req = Some r' /\ same_schedule r r' /\
             r_request r' = r_request r.
Proof.
  intros (T & Htr & Hs) Hr. split; [exact Htr|].
  destruct T as (_ & _ & _ & _ & _ & _ & _ & _ & Hreq & _).
  specialize (Hs req). specialize (Hreq req). rewrite Hr in Hs, Hreq.
  destruct (requests s' !! req) as [r'|]; [|destruct Hs].
  exists r'. split; [reflexivity|]. split; [exact Hs|].
  destruct Hreq as (H & _). exact H.
Qed.




(** *** From the question to the answer *)

Lemma byte_of_u32 x k :
  0 <= k <= 24 ->
  Z.land (Z.shiftr (u32 x) k) 0xff = Z.land (Z.shiftr x k) 0xff.
Proof.
  intros Hk. unfold u32. apply Z.bits_inj'. intros i Hi.
  change 255 with (Z.ones 8). rewrite !Z.land_spec, !Z.shiftr_spec by lia.
  destruct (Z.ltb_spec i 8) as [Hlt|Hge].
  - rewrite Z.mod_pow2_bits_low by lia. reflexivity.
  - rewrite !Z.ones_spec_high by lia. rewrite !andb_false_r. reflexivity.
Qed.

Lemma dword_u32 x : dword (u32 x) = dword x.
Proof.
  unfold dword, word. rewrite !Z.shiftr_shiftr by lia.
  rewrite <- (Z.shiftr_0_r (u32 x)) at 4. rewrite <- (Z.shiftr_0_r x) at 4.
  rewrite !byte_of_u32 by lia. reflexivity.
Qed.

Lemma answer_packet_u32 trans_id name ttl addresses :
  answer_packet trans_id name (u32 ttl) addresses
  = answer_packet trans_id name ttl addresses.
Proof. unfold answer_packet, a_record. rewrite dword_u32. reflexivity. Qed.

Lemma int32_u32 x : - 2 ^ 31 <= x < 2 ^ 31 -> int32 (u32 x) = x.
Proof.
  unfold int32, u32. change (2 ^ 31) with 2147483648.
  change (2 ^ 32) with 4294967296. intros H.
  rewrite Zplus_mod_idemp_l.
  rewrite Z.mod_small by lia. lia.
Qed.

(** X22.  A query answered by the server side is understood by the
    resolver.  Let an inflight A request (the first on the ring with
    its id) carry the query that [evdns_request_data_build] builds for
    [name].  Then [request_parse] turns that query into a server
    request; [evdns_request_add_a_reply] for [name] with a nonempty
    list of addresses and [evdns_request_response_format] with the
    flags 0x8180 both return 0 and leave a response; and [reply_parse]
    on that response returns 0, calls the request's callback once,
    with no error, the first four of the addresses and the ttl that
    was given to [evdns_request_add_a_reply] (an [int], possibly
    negative), and frees the request.  The response has to fit the
    buffer of 1500 bytes: the length of the name plus 30 plus four
    bytes for each address is at most 1500. *)
Theorem query_answered_end_to_end
    s req r pre post name ttl addresses fuel refcnt :
  req_head s = pre ++ req :: post ->
  (forall q, In q pre ->
     exists rq, requests s !! q = Some rq /\ r_trans_id rq <> r_trans_id r) ->
  requests s !! req = Some r ->
  r_request_type r = TYPE_A ->
  0 <= r_trans_id r < 65536 ->
  c_string name ->
  strlen name <= 255 ->
  Forall (fun l => 1 <= strlen l <= 63) (labels name) ->
  (S (List.length (labels name)) < fuel)%nat ->
  evdns_request_data_build name (strlen name) (r_trans_id r) TYPE_A CLASS_INET
    (evdns_request_len (strlen name)) = inr (r_request r) ->
  - 2 ^ 31 <= ttl < 2 ^ 31 ->
  Forall (fun a => 0 <= a < 2 ^ 32) addresses ->
  addresses <> [] ->
  strlen name + 30 + 4 * Z.of_nat (List.length addresses) <= 1500 ->
  exists sreq req1 req2 response,
    Server.request_parse fuel (r_request r) (buf_pos (r_request r)) refcnt
    = PDone (sreq, refcnt + 1) /\
    Server.evdns_request_add_a_reply sreq name (Z.of_nat (List.length addresses))
      (Some (flat_map dword addresses)) ttl = (0, req1) /\
    Server.evdns_request_response_format req1 0x8180 = Some (0, req2) /\
    Server.sr_response req2 = Some response /\
    wp (reply_parse fuel response (buf_pos response))
       (fun rc s' =>
          rc = 0 /\
          callbacks (trace s') =
            callbacks (trace s) ++
            [EvCallback (r_user_callback r) DNS_ERR_NONE DNS_IPv4_A
               (Z.of_nat (List.length (take 4 addresses))) ttl
               (data_addresses (take 4 addresses)) (r_user_pointer r)] /\
          gone req s') s.
Proof.
  intros Hhead Hpre Hr Hty Hid Hc Hlen Hall Hfuel Hbuilt Httl Haddr Hne Hroom.
  assert (Hfuel' : (List.length (labels name) < fuel)%nat) by lia.
  assert (Hta : 0 <= TYPE_A < 65536) by (unfold TYPE_A; lia).
  assert (Hci : 0 <= CLASS_INET < 65536) by (unfold CLASS_INET; lia).
  destruct (request_parse_query name (r_trans_id r) TYPE_A CLASS_INET fuel refcnt
              Hc Hlen Hall Hfuel' Hid Hta Hci) as (packet & Hb & Hparse).
  assert (packet = r_request r) as -> by congruence.
  destruct (response_format_a_reply name (r_trans_id r) 0x0100 ttl addresses
              Hc Hlen Hall Hne Hroom) as (req1 & Hadd & Hfmt).
  eexists _, req1, _, _.
  split; [exact Hparse|]. split; [exact Hadd|]. split; [exact Hfmt|].
  split; [reflexivity|].
  rewrite <- (answer_packet_u32 (r_trans_id r) name ttl addresses).
  eapply wp_mono.
  - apply (reply_parse_answer_packet s req r pre post name (u32 ttl) addresses fuel);
      try assumption.
    + unfold u32. apply Z.mod_pos_bound. reflexivity.
    + pose proof (strlen_nonneg name). lia.
  - intros rc s' H. rewrite (int32_u32 ttl Httl) in H. exact H.
Qed.

(** X22 at the request of a resolver that was asked for
    www.example.com, answered with two addresses. *)
Lemma query_answered_end_to_end_witness :
  exists r,
    requests asked_state !! 2%nat = Some r /\
    exists sreq req1 req2 response,
      Server.request_parse 5 (r_request r) (buf_pos (r_request r)) 0
      = PDone (sreq, 0 + 1) /\
      Server.evdns_request_add_a_reply sreq "www.example.com"
        (Z.of_nat (List.length [0x01020304; 0x05060708]))
        (Some (flat_map dword [0x01020304; 0x05060708])) 300 = (0, req1) /\
      Server.evdns_request_response_format req1 0x8180 = Some (0, req2) /\
      Server.sr_response req2 = Some response /\
      wp (reply_parse 5 response (buf_pos response))
         (fun rc s' =>
            rc = 0 /\
            callbacks (trace s') =
              callbacks (trace asked_state) ++
              [EvCallback (r_user_callback r) DNS_ERR_NONE DNS_IPv4_A
                 (Z.of_nat (List.length (take 4 [0x01020304; 0x05060708]))) 300
                 (data_addresses (take 4 [0x01020304; 0x05060708]))
                 (r_user_pointer r)] /\
            gone 2 s') asked_state.
Proof.
  eexists. split; [vm_compute; reflexivity|].
  match goal with
  | |- context [r_user_pointer ?x] => set (r := x)
  end.
  assert (H1 : req_head asked_state = [] ++ 2%nat :: []) by (vm_compute; reflexivity).
  assert (H2 : forall q, In q [] ->
            exists rq, requests asked_state !! q = Some rq /\
                       r_trans_id rq <> r_trans_id r)
    by (intros q []).
  assert (H3 : requests asked_state !! 2%nat = Some r) by (vm_compute; reflexivity).
  assert (H4 : r_request_type r = TYPE_A) by reflexivity.
  assert (H5 : 0 <= r_trans_id r < 65536) by (cbn; lia).
  assert (H6 : c_string "www.example.com").
  { unfold c_string. vm_compute. intros H.
    repeat (destruct H as [H|H]; [discriminate H|]). exact H. }
  assert (H7 : strlen "www.example.com" <= 255) by (vm_compute; discriminate).
  assert (H8 : Forall (fun l => 1 <= strlen l <= 63) (labels "www.example.com"))
    by (refine (bool_decide_unpack _ _); vm_compute; exact I).
  assert (H9 : (S (List.length (labels "www.example.com")) < 5)%nat)
    by (vm_compute; lia).
  assert (H10 : evdns_request_data_build "www.example.com" (strlen "www.example.com")
                  (r_trans_id r) TYPE_A CLASS_INET
                  (evdns_request_len (strlen "www.example.com")) = inr (r_request r))
    by (vm_compute; reflexivity).
  assert (H11 : - 2 ^ 31 <= 300 < 2 ^ 31) by (vm_compute; split; [discriminate | reflexivity]).
  assert (H12 : Forall (fun a => 0 <= a < 2 ^ 32) [0x01020304; 0x05060708])
    by (refine (bool_decide_unpack _ _); vm_compute; exact I).
  assert (H13 : [0x01020304; 0x05060708] <> []) by discriminate.
  assert (H14 : strlen "www.example.com" + 30
                + 4 * Z.of_nat (List.length [0x01020304; 0x05060708]) <= 1500)
    by (vm_compute; discriminate).
  exact (query_answered_end_to_end asked_state 2%nat r [] [] "www.example.com" 300
           [0x01020304; 0x05060708] 5 0
           H1 H2 H3 H4 H5 H6 H7 H8 H9 H10 H11 H12 H13 H14).
Defined.


(** ** Transmission, case by case *)

#[local] Instance same_choke_preorder : PreOrder same_choke.
Proof.
  split; [intros n; split; reflexivity|].
  intros a b c (A1 & A2) (B1 & B2). split; congruence.
Qed.

Lemma lifted_trans {A : Type} (R : A -> A -> Prop) `{!Transitive R} (a b c : option A) :
  lifted R a b -> lifted R b c -> lifted R a c.
Proof.
  destruct a, b, c; cbn; intros H1 H2; try contradiction; try exact I.
  etransitivity; eassumption.
Qed.

#[local] Instance unsent_preorder : PreOrder unsent.
Proof.
  split.
  - intros s. split; [reflexivity|]. split; [reflexivity|]. intros p.
    destruct (nameservers s !! p); cbn; [reflexivity | exact I].
  - intros a b c (A1 & A2 & A3) (B1 & B2 & B3).
    split; [congruence|]. split; [congruence|]. intros p.
    eapply lifted_trans; [typeclasses eauto | apply A3 | apply B3].
Qed.

Ltac footprint_core :=
  intros;
  unfold ring_same, unsent, rings_kept, grown, same_heap, silent, tidy, quiet, transport, steady,
    settled, same_config;
  cbn [requests nameservers search_states req_head req_waiting_head server_head
       global_good_nameservers global_requests_inflight global_requests_waiting
       global_max_requests_inflight global_timeout global_max_reissues
       global_max_retransmits global_max_nameserver_timeout global_search_state
       next_ptr env_entropy env_send env_socket env_hostname trace
       set_requests set_nameservers set_search_states set_req_head
       set_req_waiting_head set_server_head set_global_good_nameservers
       set_global_requests_inflight set_global_requests_waiting set_global_timeout
       set_global_max_retransmits set_global_search_state set_next_ptr
       set_env_entropy set_env_send set_env_socket set_trace set_ring ring];
  rewrite ?callbacks_send;
  repeat split; try reflexivity; try lia;
  try (let p0 := fresh "p" in
       intros p0;
       match goal with
       | |- lifted _ (_ !! p0) (<[?q := _]> _ !! p0) =>
           lookup_cases p0 q;
           [ match goal with H : _ !! q = Some _ |- _ => rewrite H end;
             cbn; unfold same_request, same_schedule, settled_nameserver, same_choke; cbn;
             repeat split; try reflexivity; try congruence
           | reflexivity ]
       | |- lifted _ (_ !! p0) (_ !! p0) => reflexivity
       end);
  try (let p0 := fresh "p" in
       let n0 := fresh "n" in
       let Hn0 := fresh "Hn" in
       intros p0 n0 Hn0;
       match goal with
       | |- exists _, <[?q := _]> _ !! p0 = Some _ /\ _ =>
           lookup_cases p0 q;
           [ eexists; split; [reflexivity|];
             match goal with H : _ !! q = Some _ |- _ =>
               rewrite H in Hn0; injection Hn0 as <- end;
             unfold settled_nameserver; cbn;
             repeat split; try reflexivity; try congruence
           | exists n0; split; [exact Hn0 | reflexivity] ]
       | |- exists _, _ !! p0 = Some _ /\ _ =>
           exists n0; split; [exact Hn0 | reflexivity]
       end).

Ltac footprint ::= footprint_core.

(** The walk of [nameserver_pick] under any relation that turning the
    ring keeps. *)
Section Pick.

Context (R : state -> state -> Prop) `{!PreOrder R}.
Context (turn : forall s, R s (set_server_head (ring_next (server_head s)) s)).

Lemma server_head_advance_pres : preserves R server_head_advance.
Proof. intros s. unfold server_head_advance. apply wp_modify. apply turn. Qed.

Lemma nameserver_pick_loop_pres post : forall pre started_at s,
  post <> [] ->
  server_head s = post ++ pre ->
  head (pre ++ post) = Some started_at ->
  wp (nameserver_pick_loop (List.length post) started_at)
     (fun res s' => R s s' /\ res <> None) s.
Proof.
  induction post as [|h post IH]; intros pre started_at s Hne Hs Hhd.
  - congruence.
  - cbn [List.length nameserver_pick_loop].
    apply wp_bind, wp_get. rewrite Hs. cbn [app].
    apply wp_bind, wp_deref_ns. intros n Hn.
    destruct (ns_state n).
    + apply wp_bind. eapply wp_preserves; [apply server_head_advance_pres|].
      intros _ s1 H1. apply wp_ret. split; [exact H1 | discriminate].
    + apply wp_bind. unfold wp at 1. rewrite server_head_advance_ok.
      apply wp_bind, wp_get.
      cbn [server_head set_server_head]. rewrite Hs. cbn [ring_next app].
      set (s1 := set_server_head _ s).
      assert (T1 : R s s1).
      { subst s1. pose proof (turn s) as T. rewrite Hs in T. exact T. }
      destruct post as [|h' post].
      * (* the walk is back where it started *)
        cbn [app]. destruct pre as [|p0 pre]; cbn [app] in *.
        -- injection Hhd as <-. rewrite Nat.eqb_refl.
           apply wp_bind, wp_assert. intros _.
           apply wp_bind. eapply wp_preserves; [apply server_head_advance_pres|].
           intros _ s2 H2. apply wp_ret.
           split; [transitivity s1; assumption | discriminate].
        -- injection Hhd as <-. rewrite Nat.eqb_refl.
           apply wp_bind, wp_assert. intros _.
           apply wp_bind. eapply wp_preserves; [apply server_head_advance_pres|].
           intros _ s2 H2. apply wp_ret.
           split; [transitivity s1; assumption | discriminate].
      * cbn [app]. destruct (Nat.eqb h' started_at).
        -- apply wp_bind, wp_assert. intros _.
           apply wp_bind. eapply wp_preserves; [apply server_head_advance_pres|].
           intros _ s2 H2. apply wp_ret.
           split; [transitivity s1; assumption | discriminate].
        -- eapply wp_mono.
           ++ apply (IH (pre ++ [h]) started_at s1); [congruence | |].
              ** subst s1. cbn. rewrite <- app_assoc. reflexivity.
              ** rewrite <- app_assoc. exact Hhd.
           ++ intros a s2 (H2 & Hres). split; [transitivity s1; assumption | exact Hres].
Qed.

(** [nameserver_pick] returns NULL only when there is no nameserver. *)
Lemma nameserver_pick_pres s :
  wp nameserver_pick
     (fun res s' => R s s' /\ (res = None <-> server_head s = [])) s.
Proof.
  unfold nameserver_pick. apply wp_bind, wp_get.
  destruct (server_head s) as [|h l] eqn:E.
  - apply wp_ret. split; [reflexivity | split; reflexivity].
  - destruct (global_good_nameservers s =? 0).
    + apply wp_bind. unfold wp at 1. rewrite server_head_advance_ok.
      apply wp_bind, wp_get. apply wp_ret.
      split; [apply turn|]. cbn [server_head set_server_head]. rewrite E.
      cbn [ring_next]. destruct l; cbn [app head]; split; discriminate.
    + eapply wp_mono.
      * apply (nameserver_pick_loop_pres (h :: l) [] h s); [congruence | |].
        -- rewrite app_nil_r. exact E.
        -- reflexivity.
      * intros res s' (H & Hres). split; [exact H|]. split; [contradiction | discriminate].
Qed.

End Pick.

Lemma nameserver_pick_unsent : preserves unsent nameserver_pick.
Proof.
  intros s. eapply wp_mono; [apply (nameserver_pick_pres unsent)|].
  - footprint.
  - intros res s' (H & _). exact H.
Qed.
#[local] Hint Resolve nameserver_pick_unsent : pres.

Lemma nameserver_failed_unsent ns : preserves unsent (nameserver_failed ns).
Proof. unfold nameserver_failed. pres. Qed.
#[local] Hint Resolve nameserver_failed_unsent : pres.


(** [evdns_request_transmit], case by case. *)
Lemma evdns_request_transmit_outcome req r ns n s :
  requests s !! req = Some r ->
  r_ns r = Some ns ->
  nameservers s !! ns = Some n ->
  wp (evdns_request_transmit req)
     (fun rc s' =>
        transmit_outcome req ns (r_request r) (ns_choaked n) (send_answer s)
          (r_tx_count r) (r_timeout_event r) (trace s) rc s') s.
Proof.
  intros Hr Hns Hn. unfold evdns_request_transmit, transmit_outcome.
  apply wp_bind, wp_update_req. intros r0 Hr0.
  assert (r0 = r) as -> by congruence.
  match goal with |- wp _ _ ?st => set (s1 := st) end.
  assert (Hr1 : requests s1 !! req = Some (set_r_transmit_me true r)).
  { subst s1. cbn. apply lookup_insert_eq. }
  apply wp_bind, wp_deref_req. intros r1 Hr1'.
  assert (r1 = set_r_transmit_me true r) as -> by congruence.
  destruct (r_trans_id (set_r_transmit_me true r) =? 65535); [apply wp_crash|].
  apply wp_bind, wp_req_ns. intros r1 ns0 Hr1'' Hns0.
  assert (r1 = set_r_transmit_me true r) as -> by congruence.
  assert (ns0 = ns) as -> by (cbn in Hns0; congruence).
  apply wp_bind, wp_deref_ns. intros n0 Hn0.
  assert (n0 = n) as -> by (subst s1; cbn in Hn0; congruence).
  destruct (ns_choaked n).
  { apply wp_ret. eexists. split; [exact Hr1|]. split; [reflexivity|].
    split; [reflexivity|]. split; [reflexivity|]. split; [exact Hns|].
    repeat split; reflexivity. }
  apply wp_bind. unfold evdns_request_transmit_to.
  apply wp_bind. unfold send.
  apply wp_bind, wp_deref_ns. intros n' Hn'.
  apply wp_bind, wp_deref_req. intros r2 Hr2.
  assert (r2 = set_r_transmit_me true r) as -> by congruence.
  apply wp_bind, wp_get. cbv zeta.
  apply wp_bind, wp_modify. apply wp_bind, wp_emit. apply wp_ret.
  match goal with |- wp _ _ ?st => set (s2 := st) end.
  change (match env_send s1 with [] => SendFull | x :: _ => x end)
    with (send_answer s) in *.
  assert (T2 : trace s2 = trace s ++ [EvSend ns req (r_request r) (send_answer s)])
    by reflexivity.
  assert (Hr2' : requests s2 !! req = Some (set_r_transmit_me true r)) by exact Hr1.
  assert (Hn2 : nameservers s2 !! ns = Some n) by exact Hn.
  clearbody s2. clear Hr2 Hn' Hn0 Hr1'' Hr1' Hr1 Hr0 Hns0. clear s1.
  destruct (send_answer s).
  - (* SendFull *)
    apply wp_ret. change (0 =? 1) with false. cbv iota.
    apply wp_bind. eapply wp_update_req_known; [exact Hr2'|].
    apply wp_bind. eapply wp_update_req_known; [cbn; apply lookup_insert_eq|].
    apply wp_bind. eapply wp_update_req_known; [cbn; apply lookup_insert_eq|].
    apply wp_ret. eexists. split; [cbn; apply lookup_insert_eq|].
    split; [reflexivity|]. split; [exact T2|].
    split; [reflexivity|]. split; [exact Hns|]. repeat split; reflexivity.
  - (* SendShort *)
    apply wp_ret. change (1 =? 1) with true. cbv iota.
    apply wp_bind, wp_req_ns. intros r3 ns3 Hr3 Hns3.
    assert (r3 = set_r_transmit_me true r) as -> by congruence.
    assert (ns3 = ns) as -> by (cbn in Hns3; congruence).
    apply wp_bind. eapply wp_update_ns. intros n3 Hn3.
    assert (n3 = n) as -> by congruence.
    apply wp_bind, wp_req_ns. intros r4 ns4 Hr4 Hns4.
    assert (r4 = set_r_transmit_me true r) as -> by (cbn in Hr4; congruence).
    assert (ns4 = ns) as -> by (cbn in Hns4; congruence).
    apply wp_bind. unfold nameserver_write_waiting.
    apply wp_bind, wp_deref_ns. intros n5 Hn5.
    cbn in Hn5. rewrite lookup_insert_eq in Hn5. injection Hn5 as <-.
    cbn [ns_write_waiting set_ns_choaked].
    destruct (ns_write_waiting n) eqn:W; cbn [Bool.eqb].
    + apply wp_ret. apply wp_ret. eexists. split; [exact Hr2'|].
      split; [reflexivity|]. split; [exact T2|].
      split; [reflexivity|]. split; [exact Hns|].
      split; [reflexivity|]. split; [reflexivity|]. split; [reflexivity|].
      eexists. split; [cbn; apply lookup_insert_eq|]. split; [reflexivity | exact W].
    + eapply wp_update_ns. intros n6 Hn6.
      cbn in Hn6. rewrite lookup_insert_eq in Hn6. injection Hn6 as <-.
      apply wp_ret. eexists. split; [exact Hr2'|].
      split; [reflexivity|]. split; [exact T2|].
      split; [reflexivity|]. split; [exact Hns|].
      split; [reflexivity|]. split; [reflexivity|]. split; [reflexivity|].
      eexists. split; [cbn; apply lookup_insert_eq|]. split; reflexivity.
  - (* SendEagain *)
    apply wp_ret. change (1 =? 1) with true. cbv iota.
    apply wp_bind, wp_req_ns. intros r3 ns3 Hr3 Hns3.
    assert (r3 = set_r_transmit_me true r) as -> by congruence.
    assert (ns3 = ns) as -> by (cbn in Hns3; congruence).
    apply wp_bind. eapply wp_update_ns. intros n3 Hn3.
    assert (n3 = n) as -> by congruence.
    apply wp_bind, wp_req_ns. intros r4 ns4 Hr4 Hns4.
    assert (r4 = set_r_transmit_me true r) as -> by (cbn in Hr4; congruence).
    assert (ns4 = ns) as -> by (cbn in Hns4; congruence).
    apply wp_bind. unfold nameserver_write_waiting.
    apply wp_bind, wp_deref_ns. intros n5 Hn5.
    cbn in Hn5. rewrite lookup_insert_eq in Hn5. injection Hn5 as <-.
    cbn [ns_write_waiting set_ns_choaked].
    destruct (ns_write_waiting n) eqn:W; cbn [Bool.eqb].
    + apply wp_ret. apply wp_ret. eexists. split; [exact Hr2'|].
      split; [reflexivity|]. split; [exact T2|].
      split; [reflexivity|]. split; [exact Hns|].
      split; [reflexivity|]. split; [reflexivity|]. split; [reflexivity|].
      eexists. split; [cbn; apply lookup_insert_eq|]. split; [reflexivity | exact W].
    + eapply wp_update_ns. intros n6 Hn6.
      cbn in Hn6. rewrite lookup_insert_eq in Hn6. injection Hn6 as <-.
      apply wp_ret. eexists. split; [exact Hr2'|].
      split; [reflexivity|]. split; [exact T2|].
      split; [reflexivity|]. split; [exact Hns|].
      split; [reflexivity|]. split; [reflexivity|]. split; [reflexivity|].
      eexists. split; [cbn; apply lookup_insert_eq|]. split; reflexivity.
  - (* SendError *)
    apply wp_bind, wp_req_ns. intros r3 ns3 Hr3 Hns3.
    assert (r3 = set_r_transmit_me true r) as -> by congruence.
    assert (ns3 = ns) as -> by (cbn in Hns3; congruence).
    apply wp_bind.
    eapply wp_mono;
      [apply wp_conj; [apply nameserver_failed_quiet | apply nameserver_failed_down]|].
    intros u s4 (Q4 & n4 & Hn4 & D4). cbv beta.
    apply wp_ret. change (2 =? 1) with false. cbv iota.
    destruct (quiet_schedule _ _ req _ Q4 Hr2') as (T4 & r4 & Hr4 & (A1 & A2 & A3) & A4).
    apply wp_bind. eapply wp_update_req_known; [exact Hr4|].
    apply wp_bind. eapply wp_update_req_known; [cbn; apply lookup_insert_eq|].
    apply wp_bind. eapply wp_update_req_known; [cbn; apply lookup_insert_eq|].
    apply wp_ret. eexists. split; [cbn; apply lookup_insert_eq|].
    split; [exact A4|]. split; [cbn; congruence|].
    split; [reflexivity|]. split; [reflexivity|].
    split; [cbn; cbn in A1; lia|]. split; [reflexivity|].
    unfold is_up. cbn. rewrite Hn4. exact D4.
Qed.

(** X21.  [evdns_request_transmit], case by case.  For a request
    assigned to a nameserver:
    - when the nameserver is choked, nothing is sent, the request is
      left marked [transmit_me] with its transmit count and timer as
      they were, and 1 is returned;
    - otherwise the request's datagram is handed to the socket once,
      and when the socket takes all of it the request is unmarked,
      its transmit count is one higher, its timer is armed and 0 is
      returned;
    - when the socket takes only a part of it or would block, the
      request is left marked with its count and timer as they were,
      the nameserver is choked and set to wait for the socket to
      become writable, and 1 is returned;
    - when the socket fails, the nameserver is marked failed, and the
      request is unmarked, counted and timed as if it had been sent;
      1 is returned. *)
Theorem evdns_request_transmit_cases req r ns n s :
  requests s !! req = Some r ->
  r_ns r = Some ns ->
  nameservers s !! ns = Some n ->
  wp (evdns_request_transmit req)
     (fun rc s' =>
        transmit_outcome req ns (r_request r) (ns_choaked n) (send_answer s)
          (r_tx_count r) (r_timeout_event r) (trace s) rc s') s.
Proof. exact (evdns_request_transmit_outcome req r ns n s). Qed.


(** X21 at the one inflight request of a resolver, for each answer
    of the socket layer and for a choked nameserver. *)
Lemma evdns_request_transmit_cases_witness :
  requests (lone 0 1) !! 2%nat = Some (lone_request 1) /\
  r_ns (lone_request 1) = Some 1%nat /\
  nameservers (lone 0 1) !! 1%nat = Some (lone_nameserver 0) /\
  value (evdns_request_transmit 2 (lone 0 1)) = Some 0 /\
  value (evdns_request_transmit 2 (set_env_send [SendEagain] (lone 0 1))) = Some 1 /\
  value (evdns_request_transmit 2 (set_env_send [SendError] (lone 0 1))) = Some 1 /\
  wp (evdns_request_transmit 2)
     (fun rc s' =>
        transmit_outcome 2 1 (r_request (lone_request 1)) false SendFull 1 true
          [] rc s') (lone 0 1) /\
  wp (evdns_request_transmit 2)
     (fun rc s' =>
        transmit_outcome 2 1 (r_request (lone_request 1)) false SendEagain 1 true
          [] rc s') (set_env_send [SendEagain] (lone 0 1)) /\
  wp (evdns_request_transmit 2)
     (fun rc s' =>
        transmit_outcome 2 1 (r_request (lone_request 1)) false SendError 1 true
          [] rc s') (set_env_send [SendError] (lone 0 1)) /\
  wp (evdns_request_transmit 2)
     (fun rc s' =>
        transmit_outcome 2 1 (r_request (lone_request 1)) true SendFull 1 true
          [] rc s')
     (set_nameservers {[1%nat := set_ns_choaked true (lone_nameserver 0)]} (lone 0 1)).
Proof.
  assert (H1 : requests (lone 0 1) !! 2%nat = Some (lone_request 1))
    by (vm_compute; reflexivity).
  assert (H2 : r_ns (lone_request 1) = Some 1%nat) by reflexivity.
  assert (H3 : nameservers (lone 0 1) !! 1%nat = Some (lone_nameserver 0))
    by (vm_compute; reflexivity).
  assert (H4 : nameservers
                 (set_nameservers {[1%nat := set_ns_choaked true (lone_nameserver 0)]}
                    (lone 0 1)) !! 1%nat
               = Some (set_ns_choaked true (lone_nameserver 0)))
    by (vm_compute; reflexivity).
  assert (H5 : requests
                 (set_nameservers {[1%nat := set_ns_choaked true (lone_nameserver 0)]}
                    (lone 0 1)) !! 2%nat = Some (lone_request 1))
    by (vm_compute; reflexivity).
  split; [exact H1|]. split; [exact H2|]. split; [exact H3|].
  split; [vm_compute; reflexivity|]. split; [vm_compute; reflexivity|].
  split; [vm_compute; reflexivity|].
  split; [exact (evdns_request_transmit_cases 2 (lone_request 1) 1 (lone_nameserver 0)
                   (lone 0 1) H1 H2 H3)|].
  split; [exact (evdns_request_transmit_cases 2 (lone_request 1) 1 (lone_nameserver 0)
                   (set_env_send [SendEagain] (lone 0 1)) H1 H2 H3)|].
  split; [exact (evdns_request_transmit_cases 2 (lone_request 1) 1 (lone_nameserver 0)
                   (set_env_send [SendError] (lone 0 1)) H1 H2 H3)|].
  exact (evdns_request_transmit_cases 2 (lone_request 1) 1
           (set_ns_choaked true (lone_nameserver 0))
           (set_nameservers {[1%nat := set_ns_choaked true (lone_nameserver 0)]}
              (lone 0 1)) H5 H2 H4).
Defined.


(** *** C8: the timeout of a request *)

(** [evdns_request_transmit] for a request of which only the record
    is known: its nameserver is the one the record names. *)
Lemma evdns_request_transmit_outcome_ex req r s :
  requests s !! req = Some r ->
  wp (evdns_request_transmit req)
     (fun rc s' =>
        exists ns n,
          r_ns r = Some ns /\ nameservers s !! ns = Some n /\
          transmit_outcome req ns (r_request r) (ns_choaked n) (send_answer s)
            (r_tx_count r) (r_timeout_event r) (trace s) rc s') s.
Proof.
  intros Hr.
  destruct (r_ns r) as [ns|] eqn:Hns.
  - destruct (nameservers s !! ns) as [n|] eqn:Hn.
    + eapply wp_mono; [apply (evdns_request_transmit_outcome req r ns n s Hr Hns Hn)|].
      intros rc s' H. exists ns, n. auto.
    + unfold evdns_request_transmit.
      apply wp_bind, wp_update_req. intros r0 Hr0.
      apply wp_bind, wp_deref_req. intros r1 Hr1.
      cbn in Hr1. rewrite lookup_insert_eq in Hr1. injection Hr1 as <-.
      assert (r0 = r) as -> by congruence.
      destruct (r_trans_id (set_r_transmit_me true r) =? 65535); [apply wp_crash|].
      apply wp_bind, wp_req_ns. intros r1 ns0 Hr1 Hns0.
      cbn in Hr1. rewrite lookup_insert_eq in Hr1. injection Hr1 as <-.
      cbn in Hns0. assert (ns0 = ns) as -> by congruence.
      apply wp_bind, wp_deref_ns. intros n0 Hn0. cbn in Hn0. congruence.
  - unfold evdns_request_transmit.
    apply wp_bind, wp_update_req. intros r0 Hr0.
    apply wp_bind, wp_deref_req. intros r1 Hr1.
    cbn in Hr1. rewrite lookup_insert_eq in Hr1. injection Hr1 as <-.
    assert (r0 = r) as -> by congruence.
    destruct (r_trans_id (set_r_transmit_me true r) =? 65535); [apply wp_crash|].
    apply wp_bind, wp_req_ns. intros r1 ns0 Hr1 Hns0.
    cbn in Hr1. rewrite lookup_insert_eq in Hr1. injection Hr1 as <-.
    cbn in Hns0. congruence.
Qed.

(** C8.  When a request's timeout fires, its server's count of
    consecutive timeouts goes up by one; when the count exceeds the
    per-server maximum it is reset and the server is marked failed.
    Then, if the request's transmit count has reached the maximum
    number of retransmits, its callback is invoked exactly once, with
    TIMEOUT, and the request is finished (freed and off the inflight
    ring); otherwise no callback is invoked and the request is
    retransmitted: it is handed to [evdns_request_transmit] with its
    timer deleted, so that its datagram goes to the socket of its
    nameserver, unless that nameserver is choked, with the outcome
    [transmit_outcome] describes.  The nameserver is the one the
    request had, unless that one has just been marked failed and the
    request has not been transmitted yet. *)
Theorem request_timeout_spec s req r ns n :
  requests s !! req = Some r ->
  r_ns r = Some ns ->
  nameservers s !! ns = Some n ->
  wp (evdns_request_timeout_callback req)
     (fun _ s' =>
        (exists n', nameservers s' !! ns = Some n' /\
           if ns_timedout n + 1 >? global_max_nameserver_timeout s
           then ns_timedout n' = 0 /\ ns_state n' = false
           else ns_timedout n' = ns_timedout n + 1) /\
        if r_tx_count r >=? global_max_retransmits s
        then callbacks (trace s') =
               callbacks (trace s) ++
               [EvCallback (r_user_callback r) DNS_ERR_TIMEOUT 0 0 0 data_null
                  (r_user_pointer r)]
             /\ gone req s'
        else callbacks (trace s') = callbacks (trace s) /\
             exists ns' n' rc,
               nameservers s !! ns' = Some n' /\
               (r_tx_count r <> 0 \/
                (ns_timedout n + 1 >? global_max_nameserver_timeout s) = false ->
                ns' = ns) /\
               transmit_outcome req ns' (r_request r) (ns_choaked n') (send_answer s)
                 (r_tx_count r) false (trace s) rc s')
     s.
Proof.
  intros Hr Hns Hn. unfold evdns_request_timeout_callback.
  apply wp_bind, wp_req_ns. intros r0 ns0 Hr0 Hns0.
  assert (r0 = r) as -> by congruence. assert (ns0 = ns) as -> by congruence.
  apply wp_bind, wp_update_ns. intros n0 Hn0. assert (n0 = n) as -> by congruence.
  match goal with |- wp _ _ ?st => set (s1 := st) end.
  assert (Hr1 : requests s1 !! req = Some r) by exact Hr.
  assert (Hn1 : nameservers s1 !! ns = Some (set_ns_timedout (ns_timedout n + 1) n)).
  { subst s1. cbn. apply lookup_insert_eq. }
  apply wp_bind, wp_req_ns. intros r0 ns0 Hr0' Hns0'.
  assert (r0 = r) as -> by congruence. assert (ns0 = ns) as -> by congruence.
  apply wp_bind, wp_deref_ns. intros n1 Hn1'.
  assert (n1 = set_ns_timedout (ns_timedout n + 1) n) as -> by congruence.
  apply wp_bind, wp_get.
  change (global_max_nameserver_timeout s1) with (global_max_nameserver_timeout s).
  change (ns_timedout (set_ns_timedout (ns_timedout n + 1) n)) with (ns_timedout n + 1).
  apply wp_bind.
  (* the state once the server has been dealt with *)
  apply wp_mono with
    (Q := fun _ s3 =>
       (exists n3, nameservers s3 !! ns = Some n3 /\
          if ns_timedout n + 1 >? global_max_nameserver_timeout s
          then ns_timedout n3 = 0 /\ ns_state n3 = false
          else ns_timedout n3 = ns_timedout n + 1) /\
       (exists r3, requests s3 !! req = Some r3 /\ same_request r r3 /\
                   same_schedule r r3 /\
                   (r_tx_count r <> 0 \/
                    (ns_timedout n + 1 >? global_max_nameserver_timeout s) = false ->
                    r_ns r3 = Some ns)) /\
       trace s3 = trace s /\ same_config s s3 /\ unsent s s3).
  { apply wp_when; intros E; rewrite E.
    - apply wp_bind, wp_update_ns. intros n2 Hn2.
      match goal with |- wp _ _ ?st => set (s2 := st) end.
      assert (Hn2' : nameservers s2 !! ns =
                     Some (set_ns_timedout 0 (set_ns_timedout (ns_timedout n + 1) n))).
      { subst s2. cbn. rewrite lookup_insert_eq. congruence. }
      apply wp_bind, wp_req_ns. intros r0 ns0 Hr0'' Hns0''.
      assert (Hr2 : requests s2 !! req = Some r) by exact Hr.
      assert (r0 = r) as -> by congruence. assert (ns0 = ns) as -> by congruence.
      assert (U1 : unsent s s1) by (subst s1; footprint).
      assert (U2 : unsent s s2)
        by (transitivity s1; [exact U1 | clear Hn2'; subst s2; footprint]).
      eapply wp_mono;
        [apply wp_conj;
           [apply wp_conj;
              [apply wp_conj; [apply nameserver_failed_quiet | apply nameserver_failed_down]
              | apply nameserver_failed_sent_kept]
           | apply nameserver_failed_unsent]|].
      intros u s3 (((Q3 & n3 & Hn3 & D3) & K3) & U3). cbv beta.
      destruct (settled_timedout _ _ _ _ (quiet_settled _ _ Q3) Hn2')
        as (n3' & Hn3' & T3).
      assert (n3' = n3) as -> by congruence.
      split; [exists n3; auto|].
      split.
      { destruct (quiet_request _ _ _ _ Q3 Hr2) as (r3 & Hr3 & SR3 & SS3).
        exists r3. split; [exact Hr3|]. split; [exact SR3|]. split; [exact SS3|].
        intros [Htx|Hno]; [|congruence].
        destruct (K3 req r Hr2 Htx) as (r3' & Hr3' & Hk & _).
        assert (r3' = r3) as -> by congruence. congruence. }
      destruct Q3 as (T & Ht & _). split; [exact Ht|].
      split; [exact (transport_config s2 s3 T)|].
      transitivity s2; assumption.
    - split; [eexists; split; [exact Hn1 | reflexivity]|].
      split; [exists r; repeat split; auto|]. subst s1.
      split; [reflexivity|]. split; [repeat split | footprint]. }
  intros u s3 ((n3 & Hn3 & N3) & (r3 & Hr3 & SR3 & SS3 & K3) & T3 & C3 & U3).
  apply wp_bind, wp_update_req. intros r3' Hr3'. assert (r3' = r3) as -> by congruence.
  match goal with |- wp _ _ ?st => set (s4 := st) end.
  assert (Hr4 : requests s4 !! req = Some (set_r_timeout_event false r3)).
  { subst s4. cbn. apply lookup_insert_eq. }
  assert (S4 : settled s3 s4) by (subst s4; footprint).
  assert (T4 : trace s4 = trace s) by exact T3.
  apply wp_bind, wp_deref_req. intros r4 Hr4'.
  assert (r4 = set_r_timeout_event false r3) as -> by congruence.
  apply wp_bind, wp_get.
  destruct SS3 as (X1 & X2 & X3). destruct C3 as (_ & _ & C3 & _).
  change (r_tx_count (set_r_timeout_event false r3)) with (r_tx_count r3).
  change (global_max_retransmits s4) with (global_max_retransmits s3).
  rewrite X1, C3.
  (* what settled runs leave of the server's standing *)
  assert (Hserver : forall s', settled s4 s' ->
            exists n', nameservers s' !! ns = Some n' /\
              if ns_timedout n + 1 >? global_max_nameserver_timeout s
              then ns_timedout n' = 0 /\ ns_state n' = false
              else ns_timedout n' = ns_timedout n + 1).
  { intros s' S'. assert (S3' : settled s3 s') by (transitivity s4; assumption).
    destruct (ns_timedout n + 1 >? global_max_nameserver_timeout s).
    - destruct N3 as (N3a & N3b).
      destruct (settled_down _ _ _ _ S3' Hn3 N3b) as (n' & Hn' & D' & T').
      exists n'. split; [exact Hn'|]. split; congruence.
    - destruct (settled_timedout _ _ _ _ S3' Hn3) as (n' & Hn' & T').
      exists n'. split; [exact Hn'|]. congruence. }
  destruct (r_tx_count r >=? global_max_retransmits s).
  - (* this request has failed *)
    apply wp_bind.
    eapply wp_mono; [eapply reply_callback_error_spec;
                     [discriminate | discriminate | exact Hr4]|].
    intros u' s5 (S5 & C5). cbv beta.
    eapply wp_mono; [apply request_finished_spec|].
    intros u'' s6 (S6 & G6). cbv beta. split.
    + apply Hserver. transitivity s5; [exact S5 | apply steady_settled, S6].
    + split; [|exact G6].
      destruct S6 as (_ & -> & _). rewrite C5.
      destruct SR3 as (_ & _ & _ & _ & P & Cb & _).
      change (callbacks (trace s4)) with (callbacks (trace s3)). rewrite T3.
      cbn. rewrite P, Cb. reflexivity.
  - (* retransmit it *)
    apply wp_bind.
    eapply wp_mono;
      [apply wp_conj; [apply evdns_request_transmit_transport
                      | apply (evdns_request_transmit_outcome_ex req _ s4 Hr4)]|].
    intros rc s5 (T5 & ns' & n4 & Hns' & Hn4 & X5). apply wp_ret. split.
    + apply Hserver, transport_settled, T5.
    + split.
      * rewrite (transport_callbacks _ _ T5).
        change (callbacks (trace s4)) with (callbacks (trace s3)). rewrite T3. reflexivity.
      * destruct SR3 as (P & _). destruct U3 as (E3 & _ & Hch).
        change (nameservers s4) with (nameservers s3) in Hn4.
        specialize (Hch ns'). rewrite Hn4 in Hch.
        destruct (nameservers s !! ns') as [n0|] eqn:Hn0x; [|destruct Hch].
        destruct Hch as (Hch & _).
        exists ns', n0, rc. split; [exact Hn0x|]. split.
        { intros Hk. cbn in Hns'. rewrite (K3 Hk) in Hns'. congruence. }
        change (r_request (set_r_timeout_event false r3)) with (r_request r3) in X5.
        change (r_tx_count (set_r_timeout_event false r3)) with (r_tx_count r3) in X5.
        change (r_timeout_event (set_r_timeout_event false r3)) with false in X5.
        change (send_answer s4) with (send_answer s3) in X5.
        assert (Ea : send_answer s3 = send_answer s) by (unfold send_answer; rewrite E3; reflexivity).
        rewrite P, X1, T4, Ea, Hch in X5. exact X5.
Qed.



(** C8 at a request sent three times whose nameserver has timed out
    three times: the fourth timeout marks the nameserver failed and
    gives the request up with TIMEOUT; and at a request sent once
    whose nameserver has not timed out before: it is sent again. *)
Lemma request_timeout_spec_witness :
  (requests (lone 3 3) !! 2%nat = Some (lone_request 3) /\
   r_ns (lone_request 3) = Some 1%nat /\
   nameservers (lone 3 3) !! 1%nat = Some (lone_nameserver 3) /\
   value (evdns_request_timeout_callback 2 (lone 3 3)) = Some tt /\
   wp (evdns_request_timeout_callback 2)
      (fun _ s' =>
         (exists n', nameservers s' !! 1%nat = Some n' /\
                     ns_timedout n' = 0 /\ ns_state n' = false) /\
         callbacks (trace s') =
           [EvCallback (user_fn 1) DNS_ERR_TIMEOUT 0 0 0 data_null 1] /\
         gone 2 s')
      (lone 3 3)) /\
  (requests (lone 0 1) !! 2%nat = Some (lone_request 1) /\
   r_ns (lone_request 1) = Some 1%nat /\
   nameservers (lone 0 1) !! 1%nat = Some (lone_nameserver 0) /\
   value (evdns_request_timeout_callback 2 (lone 0 1)) = Some tt /\
   wp (evdns_request_timeout_callback 2)
      (fun _ s' =>
         (exists n', nameservers s' !! 1%nat = Some n' /\ ns_timedout n' = 1) /\
         callbacks (trace s') = [] /\
         exists ns' n' rc,
           nameservers (lone 0 1) !! ns' = Some n' /\
           (1 <> 0 \/ false = false -> ns' = 1%nat) /\
           transmit_outcome 2 ns' (r_request (lone_request 1)) (ns_choaked n')
             SendFull 1 false [] rc s')
      (lone 0 1)).
Proof.
  split.
  - split; [reflexivity|]. split; [reflexivity|]. split; [reflexivity|].
    split; [vm_compute; reflexivity|].
    eapply wp_mono.
    + apply (request_timeout_spec (lone 3 3) 2%nat (lone_request 3) 1%nat
               (lone_nameserver 3)); reflexivity.
    + intros u s' H. exact H.
  - split; [reflexivity|]. split; [reflexivity|]. split; [reflexivity|].
    split; [vm_compute; reflexivity|].
    eapply wp_mono.
    + apply (request_timeout_spec (lone 0 1) 2%nat (lone_request 1) 1%nat
               (lone_nameserver 0)); reflexivity.
    + intros u s' H. exact H.
Defined.


(** ** Attempts *)

Lemma encodes_true name :
  encodes name = true <->
  strlen name <= 255 /\ Forall (fun l => strlen l <= 63) (labels name).
Proof.
  unfold encodes. rewrite andb_true_iff, Z.leb_le, forallb_forall, List.Forall_forall.
  split; intros (H1 & H2); (split; [exact H1|]); intros l Hl;
    specialize (H2 l Hl); [apply Z.leb_le in H2 | apply Z.leb_le]; exact H2.
Qed.

(** [evdns_request_data_build] succeeds on the names that [encodes]
    accepts, and on no other. *)
Lemma encodes_build name trans_id type :
  if encodes name
  then exists packet,
         evdns_request_data_build name (strlen name) trans_id type CLASS_INET
           (evdns_request_len (strlen name)) = inr packet
  else exists e,
         evdns_request_data_build name (strlen name) trans_id type CLASS_INET
           (evdns_request_len (strlen name)) = inl e.
Proof.
  pose proof (evdns_request_data_build_classes name trans_id type CLASS_INET) as H.
  destruct (encodes name) eqn:E.
  - apply encodes_true in E. destruct E as (E1 & E2).
    destruct (evdns_request_data_build_ok name trans_id type CLASS_INET E1 E2)
      as (t & _ & _ & _ & ->). eauto.
  - destruct (evdns_request_data_build name (strlen name) trans_id type CLASS_INET
                (evdns_request_len (strlen name))) as [e|packet]; [eauto|].
    destruct H as (H1 & H2 & _).
    assert (encodes name = true) by (apply encodes_true; auto). congruence.
Qed.

#[local] Instance ring_same_preorder : PreOrder ring_same.
Proof.
  split; [intros s; reflexivity | intros a b c; unfold ring_same; congruence].
Qed.

Lemma transaction_id_scan_ring_same l : forall started_at trans_id,
  preserves ring_same (transaction_id_scan l started_at trans_id).
Proof.
  induction l as [|req l IH]; intros started_at trans_id;
    cbn [transaction_id_scan]; pres.
Qed.
#[local] Hint Resolve transaction_id_scan_ring_same : pres.

Lemma transaction_id_pick_loop_ring_same entropy :
  preserves ring_same (transaction_id_pick_loop entropy).
Proof.
  induction entropy as [|x entropy IH]; cbn [transaction_id_pick_loop]; pres.
Qed.
#[local] Hint Resolve transaction_id_pick_loop_ring_same : pres.

Lemma transaction_id_pick_ring_same : preserves ring_same transaction_id_pick.
Proof. unfold transaction_id_pick. pres. Qed.
#[local] Hint Resolve transaction_id_pick_ring_same : pres.

Lemma transaction_id_scan_unsent l : forall started_at trans_id,
  preserves unsent (transaction_id_scan l started_at trans_id).
Proof.
  induction l as [|req l IH]; intros started_at trans_id;
    cbn [transaction_id_scan]; pres.
Qed.
#[local] Hint Resolve transaction_id_scan_unsent : pres.

Lemma transaction_id_pick_loop_unsent entropy :
  preserves unsent (transaction_id_pick_loop entropy).
Proof.
  induction entropy as [|x entropy IH]; cbn [transaction_id_pick_loop]; pres.
Qed.
#[local] Hint Resolve transaction_id_pick_loop_unsent : pres.

Lemma transaction_id_pick_unsent : preserves unsent transaction_id_pick.
Proof. unfold transaction_id_pick. pres. Qed.
#[local] Hint Resolve transaction_id_pick_unsent : pres.

Lemma malloc_unsent : preserves unsent malloc.
Proof. intros s. apply wp_malloc. footprint. Qed.
#[local] Hint Resolve malloc_unsent : pres.

Lemma request_new_unsent type name flags cb ptr :
  preserves unsent (request_new type name flags cb ptr).
Proof. unfold request_new. pres. Qed.
#[local] Hint Resolve request_new_unsent : pres.

(** Whether the new request gets a nameserver. *)
Lemma request_new_ns type name flags cb ptr s :
  wp (request_new type name flags cb ptr)
     (fun res s' =>
        match res with
        | None => requests s' = requests s
        | Some req =>
            exists r', requests s' !! req = Some r' /\
              (r_ns r' = None <->
               (global_requests_inflight s <? global_max_requests_inflight s)
               && has_nameserver s = false)
        end) s.
Proof.
  unfold request_new. apply wp_bind, wp_get. cbv zeta.
  apply wp_bind.
  apply wp_mono with
    (Q := fun (_ : Z) s1 => ring_same s s1 /\ requests s1 = requests s).
  { destruct (global_requests_inflight s <? global_max_requests_inflight s).
    - eapply wp_mono;
        [apply wp_conj; [apply transaction_id_pick_ring_same |
                         apply transaction_id_pick_same_heap]|].
      intros a s1 (Q1 & _ & A1). split; assumption.
    - apply wp_ret. split; reflexivity. }
  intros trans_id s1 (Q1 & A1).
  apply wp_bind, wp_malloc.
  match goal with |- wp _ _ ?st => set (s2 := st) end.
  destruct (evdns_request_data_build name (strlen name) trans_id type CLASS_INET
              (evdns_request_len (strlen name))) as [e|packet] eqn:B.
  { apply wp_ret. exact A1. }
  apply wp_bind.
  apply wp_mono with
    (Q := fun (ns : option nat) s3 =>
            ns = None <->
            (global_requests_inflight s <? global_max_requests_inflight s)
            && has_nameserver s = false).
  { destruct (global_requests_inflight s <? global_max_requests_inflight s) eqn:C.
    - eapply wp_mono; [apply (nameserver_pick_pres unsent); footprint|].
      intros ns s3 (_ & Hns). cbv beta. rewrite Hns.
      change (server_head s2) with (server_head s1). rewrite Q1.
      unfold has_nameserver. cbn [andb].
      destruct (server_head s); split; congruence.
    - apply wp_ret. cbn [andb]. split; reflexivity. }
  intros ns s3 Hns.
  apply wp_bind, wp_modify. apply wp_ret.
  eexists. split; [cbn; apply lookup_insert_eq|]. exact Hns.
Qed.


(** [request_submit]: onto the inflight ring and to the socket, or
    onto the waiting ring. *)
Lemma request_submit_effect req r s :
  requests s !! req = Some r ->
  wp (request_submit req)
     (fun _ s' =>
        match r_ns r with
        | Some ns =>
            req_head s' = req_head s ++ [req] /\
            req_waiting_head s' = req_waiting_head s /\
            global_requests_inflight s' = global_requests_inflight s + 1 /\
            global_requests_waiting s' = global_requests_waiting s /\
            exists n rc,
              nameservers s !! ns = Some n /\
              transmit_outcome req ns (r_request r) (ns_choaked n) (send_answer s)
                (r_tx_count r) (r_timeout_event r) (trace s) rc s'
        | None =>
            req_waiting_head s' = req_waiting_head s ++ [req] /\
            req_head s' = req_head s /\
            global_requests_waiting s' = global_requests_waiting s + 1 /\
            global_requests_inflight s' = global_requests_inflight s /\
            requests s' = requests s /\
            trace s' = trace s
        end) s.
Proof.
  intros Hr. unfold request_submit.
  apply wp_bind, wp_deref_req. intros r0 Hr0. assert (r0 = r) as -> by congruence.
  destruct (r_ns r) as [ns|] eqn:Hns.
  - unfold evdns_request_insert.
    apply wp_bind, wp_modify. apply wp_bind, wp_modify. cbn [set_ring ring].
    match goal with |- wp _ _ ?st => set (s2 := st) end.
    assert (Hr2 : requests s2 !! req = Some r) by exact Hr.
    apply wp_bind.
    eapply wp_mono;
      [apply wp_conj; [apply evdns_request_transmit_transport
                      | apply (evdns_request_transmit_outcome_ex req r s2 Hr2)]|].
    intros rc s3 (T3 & ns0 & n & Hns0 & Hn & X). apply wp_ret.
    assert (ns0 = ns) as -> by congruence.
    destruct T3 as (E1 & E2 & E3 & E4 & _).
    split; [rewrite E1; reflexivity|]. split; [rewrite E2; reflexivity|].
    split; [rewrite E3; reflexivity|]. split; [rewrite E4; reflexivity|].
    exists n, rc. split; [exact Hn | exact X].
  - unfold evdns_request_insert.
    apply wp_bind, wp_modify. apply wp_modify. cbn [set_ring ring].
    repeat split; reflexivity.
Qed.

(** A new request, dressed and submitted. *)
Lemma request_submit_attempted p r5 s s5 name type :
  requests s5 !! p = Some r5 ->
  query_for name type (r_request r5) ->
  r_tx_count r5 = 0 ->
  r_timeout_event r5 = false ->
  (r_ns r5 = None <->
   (global_requests_inflight s <? global_max_requests_inflight s)
   && has_nameserver s = false) ->
  req_head s5 = req_head s ->
  req_waiting_head s5 = req_waiting_head s ->
  global_requests_inflight s5 = global_requests_inflight s ->
  global_requests_waiting s5 = global_requests_waiting s ->
  unsent s s5 ->
  wp (request_submit p)
     (fun _ s' =>
        attempted p name type s s' /\
        exists r', requests s' !! p = Some r' /\ same_request r5 r') s5.
Proof.
  intros Hr Hq Htx Htm Hns E1 E2 E3 E4 (U1 & U2 & U3).
  eapply wp_mono;
    [apply wp_conj; [apply (request_submit_keeps p r5 s5 Hr)
                    | apply (request_submit_effect p r5 s5 Hr)]|].
  intros u s' ((r' & Hr' & SR) & H). cbv beta.
  split; [|exists r'; split; assumption].
  exists r'. split; [exact Hr'|].
  pose proof SR as (P & _). split; [rewrite P; exact Hq|].
  assert (Ea : send_answer s5 = send_answer s)
    by (unfold send_answer; rewrite U1; reflexivity).
  destruct (r_ns r5) as [ns|] eqn:N.
  - destruct ((global_requests_inflight s <? global_max_requests_inflight s)
              && has_nameserver s) eqn:C.
    2:{ destruct Hns as (_ & Hns). specialize (Hns eq_refl). discriminate. }
    destruct H as (H1 & H2 & H3 & H4 & n5 & rc & Hn5 & X).
    split; [congruence|]. split; [congruence|]. split; [lia|]. split; [congruence|].
    specialize (U3 ns). rewrite Hn5 in U3.
    destruct (nameservers s !! ns) as [n|] eqn:Hn; [|destruct U3].
    destruct U3 as (U3 & _).
    exists ns, n, rc. split; [exact Hn|].
    rewrite P. rewrite Htx, Htm, Ea, U2, U3 in X. exact X.
  - destruct Hns as (Hns & _). rewrite (Hns eq_refl).
    destruct H as (H1 & H2 & H3 & H4 & H5 & H6).
    split; [congruence|]. split; [congruence|]. split; [lia|]. split; [congruence|].
    split; [|congruence].
    rewrite H5, Hr in Hr'. injection Hr' as <-. exact N.
Qed.


(** [request_new] makes a request exactly for the names that can be
    encoded; the new request has a nameserver when the inflight cap
    has room and a nameserver is configured. *)
Lemma request_new_made type name flags cb ptr s :
  wp (request_new type name flags cb ptr)
     (fun res s' =>
        if encodes name
        then
          res = Some (next_ptr s) /\
          unsent s s' /\
          exists s3 packet trans_id ns,
            quiet s s3 /\
            evdns_request_data_build name (strlen name) trans_id type CLASS_INET
              (evdns_request_len (strlen name)) = inr packet /\
            (ns = None <->
             (global_requests_inflight s <? global_max_requests_inflight s)
             && has_nameserver s = false) /\
            s' = set_requests
                   (<[next_ptr s := new_request packet type ptr cb ns trans_id]>
                      (requests s3)) s3
        else
          res = None /\ quiet s s' /\ requests s' = requests s) s.
Proof.
  eapply wp_mono;
    [apply wp_conj;
       [apply request_new_spec
       | apply wp_conj; [apply request_new_ns
                        | apply request_new_unsent]]|].
  intros [req|] s' (H1 & H2 & U); cbv beta.
  - destruct H1 as (-> & s3 & packet & trans_id & ns & Q3 & A3 & B & _ & ->).
    pose proof (encodes_build name trans_id type) as E.
    destruct (encodes name).
    2:{ destruct E as (e & E). congruence. }
    split; [reflexivity|]. split; [exact U|].
    exists s3, packet, trans_id, ns. split; [exact Q3|]. split; [exact B|].
    split; [|reflexivity].
    destruct H2 as (r' & Hr' & T). cbn in Hr'. rewrite lookup_insert_eq in Hr'.
    injection Hr' as <-. exact T.
  - destruct H1 as (Q & trans_id & e & B).
    pose proof (encodes_build name trans_id type) as E.
    destruct (encodes name).
    1:{ destruct E as (p & E). congruence. }
    auto.
Qed.

Lemma quiet_not_attempted s s' :
  quiet s s' -> requests s' = requests s -> not_attempted (requests s) s s'.
Proof.
  intros ((E1 & E2 & E3 & E4 & _) & T & _) R.
  unfold not_attempted. repeat split; assumption.
Qed.

(** The first attempt of a search, whether or not its name can be
    encoded. *)
Lemma search_request_new_attempt s name flags cb arg gp gs c :
  Z.land flags DNS_QUERY_NO_SEARCH = 0 ->
  global_search_state s = Some gp ->
  search_states s !! gp = Some gs ->
  ss_num_domains gs = Z.of_nat (List.length (ss_head gs)) ->
  ss_head gs <> [] ->
  search_order (ss_ndots gs) (ss_head gs) name !! 0%nat = Some c ->
  wp (search_request_new TYPE_A name flags cb arg)
     (fun rc s' =>
        if encodes c
        then
          rc = 0 /\
          attempted (next_ptr s) c TYPE_A s s' /\
          exists r', requests s' !! next_ptr s = Some r' /\
            searching gp gs name flags 0 r'
        else
          rc = 1 /\ not_attempted (requests s) s s') s.
Proof.
  intros Hflags Hgp Hgs Hnum Hne Hc. unfold search_request_new.
  apply wp_bind, wp_assert. intros _. apply wp_bind, wp_get. cbv zeta.
  rewrite Hflags. cbn [Z.eqb negb]. rewrite Hgp.
  apply wp_bind, wp_deref_search. intros gs' Hgs'.
  assert (gs' = gs) as -> by congruence.
  assert (Hpos : 0 < ss_num_domains gs).
  { rewrite Hnum. destruct (ss_head gs); [congruence | simpl; lia]. }
  destruct (ss_num_domains gs =? 0) eqn:E; [apply Z.eqb_eq in E; lia|].
  apply wp_bind.
  (* the request once created and given its index *)
  apply wp_mono with
    (Q := fun created s1 =>
       if encodes c
       then
         exists packet trans_id ns idx,
           created = Some (next_ptr s) /\
           requests s1 !! next_ptr s =
             Some (set_r_search_index idx (new_request packet TYPE_A arg cb ns trans_id)) /\
           (req_head s1 = req_head s /\
            req_waiting_head s1 = req_waiting_head s /\
            global_requests_inflight s1 = global_requests_inflight s /\
            global_requests_waiting s1 = global_requests_waiting s) /\
           unsent s s1 /\
           (ns = None <->
            (global_requests_inflight s <? global_max_requests_inflight s)
            && has_nameserver s = false) /\
           evdns_request_data_build c (strlen c) trans_id TYPE_A CLASS_INET
             (evdns_request_len (strlen c)) = inr packet /\
           idx < ss_num_domains gs /\
           search_position (ss_ndots gs) name idx = 0
       else created = None /\ not_attempted (requests s) s s1).
  { unfold search_order in Hc. unfold search_position.
    assert (Hmade : forall idx,
      idx < ss_num_domains gs ->
      (if string_num_dots name >=? ss_ndots gs then idx + 1 else idx) = 0 ->
      wp (req <- request_new TYPE_A c flags cb arg ;;
          match req with
          | None => ret None
          | Some req => update_req req (set_r_search_index idx) ;; ret (Some req)
          end)
         (fun created s1 =>
            if encodes c
            then
              exists packet trans_id ns idx,
                created = Some (next_ptr s) /\
                requests s1 !! next_ptr s =
                  Some (set_r_search_index idx
                          (new_request packet TYPE_A arg cb ns trans_id)) /\
                (req_head s1 = req_head s /\
            req_waiting_head s1 = req_waiting_head s /\
            global_requests_inflight s1 = global_requests_inflight s /\
            global_requests_waiting s1 = global_requests_waiting s) /\
                unsent s s1 /\
                (ns = None <->
                 (global_requests_inflight s <? global_max_requests_inflight s)
                 && has_nameserver s = false) /\
                evdns_request_data_build c (strlen c) trans_id TYPE_A CLASS_INET
                  (evdns_request_len (strlen c)) = inr packet /\
                idx < ss_num_domains gs /\
                (if string_num_dots name >=? ss_ndots gs then idx + 1 else idx) = 0
            else created = None /\ not_attempted (requests s) s s1) s).
    { intros idx Hidx Hposn.
      apply wp_bind. eapply wp_mono; [apply request_new_made|].
      intros res s1. cbv beta. destruct (encodes c).
      - intros (-> & U & s3 & packet & trans_id & ns & Q3 & B & T & ->).
        apply wp_bind. eapply wp_update_req_known; [cbn; apply lookup_insert_eq|].
        apply wp_ret. exists packet, trans_id, ns, idx.
        split; [reflexivity|]. split; [cbn; rewrite lookup_insert_eq; reflexivity|].
        split.
        { destruct Q3 as ((A1 & A2 & A3 & A4 & _) & _). simpl_state. auto. }
        split.
        { destruct U as (U1 & U2 & U3). split; [exact U1|]. split; [exact U2|exact U3]. }
        split; [exact T|]. split; [exact B|]. split; assumption.
      - intros (-> & Q & R). apply wp_ret. split; [reflexivity|].
        apply quiet_not_attempted; assumption. }
    destruct (string_num_dots name >=? ss_ndots gs) eqn:D.
    - cbn in Hc. injection Hc as <-. apply (Hmade (-1)); lia.
    - rewrite lookup_app_l in Hc
        by (rewrite length_map; destruct (ss_head gs); [congruence | simpl; lia]).
      rewrite lookup_map in Hc.
      destruct (ss_head gs !! 0%nat) as [postfix|] eqn:P; [|discriminate].
      cbn in Hc. injection Hc as <-.
      apply wp_bind. eapply wp_mono; [apply (search_make_new_spec gs 0 name postfix); [lia | exact P]|].
      intros new_name s0 (-> & ->). apply (Hmade 0); lia. }
  intros created s1. cbv beta. destruct (encodes c).
  2:{ intros (-> & N). apply wp_ret. auto. }
  intros (packet & trans_id & ns & idx & -> & Hr1 & Q1 & U1 & T & B & Hidx & Hposn).
  apply wp_bind. eapply wp_update_req_known; [exact Hr1|]. simpl_state.
  apply wp_bind. eapply wp_update_req_known; [simpl_state; apply lookup_insert_eq|].
  simpl_state.
  apply wp_bind. eapply wp_update_req_known; [simpl_state; apply lookup_insert_eq|].
  simpl_state.
  apply wp_bind, wp_update_search. simpl_state. intros st Hst.
  apply wp_bind.
  destruct Q1 as (A1 & A2 & A3 & A4). simpl_state.
  eapply wp_mono;
    [eapply (request_submit_attempted (next_ptr s) _ s _ c TYPE_A);
       [simpl_state; apply lookup_insert_eq
       | exists trans_id; exact B
       | reflexivity
       | reflexivity
       | exact T
       | exact A1 | exact A2 | exact A3 | exact A4
       | destruct U1 as (U1 & U2 & U3); split; [exact U1|]; split; [exact U2 | exact U3]]|].
  intros u s6 (At & r' & Hr' & SR). apply wp_ret. split; [reflexivity|].
  split; [exact At|].
  exists r'. split; [exact Hr'|].
  destruct SR as (E1 & _ & _ & E4 & _ & _ & E7 & E8 & E9 & E10 & _).
  cbn in E1, E4, E7, E8, E9, E10.
  unfold searching. rewrite E7, E8, E9, E10. auto.
Qed.


(** The attempts that follow, whether or not their names can be
    encoded. *)
Lemma search_try_next_attempt s req r sp st name flags k :
  requests s !! req = Some r ->
  (req < next_ptr s)%nat ->
  search_states s !! sp = Some st ->
  ss_num_domains st = Z.of_nat (List.length (ss_head st)) ->
  searching sp st name flags k r ->
  let m := <[req := set_r_search_index (r_search_index r + 1) r]> (requests s) in
  match search_order (ss_ndots st) (ss_head st) name !! S k with
  | Some c =>
      wp (search_try_next req)
         (fun rc s' =>
            if encodes c
            then
              rc = 0 /\
              attempted (next_ptr s) c (r_request_type r) s s' /\
              exists r', requests s' !! next_ptr s = Some r' /\
                (searching sp st name flags (S k) r' \/ closing st name (S k) r')
            else
              rc = 1 /\ not_attempted m s s') s
  | None =>
      wp (search_try_next req)
         (fun rc s' =>
            rc = 1 /\ not_attempted m s s' /\ next_ptr s' = next_ptr s) s
  end.
Proof.
  intros Hr Hlt Hst Hnum (Hsp & Hon & Hfl & Hidx & Hpos) m.
  set (idx := r_search_index r) in *.
  assert (Hstart : forall (Q : Z -> state -> Prop),
    (let s1 := set_requests m s in
     wp (if idx + 1 >=? ss_num_domains st
         then
           origname <- req_search_origname req ;;
           if string_num_dots origname <? ss_ndots st
           then
             newreq <- request_new (r_request_type r) origname (r_search_flags r)
                         (r_user_callback r) (r_user_pointer r) ;;
             match newreq with
             | Some newreq => request_submit newreq ;; ret 0
             | None => ret 1
             end
           else ret 1
         else
           origname <- req_search_origname req ;;
           new_name <- search_make_new st (idx + 1) origname ;;
           newreq <- request_new (r_request_type r) new_name (r_search_flags r)
                       (r_user_callback r) (r_user_pointer r) ;;
           match newreq with
           | None => ret 1
           | Some newreq =>
               update_req newreq (set_r_search_origname (r_search_origname r)) ;;
               update_req req (set_r_search_origname None) ;;
               update_req newreq (set_r_search_state (r_search_state r)) ;;
               update_req newreq (set_r_search_flags (r_search_flags r)) ;;
               update_req newreq (set_r_search_index (idx + 1)) ;;
               update_search sp (fun st => set_ss_refcount (ss_refcount st + 1) st) ;;
               request_submit newreq ;;
               ret 0
           end) Q s1) ->
    wp (search_try_next req) Q s).
  { intros Q H. unfold search_try_next.
    apply wp_bind, wp_deref_req. intros r0 Hr0. assert (r0 = r) as -> by congruence.
    rewrite Hsp.
    apply wp_bind. eapply wp_update_req_known; [exact Hr|].
    apply wp_bind, wp_deref_req. simpl_state. rewrite lookup_insert_eq.
    intros r1 Hr1. injection Hr1 as <-.
    apply wp_bind, wp_deref_search. simpl_state. intros st0 Hst0.
    assert (st0 = st) as -> by congruence.
    exact H. }
  assert (Horig : forall (k0 : string -> M Z) (Q : Z -> state -> Prop),
    let s1 := set_requests m s in
    wp (k0 name) Q s1 ->
    wp (origname <- req_search_origname req ;; k0 origname) Q s1).
  { intros k0 Q s1 H. apply wp_bind. unfold req_search_origname.
    apply wp_bind, wp_deref_req. subst s1 m. simpl_state. rewrite lookup_insert_eq.
    intros r1 Hr1. injection Hr1 as <-. cbn. rewrite Hon. apply wp_ret. exact H. }
  assert (Hquiet : not_attempted m s (set_requests m s)).
  { unfold not_attempted. simpl_state. repeat split; reflexivity. }
  unfold search_position in Hpos.
  destruct (idx + 1 >=? ss_num_domains st) eqn:E.
  - (* no more postfixes to try *)
    rewrite Z.geb_leb in E. apply Z.leb_le in E.
    destruct (string_num_dots name >=? ss_ndots st) eqn:D.
    + (* every candidate has been tried *)
      assert (k = List.length (ss_head st)) as -> by lia.
      rewrite (search_order_end _ _ _ D).
      apply Hstart. cbv zeta.
      replace (idx + 1 >=? ss_num_domains st) with true
        by (symmetry; rewrite Z.geb_leb; apply Z.leb_le; lia).
      apply Horig. rewrite geb_ltb, D. apply wp_ret. auto.
    + (* the bare name closes the walk *)
      assert (Hk : S k = List.length (ss_head st)) by lia. rewrite Hk.
      rewrite (search_order_bare_last _ _ _ D).
      apply Hstart. cbv zeta.
      replace (idx + 1 >=? ss_num_domains st) with true
        by (symmetry; rewrite Z.geb_leb; apply Z.leb_le; lia).
      apply Horig. rewrite geb_ltb, D. cbn [negb].
      apply wp_bind. eapply wp_mono; [apply request_new_made|].
      intros newreq s2. cbv beta. simpl_state. destruct (encodes name).
      2:{ intros (-> & ((A1 & A2 & A3 & A4 & _) & T & _) & R). apply wp_ret.
          split; [reflexivity|]. unfold not_attempted. simpl_state.
          repeat split; assumption. }
      intros (-> & U & s3 & packet & trans_id & ns & Q3 & B & T & ->).
      destruct Q3 as ((A1 & A2 & A3 & A4 & _) & _). simpl_state.
      apply wp_bind.
      eapply wp_mono;
        [eapply (request_submit_attempted (next_ptr s) _ s _ name (r_request_type r));
           [simpl_state; apply lookup_insert_eq
           | exists trans_id; exact B
           | reflexivity
           | reflexivity
           | exact T
           | exact A1 | exact A2 | exact A3 | exact A4
           | destruct U as (U1 & U2 & U3); split; [exact U1|]; split; [exact U2 | exact U3]]|].
      intros u s6 (At & r' & Hr' & SR). apply wp_ret. split; [reflexivity|].
      split; [exact At|].
      exists r'. split; [exact Hr'|].
      destruct SR as (E1 & _ & _ & E4 & _ & _ & E7 & E8 & E9 & E10 & _).
      cbn in E1, E4, E7, E8, E9, E10.
      right. unfold closing. rewrite E8. split; [reflexivity|].
      split; [|reflexivity]. rewrite Z.geb_leb in D. apply Z.leb_gt in D. exact D.
  - (* the next postfix *)
    rewrite Z.geb_leb in E. apply Z.leb_gt in E.
    assert (Hi : 0 <= idx + 1).
    { destruct (string_num_dots name >=? ss_ndots st); lia. }
    destruct (lookup_lt_is_Some_2 (ss_head st) (Z.to_nat (idx + 1))) as (postfix & P);
      [lia|].
    pose proof (search_order_suffix (ss_ndots st) _ name _ _ P) as Ho.
    assert (Hk : (if string_num_dots name >=? ss_ndots st
                  then S (Z.to_nat (idx + 1)) else Z.to_nat (idx + 1)) = S k).
    { destruct (string_num_dots name >=? ss_ndots st); lia. }
    rewrite Hk in Ho. rewrite Ho.
    apply Hstart. cbv zeta.
    replace (idx + 1 >=? ss_num_domains st) with false
      by (symmetry; rewrite Z.geb_leb; apply Z.leb_gt; lia).
    apply Horig.
    apply wp_bind.
    eapply wp_mono; [apply (search_make_new_spec st (idx + 1) name postfix); assumption|].
    intros new_name s0 (-> & ->).
    apply wp_bind. eapply wp_mono; [apply request_new_made|].
    intros newreq s2. cbv beta. simpl_state. destruct (encodes (with_suffix name postfix)).
    2:{ intros (-> & ((A1 & A2 & A3 & A4 & _) & T & _) & R). apply wp_ret.
        split; [reflexivity|]. unfold not_attempted. simpl_state.
        repeat split; assumption. }
    intros (-> & U & s3 & packet & trans_id & ns & Q3 & B & T & ->).
    destruct Q3 as ((A1 & A2 & A3 & A4 & _) & _). simpl_state.
    assert (Hne : req <> next_ptr s) by lia.
    apply wp_bind. eapply wp_update_req_known; [simpl_state; apply lookup_insert_eq|].
    simpl_state.
    apply wp_bind, wp_update_req. simpl_state. intros r4 Hr4.
    apply wp_bind. eapply wp_update_req_known;
      [simpl_state; rewrite lookup_insert_ne by exact Hne; apply lookup_insert_eq|].
    simpl_state.
    apply wp_bind. eapply wp_update_req_known; [simpl_state; apply lookup_insert_eq|].
    simpl_state.
    apply wp_bind. eapply wp_update_req_known; [simpl_state; apply lookup_insert_eq|].
    simpl_state.
    apply wp_bind, wp_update_search. simpl_state. intros st5 Hst5.
    apply wp_bind.
    eapply wp_mono;
      [eapply (request_submit_attempted (next_ptr s) _ s _
                 (with_suffix name postfix) (r_request_type r));
         [simpl_state; apply lookup_insert_eq
         | exists trans_id; exact B
         | reflexivity
         | reflexivity
         | exact T
         | exact A1 | exact A2 | exact A3 | exact A4
         | destruct U as (U1 & U2 & U3); split; [exact U1|]; split; [exact U2 | exact U3]]|].
    intros u s6 (At & r' & Hr' & SR). apply wp_ret. split; [reflexivity|].
    split; [exact At|].
    exists r'. split; [exact Hr'|].
    destruct SR as (E1 & _ & _ & E4 & _ & _ & E7 & E8 & E9 & E10 & _).
    cbn in E1, E4, E7, E8, E9, E10.
    left. unfold searching, search_position. rewrite E7, E8, E9, E10.
    split; [exact Hsp|]. split; [exact Hon|]. split; [exact Hfl|].
    split; [exact E|].
    destruct (string_num_dots name >=? ss_ndots st); lia.
Qed.


(** C6.  A resolve with searching enabled makes its attempts in the
    order of [search_order]: the bare name first and then each suffix
    in list order when the name has at least ndots dots, each suffix
    in list order first and the bare name last otherwise.
    [search_request_new] makes the first attempt of that list, and
    [search_try_next], called for the request of attempt [k], makes
    attempt [k + 1] or, when the list is used up, none.  An attempt
    is made when its name can be encoded in a query (at most 255
    bytes, each label at most 63): the function returns 0, and the
    new request, whose packet asks for that name, is put at the end
    of the inflight ring and handed to its nameserver's socket, or,
    when the inflight cap is reached or no nameserver is configured,
    at the end of the waiting ring.  At a name that cannot be encoded
    the function returns 1 and neither makes nor sends a request: the
    walk stops there, and the candidates after it are not tried.
    The search state is one whose [num_domains] counts its suffixes,
    as [search_postfix_add] keeps it, and the request walked from has
    been allocated. *)
Theorem search_order_followed :
  (forall s name flags cb arg gp gs c,
     Z.land flags DNS_QUERY_NO_SEARCH = 0 ->
     global_search_state s = Some gp ->
     search_states s !! gp = Some gs ->
     ss_num_domains gs = Z.of_nat (List.length (ss_head gs)) ->
     ss_head gs <> [] ->
     search_order (ss_ndots gs) (ss_head gs) name !! 0%nat = Some c ->
     wp (search_request_new TYPE_A name flags cb arg)
        (fun rc s' =>
           if encodes c
           then
             rc = 0 /\
             attempted (next_ptr s) c TYPE_A s s' /\
             exists r', requests s' !! next_ptr s = Some r' /\
               searching gp gs name flags 0 r'
           else
             rc = 1 /\ not_attempted (requests s) s s') s) /\
  (forall s req r sp st name flags k,
     requests s !! req = Some r ->
     (req < next_ptr s)%nat ->
     search_states s !! sp = Some st ->
     ss_num_domains st = Z.of_nat (List.length (ss_head st)) ->
     searching sp st name flags k r ->
     let m := <[req := set_r_search_index (r_search_index r + 1) r]> (requests s) in
     match search_order (ss_ndots st) (ss_head st) name !! S k with
     | Some c =>
         wp (search_try_next req)
            (fun rc s' =>
               if encodes c
               then
                 rc = 0 /\
                 attempted (next_ptr s) c (r_request_type r) s s' /\
                 exists r', requests s' !! next_ptr s = Some r' /\
                   (searching sp st name flags (S k) r' \/
                    closing st name (S k) r')
               else
                 rc = 1 /\ not_attempted m s s') s
     | None =>
         wp (search_try_next req)
            (fun rc s' =>
               rc = 1 /\ not_attempted m s s' /\ next_ptr s' = next_ptr s) s
     end).
Proof.
  split.
  - intros. eapply search_request_new_attempt; eauto.
  - intros. eapply search_try_next_attempt; eauto.
Qed.


(** The walk cut short, from the entry points: with the suffixes
    example.com, [long_suffix] and corp.example the order has four
    candidates, of which the second cannot be encoded; after the
    NXDOMAIN answer to www.example.com nothing more is asked, and
    the callback gets that answer. *)
Lemma search_cut_run :
  List.map encodes (search_order 2 ["example.com"; long_suffix; "corp.example"]%string "www")
    = [true; false; true; true] /\
  observe (fun s => (sent_names (trace s), callback_results (trace s),
                     req_head s, req_waiting_head s))
          (search_cut (fresh [21; 22; 23; 24]))
    = Some (["www.example.com"]%string, [(user_fn 1, DNS_ERR_NOTEXIST)], [], []).
Proof. vm_compute. split; reflexivity. Qed.

(** C6 as stated fails: the candidate after the current one is not
    always attempted.  In [cut_short] the request at 2 is the attempt
    for www.example.com and the next candidate of the order is www
    with [long_suffix]; [search_try_next] returns 1 and makes no
    request, and www.corp.example and www are never tried. *)
Lemma search_stops_at_long_name :
  ~ (forall s req r sp st name flags k c,
       requests s !! req = Some r ->
       (req < next_ptr s)%nat ->
       search_states s !! sp = Some st ->
       ss_num_domains st = Z.of_nat (List.length (ss_head st)) ->
       searching sp st name flags k r ->
       search_order (ss_ndots st) (ss_head st) name !! S k = Some c ->
       wp (search_try_next req)
          (fun rc s' =>
             rc = 0 /\
             exists r', requests s' !! next_ptr s = Some r' /\
               query_for c (r_request_type r) (r_request r')) s).
Proof.
  intros H.
  assert (L : (2 < next_ptr cut_short)%nat) by (cbn; lia).
  assert (S0 : searching 3 cut_state "www" 0 0 walk_request) by (repeat split).
  specialize (H cut_short 2%nat walk_request 3%nat cut_state "www"%string 0 0%nat
                (with_suffix "www" long_suffix) eq_refl L eq_refl eq_refl S0 eq_refl).
  revert H. unfold wp. vm_compute. intros (H & _). discriminate H.
Qed.

(** C6 at a search for "www" with ndots 2: with the suffixes
    corp.example and example.com the first attempt asks for
    www.corp.example and the attempt after it for www.example.com,
    each put on the inflight ring and sent; with the suffixes of
    [cut_short] the attempt after www.example.com is not made. *)
Lemma search_order_followed_witness :
  (value (search_request_new TYPE_A "www" 0 (user_fn 1) 1 walking) = Some 0 /\
   observe (fun s => (req_head s, sent_names (trace s)))
           (search_request_new TYPE_A "www" 0 (user_fn 1) 1 walking)
     = Some ([2%nat; 4%nat], ["www.corp.example"%string]) /\
   wp (search_request_new TYPE_A "www" 0 (user_fn 1) 1)
      (fun rc s' =>
         rc = 0 /\
         attempted 4 "www.corp.example" TYPE_A walking s' /\
         exists r', requests s' !! 4%nat = Some r' /\
           searching 3 walk_state "www" 0 0 r') walking) /\
  (value (search_try_next 2 walking) = Some 0 /\
   observe (fun s => (req_head s, sent_names (trace s))) (search_try_next 2 walking)
     = Some ([2%nat; 4%nat], ["www.example.com"%string]) /\
   wp (search_try_next 2)
      (fun rc s' =>
         rc = 0 /\
         attempted 4 "www.example.com" TYPE_A walking s' /\
         exists r', requests s' !! 4%nat = Some r' /\
           (searching 3 walk_state "www" 0 1 r' \/ closing walk_state "www" 1 r'))
      walking) /\
  (value (search_try_next 2 cut_short) = Some 1 /\
   wp (search_try_next 2)
      (fun rc s' =>
         rc = 1 /\
         not_attempted
           (<[2%nat := set_r_search_index (r_search_index walk_request + 1) walk_request]>
              (requests cut_short)) cut_short s')
      cut_short).
Proof.
  assert (N : ss_head walk_state <> []) by discriminate.
  assert (S0 : searching 3 walk_state "www" 0 0 walk_request) by (repeat split).
  assert (S1 : searching 3 cut_state "www" 0 0 walk_request) by (repeat split).
  assert (L : (2 < next_ptr walking)%nat) by (cbn; lia).
  assert (L1 : (2 < next_ptr cut_short)%nat) by (cbn; lia).
  split; [|split].
  - split; [vm_compute; reflexivity|]. split; [vm_compute; reflexivity|].
    exact (proj1 search_order_followed walking "www"%string 0 (user_fn 1) 1%nat 3%nat
             walk_state "www.corp.example"%string eq_refl eq_refl eq_refl eq_refl N
             eq_refl).
  - split; [vm_compute; reflexivity|]. split; [vm_compute; reflexivity|].
    exact (proj2 search_order_followed walking 2%nat walk_request 3%nat walk_state
             "www"%string 0 0%nat eq_refl L eq_refl eq_refl S0).
  - split; [vm_compute; reflexivity|].
    exact (proj2 search_order_followed cut_short 2%nat walk_request 3%nat cut_state
             "www"%string 0 0%nat eq_refl L1 eq_refl eq_refl S1).
Defined.


(** ** A nameserver spared *)

#[local] Instance stands_preorder ns : PreOrder (stands ns).
Proof.
  split.
  - intros s n Hn. exists n. auto.
  - intros a b c H1 H2 n Hn.
    destruct (H1 n Hn) as (n1 & Hn1 & U1).
    destruct (H2 n1 Hn1) as (n2 & Hn2 & U2).
    exists n2. auto.
Qed.

#[local] Instance spared_preorder ns : PreOrder (spared ns).
Proof.
  split.
  - intros s. exists []. split; [symmetry; apply app_nil_r | intros _; reflexivity].
  - intros a b c (e1 & T1 & H1) (e2 & T2 & H2). exists (e1 ++ e2).
    split; [rewrite T2, T1, app_assoc; reflexivity|].
    rewrite existsb_app. intros E. apply orb_false_iff in E. destruct E as (E1 & E2).
    transitivity b; auto.
Qed.

Ltac stands_step :=
  unfold stands;
  cbn [requests nameservers search_states req_head req_waiting_head server_head
       global_good_nameservers global_requests_inflight global_requests_waiting
       global_max_requests_inflight global_timeout global_max_reissues
       global_max_retransmits global_max_nameserver_timeout global_search_state
       next_ptr env_entropy env_send env_socket env_hostname trace
       set_requests set_nameservers set_search_states set_req_head
       set_req_waiting_head set_server_head set_global_good_nameservers
       set_global_requests_inflight set_global_requests_waiting set_global_timeout
       set_global_max_retransmits set_global_search_state set_next_ptr
       set_env_entropy set_env_send set_env_socket set_trace set_ring ring];
  let n0 := fresh "n" in
  let Hn0 := fresh "Hn" in
  intros n0 Hn0;
  lazymatch goal with
  | |- exists _, <[?q := _]> _ !! ?p = Some _ /\ _ =>
      lookup_cases p q;
      [ eexists; split; [reflexivity|];
        match goal with H : _ !! q = Some _ |- _ =>
          rewrite H in Hn0; injection Hn0 as <- end;
        cbn; auto
      | exists n0; split; [exact Hn0 | auto] ]
  | |- exists _, _ !! _ = Some _ /\ _ => exists n0; split; [exact Hn0 | auto]
  end.

Ltac spared_step :=
  unfold spared;
  first
    [ exists (@nil event); split;
      [ cbn [trace set_requests set_nameservers set_search_states set_req_head
             set_req_waiting_head set_server_head set_global_good_nameservers
             set_global_requests_inflight set_global_requests_waiting
             set_global_timeout set_global_max_retransmits set_global_search_state
             set_next_ptr set_env_entropy set_env_send set_env_socket set_ring];
        symmetry; apply app_nil_r
      | intros _; stands_step ]
    | eexists; split;
      [ cbn [trace set_trace]; reflexivity
      | intros _; stands_step ] ].

Ltac footprint ::=
  intros;
  lazymatch goal with
  | |- spared _ _ _ => spared_step
  | |- stands _ _ _ => stands_step
  | |- _ => footprint_core
  end.

Section Spared.

Context (ns : nat).

Lemma nameserver_pick_spared : preserves (spared ns) nameserver_pick.
Proof.
  intros s. eapply wp_mono; [apply (nameserver_pick_pres (spared ns))|].
  - footprint.
  - intros res s' (H & _). exact H.
Qed.
Hint Resolve nameserver_pick_spared : pres.

Lemma transaction_id_scan_spared l : forall started_at trans_id,
  preserves (spared ns) (transaction_id_scan l started_at trans_id).
Proof.
  induction l as [|req l IH]; intros started_at trans_id;
    cbn [transaction_id_scan]; pres.
Qed.
Hint Resolve transaction_id_scan_spared : pres.

Lemma transaction_id_pick_loop_spared entropy :
  preserves (spared ns) (transaction_id_pick_loop entropy).
Proof.
  induction entropy as [|x entropy IH]; cbn [transaction_id_pick_loop]; pres.
Qed.
Hint Resolve transaction_id_pick_loop_spared : pres.

Lemma transaction_id_pick_spared : preserves (spared ns) transaction_id_pick.
Proof. unfold transaction_id_pick. pres. Qed.
Hint Resolve transaction_id_pick_spared : pres.

Lemma malloc_spared : preserves (spared ns) malloc.
Proof. intros s. apply wp_malloc. footprint. Qed.
Hint Resolve malloc_spared : pres.

Lemma request_new_spared type name flags cb ptr :
  preserves (spared ns) (request_new type name flags cb ptr).
Proof. unfold request_new. pres. Qed.
Hint Resolve request_new_spared : pres.

Lemma nameserver_write_waiting_spared p w :
  preserves (spared ns) (nameserver_write_waiting p w).
Proof. unfold nameserver_write_waiting. pres. Qed.
Hint Resolve nameserver_write_waiting_spared : pres.

(** A datagram the socket refuses marks its nameserver failed, and
    is on the trace. *)
Lemma evdns_request_transmit_to_spared req server :
  preserves (spared ns) (evdns_request_transmit_to req server).
Proof.
  intros s. unfold evdns_request_transmit_to, send.
  apply wp_bind, wp_bind, wp_deref_ns. intros n Hn.
  apply wp_bind, wp_deref_req. intros r Hr.
  apply wp_bind, wp_get. cbv zeta.
  apply wp_bind, wp_modify. apply wp_bind, wp_emit. apply wp_ret.
  match goal with |- wp _ _ ?st => set (s1 := st) end.
  destruct (match env_send s with [] => SendFull | x :: _ => x end) eqn:E.
  all: try (apply wp_ret; subst s1; eexists; split;
            [cbn [trace set_trace set_env_send]; reflexivity
            | intros _ n0 Hn0; exists n0; split; [exact Hn0 | auto]]).
  apply wp_bind, wp_req_ns. intros r0 ns0 _ _.
  apply wp_bind. eapply wp_preserves; [apply nameserver_failed_quiet|].
  intros u s2 Q. apply wp_ret. eexists. split.
  - rewrite (quiet_trace _ _ Q). subst s1. cbn [trace set_trace set_env_send].
    reflexivity.
  - cbn. discriminate.
Qed.
Hint Resolve evdns_request_transmit_to_spared : pres.

Lemma evdns_request_transmit_spared req :
  preserves (spared ns) (evdns_request_transmit req).
Proof. unfold evdns_request_transmit. pres. Qed.
Hint Resolve evdns_request_transmit_spared : pres.

Lemma evdns_transmit_walk_spared l : forall did,
  preserves (spared ns) (evdns_transmit_walk l did).
Proof.
  induction l as [|req l IH]; intros did; cbn [evdns_transmit_walk]; pres.
Qed.
Hint Resolve evdns_transmit_walk_spared : pres.

Lemma evdns_transmit_spared : preserves (spared ns) evdns_transmit.
Proof. unfold evdns_transmit. pres. Qed.
Hint Resolve evdns_transmit_spared : pres.

Lemma request_submit_spared req : preserves (spared ns) (request_submit req).
Proof. unfold request_submit, evdns_request_insert. pres. Qed.
Hint Resolve request_submit_spared : pres.

Lemma search_make_new_spared st n base :
  preserves (spared ns) (search_make_new st n base).
Proof. unfold search_make_new. pres. Qed.
Hint Resolve search_make_new_spared : pres.

Lemma req_search_origname_spared req :
  preserves (spared ns) (req_search_origname req).
Proof. unfold req_search_origname. pres. Qed.
Hint Resolve req_search_origname_spared : pres.

Lemma search_try_next_spared req : preserves (spared ns) (search_try_next req).
Proof. unfold search_try_next. pres. Qed.
Hint Resolve search_try_next_spared : pres.

Lemma nameserver_up_spared p : preserves (spared ns) (nameserver_up p).
Proof. unfold nameserver_up. pres. Qed.
Hint Resolve nameserver_up_spared : pres.

Lemma nameserver_probe_failed_spared p :
  preserves (spared ns) (nameserver_probe_failed p).
Proof. unfold nameserver_probe_failed. pres. Qed.
Hint Resolve nameserver_probe_failed_spared : pres.

Lemma reply_callback_spared req ttl err reply :
  preserves (spared ns) (reply_callback req ttl err reply).
Proof.
  unfold reply_callback, invoke_callback, nameserver_probe_callback. pres.
Qed.
Hint Resolve reply_callback_spared : pres.

Lemma search_request_finished_spared req :
  preserves (spared ns) (search_request_finished req).
Proof. unfold search_request_finished, search_state_decref. pres. Qed.
Hint Resolve search_request_finished_spared : pres.

Lemma pump_loop_spared fuel : forall s,
  (List.length (req_waiting_head s) < fuel)%nat ->
  wp (pump_loop fuel) (fun _ s' => spared ns s s') s.
Proof.
  induction fuel as [|fuel IH]; intros s Hfuel; [lia|].
  cbn [pump_loop]. apply wp_bind, wp_get.
  destruct ((global_requests_inflight s <? global_max_requests_inflight s)
            && negb (global_requests_waiting s =? 0)) eqn:C;
    [|apply wp_ret; reflexivity].
  destruct (req_waiting_head s) as [|req rest] eqn:W; [apply wp_crash|].
  apply wp_bind, wp_modify. apply wp_bind, wp_modify. apply wp_bind, wp_modify.
  cbn [set_req_waiting_head global_requests_waiting global_requests_inflight
       set_global_requests_waiting].
  match goal with |- wp _ _ ?st => set (s1 := st) end.
  assert (P1 : spared ns s s1) by (subst s1; footprint).
  assert (W1 : req_waiting_head s1 = rest) by reflexivity.
  apply wp_bind.
  eapply wp_mono;
    [apply wp_conj; [apply nameserver_pick_transport | apply nameserver_pick_spared]|].
  intros p s2 (T2 & P2). cbv beta.
  apply wp_bind, wp_update_req. intros r2 Hr2.
  match goal with |- wp _ _ ?st => set (s3 := st) end.
  assert (P3 : spared ns s2 s3) by (subst s3; footprint).
  apply wp_bind.
  eapply wp_mono;
    [apply wp_conj; [apply transaction_id_pick_transport
                    | apply transaction_id_pick_spared]|].
  intros trans_id s4 (T4 & P4). cbv beta.
  apply wp_bind. unfold request_trans_id_set. apply wp_update_req. intros r4 Hr4.
  match goal with |- wp _ _ ?st => set (s5 := st) end.
  assert (P5 : spared ns s4 s5) by (subst s5; footprint).
  apply wp_bind, wp_modify. cbn [set_ring ring].
  match goal with |- wp _ _ ?st => set (s6 := st) end.
  assert (P6 : spared ns s5 s6) by (subst s6; footprint).
  apply wp_bind.
  eapply wp_mono;
    [apply wp_conj; [apply evdns_request_transmit_transport
                    | apply evdns_request_transmit_spared]|].
  intros rc s7 (T7 & P7). cbv beta.
  apply wp_bind.
  eapply wp_mono;
    [apply wp_conj; [apply evdns_transmit_transport | apply evdns_transmit_spared]|].
  intros did s8 (T8 & P8). cbv beta.
  assert (W8 : req_waiting_head s8 = rest).
  { rewrite (transport_req_waiting_head _ _ T8), (transport_req_waiting_head _ _ T7).
    subst s6 s5. cbn. rewrite (transport_req_waiting_head _ _ T4). subst s3. cbn.
    rewrite (transport_req_waiting_head _ _ T2). exact W1. }
  eapply wp_mono.
  - apply IH. rewrite W8. simpl in Hfuel. lia.
  - intros u s9 P9. cbv beta.
    transitivity s1; [exact P1|]. transitivity s2; [exact P2|].
    transitivity s3; [exact P3|]. transitivity s4; [exact P4|].
    transitivity s5; [exact P5|]. transitivity s6; [exact P6|].
    transitivity s7; [exact P7|]. transitivity s8; [exact P8 | exact P9].
Qed.

Lemma evdns_requests_pump_waiting_queue_spared :
  preserves (spared ns) evdns_requests_pump_waiting_queue.
Proof.
  intros s. unfold evdns_requests_pump_waiting_queue.
  apply wp_bind, wp_get. apply pump_loop_spared. lia.
Qed.
Hint Resolve evdns_requests_pump_waiting_queue_spared : pres.

Lemma request_finished_spared req head :
  preserves (spared ns) (request_finished req head).
Proof. unfold request_finished. destruct head; pres. Qed.
Hint Resolve request_finished_spared : pres.

Lemma reply_handle_fail_spared req error :
  preserves (spared ns) (reply_handle_fail req error).
Proof. unfold reply_handle_fail. pres. Qed.

End Spared.


(** ** Server errors *)

Lemma set_requests_same s req r :
  requests s !! req = Some r ->
  set_requests (<[req := r]> (requests s)) s = s.
Proof.
  intros H. rewrite (insert_id _ _ _ H). destruct s. reflexivity.
Qed.

Lemma set_r_ns_same r : set_r_ns (r_ns r) r = r.
Proof. destruct r. reflexivity. Qed.

(** The tail of the error branch, tied to what [search_try_next]
    returns. *)
Lemma reply_handle_fail_passed req error r s :
  requests s !! req = Some r ->
  error <> DNS_ERR_NONE -> error <> DNS_ERR_NOTEXIST ->
  wp (reply_handle_fail req error) (fun _ s' => passed_on req r error s s') s.
Proof.
  intros Hr N1 N2. unfold reply_handle_fail.
  apply wp_bind, wp_deref_req. intros r0 Hr0. assert (r0 = r) as -> by congruence.
  unfold passed_on.
  destruct (bool_decide (r_search_state r <> None)
            && negb (r_request_type r =? TYPE_PTR)) eqn:C.
  - apply wp_bind.
    pose proof (search_try_next_steady req s) as W1.
    pose proof (search_try_next_caller req r s Hr) as W2.
    unfold wp in W1, W2 |- * at 1.
    destruct (search_try_next req s) as [next s1| |] eqn:Run;
      [|exact I | contradiction].
    destruct (next =? 0) eqn:E.
    + eapply wp_mono; [apply request_finished_spec|].
      intros u s2 (S2 & G2). cbv beta. split; [exact G2|].
      exists next. split; [reflexivity|]. rewrite E, app_nil_r.
      destruct S2 as (_ & -> & _). destruct W1 as (_ & -> & _). reflexivity.
    + apply Z.eqb_neq in E. destruct W2 as [->|(r' & Hr' & C1 & C2 & C3)]; [lia|].
      apply wp_bind.
      eapply wp_mono;
        [eapply reply_callback_error_spec; [exact N1 | exact N2 | exact Hr']|].
      intros u s2 (S2 & Cb2). cbv beta.
      eapply wp_mono; [apply request_finished_spec|].
      intros u' s3 (S3 & G3). cbv beta. split; [exact G3|].
      exists next. split; [reflexivity|].
      destruct (next =? 0) eqn:E'; [apply Z.eqb_eq in E'; lia|].
      destruct S3 as (_ & -> & _). rewrite Cb2, C1, C2.
      destruct W1 as (_ & -> & _). reflexivity.
  - apply wp_bind, wp_ret. cbn [Z.eqb].
    apply wp_bind.
    eapply wp_mono;
      [eapply reply_callback_error_spec; [exact N1 | exact N2 | exact Hr]|].
    intros u s2 (S2 & Cb2). cbv beta.
    eapply wp_mono; [apply request_finished_spec|].
    intros u' s3 (S3 & G3). cbv beta. split; [exact G3|].
    exists 1. split; [reflexivity|]. cbn [Z.eqb].
    destruct S3 as (_ & -> & _). exact Cb2.
Qed.

Lemma passed_on_from req r r3 error s s' :
  r_user_callback r3 = r_user_callback r ->
  r_user_pointer r3 = r_user_pointer r ->
  r_search_state r3 = r_search_state r ->
  r_request_type r3 = r_request_type r ->
  passed_on req r3 error s s' -> passed_on req r error s s'.
Proof.
  intros E1 E2 E3 E4 (G & H). split; [exact G|].
  rewrite E1, E2, E3, E4 in H. exact H.
Qed.

(** C7, as the code has it.  A reply that stands for SERVERFAILED,
    NOTIMPL or REFUSED, for a request whose reissue count is below
    the maximum, marks the request's nameserver failed
    ([nameserver_failed], which leaves a request that has been
    transmitted on its nameserver); the request then gets the server
    that [nameserver_pick] returns.  If that is a different server
    the request is reissued (transmit count 0, [transmit_me] set,
    reissue count up by one, nothing sent, no callback); if it is the
    same server the reissue is abandoned and the error is passed on:
    the request is finished, and its callback is invoked with the
    error unless the request carries a search and [search_try_next]
    returns 0, having moved the search on.  When the reissue count
    has reached the maximum the error is passed on directly, and the
    nameserver, if it was up, is still up afterwards unless the
    socket refused a datagram sent meanwhile. *)
Theorem reply_handle_server_error s req r ns n flags ttl reply :
  requests s !! req = Some r ->
  r_ns r = Some ns ->
  nameservers s !! ns = Some n ->
  marks_bad_nameserver (reply_error flags) = true ->
  wp (reply_handle req flags ttl reply)
     (fun _ s' =>
        if r_reissue_count r <? global_max_reissues s
        then
          (exists n', nameservers s' !! ns = Some n' /\ ns_state n' = false) /\
          exists s1 r1 picked s2,
            nameserver_failed ns s = Ok tt s1 /\
            requests s1 !! req = Some r1 /\
            (r_tx_count r <> 0 -> r_ns r1 = Some ns) /\
            nameserver_pick s1 = Ok picked s2 /\
            if bool_decide (picked = r_ns r1)
            then passed_on req r (reply_error flags) s2 s'
            else reissued req r picked s s'
        else
          passed_on req r (reply_error flags) s s' /\ spared ns s s')
     s.
Proof.
  intros Hr Hns Hn Hbad.
  destruct (bad_error_is_error _ Hbad) as (N1 & N2).
  unfold reply_handle. cbv zeta.
  rewrite (bad_error_flags _ Hbad). cbn [orb]. rewrite Hbad.
  apply wp_bind, wp_deref_req. intros r0 Hr0. assert (r0 = r) as -> by congruence.
  apply wp_bind, wp_get.
  destruct (r_reissue_count r <? global_max_reissues s).
  2:{ apply wp_conj;
        [apply (reply_handle_fail_passed req _ r s Hr N1 N2)
        | apply reply_handle_fail_spared]. }
  apply wp_bind, wp_req_ns. intros r0 ns0 Hr0' Hns0.
  assert (r0 = r) as -> by congruence. assert (ns0 = ns) as -> by congruence.
  apply wp_bind.
  pose proof (wp_conj _ _ _ _
                (wp_conj _ _ _ _ (nameserver_failed_quiet ns s)
                   (nameserver_failed_down ns s))
                (nameserver_failed_sent_kept ns s)) as W.
  unfold wp in W |- * at 1.
  destruct (nameserver_failed ns s) as [[] s1| |] eqn:RunF; [|exact I | contradiction].
  destruct W as ((Q1 & n1 & Hn1 & D1) & K1).
  destruct (quiet_request _ _ _ _ Q1 Hr) as (r1 & Hr1 & SR1 & SS1).
  apply wp_bind. unfold request_reissue.
  apply wp_bind, wp_deref_req. intros r0 Hr0''. assert (r0 = r1) as -> by congruence.
  cbv zeta. apply wp_bind.
  pose proof (wp_conj _ _ _ _ (nameserver_pick_quiet s1)
                (nameserver_pick_same_heap s1)) as W.
  unfold wp in W |- * at 1.
  destruct (nameserver_pick s1) as [picked s2| |] eqn:RunP; [|exact I | contradiction].
  destruct W as (Q2 & _ & E2).
  assert (Hr2 : requests s2 !! req = Some r1) by (rewrite E2; exact Hr1).
  apply wp_bind. eapply wp_update_req_known; [exact Hr2|].
  assert (Hdown : forall s', settled s2 s' ->
            exists n', nameservers s' !! ns = Some n' /\ ns_state n' = false).
  { intros s' S'.
    destruct (settled_down _ _ _ _ (quiet_settled _ _ Q2) Hn1 D1) as (n2 & Hn2 & D2 & _).
    destruct (settled_down _ _ _ _ S' Hn2 D2) as (n' & Hn' & D' & _). eauto. }
  assert (Hlast : r_tx_count r <> 0 -> r_ns r1 = Some ns).
  { intros Ht. destruct (K1 req r Hr Ht) as (r1' & Hr1' & E & _).
    assert (r1' = r1) as -> by congruence. congruence. }
  assert (T2 : trace s2 = trace s).
  { rewrite (quiet_trace _ _ Q2). apply quiet_trace, Q1. }
  destruct SR1 as (_ & _ & R3 & R4 & R5 & R6 & _ & R8 & _).
  destruct (bool_decide (picked = r_ns r1)) eqn:D.
  - (* pick returned the server the request already had *)
    apply wp_ret. cbn [Z.eqb].
    apply bool_decide_eq_true in D. subst picked.
    rewrite set_r_ns_same, (set_requests_same _ _ _ Hr2).
    eapply wp_mono;
      [apply wp_conj;
         [apply (reply_handle_fail_spec req _ r1 s2 Hr2 N1 N2)
         | apply (reply_handle_fail_passed req _ r1 s2 Hr2 N1 N2)]|].
    intros u' s' ((S' & _) & P'). cbv beta. split.
    + apply Hdown. exact S'.
    + exists s1, r1, (r_ns r1), s2. split; [reflexivity|]. split; [exact Hr1|].
      split; [exact Hlast|]. split; [exact RunP|].
      rewrite bool_decide_eq_true_2 by reflexivity.
      eapply passed_on_from; [| | | | exact P']; assumption.
  - (* reissued to another server *)
    apply wp_bind. eapply wp_update_req_known; [simpl_state; apply lookup_insert_eq|].
    simpl_state. rewrite insert_insert_eq.
    apply wp_bind. eapply wp_update_req_known; [simpl_state; apply lookup_insert_eq|].
    simpl_state. rewrite insert_insert_eq.
    apply wp_bind. eapply wp_update_req_known; [simpl_state; apply lookup_insert_eq|].
    simpl_state. rewrite insert_insert_eq.
    apply wp_ret. cbn [Z.eqb]. apply wp_ret. split.
    + apply Hdown. footprint.
    + exists s1, r1, picked, s2. split; [reflexivity|]. split; [exact Hr1|].
      split; [exact Hlast|]. split; [exact RunP|]. rewrite D.
      split; [exact T2|]. split.
      * simpl_state. rewrite (transport_req_head _ _ (quiet_transport _ _ Q2)).
        apply transport_req_head, quiet_transport, Q1.
      * eexists. split; [simpl_state; apply lookup_insert_eq|].
        cbn. rewrite R3. auto.
Qed.


(** C7 at three replies with ServFail.  For the one request of a
    resolver with one nameserver, the nameserver is marked failed,
    the pick returns it again and SERVERFAILED reaches the callback.
    With two nameservers up, the first is marked failed and the
    request is reissued to the second, with no callback.  For a
    request that has been reissued once already, with max_reissues 1,
    the nameserver stays up and SERVERFAILED reaches the callback. *)
Lemma reply_handle_server_error_witness :
  (value (reply_handle 2 servfail_flags 0 None (lone 0 1)) = Some tt /\
   observe (fun s => (server_states s, callback_results (trace s), req_head s))
           (reply_handle 2 servfail_flags 0 None (lone 0 1))
     = Some ([Some false], [(user_fn 1, DNS_ERR_SERVERFAILED)], []) /\
   wp (reply_handle 2 servfail_flags 0 None)
      (fun _ s' =>
         (exists n', nameservers s' !! 1%nat = Some n' /\ ns_state n' = false) /\
         exists s1 r1 picked s2,
           nameserver_failed 1 (lone 0 1) = Ok tt s1 /\
           requests s1 !! 2%nat = Some r1 /\
           (r_tx_count (lone_request 1) <> 0 -> r_ns r1 = Some 1%nat) /\
           nameserver_pick s1 = Ok picked s2 /\
           if bool_decide (picked = r_ns r1)
           then passed_on 2 (lone_request 1) DNS_ERR_SERVERFAILED s2 s'
           else reissued 2 (lone_request 1) picked (lone 0 1) s')
      (lone 0 1)) /\
  (requests two_up_state !! 3%nat = Some two_up_request /\
   value (reply_handle 3 servfail_flags 0 None two_up_state) = Some tt /\
   observe (fun s => (server_states s, callback_results (trace s),
                      ring_nameservers Inflight s))
           (reply_handle 3 servfail_flags 0 None two_up_state)
     = Some ([Some false; Some true], [], [Some (Some 2%nat)]) /\
   wp (reply_handle 3 servfail_flags 0 None)
      (fun _ s' =>
         (exists n', nameservers s' !! 1%nat = Some n' /\ ns_state n' = false) /\
         exists s1 r1 picked s2,
           nameserver_failed 1 two_up_state = Ok tt s1 /\
           requests s1 !! 3%nat = Some r1 /\
           (r_tx_count two_up_request <> 0 -> r_ns r1 = Some 1%nat) /\
           nameserver_pick s1 = Ok picked s2 /\
           if bool_decide (picked = r_ns r1)
           then passed_on 3 two_up_request DNS_ERR_SERVERFAILED s2 s'
           else reissued 3 two_up_request picked two_up_state s')
      two_up_state) /\
  (requests reissued_state !! 3%nat = Some reissued_request /\
   value (reply_handle 3 servfail_flags 0 None reissued_state) = Some tt /\
   observe (fun s => (server_states s, callback_results (trace s), req_head s))
           (reply_handle 3 servfail_flags 0 None reissued_state)
     = Some ([Some false; Some true], [(user_fn 1, DNS_ERR_SERVERFAILED)], []) /\
   wp (reply_handle 3 servfail_flags 0 None)
      (fun _ s' =>
         passed_on 3 reissued_request DNS_ERR_SERVERFAILED reissued_state s' /\
         spared 2 reissued_state s')
      reissued_state).
Proof.
  split; [|split].
  - split; [vm_compute; reflexivity|]. split; [vm_compute; reflexivity|].
    exact (reply_handle_server_error (lone 0 1) 2%nat (lone_request 1) 1%nat
             (lone_nameserver 0) servfail_flags 0 None eq_refl eq_refl eq_refl eq_refl).
  - assert (Hr : requests two_up_state !! 3%nat = Some two_up_request)
      by (vm_compute; reflexivity).
    eassert (Hn : nameservers two_up_state !! 1%nat = Some _)
      by (vm_compute; reflexivity).
    split; [exact Hr|]. split; [vm_compute; reflexivity|].
    split; [vm_compute; reflexivity|].
    exact (reply_handle_server_error two_up_state 3%nat two_up_request 1%nat _
             servfail_flags 0 None Hr eq_refl Hn eq_refl).
  - assert (Hr : requests reissued_state !! 3%nat = Some reissued_request)
      by (vm_compute; reflexivity).
    eassert (Hn : nameservers reissued_state !! 2%nat = Some _)
      by (vm_compute; reflexivity).
    split; [exact Hr|]. split; [vm_compute; reflexivity|].
    split; [vm_compute; reflexivity|].
    exact (reply_handle_server_error reissued_state 3%nat reissued_request 2%nat _
             servfail_flags 0 None Hr eq_refl Hn eq_refl).
Defined.


(** ** Probes *)

(** A probe goes onto the inflight ring whatever the counter says. *)
Lemma nameserver_send_probe_forced ns n s :
  nameservers s !! ns = Some n ->
  wp (nameserver_send_probe ns) (fun _ s' => probe_forced ns n s s') s.
Proof.
  intros Hn. unfold nameserver_send_probe. apply wp_bind.
  eapply wp_mono; [apply request_new_made|].
  intros res s1. cbv beta.
  assert (E : encodes "www.google.com" = true) by (vm_compute; reflexivity).
  rewrite E.
  intros (-> & U1 & s3 & packet & trans_id & ns0 & Q3 & B & T & ->).
  apply wp_bind.
  eapply wp_mono;
    [apply wp_conj; [apply transaction_id_pick_quiet | apply transaction_id_pick_unsent]|].
  intros id s4 (Q4 & U4). cbv beta.
  match type of Q4 with quiet ?st _ => set (s1 := st) in * end.
  assert (Hr1 : requests s1 !! next_ptr s =
                Some (new_request packet TYPE_A ns probe_fn ns0 trans_id))
    by (subst s1; simpl_state; apply lookup_insert_eq).
  destruct (quiet_request _ _ _ _ Q4 Hr1) as (r4 & Hr4 & SR4 & SS4).
  apply wp_bind. unfold request_trans_id_set.
  eapply wp_update_req_known; [exact Hr4|].
  apply wp_bind. eapply wp_update_req_known; [simpl_state; apply lookup_insert_eq|].
  simpl_state. rewrite insert_insert_eq.
  match goal with |- wp _ _ ?st => set (s6 := st) end.
  match goal with _ := set_requests (<[_ := ?rec]> _) _ |- _ => set (r6 := rec) in * end.
  assert (Hr6 : requests s6 !! next_ptr s = Some r6)
    by (subst s6; simpl_state; apply lookup_insert_eq).
  eapply wp_mono;
    [apply wp_conj;
       [apply wp_conj; [apply (request_submit_keeps _ r6 s6 Hr6)
                       | apply (request_submit_effect _ r6 s6 Hr6)]
       | apply request_submit_steady]|].
  intros u s' (((r' & Hr' & SR) & H) & ((S5 & _) & _)). cbv beta.
  change (r_ns r6) with (Some ns) in H.
  destruct H as (H1 & H2 & H3 & H4 & n6 & rc & Hn6 & X).
  destruct Q3 as ((A1 & A2 & A3 & A4 & (A5 & _) & _) & _).
  destruct Q4 as ((B1 & B2 & B3 & B4 & (B5 & _) & _) & B6 & _).
  destruct U1 as (U1a & U1b & U1c). destruct U4 as (U4a & U4b & U4c).
  subst s1 s6. simpl_state.
  destruct SR as (E1 & _ & _ & _ & E5 & E6 & _).
  destruct SR4 as (_ & _ & _ & _ & F5 & F6 & _).
  destruct SS4 as (G1 & _ & G3).
  cbn in E5, E6, F5, F6, G1, G3.
  split; [congruence|]. split; [congruence|]. split; [lia|]. split; [congruence|].
  split; [congruence|].
  exists r', rc. split; [exact Hr'|]. split; [congruence|]. split; [congruence|].
  specialize (U1c ns). specialize (U4c ns). simpl_state.
  rewrite Hn in U1c. rewrite Hn6 in U4c.
  destruct (nameservers s3 !! ns) as [n3|]; [|destruct U1c].
  destruct U1c as (C1 & _). destruct U4c as (C4 & _).
  unfold send_answer in *. simpl_state.
  rewrite E1.
  change (r_tx_count r6) with (r_tx_count r4) in X.
  change (r_timeout_event r6) with (r_timeout_event r4) in X.
  rewrite G1, G3 in X. rewrite C4, C1 in X. rewrite U4a in X. rewrite U1a in X.
  rewrite U4b in X. rewrite U1b in X. exact X.
Qed.




